(** * n6lib.manage_api._ca_env: OpenSSL-based CA operations

    A shallow embedding of [N6Lib/n6lib/manage_api/_ca_env.py] (Python 2.7)
    and the properties its specification states about it.

    Python [str] values are byte strings and are embedded as [string];
    exceptions are values of [exn]; a call that may raise returns a
    [result]; code that touches the filesystem is a state transformer over
    [fs] that keeps the filesystem it reached when it raises. *)

From Stdlib Require Import ZArith Lia Ascii String List Bool DecimalString.
From stdpp Require Import base option gmap strings list fin_maps.

Local Open Scope string_scope.
Local Open Scope Z_scope.

(** ** Python values, exceptions and results *)

Module Py.

(** [datetime.datetime]: the wall-clock fields and the UTC offset of the
    attached [tzinfo] in minutes ([None] for a naive value). *)
Record datetime := mk_datetime {
  year : Z; month : Z; day : Z;
  hour : Z; minute : Z; second : Z; microsecond : Z;
  tzinfo : option Z
}.

(** The objects that reach the functions of this module. [PyStr] is a
    Python 2 byte string, [PyUnicode] a list of code points, [PyConfig] a
    [ConfigString] (a [str] subclass, kept as its list of lines),
    [PyPkcs11] the dictionary of the three PKCS#11 options. *)
Inductive pyobj :=
| PyNone
| PyBool (b : bool)
| PyInt (z : Z)
| PyStr (s : string)
| PyUnicode (u : list N)
| PyDate (y m d : Z)
| PyDatetime (dt : datetime)
| PyConfig (lines : list string)
| PyPkcs11 (pkcs11_dynamic_path pkcs11_module_path : string)
           (pkcs11_additional_openssl_cmd_arg_list : list string).

(** The error numbers of the operating system that occur here. *)
Inductive errno := EEXIST | ENOENT | ENOTDIR | EISDIR.

(** The exception classes that can leave this module. Messages are kept
    where a property depends on them. *)
Inductive exn :=
| TypeError (msg : string)
| ValueError (msg : string)
| UnicodeEncodeError
| OverflowError
| KeyError (key : string)
| IndexError
| AttributeError (name : string)
| AssertionError
| IOError (code : errno) (path : string)
| OSError (code : errno) (path : string)
| CalledProcessError (returncode : Z) (cmd : list string) (output : string)
| RuntimeError (msg : string)
| InvalidSSLConfigError (msg : string) (original_exc : exn).

(** [isinstance(e, ValueError)]: [UnicodeEncodeError] derives from
    [UnicodeError], which derives from [ValueError]. *)
Definition is_ValueError (e : exn) : bool :=
  match e with
  | ValueError _ | UnicodeEncodeError => true
  | _ => false
  end.

Inductive result (A : Type) :=
| Ok (a : A)
| Raise (e : exn).
Arguments Ok {A} a.
Arguments Raise {A} e.

#[global] Instance result_ret : MRet result := fun _ a => Ok a.
#[global] Instance result_bind : MBind result := fun _ _ f m =>
  match m with
  | Ok a => f a
  | Raise e => Raise e
  end.
#[global] Instance result_fmap : FMap result := fun _ _ f m =>
  match m with
  | Ok a => Ok (f a)
  | Raise e => Raise e
  end.

End Py.
Import Py.

(** ** Byte-string primitives of the Python runtime *)

Module Str.

Definition code (c : ascii) : N := N_of_ascii c.

Definition is_lower (c : ascii) : bool := ((97 <=? code c) && (code c <=? 122))%N.
Definition is_upper (c : ascii) : bool := ((65 <=? code c) && (code c <=? 90))%N.

Definition upper_char (c : ascii) : ascii :=
  if is_lower c then ascii_of_N (code c - 32) else c.
Definition lower_char (c : ascii) : ascii :=
  if is_upper c then ascii_of_N (code c + 32) else c.

Fixpoint smap (f : ascii -> ascii) (s : string) : string :=
  match s with
  | EmptyString => EmptyString
  | String c r => String (f c) (smap f r)
  end.

(** [s.upper()] and [s.lower()] on a byte string (ASCII letters only). *)
Definition upper : string -> string := smap upper_char.
Definition lower : string -> string := smap lower_char.

Fixpoint forallb_s (p : ascii -> bool) (s : string) : bool :=
  match s with
  | EmptyString => true
  | String c r => p c && forallb_s p r
  end.

Fixpoint existsb_s (p : ascii -> bool) (s : string) : bool :=
  match s with
  | EmptyString => false
  | String c r => p c || existsb_s p r
  end.

(** [s.startswith(p)] *)
Fixpoint startswith (p s : string) : bool :=
  match p with
  | EmptyString => true
  | String a p' =>
      match s with
      | String b s' => Ascii.eqb a b && startswith p' s'
      | EmptyString => false
      end
  end.

(** [str(u)] for a [unicode] object: the ASCII codec. *)
Fixpoint encode_ascii (u : list N) : result string :=
  match u with
  | [] => Ok EmptyString
  | cp :: r =>
      if (cp <? 128)%N
      then match encode_ascii r with
           | Ok s => Ok (String (ascii_of_N cp) s)
           | Raise e => Raise e
           end
      else Raise UnicodeEncodeError
  end.

(** [sep.join(parts)] *)
Fixpoint join (sep : string) (parts : list string) : string :=
  match parts with
  | [] => ""
  | [p] => p
  | p :: r => p ++ sep ++ join sep r
  end.

(** [''.join(parts)] *)
Definition concat_all (parts : list string) : string := String.concat "" parts.

Definition TAB : string := String (ascii_of_nat 9) EmptyString.
Definition NL : string := String (ascii_of_nat 10) EmptyString.

(** [isinstance(v, str)]: the bytes of a byte string; a [ConfigString] is
    one, the text of its lines. *)
Definition as_str (v : pyobj) : option string :=
  match v with
  | PyStr s => Some s
  | PyConfig lines => Some (join NL lines)
  | _ => None
  end.

Definition QUOTE : ascii := ascii_of_nat 39.
Definition DQUOTE : ascii := ascii_of_nat 34.
Definition BACKSLASH : ascii := ascii_of_nat 92.

Definition hexdigit (n : N) : ascii :=
  if (n <? 10)%N then ascii_of_N (48 + n) else ascii_of_N (87 + n).

(** [repr(s)] of a byte string (Python 2.7). *)
Definition repr_char (quote c : ascii) : string :=
  let n := code c in
  if Ascii.eqb c quote || Ascii.eqb c BACKSLASH then String BACKSLASH (String c "")
  else if (n =? 9)%N then String BACKSLASH "t"
  else if (n =? 10)%N then String BACKSLASH "n"
  else if (n =? 13)%N then String BACKSLASH "r"
  else if (n <? 32)%N || (127 <=? n)%N
       then String BACKSLASH (String "x" (String (hexdigit (n / 16)) (String (hexdigit (n mod 16)) "")))
       else String c "".

Fixpoint repr_body (quote : ascii) (s : string) : string :=
  match s with
  | EmptyString => EmptyString
  | String c r => repr_char quote c ++ repr_body quote r
  end.

Definition repr (s : string) : string :=
  let quote :=
    if existsb_s (Ascii.eqb QUOTE) s && negb (existsb_s (Ascii.eqb DQUOTE) s)
    then DQUOTE else QUOTE in
  String quote (repr_body quote s) ++ String quote "".

(** [str(z)] of an integer *)
Definition str_int (z : Z) : string := NilZero.string_of_int (Z.to_int z).

End Str.

(** ** Collaborators outside this module

    Functions of the package that this module imports and whose code is not
    part of it, and the services of the operating system, taken as
    interfaces. *)

(** [n6lib.auth_db.validators.is_cert_serial_number_valid] *)
Class SerialValidator := {
  is_cert_serial_number_valid : string -> bool
}.

(** [datetime.datetime.utcnow()]: the [n]-th reading of the system clock,
    a naive datetime. *)
Class Clock := {
  utcnow : nat -> datetime;
  utcnow_naive : forall n, tzinfo (utcnow n) = None
}.

(** ** The calendar of [datetime] *)

Module Calendar.

Definition is_leap (y : Z) : bool :=
  (y mod 4 =? 0) && (negb (y mod 100 =? 0) || (y mod 400 =? 0)).

Definition days_in_month (y m : Z) : Z :=
  if m =? 2 then (if is_leap y then 29 else 28)
  else if (m =? 4) || (m =? 6) || (m =? 9) || (m =? 11) then 30
  else 31.

Definition MINYEAR : Z := 1.
Definition MAXYEAR : Z := 9999.

(** The invariant of a constructed [datetime] object. *)
Definition valid_datetime (dt : datetime) : bool :=
  (MINYEAR <=? year dt) && (year dt <=? MAXYEAR) &&
  (1 <=? month dt) && (month dt <=? 12) &&
  (1 <=? day dt) && (day dt <=? days_in_month (year dt) (month dt)) &&
  (0 <=? hour dt) && (hour dt <? 24) &&
  (0 <=? minute dt) && (minute dt <? 60) &&
  (0 <=? second dt) && (second dt <? 60) &&
  (0 <=? microsecond dt) && (microsecond dt <? 1000000) &&
  match tzinfo dt with
  | None => true
  | Some off => (-1440 <? off) && (off <? 1440)
  end.

(** [date.toordinal()]: day 1 is 0001-01-01. *)
Definition days_before_year (y : Z) : Z :=
  (y - 1) * 365 + (y - 1) / 4 - (y - 1) / 100 + (y - 1) / 400.

Definition days_before_month (y m : Z) : Z :=
  (if m =? 1 then 0 else if m =? 2 then 31 else if m =? 3 then 59
   else if m =? 4 then 90 else if m =? 5 then 120 else if m =? 6 then 151
   else if m =? 7 then 181 else if m =? 8 then 212 else if m =? 9 then 243
   else if m =? 10 then 273 else if m =? 11 then 304 else 334)
  + (if (2 <? m) && is_leap y then 1 else 0).

Definition toordinal (y m d : Z) : Z :=
  days_before_year y + days_before_month y m + d.

(** The absolute instant of a datetime in seconds (a naive value counts as
    UTC), and its sub-second part. *)
Definition instant (dt : datetime) : Z :=
  toordinal (year dt) (month dt) (day dt) * 86400
  + hour dt * 3600 + minute dt * 60 + second dt
  - 60 * (match tzinfo dt with Some off => off | None => 0 end).

(** The instants [_format_openssl_dt] can format: from 1900-01-01T00:00:00Z
    to 9999-12-31T23:59:59Z. *)
Definition in_strftime_range (dt : datetime) : bool :=
  (toordinal 1900 1 1 * 86400 <=? instant dt)
  && (instant dt <? (toordinal 9999 12 31 + 1) * 86400).

Definition year_length (y : Z) : Z := if is_leap y then 366 else 365.

(** The seconds of a datetime, its UTC offset left aside. *)
Definition wall_seconds (dt : datetime) : Z :=
  toordinal (year dt) (month dt) (day dt) * 86400
  + hour dt * 3600 + minute dt * 60 + second dt.

(** The invariant of a [datetime] object, spelled out. *)
Record wf_datetime (dt : datetime) : Prop := mk_wf {
  wf_year : 1 <= year dt <= 9999;
  wf_month : 1 <= month dt <= 12;
  wf_day : 1 <= day dt <= days_in_month (year dt) (month dt);
  wf_hour : 0 <= hour dt < 24;
  wf_minute : 0 <= minute dt < 60;
  wf_second : 0 <= second dt < 60;
  wf_microsecond : 0 <= microsecond dt < 1000000;
  wf_tzinfo : forall off, tzinfo dt = Some off -> -1440 < off < 1440
}.

Definition with_date (dt : datetime) (y m d : Z) : datetime :=
  mk_datetime y m d (hour dt) (minute dt) (second dt) (microsecond dt) (tzinfo dt).

Definition prev_day (dt : datetime) : result datetime :=
  if 1 <? day dt then Ok (with_date dt (year dt) (month dt) (day dt - 1))
  else if 1 <? month dt
       then Ok (with_date dt (year dt) (month dt - 1)
                          (days_in_month (year dt) (month dt - 1)))
       else if MINYEAR <? year dt
            then Ok (with_date dt (year dt - 1) 12 31)
            else Raise OverflowError.

Definition next_day (dt : datetime) : result datetime :=
  if day dt <? days_in_month (year dt) (month dt)
  then Ok (with_date dt (year dt) (month dt) (day dt + 1))
  else if month dt <? 12
       then Ok (with_date dt (year dt) (month dt + 1) 1)
       else if year dt <? MAXYEAR
            then Ok (with_date dt (year dt + 1) 1 1)
            else Raise OverflowError.

(** [dt.replace(tzinfo=None) - timedelta(minutes=off)] for an offset of
    less than a day: the minutes are taken off the time of day and the date
    moves by at most one day; a date outside [MINYEAR..MAXYEAR] is an
    [OverflowError]. *)
Definition minus_offset (dt : datetime) (off : Z) : result datetime :=
  let total := hour dt * 60 + minute dt - off in
  let rem := total mod 1440 in
  let moved := mk_datetime (year dt) (month dt) (day dt)
                           (rem / 60) (rem mod 60)
                           (second dt) (microsecond dt) None in
  if total <? 0 then prev_day moved
  else if total <? 1440 then Ok moved
  else next_day moved.

(** [a > b] on naive datetimes: the fields compared in order. *)
Fixpoint lex_gtb (a b : list Z) : bool :=
  match a, b with
  | x :: a', y :: b' => (y <? x) || ((x =? y) && lex_gtb a' b')
  | _, _ => false
  end.

Definition fields (dt : datetime) : list Z :=
  [year dt; month dt; day dt; hour dt; minute dt; second dt; microsecond dt].

(** [a > b]: comparing a naive with an aware datetime is a [TypeError];
    two aware values are compared as instants. *)
Definition datetime_gt (a b : datetime) : result bool :=
  match tzinfo a, tzinfo b with
  | None, None => Ok (lex_gtb (fields a) (fields b))
  | Some _, Some _ =>
      Ok ((instant b <? instant a)
          || ((instant a =? instant b) && (microsecond b <? microsecond a)))
  | _, _ => Raise (TypeError "can't compare offset-naive and offset-aware datetimes")
  end.

Definition digit (d : Z) : ascii := ascii_of_N (48 + Z.to_N d).

(** ["%02d" % n] for [0 <= n < 100] *)
Definition pad2 (n : Z) : string :=
  String (digit (n / 10)) (String (digit (n mod 10)) EmptyString).

(** [dt.strftime("%y%m%d%H%M%SZ")]. In Python 2.7 the [strftime] methods
    refuse a year before 1900 with a [ValueError]. *)
Definition strftime_yymmddHHMMSSZ (dt : datetime) : result string :=
  if year dt <? 1900
  then Raise (ValueError ("year=" ++ Str.str_int (year dt) ++ " is before 1900; "
                          ++ "the datetime strftime() methods require year >= 1900"))
  else Ok (pad2 (year dt mod 100) ++ pad2 (month dt) ++ pad2 (day dt)
           ++ pad2 (hour dt) ++ pad2 (minute dt) ++ pad2 (second dt) ++ "Z").

End Calendar.

(** ** Serial/Date codec *)

Module Codec.
Import Calendar.

(** Modelled from the spec: [n6lib.datetime_helpers.datetime_utc_normalize],
    whose code is outside this module. It "normalizes to UTC": a naive
    value is returned as it is, an aware one loses its [tzinfo] and has its
    UTC offset subtracted. An offset of a day or more is refused by
    [utcoffset()] with a [ValueError]. *)
Definition datetime_utc_normalize (dt : datetime) : result datetime :=
  match tzinfo dt with
  | None => Ok dt
  | Some off =>
      if (-1440 <? off) && (off <? 1440)
      then minus_offset dt off
      else Raise (ValueError "tzinfo.utcoffset() must be strictly within a day")
  end.

(** [_format_openssl_dt(dt)] *)
Definition _format_openssl_dt (dt : pyobj) : result string :=
  match dt with
  | PyDatetime d => datetime_utc_normalize d ≫= strftime_yymmddHHMMSSZ
  | _ => Raise (TypeError "a datetime.datetime instance is required")
  end.

Section Serial.
Context `{SerialValidator}.

(** The message of the [ValueError] of the sanity check, which holds
    [repr] of the serial number as it was prepared. *)
Definition not_valid_message (serial_number : string) : string :=
  "something really wrong: a certificate serial number prepared for OpenSSL tools ("
  ++ Str.repr serial_number ++ ") is not valid".

(** [_format_openssl_serial_number(serial_number)]. The message of the
    [TypeError] holds [repr] of the object and the name of its type, the
    texts the runtime gives to an object of any kind; here it is cut to
    its fixed words, and no property states it. *)
Definition _format_openssl_serial_number (serial_number : pyobj) : result string :=
  serial_number ←
    match serial_number with
    | PyUnicode u => PyStr <$> Str.encode_ascii u
    | other => Ok other
    end;
  match Str.as_str serial_number with
  | Some s =>
      let s := Str.upper s in
      let s := if Nat.odd (String.length s) then "0" ++ s else s in
      if negb (is_cert_serial_number_valid (Str.lower s))
      then Raise (ValueError (not_valid_message s))
      else Ok s
  | None => Raise (TypeError "serial_number has a wrong type")
  end.

(** *** The serial formatter in the words of the specification *)

(** The normalization: upper case, and a ["0"] in front of an odd number
    of digits. *)
Definition normalized (s : string) : string :=
  let s := Str.upper s in
  if Nat.odd (String.length s) then "0" ++ s else s.

(** A byte string is a valid serial number when its normalization passes
    the validity rule of the domain. *)
Definition valid_serial (s : string) : bool :=
  is_cert_serial_number_valid (Str.lower (normalized s)).

(** Upper case: no small letter. *)
Definition is_uppercase (s : string) : bool :=
  Str.forallb_s (fun c => negb (Str.is_lower c)) s.

(** The same character, but for its case when it is a letter. *)
Definition same_char_but_case (a b : ascii) : bool :=
  Ascii.eqb a b
  || (Str.is_lower a && (Str.code b =? Str.code a - 32)%N)
  || (Str.is_lower b && (Str.code a =? Str.code b - 32)%N).

(** The same text, but for the case of its letters. *)
Fixpoint same_but_case (a b : string) : bool :=
  match a, b with
  | EmptyString, EmptyString => true
  | String x a', String y b' => same_char_but_case x y && same_but_case a' b'
  | _, _ => false
  end.

(** A text input: a byte string or a [unicode] object. *)
Definition is_text (v : pyobj) : bool :=
  match v with
  | PyStr _ | PyUnicode _ | PyConfig _ => true
  | _ => false
  end.

(** A timestamp value: an instance of [datetime.datetime]. *)
Definition is_timestamp (v : pyobj) : bool :=
  match v with
  | PyDatetime _ => true
  | _ => false
  end.

(** A text input is a valid serial number after normalization. *)
Definition valid_after_normalization (v : pyobj) : bool :=
  match v with
  | PyUnicode u =>
      match Str.encode_ascii u with
      | Ok s => valid_serial s
      | Raise _ => false
      end
  | _ =>
      match Str.as_str v with
      | Some s => valid_serial s
      | None => false
      end
  end.

End Serial.

Definition is_hexdigit (c : ascii) : bool :=
  let n := Str.code c in
  (((48 <=? n) && (n <=? 57)) || ((97 <=? n) && (n <=? 102)))%N.

(** Modelled from the spec: the validity rule of serial numbers,
    [is_cert_serial_number_valid], whose code is outside this module. In
    the specification a serial is valid when it is "valid hex": here a
    string of hexadecimal digits, which come in lower case. It stands for
    the rule in the examples; the properties hold for every rule. *)
Definition hex_serial_validator : SerialValidator :=
  {| is_cert_serial_number_valid := Str.forallb_s is_hexdigit |}.

End Codec.

(** ** Index codec *)

Module Index.
Import Calendar Codec.

Definition TAB : string := Str.TAB.
Definition NL : string := Str.NL.

(** A certificate record of the authentication database, as this module
    reads it: [expires_on] and [revoked_on] are [None] or a datetime,
    [serial_hex] and [subject] are byte strings. *)
Record cert_data := mk_cert_data {
  expires_on : option datetime;
  revoked_on : option datetime;
  serial_hex : string;
  subject : string
}.

Section IndexFile.
Context `{SerialValidator} `{Clock}.

(** The body of the [for] loop of [_make_openssl_index_file_content]: the
    line of one record, and the number of clock readings made so far. *)
Definition index_file_line (tick : nat) (c : cert_data) : result (string * nat) :=
  let entry_type := "V" in
  let expires_openssl := "" in
  let revoked_openssl := "" in
  '(entry_type, expires_openssl, tick) ←
    match expires_on c with
    | Some e =>
        expired ← datetime_gt (utcnow tick) e;
        let entry_type := if expired : bool then "E" else entry_type in
        expires_openssl ← _format_openssl_dt (PyDatetime e);
        Ok (entry_type, expires_openssl, S tick)
    | None => Ok (entry_type, expires_openssl, tick)
    end;
  '(entry_type, revoked_openssl) ←
    match revoked_on c with
    | Some r =>
        let entry_type := "R" in
        revoked_openssl ← _format_openssl_dt (PyDatetime r);
        Ok (entry_type, revoked_openssl)
    | None => Ok (entry_type, revoked_openssl)
    end;
  serial_openssl ← _format_openssl_serial_number (PyStr (serial_hex c));
  Ok (entry_type ++ TAB ++ expires_openssl ++ TAB ++ revoked_openssl ++ TAB
      ++ serial_openssl ++ TAB ++ "unknown" ++ TAB ++ subject c ++ NL,
      tick).

(** The loop: [index_file_lines] grows by one line per record. *)
Fixpoint index_file_loop (index_file_lines : list string) (tick : nat)
    (cert_data_iterator : list cert_data) : result (list string) :=
  match cert_data_iterator with
  | [] => Ok index_file_lines
  | c :: rest =>
      '(line, tick) ← index_file_line tick c;
      index_file_loop (index_file_lines ++ [line])%list tick rest
  end.

(** [_make_openssl_index_file_content(cert_data_iterator)] *)
Definition _make_openssl_index_file_content
    (cert_data_iterator : list cert_data) : result string :=
  lines ← index_file_loop [] 0%nat cert_data_iterator;
  Ok (Str.concat_all lines).

(** *** The line format in the words of the specification *)

(** The status flag at the clock reading [now]: revoked takes precedence
    over expired. *)
Definition status_flag (now : datetime) (c : cert_data) : string :=
  match revoked_on c, expires_on c with
  | Some _, _ => "R"
  | None, Some e =>
      match datetime_gt now e with
      | Ok true => "E"
      | _ => "V"
      end
  | None, None => "V"
  end.

(** A formatted timestamp, or empty. *)
Definition timestamp_field (d : option datetime) : string :=
  match d with
  | Some d =>
      match _format_openssl_dt (PyDatetime d) with
      | Ok s => s
      | Raise _ => ""
      end
  | None => ""
  end.

(** The normalized serial number. *)
Definition serial_field (c : cert_data) : string :=
  match _format_openssl_serial_number (PyStr (serial_hex c)) with
  | Ok s => s
  | Raise _ => ""
  end.

(** The six fields of the line of a record. *)
Definition record_fields (now : datetime) (c : cert_data) : list string :=
  [status_flag now c; timestamp_field (expires_on c);
   timestamp_field (revoked_on c); serial_field c; "unknown"; subject c].

Definition record_line (now : datetime) (c : cert_data) : string :=
  Str.join TAB (record_fields now c) ++ NL.

(** A certificate record as the authentication database holds it: the
    serial number is valid, the timestamps are in the range of the date
    formatter, and the expiry timestamp is naive (it is compared with the
    clock). *)
Definition well_formed_record (c : cert_data) : bool :=
  match expires_on c with
  | Some e => bool_decide (tzinfo e = None) && valid_datetime e && in_strftime_range e
  | None => true
  end
  && match revoked_on c with
     | Some r => valid_datetime r && in_strftime_range r
     | None => true
     end
  && valid_serial (serial_hex c).

End IndexFile.
End Index.

(** ** Text primitives used on configuration text and paths *)

Module Text.

(** The characters [str.strip()] and [str.split()] treat as whitespace. *)
Definition is_space (c : ascii) : bool :=
  let n := Str.code c in ((n =? 32) || ((9 <=? n) && (n <=? 13)))%N.

Definition is_nl (c : ascii) : bool := (Str.code c =? 10)%N.

Fixpoint lstrip (s : string) : string :=
  match s with
  | EmptyString => EmptyString
  | String c r => if is_space c then lstrip r else s
  end.

Definition is_empty (s : string) : bool :=
  match s with
  | EmptyString => true
  | _ => false
  end.

(** [s.rstrip()] and, for [p] the test of one character, [s.rstrip(chars)] *)
Fixpoint rstrip_of (p : ascii -> bool) (s : string) : string :=
  match s with
  | EmptyString => EmptyString
  | String c r =>
      let r' := rstrip_of p r in
      if p c && is_empty r' then EmptyString else String c r'
  end.

Definition rstrip : string -> string := rstrip_of is_space.
Definition strip (s : string) : string := rstrip (lstrip s).

(** [s.partition(c)] when [c] occurs in [s] *)
Fixpoint cut_at (c : ascii) (s : string) : option (string * string) :=
  match s with
  | EmptyString => None
  | String a r =>
      if Ascii.eqb a c then Some (EmptyString, r)
      else match cut_at c r with
           | Some (h, t) => Some (String a h, t)
           | None => None
           end
  end.

(** [s.split(sep)] for a one-character separator: the pieces between the
    occurrences of [sep], at most [maxsplit] cuts when it is given. *)
Fixpoint split_on (sep : ascii) (maxsplit : option nat) (s : string) : list string :=
  match s with
  | EmptyString => [EmptyString]
  | String a r =>
      if Ascii.eqb a sep && (match maxsplit with Some O => false | _ => true end)
      then EmptyString :: split_on sep (pred <$> maxsplit) r
      else match split_on sep maxsplit r with
           | h :: t => String a h :: t
           | [] => [String a EmptyString]
           end
  end.

(** [s.splitlines()]: the lines of a text; a final newline ends the last
    line and opens no further one. *)
Fixpoint splitlines (s : string) : list string :=
  match s with
  | EmptyString => []
  | String a r =>
      if is_nl a then EmptyString :: splitlines r
      else match splitlines r with
           | h :: t => String a h :: t
           | [] => [String a EmptyString]
           end
  end.

(** [s.split()]: the maximal runs of characters that are not whitespace. *)
Fixpoint split_ws_aux (cur : option string) (s : string) : list string :=
  match s with
  | EmptyString => match cur with Some w => [w] | None => [] end
  | String a r =>
      if is_space a
      then match cur with
           | Some w => w :: split_ws_aux None r
           | None => split_ws_aux None r
           end
      else split_ws_aux (Some (match cur with Some w => w ++ String a EmptyString
                                         | None => String a EmptyString end)) r
  end.

Definition split_ws : string -> list string := split_ws_aux None.

End Text.

(** ** Paths and the filesystem *)

Module Path.
Import Text.

Definition is_slash (c : ascii) : bool := Ascii.eqb c "/".

(** [p.rstrip('/')] *)
Definition rstrip_slash : string -> string := rstrip_of is_slash.

Definition all_slashes : string -> bool := Str.forallb_s is_slash.

(** [p[:i], p[i:]] for [i = p.rfind('/') + 1] *)
Fixpoint cut_last_slash (p : string) : string * string :=
  match p with
  | EmptyString => (EmptyString, EmptyString)
  | String c r =>
      let '(h, t) := cut_last_slash r in
      match h with
      | EmptyString => if is_slash c then (String c EmptyString, t)
                       else (EmptyString, String c t)
      | _ => (String c h, t)
      end
  end.

(** [posixpath.split(p)] *)
Definition split (p : string) : string * string :=
  let '(head, tail) := cut_last_slash p in
  (if negb (is_empty head) && negb (all_slashes head) then rstrip_slash head else head,
   tail).

(** [posixpath.dirname(p)] *)
Definition dirname (p : string) : string := fst (split p).

Definition ends_with_slash (p : string) : bool :=
  negb (is_empty p) && negb (String.eqb (rstrip_slash p) p).

(** The name under which the filesystem keeps the entry a path leads to:
    trailing slashes do not count. *)
Definition key (p : string) : string :=
  let q := rstrip_slash p in
  if is_empty q then (if is_empty p then "" else "/") else q.

Definition no_slash (s : string) : bool :=
  Str.forallb_s (fun c => negb (is_slash c)) s.

(** A root directory [R]: a path that is not empty and has no slash at
    its end. *)
Definition is_root (R : string) : Prop := R <> "" /\ rstrip_slash R = R.

End Path.

Module FS.
Import Text Path.

Inductive node :=
| File (content : string)
| Dir.

#[global] Instance node_eq_dec : EqDecision node.
Proof. solve_decision. Defined.

(** The filesystem: the entry of each existing path, under the name [key]
    gives it. Paths are taken as they are written, but for the slashes at
    their end: the paths of this module are made of a directory and of
    names put after it, with no [.] or [..] in them and no symbolic
    link. *)
Abbreviation fs := (gmap string node).

(** Code with effects on the filesystem: the filesystem reached is kept
    also when the code raises. *)
Definition io (A : Type) : Type := fs -> fs * result A.

Definition bind_io {A B} (m : io A) (k : A -> io B) : io B := fun f =>
  match m f with
  | (f', Ok a) => k a f'
  | (f', Raise e) => (f', Raise e)
  end.

Definition ret_io {A} (a : A) : io A := fun f => (f, Ok a).

Notation "x <~ m ;; k" := (bind_io m (fun x => k))
  (at level 100, m at next level, right associativity).

Definition raise {A} (e : exn) : io A := fun f => (f, Raise e).
Definition lift {A} (r : result A) : io A := fun f => (f, r).

(** [os.path.isdir(p)], [os.path.exists(p)] *)
Definition isdir (f : fs) (p : string) : bool :=
  bool_decide (f !! key p = Some Dir).

Definition exists_ (f : fs) (p : string) : bool :=
  match f !! key p with
  | Some Dir => true
  | Some (File _) => negb (ends_with_slash p)
  | None => false
  end.

(** [os.mkdir(p)] *)
Definition mkdir (p : string) : io unit := fun f =>
  if is_empty p then (f, Raise (OSError ENOENT p))
  else
    match f !! key p with
    | Some _ => (f, Raise (OSError EEXIST p))
    | None =>
        let parent := dirname (key p) in
        if is_empty parent || isdir f parent
        then (<[key p := Dir]> f, Ok tt)
        else (f, Raise (OSError ENOENT p))
    end.

(** [os.makedirs(name)] (Python 2.7): the missing ancestors are made
    first; the recursion is on a strictly shorter path, so [fuel] as long
    as the path is enough. *)
Fixpoint makedirs_rec (fuel : nat) (name : string) : io unit :=
  match fuel with
  | O => raise (RuntimeError "maximum recursion depth exceeded")
  | S fuel =>
      let '(head, tail) := split name in
      let '(head, tail) := if is_empty tail then split head else (head, tail) in
      fun f =>
        if negb (is_empty head) && negb (is_empty tail) && negb (exists_ f head)
        then
          match makedirs_rec fuel head f with
          | (f', Raise (OSError code p)) =>
              match code with
              | EEXIST => if String.eqb tail "." then (f', Ok tt) else mkdir name f'
              | _ => (f', Raise (OSError code p))
              end
          | (f', Raise e) => (f', Raise e)
          | (f', Ok _) => if String.eqb tail "." then (f', Ok tt) else mkdir name f'
          end
        else mkdir name f
  end.

Definition makedirs (name : string) : io unit :=
  makedirs_rec (S (String.length name)) name.

(** [open(p, 'w')]: the file is created empty, or emptied. *)
Definition open_w (p : string) : io unit := fun f =>
  if is_empty p then (f, Raise (IOError ENOENT p))
  else if ends_with_slash p || isdir f p then (f, Raise (IOError EISDIR p))
  else
    let parent := dirname p in
    if is_empty parent || isdir f parent
    then (<[key p := File ""]> f, Ok tt)
    else (f, Raise (IOError ENOENT p)).

(** The text [f.write(value)] writes. *)
Definition written_text (value : pyobj) : result string :=
  match value with
  | PyUnicode u => Str.encode_ascii u
  | _ => match Str.as_str value with
         | Some s => Ok s
         | None => Raise (TypeError "expected a character buffer object")
         end
  end.

(** [with open(p, 'w') as f: f.write(value)] *)
Definition set_content (p : string) (text : string) : io unit := fun f =>
  (<[key p := File text]> f, Ok tt).

Definition write_file (p : string) (value : pyobj) : io unit :=
  _ <~ open_w p ;;
  text <~ lift (written_text value) ;;
  set_content p text.

(** [n6lib.common_helpers.read_file(p)]: the content of the file. A
    directory cannot be read, and a file is no directory to go through. *)
Definition read_file (p : string) : io string := fun f =>
  match f !! key p with
  | Some Dir => (f, Raise (IOError EISDIR p))
  | Some (File c) =>
      if ends_with_slash p then (f, Raise (IOError ENOTDIR p)) else (f, Ok c)
  | None => (f, Raise (IOError ENOENT p))
  end.

(** [p] is the directory [root] or lies below it. *)
Definition under (root p : string) : bool :=
  String.eqb root p || Str.startswith (root ++ "/") p.

(** [shutil.rmtree(p)]: the directory and everything below it; what is
    not a directory cannot be listed. *)
Definition rmtree (p : string) : io unit := fun f =>
  if isdir f p
  then (filter (fun kv => negb (under (key p) kv.1)) f, Ok tt)
  else (f, Raise (OSError (if exists_ f p then ENOTDIR else ENOENT) p)).

(** The directories of [f] are directories of [f']. *)
Definition dirs_kept (f f' : fs) : Prop :=
  forall k, f !! k = Some Dir -> f' !! k = Some Dir.

(** Code that removes no directory and puts no file in the place of one. *)
Definition keeps_dirs {A} (m : io A) : Prop :=
  forall f f' r, m f = (f', r) -> dirs_kept f f'.

(** Nothing exists at the path [root] or below it. *)
Definition gone (root : string) (f : fs) : Prop :=
  forall q, under (key root) q = true -> f !! q = None.

End FS.

(** ** The configuration document *)

(** What [ConfigString(text)] refuses: the message of its [ValueError] for
    a text that does not parse, [None] for a text that does. The syntax
    rules of the parser are outside this module. *)
Class ConfigSyntax := {
  config_syntax_error : string -> option string
}.

Module Config.
Import Text.

(** Modelled from the spec: [n6lib.config.ConfigString], the package's
    editor of key=value documents, whose code is outside this module. In
    the words of the specification it is a document "addressable by dotted
    section.key paths, supporting value lookup, value substitution by key,
    insertion of a new section immediately before a named section, and
    removal of a key", kept as "a parsed line-oriented structure": here the
    list of its lines. A location that does not exist is a [KeyError]. *)
Abbreviation ConfigString := (list string).

Definition is_blank (s : string) : bool := is_empty (lstrip s).

(** The name of a section header line [[name]]. *)
Definition header_of (line : string) : option string :=
  match lstrip line with
  | String c r =>
      if Ascii.eqb c "["
      then match cut_at "]" r with
           | Some (name, rest) => if is_blank rest then Some (strip name) else None
           | None => None
           end
      else None
  | EmptyString => None
  end.

(** The key and the value of an option line [key = value]. *)
Definition option_of (line : string) : option (string * string) :=
  match lstrip line with
  | EmptyString => None
  | String c r =>
      if Ascii.eqb c "[" || Ascii.eqb c "#" || Ascii.eqb c ";" then None
      else match cut_at "=" (String c r) with
           | Some (k, v) => Some (strip k, strip v)
           | None => None
           end
  end.

Definition is_header (sect : string) (line : string) : bool :=
  bool_decide (header_of line = Some sect).

Definition has_key (opt : string) (line : string) : bool :=
  bool_decide (fst <$> option_of line = Some opt).

Definition any_header (line : string) : bool :=
  match header_of line with Some _ => true | None => false end.

(** A location: [sect] or [sect.opt]. *)
Definition split_location (location : string) : string * option string :=
  match cut_at "." location with
  | Some (sect, opt) => (sect, Some opt)
  | None => (location, None)
  end.

(** The lines that follow the header of the first section [sect]. *)
Fixpoint sect_body (sect : string) (doc : ConfigString) : option (list string) :=
  match doc with
  | [] => None
  | l :: r => if is_header sect l then Some r else sect_body sect r
  end.

(** The value of [opt] in the lines of a section, which end at the next
    header. *)
Fixpoint opt_value (opt : string) (body : list string) : option string :=
  match body with
  | [] => None
  | l :: r =>
      if any_header l then None
      else if has_key opt l then snd <$> option_of l
      else opt_value opt r
  end.

Definition lookup (doc : ConfigString) (location : string) : option string :=
  match split_location location with
  | (sect, Some opt) => sect_body sect doc ≫= opt_value opt
  | (_, None) => None
  end.

(** [location in doc] *)
Definition contains (doc : ConfigString) (location : string) : bool :=
  match split_location location with
  | (sect, Some opt) => bool_decide (is_Some (sect_body sect doc ≫= opt_value opt))
  | (sect, None) => bool_decide (is_Some (sect_body sect doc))
  end.

(** [doc.get_opt_value(location)] *)
Definition get_opt_value (doc : ConfigString) (location : string) : result string :=
  match lookup doc location with
  | Some v => Ok v
  | None => Raise (KeyError location)
  end.

(** Edit the first section [sect]: [at_header] rewrites the document from
    its header line on. *)
Fixpoint edit_sect (sect : string) (at_header : list string -> option (list string))
    (doc : ConfigString) : option ConfigString :=
  match doc with
  | [] => None
  | l :: r =>
      if is_header sect l then at_header (l :: r)
      else (cons l) <$> edit_sect sect at_header r
  end.

(** Edit the line of [opt] among the lines of a section. *)
Fixpoint edit_opt (opt : string) (at_line : list string -> list string)
    (body : list string) : option (list string) :=
  match body with
  | [] => None
  | l :: r =>
      if any_header l then None
      else if has_key opt l then Some (at_line (l :: r))
      else (cons l) <$> edit_opt opt at_line r
  end.

Definition in_body (f : list string -> option (list string))
    (from_header : list string) : option (list string) :=
  match from_header with
  | h :: body => (cons h) <$> f body
  | [] => None
  end.

(** The lines of a section without those of the key [opt]. *)
Fixpoint without_key (opt : string) (body : list string) : list string :=
  match body with
  | [] => []
  | l :: r =>
      if any_header l then l :: r
      else if has_key opt l then without_key opt r
      else l :: without_key opt r
  end.

(** The lines after those of a section. *)
Fixpoint after_body (body : list string) : list string :=
  match body with
  | [] => []
  | l :: r => if any_header l then l :: r else after_body r
  end.

Definition edit (doc : ConfigString) (location : string)
    (on_sect on_opt : list string -> list string) : result ConfigString :=
  let r :=
    match split_location location with
    | (sect, Some opt) => edit_sect sect (in_body (edit_opt opt on_opt)) doc
    | (sect, None) => edit_sect sect (fun ls => Some (on_sect ls)) doc
    end in
  match r with
  | Some doc' => Ok doc'
  | None => Raise (KeyError location)
  end.

(** [doc.substitute(location, new_content)] *)
Definition substitute (doc : ConfigString) (location new_content : string)
    : result ConfigString :=
  edit doc location
       (fun ls => (splitlines new_content ++ after_body (tail ls))%list)
       (fun ls => (splitlines new_content ++ tail ls)%list).

(** [doc.insert_above(location, new_content)] *)
Definition insert_above (doc : ConfigString) (location new_content : string)
    : result ConfigString :=
  edit doc location
       (fun ls => (splitlines new_content ++ ls)%list)
       (fun ls => (splitlines new_content ++ ls)%list).

(** [doc.remove(location)] *)
Definition remove (doc : ConfigString) (location : string) : result ConfigString :=
  match split_location location with
  | (sect, Some opt) =>
      if contains doc location
      then edit doc sect
                (fun ls => match ls with
                           | h :: body => h :: without_key opt body
                           | [] => []
                           end)
                (fun ls => ls)
      else Raise (KeyError location)
  | (sect, None) => edit doc location (fun ls => after_body (tail ls)) (fun ls => ls)
  end.

Section Parse.
Context `{ConfigSyntax}.

(** [ConfigString(value)] *)
Definition ConfigString_new (value : pyobj) : result ConfigString :=
  match value with
  | PyStr s =>
      match config_syntax_error s with
      | Some msg => Raise (ValueError msg)
      | None => Ok (splitlines s)
      end
  | PyConfig lines => Ok lines
  | _ => Raise (TypeError "a configuration text is required")
  end.

End Parse.

(** A section name that splits off a location at its dot and goes through
    [str.format] as it is: it holds no dot and no brace. *)
Definition plain_name (s : string) : bool :=
  Str.forallb_s (fun c => negb (Ascii.eqb c "." || Ascii.eqb c "{" || Ascii.eqb c "}")) s.

(** An option name as the option lines of this module have them: not
    empty, without whitespace and without [=], and not opening with one of
    the characters that open a header or a comment. *)
Definition plain_key (k : string) : bool :=
  match k with
  | String c _ =>
      negb (Ascii.eqb c "[" || Ascii.eqb c "#" || Ascii.eqb c ";")
      && Str.forallb_s (fun c => negb (is_space c || Ascii.eqb c "=")) k
  | EmptyString => false
  end.

(** A text of one line. *)
Definition one_line (s : string) : bool :=
  Str.forallb_s (fun c => negb (is_nl c)) s.

(** A value that an option line gives back as it is: one line, no
    whitespace around it. *)
Definition plain_value (v : string) : bool :=
  one_line v && String.eqb (lstrip v) v && String.eqb (rstrip v) v.

(** ['{} = {}'.format(k, path)]: the line [_substitute_path] writes. *)
Definition option_line (k path : string) : string := k ++ " = " ++ path.

(** The value of [opt] in the first section [sect]. *)
Definition lookup_in (doc : ConfigString) (sect opt : string) : option string :=
  sect_body sect doc ≫= opt_value opt.

(** No line is the header of a section [sect]; no line is a header. *)
Definition no_sect (sect : string) (ls : list string) : bool :=
  forallb (fun l => negb (is_header sect l)) ls.

Definition no_headers (ls : list string) : bool :=
  forallb (fun l => negb (any_header l)) ls.

Definition no_key (opt : string) (ls : list string) : bool :=
  forallb (fun l => negb (has_key opt l)) ls.

(** [doc'] is [doc] without some of its lines of the key [opt]. *)
Inductive thinned (opt : string) : list string -> list string -> Prop :=
| thinned_nil : thinned opt [] []
| thinned_keep l d d' : thinned opt d d' -> thinned opt (l :: d) (l :: d')
| thinned_drop l d d' :
    any_header l = false -> has_key opt l = true ->
    thinned opt d d' -> thinned opt (l :: d) d'.

(** The index of the header line of the first section [sect]. *)
Fixpoint find_sect (sect : string) (doc : ConfigString) : option nat :=
  match doc with
  | [] => None
  | l :: r => if is_header sect l then Some O else S <$> find_sect sect r
  end.

(** The lines [stanza] stand immediately above the header of the first
    section [sect]. *)
Definition immediately_above (stanza : list string) (sect : string)
    (doc : ConfigString) : bool :=
  match find_sect sect doc with
  | Some i =>
      (length stanza <=? i)%nat
      && bool_decide (take (length stanza) (drop (i - length stanza)%nat doc) = stanza)
  | None => false
  end.

End Config.

(** ** Sandbox nodes and the configuration adapter *)

Module Sandbox.
Import Text Path FS Config.

Definition SERVER_COMPONENT_ADDITIONAL_OPENSSL_COMMAND_ARGS : list string :=
  ["-policy"; "server_component_serviceCA_policy"].

Definition DEFAULT_INDEX_ATTR_CONTENT : string := "unique_subject = no".

Definition NL : string := Str.NL.

(** [PKCS11_OPTS_PATTERN.format(pkcs11_dynamic_path=..., pkcs11_module_path=...)] *)
Definition PKCS11_OPTS (pkcs11_dynamic_path pkcs11_module_path : string) : string :=
  NL ++ "openssl_conf = openssl_def" ++ NL
  ++ NL ++ "[openssl_def]" ++ NL
  ++ "engines = engine_section" ++ NL
  ++ NL ++ "[engine_section]" ++ NL
  ++ "pkcs11 = pkcs11_section" ++ NL
  ++ NL ++ "[pkcs11_section]" ++ NL
  ++ "engine_id = pkcs11" ++ NL
  ++ "dynamic_path = " ++ pkcs11_dynamic_path ++ NL
  ++ "MODULE_PATH = " ++ pkcs11_module_path ++ NL
  ++ "init = 0" ++ NL.

(** The lines of the engine stanza. *)
Definition engine_stanza (pkcs11_dynamic_path pkcs11_module_path : string) : list string :=
  [""; "openssl_conf = openssl_def"; "";
   "[openssl_def]"; "engines = engine_section"; "";
   "[engine_section]"; "pkcs11 = pkcs11_section"; "";
   "[pkcs11_section]"; "engine_id = pkcs11";
   option_line "dynamic_path" pkcs11_dynamic_path;
   option_line "MODULE_PATH" pkcs11_module_path;
   "init = 0"].

(** The names of the sections of the engine stanza. *)
Definition engine_sections : list string :=
  ["openssl_def"; "engine_section"; "pkcs11_section"].

(** The options of the CA section that the adapter rewrites. *)
Definition sandbox_options : list string :=
  ["dir"; "certificate"; "private_key"; "new_certs_dir"; "database"; "serial"].

(** How the replacement fields of a pattern have been numbered so far:
    not yet, by the formatter ([{}]), or by the pattern ([{0}]). *)
Inductive numbering := Unnumbered | Automatic | Manual.

(** [pattern.format(arg)] with one positional argument: [{}] and [{0}]
    stand for the argument, [{{] and [}}] for a brace. A second [{}] asks
    for a second argument, and a pattern cannot number its fields both
    ways. The patterns of this module hold one [{}] at their end and no
    other brace, unless the name of a section holds one; a replacement
    field of another form (another index, a name, an attribute, a
    conversion, a format specification) is not followed here: it is
    refused, as [str.format] refuses some of them and not others. *)
Fixpoint format_1 (fields : numbering) (pattern arg : string) : result string :=
  match pattern with
  | EmptyString => Ok EmptyString
  | String "{" (String "{" r) => (String "{") <$> format_1 fields r arg
  | String "}" (String "}" r) => (String "}") <$> format_1 fields r arg
  | String "{" (String "}" r) =>
      match fields with
      | Unnumbered => (String.append arg) <$> format_1 Automatic r arg
      | Automatic => Raise IndexError
      | Manual =>
          Raise (ValueError ("cannot switch from manual field specification "
                             ++ "to automatic field numbering"))
      end
  | String "{" (String "0" (String "}" r)) =>
      match fields with
      | Automatic =>
          Raise (ValueError ("cannot switch from automatic field numbering "
                             ++ "to manual field specification"))
      | _ => (String.append arg) <$> format_1 Manual r arg
      end
  | String "{" _ => Raise (ValueError "unsupported replacement field")
  | String "}" _ => Raise (ValueError "Single '}' encountered in format string")
  | String c r => (String c) <$> format_1 fields r arg
  end.

(** The truth value of an object in [if obj:]. *)
Definition truthy (v : pyobj) : bool :=
  match v with
  | PyNone => false
  | PyBool b => b
  | PyInt z => negb (z =? 0)
  | PyStr s => negb (is_empty s)
  | PyUnicode u => match u with [] => false | _ => true end
  | PyConfig lines => match lines with [] => false | _ => true end
  | PyDate _ _ _ | PyDatetime _ | PyPkcs11 _ _ _ => true
  end.

(** The [opts] dictionary of the configuration node. *)
Record node_opts := mk_node_opts {
  pkcs11_opts_dict : pyobj;
  paths_to_substitute : gmap string string
}.

Record DirectoryStructure := mk_DirectoryStructure {
  name : string;
  relative_pth : string;
  _value : pyobj;
  _path : string;
  opts : option node_opts
}.

(** The [path] property *)
Definition path (self : DirectoryStructure) : string :=
  _path self ++ relative_pth self ++ name self.

(** The node after [self._value = value]. *)
Definition with_value (self : DirectoryStructure) (value : pyobj) : DirectoryStructure :=
  mk_DirectoryStructure (name self) (relative_pth self) value (_path self) (opts self).

(** Two nodes at the same place. *)
Definition same_layout (d d' : DirectoryStructure) : Prop :=
  name d = name d' /\ relative_pth d = relative_pth d' /\ _path d = _path d'.

Definition _makedir_if_nonexistent (self : DirectoryStructure) : io unit := fun f =>
  let dir_path := dirname (path self) in
  if negb (exists_ f dir_path) then makedirs dir_path f else (f, Ok tt).

(** [DirectoryStructure(name, rel_pth, path, opts)] *)
Definition DirectoryStructure_new (name rel_pth path : string)
    (opts : option node_opts) : io DirectoryStructure :=
  let self := mk_DirectoryStructure name rel_pth PyNone (rstrip_slash path ++ "/") opts in
  _ <~ _makedir_if_nonexistent self ;;
  ret_io self.

(** [self.opts.get(...)]: [opts] is a dictionary or [None]. *)
Definition get_opts (self : DirectoryStructure) : result node_opts :=
  match opts self with
  | Some o => Ok o
  | None => Raise (AttributeError "get")
  end.

Definition _substitute_path (ca_opt_pattern : string) (value : ConfigString)
    (opt_name tmp_path : string) : result ConfigString :=
  config_opt ← format_1 Unnumbered ca_opt_pattern opt_name;
  substitute value config_opt (option_line opt_name tmp_path).

(** The [for] loop over [paths_mapping.iteritems()]. *)
Fixpoint substitute_paths_loop (ca_opt_pattern : string) (value : ConfigString)
    (items : list (string * string)) : result ConfigString :=
  match items with
  | [] => Ok value
  | (opt_name, tmp_path) :: rest =>
      value ← _substitute_path ca_opt_pattern value opt_name tmp_path;
      substitute_paths_loop ca_opt_pattern value rest
  end.

(** [self._get_openssl_config_with_substituted_paths(ca_opt_pattern, value)];
    the items of the dictionary come in the order [map_to_list] gives. *)
Definition _get_openssl_config_with_substituted_paths (self : DirectoryStructure)
    (ca_opt_pattern : string) (value : ConfigString) : result ConfigString :=
  value ← _substitute_path ca_opt_pattern value "dir" (dirname (path self));
  o ← get_opts self;
  let paths_mapping := paths_to_substitute o in
  substitute_paths_loop ca_opt_pattern value (map_to_list paths_mapping).

Definition exn_str (e : exn) : string :=
  match e with
  | ValueError msg | TypeError msg | RuntimeError msg => msg
  | _ => ""
  end.

Section Adapter.
Context `{ConfigSyntax}.

(** [self._get_adjusted_openssl_config_str(value)] *)
Definition _get_adjusted_openssl_config_str (self : DirectoryStructure)
    (value : pyobj) : result ConfigString :=
  value ←
    match ConfigString_new value with
    | Ok doc => Ok doc
    | Raise exc =>
        if is_ValueError exc
        then Raise (InvalidSSLConfigError
                      ("SSL config is not valid: " ++ exn_str exc ++ ".") exc)
        else Raise exc
    end;
  default_ca ← get_opt_value value "ca.default_ca";
  let ca_opt_pattern := default_ca ++ ".{}" in
  value ← _get_openssl_config_with_substituted_paths self ca_opt_pattern value;
  o ← get_opts self;
  let pkcs11_opts_dict := pkcs11_opts_dict o in
  if truthy pkcs11_opts_dict
  then
    match pkcs11_opts_dict with
    | PyPkcs11 dynamic_path module_path _ =>
        let pkcs11_opts := PKCS11_OPTS dynamic_path module_path in
        value ← insert_above value "ca" pkcs11_opts;
        config_opt ← format_1 Unnumbered ca_opt_pattern "private_key";
        remove value config_opt
    | _ => Raise (TypeError "format() argument after ** must be a mapping")
    end
  else Ok value.

(** [self._create_file()] *)
Definition _create_file (self : DirectoryStructure) : io unit := fun f =>
  if negb (isdir f (path self)) then write_file (path self) (_value self) f
  else (f, Ok tt).

(** The setter of the [value] property: the node and the filesystem after
    [self.value = value], and whether the assignment raised. *)
Definition value_setter (self : DirectoryStructure) (value : pyobj) (f : fs)
    : DirectoryStructure * fs * result unit :=
  let adjusted :=
    if String.eqb (name self) "openssl.cnf"
    then PyConfig <$> _get_adjusted_openssl_config_str self value
    else Ok value in
  match adjusted with
  | Raise e => (self, f, Raise e)
  | Ok value =>
      let self := with_value self value in
      let '(f, r) := _create_file self f in
      (self, f, r)
  end.

End Adapter.
End Sandbox.

(** ** The operating system services used by the sandbox *)

(** [tempfile.mkdtemp()]: the path of the directory it makes in a given
    filesystem. *)
Class TempDir := {
  mkdtemp_path : FS.fs -> string
}.

(** Running a command to its end: the filesystem it leaves, and either its
    exit status with what it wrote to its standard output and standard
    error together, or the error of not starting it. *)
Class Subprocess := {
  run_process : list string -> FS.fs -> FS.fs * result (Z * string)
}.

(** ** The sandbox and the toolchain invoker *)

Module Env.
Import Text Path FS Config Sandbox.

Record TmpEnv := mk_TmpEnv {
  pkcs11_opts_dict : pyobj;
  tmp_path_templ : string;
  ca_cert : DirectoryStructure;
  ca_key : DirectoryStructure;
  certs_dir : DirectoryStructure;
  csr : DirectoryStructure;
  index : DirectoryStructure;
  index_attr : DirectoryStructure;
  revoke_cert : DirectoryStructure;
  ca_crl : DirectoryStructure;
  serial : DirectoryStructure;
  gen_cert : DirectoryStructure;
  ssl_conf : DirectoryStructure
}.

(** [getattr(self, name)] when the attribute is one of the nodes. *)
Definition getattr_node (self : TmpEnv) (name : string) : option DirectoryStructure :=
  if String.eqb name "ca_cert" then Some (ca_cert self)
  else if String.eqb name "ca_key" then Some (ca_key self)
  else if String.eqb name "certs_dir" then Some (certs_dir self)
  else if String.eqb name "csr" then Some (csr self)
  else if String.eqb name "index" then Some (index self)
  else if String.eqb name "index_attr" then Some (index_attr self)
  else if String.eqb name "revoke_cert" then Some (revoke_cert self)
  else if String.eqb name "ca_crl" then Some (ca_crl self)
  else if String.eqb name "serial" then Some (serial self)
  else if String.eqb name "gen_cert" then Some (gen_cert self)
  else if String.eqb name "ssl_conf" then Some (ssl_conf self)
  else None.

(** The attributes of a sandbox that are no node and take a new attribute
    of their own: [getattr] returns the plain function of the static
    method, and the class. Given a [value], they keep it to themselves:
    the sandbox and the filesystem are as before. *)
Definition open_attributes : list string := ["_execute_command"; "__class__"].

(** The other attributes of a sandbox that are no node: the descriptor
    and the path, the methods, and what every object has. A string, a
    dictionary, [None] and a bound method take no new attribute. *)
Definition closed_attributes : list string :=
  ["pkcs11_opts_dict"; "tmp_path_templ";
   "__init__"; "_prepare_dir_structures"; "_get_paths_to_substitute_dict";
   "__enter__"; "__exit__"; "_cleanup";
   "execute_cert_generation"; "execute_cert_revocation"; "execute_crl_generation";
   "_get_pkcs11_openssl_command_args";
   "__dict__"; "__doc__"; "__module__"; "__weakref__";
   "__delattr__"; "__format__"; "__getattribute__"; "__hash__"; "__new__";
   "__reduce__"; "__reduce_ex__"; "__repr__"; "__setattr__"; "__sizeof__";
   "__str__"; "__subclasshook__"].

Definition is_in (names : list string) (name : string) : bool :=
  existsb (String.eqb name) names.

(** The sandbox after the node called [name] became [d]. *)
Definition with_node (self : TmpEnv) (name : string) (d : DirectoryStructure) : TmpEnv :=
  let pick n old := if String.eqb name n then d else old in
  mk_TmpEnv (pkcs11_opts_dict self) (tmp_path_templ self)
    (pick "ca_cert" (ca_cert self)) (pick "ca_key" (ca_key self))
    (pick "certs_dir" (certs_dir self)) (pick "csr" (csr self))
    (pick "index" (index self)) (pick "index_attr" (index_attr self))
    (pick "revoke_cert" (revoke_cert self)) (pick "ca_crl" (ca_crl self))
    (pick "serial" (serial self)) (pick "gen_cert" (gen_cert self))
    (pick "ssl_conf" (ssl_conf self)).

(** [self._get_paths_to_substitute_dict()] *)
Definition _get_paths_to_substitute_dict
    (ca_cert ca_key certs_dir index serial : DirectoryStructure) : gmap string string :=
  <["certificate" := path ca_cert]>
  (<["private_key" := path ca_key]>
  (<["new_certs_dir" := path certs_dir]>
  (<["database" := path index]>
  (<["serial" := path serial]> ∅)))).

(** [self._prepare_dir_structures(path)] *)
Definition _prepare_dir_structures (pkcs11 : pyobj) (path : string) : io TmpEnv :=
  ca_cert <~ DirectoryStructure_new "cacert.pem" "" path None ;;
  ca_key <~ DirectoryStructure_new "cakey.pem" "private/" path None ;;
  certs_dir <~ DirectoryStructure_new "" "certs/" path None ;;
  csr <~ DirectoryStructure_new "client.csr" "csr/" path None ;;
  index <~ DirectoryStructure_new "index.txt" "" path None ;;
  index_attr <~ DirectoryStructure_new "index.txt.attr" "" path None ;;
  revoke_cert <~ DirectoryStructure_new "revoke_cert.pem" "" path None ;;
  ca_crl <~ DirectoryStructure_new "ca.crl" "" path None ;;
  serial <~ DirectoryStructure_new "serial" "" path None ;;
  gen_cert <~ DirectoryStructure_new "cert.pem" (relative_pth certs_dir) path None ;;
  let paths_to_substitute :=
    _get_paths_to_substitute_dict ca_cert ca_key certs_dir index serial in
  ssl_conf <~ DirectoryStructure_new "openssl.cnf" "" path
             (Some (mk_node_opts pkcs11 paths_to_substitute)) ;;
  ret_io (mk_TmpEnv pkcs11 path ca_cert ca_key certs_dir csr index index_attr
                  revoke_cert ca_crl serial gen_cert ssl_conf).

(** The sandbox [_prepare_dir_structures] builds at the path [path] when
    every node can be made: the nodes with their layout, no content yet. *)
Definition prepared (pkcs11 : pyobj) (path : string) : TmpEnv :=
  let node name rel_pth opts :=
    mk_DirectoryStructure name rel_pth PyNone (rstrip_slash path ++ "/") opts in
  let ca_cert := node "cacert.pem" "" None in
  let ca_key := node "cakey.pem" "private/" None in
  let certs_dir := node "" "certs/" None in
  let index := node "index.txt" "" None in
  let serial := node "serial" "" None in
  mk_TmpEnv pkcs11 path ca_cert ca_key certs_dir
    (node "client.csr" "csr/" None) index (node "index.txt.attr" "" None)
    (node "revoke_cert.pem" "" None) (node "ca.crl" "" None) serial
    (node "cert.pem" "certs/" None)
    (node "openssl.cnf" ""
       (Some (mk_node_opts pkcs11
                (_get_paths_to_substitute_dict ca_cert ca_key certs_dir index serial)))).

(** The paths of the nodes of a sandbox at the root [R], by the option
    that takes them. *)
Definition sandbox_paths (R : string) : gmap string string :=
  <["certificate" := R ++ "/cacert.pem"]>
  (<["private_key" := R ++ "/private/cakey.pem"]>
  (<["new_certs_dir" := R ++ "/certs/"]>
  (<["database" := R ++ "/index.txt"]>
  (<["serial" := R ++ "/serial"]> ∅)))).

(** [sorted(init_values.iteritems())]: the items in the order of their
    names. *)
Fixpoint insert_sorted (kv : string * pyobj) (l : list (string * pyobj))
    : list (string * pyobj) :=
  match l with
  | [] => [kv]
  | kv' :: r => if String.leb kv.1 kv'.1 then kv :: l else kv' :: insert_sorted kv r
  end.

Definition sorted_items (init_values : gmap string pyobj) : list (string * pyobj) :=
  foldr insert_sorted [] (map_to_list init_values).

(** [shutil.rmtree(self.tmp_path_templ)] *)
Definition _cleanup (tmp_path_templ : string) : io unit := rmtree tmp_path_templ.

Section WithSystem.
Context `{ConfigSyntax} `{TempDir} `{Subprocess}.

Definition mkdtemp : io string := fun f =>
  let p := mkdtemp_path f in
  match mkdir p f with
  | (f', Ok _) => (f', Ok p)
  | (f', Raise e) => (f', Raise e)
  end.

(** The [for] loop of [__init__]. A name that is no attribute of the
    sandbox fails in [getattr]; an attribute that takes no new attribute
    fails in the assignment of [value]. The class is taken as the module
    defines it: a [value] given to [__class__] before is not found
    again. *)
Fixpoint init_loop (self : TmpEnv) (items : list (string * pyobj)) : io TmpEnv :=
  match items with
  | [] => ret_io self
  | (name, value) :: rest => fun f =>
      match getattr_node self name with
      | None =>
          if is_in open_attributes name then init_loop self rest f
          else if is_in closed_attributes name then (f, Raise (AttributeError "value"))
          else (f, Raise (AttributeError name))
      | Some dir_struct =>
          match value_setter dir_struct value f with
          | (dir_struct, f', Ok _) => init_loop (with_node self name dir_struct) rest f'
          | (_, f', Raise e) => (f', Raise e)
          end
      end
  end.

(** The [try] block of [__init__]. *)
Definition init_body (pkcs11 : pyobj) (init_values : gmap string pyobj)
    (path : string) : io TmpEnv :=
  self <~ _prepare_dir_structures pkcs11 path ;;
  init_loop self (sorted_items init_values).

(** [TmpEnv(pkcs11_opts_dict, **init_values)]: what the [try] block raises
    is raised again after [_cleanup()], unless [_cleanup()] raises. *)
Definition TmpEnv_new (pkcs11 : pyobj) (init_values : gmap string pyobj) : io TmpEnv :=
  path <~ mkdtemp ;; fun f =>
  match init_body pkcs11 init_values path f with
  | (f', Ok self) => (f', Ok self)
  | (f', Raise e) =>
      match _cleanup path f' with
      | (f'', Ok _) => (f'', Raise e)
      | (f'', Raise e') => (f'', Raise e')
      end
  end.

(** [with TmpEnv(...) as tmp_env: body]: [__enter__] returns the sandbox,
    [__exit__] calls [_cleanup()] and returns [None], so that what the body
    raised is raised again. *)
Definition with_TmpEnv {A} (pkcs11 : pyobj) (init_values : gmap string pyobj)
    (body : TmpEnv -> io A) : io A :=
  tmp_env <~ TmpEnv_new pkcs11 init_values ;; fun f =>
  let '(f', r) := body tmp_env f in
  match _cleanup (tmp_path_templ tmp_env) f' with
  | (f'', Ok _) => (f'', r)
  | (f'', Raise e') => (f'', Raise e')
  end.

(** *** Toolchain invoker *)

(** [str(cmd_args)] of a list of byte strings *)
Definition str_list (l : list string) : string :=
  "[" ++ Str.join ", " (List.map Str.repr l) ++ "]".

(** [str(exc)] of a [subprocess.CalledProcessError] *)
Definition str_CalledProcessError (returncode : Z) (cmd : list string) : string :=
  "Command '" ++ str_list cmd ++ "' returned non-zero exit status " ++ Str.str_int returncode.

(** [subprocess.check_output(cmd_args, stderr=subprocess.STDOUT)] *)
Definition check_output (cmd_args : list string) : io string := fun f =>
  match run_process cmd_args f with
  | (f', Ok (returncode, output)) =>
      if returncode =? 0 then (f', Ok output)
      else (f', Raise (CalledProcessError returncode cmd_args output))
  | (f', Raise e) => (f', Raise e)
  end.

(** [TmpEnv._execute_command(cmd_args)] *)
Definition _execute_command (cmd_args : list string) : io unit := fun f =>
  match check_output cmd_args f with
  | (f', Ok _) => (f', Ok tt)
  | (f', Raise (CalledProcessError returncode cmd output)) =>
      (f', Raise (RuntimeError ("CA env error (" ++ str_CalledProcessError returncode cmd
                                ++ "; " ++ Str.repr output ++ ")")))
  | (f', Raise e) => (f', Raise e)
  end.

(** [self._get_pkcs11_openssl_command_args()] *)
Definition _get_pkcs11_openssl_command_args (self : TmpEnv) : result (list string) :=
  match pkcs11_opts_dict self with
  | PyNone => Ok []
  | opts_dict =>
      ca_sect_name ←
        match _value (ssl_conf self) with
        | PyConfig doc => get_opt_value doc "ca.default_ca"
        | _ => Raise (AttributeError "get_opt_value")
        end;
      match opts_dict with
      | PyPkcs11 _ _ arg_list =>
          Ok (["-engine"; "pkcs11"] ++ arg_list ++ ["-name"; ca_sect_name])%list
      | _ => Raise (TypeError "object has no attribute '__getitem__'")
      end
  end.

Definition cert_generation_args (self : TmpEnv) : list string :=
  ["openssl"; "ca"; "-config"; path (ssl_conf self); "-notext";
   "-in"; path (csr self); "-out"; path (gen_cert self); "-batch"].

Definition cert_revocation_args (self : TmpEnv) : list string :=
  ["openssl"; "ca"; "-config"; path (ssl_conf self);
   "-revoke"; path (revoke_cert self); "-batch"].

Definition crl_generation_args (self : TmpEnv) : list string :=
  ["openssl"; "ca"; "-config"; path (ssl_conf self); "-gencrl";
   "-out"; path (ca_crl self); "-batch"].

(** [self.execute_cert_generation(additional_openssl_command_args)] *)
Definition execute_cert_generation (self : TmpEnv)
    (additional_openssl_command_args : list string) : io string :=
  pkcs11_args <~ lift (_get_pkcs11_openssl_command_args self) ;;
  _ <~ _execute_command (cert_generation_args self ++ pkcs11_args
                         ++ additional_openssl_command_args)%list ;;
  read_file (path (gen_cert self)).

(** [self.execute_cert_revocation()] *)
Definition execute_cert_revocation (self : TmpEnv) : io unit :=
  pkcs11_args <~ lift (_get_pkcs11_openssl_command_args self) ;;
  _execute_command (cert_revocation_args self ++ pkcs11_args)%list.

(** [self.execute_crl_generation()] *)
Definition execute_crl_generation (self : TmpEnv) : io string :=
  pkcs11_args <~ lift (_get_pkcs11_openssl_command_args self) ;;
  _ <~ _execute_command (crl_generation_args self ++ pkcs11_args)%list ;;
  read_file (path (ca_crl self)).

End WithSystem.
End Env.

(** ** CA environment configuration builder and the three operations *)

(** Names of the package that the operations import. *)
Class Package := {
  normalize_hex_serial_number : string -> Z -> result string;
  CERTIFICATE_SERIAL_NUMBER_HEXDIGIT_NUM : Z;
  SERVICE_CA_PROFILE_NAME : string
}.

Module Manage.
Import Text Path FS Config Sandbox Env.

(** The CA entity of the authentication database, as this module reads
    it. *)
Record CA := mk_CA {
  ssl_config : string;
  certificate : string;
  profile : string;
  iter_all_certificates : list Index.cert_data
}.

Record ca_env_configuration := mk_ca_env_configuration {
  ca : CA;
  tmp_env_init_kwargs_base : gmap string pyobj
}.

(** [get_ca_env_configuration(ca, ca_key_path)] *)
Definition get_ca_env_configuration (ca : CA) (ca_key_path : string)
    : io ca_env_configuration :=
  let base : gmap string pyobj :=
    <["ssl_conf" := PyStr (ssl_config ca)]>
    (<["index_attr" := PyStr DEFAULT_INDEX_ATTR_CONTENT]>
    (<["ca_cert" := PyStr (certificate ca)]> ∅)) in
  if Str.startswith "pkcs11:" ca_key_path
  then
    match split_on ":" (Some 3%nat) ca_key_path with
    | [_; pkcs11_dynamic_path; pkcs11_module_path; pkcs11_additional_openssl_cmd_args] =>
        ret_io (mk_ca_env_configuration ca
                  (<["pkcs11_opts_dict" :=
                       PyPkcs11 pkcs11_dynamic_path pkcs11_module_path
                                (split_ws pkcs11_additional_openssl_cmd_args)]> base))
    | _ => raise (ValueError "need more than that many values to unpack")
    end
  else
    ca_key <~ read_file ca_key_path ;;
    ret_io (mk_ca_env_configuration ca (<["ca_key" := PyStr ca_key]> base)).

(** The base of every bundle: the configuration text, the index
    attributes and the certificate of the CA. *)
Definition has_base (ca : CA) (base : gmap string pyobj) : Prop :=
  base !! "ssl_conf" = Some (PyStr (ssl_config ca))
  /\ base !! "index_attr" = Some (PyStr DEFAULT_INDEX_ATTR_CONTENT)
  /\ base !! "ca_cert" = Some (PyStr (certificate ca)).

Definition no_colon (s : string) : bool :=
  Str.forallb_s (fun c => negb (Ascii.eqb c ":")) s.

Section Operations.
Context `{ConfigSyntax} `{TempDir} `{Subprocess} `{SerialValidator} `{Clock} `{Package}.

(** [TmpEnv] called with the dictionary as its keyword arguments:
    [pkcs11_opts_dict] is the named parameter, [None] when the dictionary
    does not give it; a keyword [self] meets the object itself, and the
    call is refused before the constructor runs. *)
Definition with_TmpEnv_kwargs {A} (tmp_env_init_kwargs : gmap string pyobj)
    (body : TmpEnv -> io A) : io A :=
  match tmp_env_init_kwargs !! "self" with
  | Some _ =>
      raise (TypeError "__init__() got multiple values for keyword argument 'self'")
  | None =>
      with_TmpEnv (default PyNone (tmp_env_init_kwargs !! "pkcs11_opts_dict"))
                  (delete "pkcs11_opts_dict" tmp_env_init_kwargs) body
  end.

(** [generate_certificate_pem(ca_env_configuration, csr_pem, serial_number,
    server_component_n6login)] *)
Definition generate_certificate_pem (conf : ca_env_configuration)
    (csr_pem serial_number : string) (server_component_n6login : option string)
    : io string :=
  serial_number <~ lift (normalize_hex_serial_number serial_number
                           CERTIFICATE_SERIAL_NUMBER_HEXDIGIT_NUM) ;;
  serial_openssl <~ lift (Codec._format_openssl_serial_number (PyStr serial_number)) ;;
  let tmp_env_init_kwargs :=
    <["csr" := PyStr csr_pem]>
    (<["serial" := PyStr serial_openssl]>
    (<["index" := PyStr ""]> (tmp_env_init_kwargs_base conf))) in
  additional_openssl_command_args <~
    lift (match server_component_n6login with
          | None => Ok []
          | Some _ =>
              if String.eqb (profile (ca conf)) SERVICE_CA_PROFILE_NAME
              then Ok SERVER_COMPONENT_ADDITIONAL_OPENSSL_COMMAND_ARGS
              else Raise AssertionError
          end) ;;
  with_TmpEnv_kwargs tmp_env_init_kwargs (fun tmp_env =>
    execute_cert_generation tmp_env additional_openssl_command_args).

(** [generate_crl_pem(ca_env_configuration)] *)
Definition generate_crl_pem (conf : ca_env_configuration) : io string :=
  index <~ lift (Index._make_openssl_index_file_content
                   (iter_all_certificates (ca conf))) ;;
  let tmp_env_init_kwargs :=
    <["index" := PyStr index]>
    (<["serial" := PyStr ""]> (tmp_env_init_kwargs_base conf)) in
  with_TmpEnv_kwargs tmp_env_init_kwargs (fun tmp_env =>
    execute_crl_generation tmp_env).

(** [revoke_certificate_and_generate_crl_pem(ca_env_configuration, cert_data)];
    of [cert_data], the serial number and the certificate in PEM form are
    read. *)
Definition revoke_certificate_and_generate_crl_pem (conf : ca_env_configuration)
    (cert_serial_hex cert_certificate : string) : io string :=
  index <~ lift (Index._make_openssl_index_file_content
                   (iter_all_certificates (ca conf))) ;;
  serial_openssl <~ lift (Codec._format_openssl_serial_number (PyStr cert_serial_hex)) ;;
  let tmp_env_init_kwargs :=
    <["index" := PyStr index]>
    (<["serial" := PyStr serial_openssl]>
    (<["revoke_cert" := PyStr cert_certificate]> (tmp_env_init_kwargs_base conf))) in
  with_TmpEnv_kwargs tmp_env_init_kwargs (fun tmp_env =>
    _ <~ execute_cert_revocation tmp_env ;;
    execute_crl_generation tmp_env).

End Operations.
End Manage.

(** ** A small world for the examples *)

Module Examples.
Import Text Path FS Config Sandbox Env Manage Index.

(** A parser that refuses the empty text only. *)
Definition lenient_syntax : ConfigSyntax :=
  {| config_syntax_error := fun s => if is_empty s then Some "no section" else None |}.

Definition tmp_AbC123 : TempDir :=
  {| mkdtemp_path := fun _ => "/tmp/tmpAbC123" |}.

(** A filesystem with the root and the [/tmp] directory. *)
Definition world : fs := <["/tmp" := Dir]> (<["/" := Dir]> ∅).

(** A toolchain that fails with the status 1 after printing a message. *)
Definition failing_openssl : Subprocess :=
  {| run_process := fun _ f => (f, Ok (1, "unable to load CA private key" ++ NL)) |}.

(** A toolchain that writes the certificate and the CRL and succeeds. *)
Definition working_openssl : Subprocess :=
  {| run_process := fun _ f =>
       (<["/tmp/tmpAbC123/ca.crl" := File "CRL PEM"]>
          (<["/tmp/tmpAbC123/certs/cert.pem" := File "CERT PEM"]> f),
        Ok (0, "Signature ok" ++ NL)) |}.

(** A clock that stands at the first day of 2019. *)
Definition clock_2019 : Clock :=
  {| utcnow := fun _ => mk_datetime 2019 1 1 0 0 0 0 None;
     utcnow_naive := fun _ => eq_refl |}.

(** Three records: one valid and not expired, one expired, one revoked
    and expired. *)
Definition three_records : list cert_data :=
  [mk_cert_data (Some (mk_datetime 2030 1 1 0 0 0 0 None)) None "0a" "/CN=a";
   mk_cert_data (Some (mk_datetime 2010 1 1 0 0 0 0 None)) None "0b" "/CN=b";
   mk_cert_data (Some (mk_datetime 2010 1 1 0 0 0 0 None))
                (Some (mk_datetime 2011 1 1 0 0 0 0 None)) "c" "/CN=c"].

(** The descriptor of a hardware engine. *)
Definition engine_descriptor : pyobj :=
  PyPkcs11 "/usr/lib/engines/engine_pkcs11.so"
           "/usr/lib/x86_64-linux-gnu/opensc-pkcs11.so"
           ["-keyfile"; "foo:bar"; "-keyform"; "spam"].

(** A minimal configuration of a CA. *)
Definition minimal_config : string :=
  "[ca]" ++ NL ++ "default_ca = CA_default" ++ NL ++ NL
  ++ "[CA_default]" ++ NL
  ++ "dir = ./demoCA" ++ NL
  ++ "certificate = $dir/cacert.pem" ++ NL
  ++ "private_key = $dir/private/cakey.pem" ++ NL
  ++ "new_certs_dir = $dir/newcerts" ++ NL
  ++ "database = $dir/index.txt" ++ NL
  ++ "serial = $dir/serial" ++ NL
  ++ "policy = policy_any" ++ NL.

End Examples.
(** ** Fields of a line *)

Module Fields.

Definition tab : ascii := ascii_of_nat 9.
Definition newline : ascii := ascii_of_nat 10.

(** The character [c] does not occur in [s]. *)
Definition without (c : ascii) (s : string) : bool :=
  Str.forallb_s (fun a => negb (Ascii.eqb a c)) s.

(** A string that can stand as a field of a line of the index: it holds
    no tab and no newline. *)
Definition plain_field (s : string) : bool := without tab s && without newline s.

End Fields.

(** ** The layout of a sandbox *)

Module Layout.
Import Text Path FS Sandbox Env.

(** The attributes of a sandbox that are nodes. *)
Definition node_names : list string :=
  ["ca_cert"; "ca_key"; "certs_dir"; "csr"; "index"; "index_attr";
   "revoke_cert"; "ca_crl"; "serial"; "gen_cert"; "ssl_conf"].

(** The nodes that are plain files: all but the output directory and the
    configuration. *)
Definition file_node_names : list string :=
  ["ca_cert"; "ca_key"; "csr"; "index"; "index_attr";
   "revoke_cert"; "ca_crl"; "serial"; "gen_cert"].

(** Where the file of a plain node lies under the root of the sandbox, as
    [_prepare_dir_structures] names it. *)
Definition node_suffix (name : string) : option string :=
  if String.eqb name "ca_cert" then Some "/cacert.pem"
  else if String.eqb name "ca_key" then Some "/private/cakey.pem"
  else if String.eqb name "csr" then Some "/csr/client.csr"
  else if String.eqb name "index" then Some "/index.txt"
  else if String.eqb name "index_attr" then Some "/index.txt.attr"
  else if String.eqb name "revoke_cert" then Some "/revoke_cert.pem"
  else if String.eqb name "ca_crl" then Some "/ca.crl"
  else if String.eqb name "serial" then Some "/serial"
  else if String.eqb name "gen_cert" then Some "/certs/cert.pem"
  else None.

(** The directories of a sandbox at the root [R]. *)
Definition sandbox_dirs (R : string) : list string :=
  [R; R ++ "/private"; R ++ "/certs"; R ++ "/csr"].

(** Where the file of a node lies under the root of the sandbox; the
    output directory has none. *)
Definition node_file (name : string) : option string :=
  if String.eqb name "ssl_conf" then Some "/openssl.cnf" else node_suffix name.

(** The sandbox at the path [p] while its nodes are written: the nodes are
    where [_prepare_dir_structures] put them, with the options it gave
    them, the directories are there, and no file of a node is a
    directory. *)
Definition laid_out (pkcs11 : pyobj) (p : string) (env : TmpEnv) (g : fs) : Prop :=
  (forall n d0, getattr_node (prepared pkcs11 p) n = Some d0 ->
     exists d, getattr_node env n = Some d /\ same_layout d0 d /\ opts d = opts d0)
  /\ (forall q, q ∈ sandbox_dirs (rstrip_slash p) -> g !! q = Some Dir)
  /\ (forall n sfx, node_file n = Some sfx ->
        g !! (rstrip_slash p ++ sfx) <> Some Dir).

Section Stored.
Context `{ConfigSyntax}.

(** What the assignment of [v] to the node [n] of the sandbox at [p] keeps
    in the node and writes to its file, when it can: a byte string as it
    is, and for the configuration node the adapted document and its
    text. *)
Definition stored (pkcs11 : pyobj) (p n : string) (v : pyobj) : option (pyobj * string) :=
  if String.eqb n "ssl_conf"
  then match _get_adjusted_openssl_config_str (ssl_conf (prepared pkcs11 p)) v with
       | Ok doc => Some (PyConfig doc, Str.join Str.NL doc)
       | Raise _ => None
       end
  else match v with
       | PyStr s => Some (v, s)
       | _ => None
       end.

End Stored.

End Layout.

(** ** More of the small world *)

Module MoreExamples.
Import Text Path FS Config Sandbox Env Manage Index Examples.

(** A clock that stands at the first day of 2000. *)
Definition clock_2000 : Clock :=
  {| utcnow := fun _ => mk_datetime 2000 1 1 0 0 0 0 None;
     utcnow_naive := fun _ => eq_refl |}.

(** A record whose expiry timestamp is aware. *)
Definition aware_expiry_record : cert_data :=
  mk_cert_data (Some (mk_datetime 2030 1 1 0 0 0 0 (Some 60))) None "0d" "/CN=d".

(** A record revoked in 2011 that expired in 2010. *)
Definition revoked_record : cert_data :=
  mk_cert_data (Some (mk_datetime 2010 1 1 0 0 0 0 None))
               (Some (mk_datetime 2011 1 1 0 0 0 0 None)) "c" "/CN=c".

(** The filesystem with the new and empty directory [/tmp/tmpAbC123]. *)
Definition new_directory : fs := <["/tmp/tmpAbC123" := Dir]> world.

(** The filesystem after [_prepare_dir_structures] in that directory. *)
Definition prepared_directory : fs :=
  <["/tmp/tmpAbC123/csr" := Dir]>
  (<["/tmp/tmpAbC123/certs" := Dir]>
  (<["/tmp/tmpAbC123/private" := Dir]> new_directory)).

(** A toolchain whose program is not there. *)
Definition missing_openssl : Subprocess :=
  {| run_process := fun _ f => (f, Raise (OSError ENOENT "openssl")) |}.

(** A package whose serial numbers have twenty digits in lower case, and
    whose service CAs have the profile [service]. *)
Definition example_package : Package :=
  {| normalize_hex_serial_number := fun s n =>
       if (Z.of_nat (String.length s) <=? n)
       then Ok (Str.lower s) else Raise (ValueError "too many digits");
     CERTIFICATE_SERIAL_NUMBER_HEXDIGIT_NUM := 20;
     SERVICE_CA_PROFILE_NAME := "service" |}.

End MoreExamples.

(** * Properties *)

#[local] Arguments String.append !s1 s2 : simpl nomatch.
#[local] Arguments Env.is_in : simpl never.

(** ** Facts on byte strings *)

Module StrFacts.
Import Str.

Lemma upper_char_idem c : upper_char (upper_char c) = upper_char c.
Proof. destruct c as [[] [] [] [] [] [] [] []]; reflexivity. Qed.

Lemma lower_upper_char c : lower_char (upper_char c) = lower_char c.
Proof. destruct c as [[] [] [] [] [] [] [] []]; reflexivity. Qed.

Lemma upper_idem s : upper (upper s) = upper s.
Proof.
  unfold upper. induction s as [|c s IH]; simpl; [reflexivity|].
  now rewrite upper_char_idem, IH.
Qed.

Lemma smap_length f s : String.length (smap f s) = String.length s.
Proof. induction s as [|c s IH]; simpl; congruence. Qed.

Lemma upper_length s : String.length (upper s) = String.length s.
Proof. apply smap_length. Qed.

Lemma upper_cons c s : upper (String c s) = String (upper_char c) (upper s).
Proof. reflexivity. Qed.

Lemma upper_zero_cons s : upper ("0" ++ s) = "0" ++ upper s.
Proof. reflexivity. Qed.

Lemma append_length a b :
  String.length (a ++ b) = (String.length a + String.length b)%nat.
Proof. induction a as [|c a IH]; simpl; congruence. Qed.

Lemma append_assoc a b c : (a ++ b) ++ c = a ++ (b ++ c).
Proof. induction a as [|x a IH]; simpl; congruence. Qed.

Lemma append_nil_r a : a ++ "" = a.
Proof. induction a as [|x a IH]; simpl; congruence. Qed.

End StrFacts.

(** ** Serial formatter *)

Module SerialFacts.
Import Str StrFacts Codec.

Section WithValidator.
Context `{SerialValidator}.

Lemma format_str s :
  _format_openssl_serial_number (PyStr s)
  = if valid_serial s then Ok (normalized s)
    else Raise (ValueError (not_valid_message (normalized s))).
Proof.
  unfold _format_openssl_serial_number, valid_serial, normalized. simpl.
  destruct (is_cert_serial_number_valid _); reflexivity.
Qed.

Lemma format_unicode u :
  _format_openssl_serial_number (PyUnicode u)
  = match encode_ascii u with
    | Ok s => _format_openssl_serial_number (PyStr s)
    | Raise e => Raise e
    end.
Proof.
  unfold _format_openssl_serial_number. destruct (encode_ascii u); reflexivity.
Qed.

Lemma format_config lines :
  _format_openssl_serial_number (PyConfig lines)
  = _format_openssl_serial_number (PyStr (join NL lines)).
Proof. reflexivity. Qed.

Lemma normalized_even s : Nat.even (String.length (normalized s)) = true.
Proof.
  unfold normalized. destruct (Nat.odd (String.length (upper s))) eqn:E.
  - simpl String.length. rewrite Nat.even_succ. exact E.
  - rewrite <- Nat.negb_odd, E. reflexivity.
Qed.

Lemma normalized_upper s : upper (normalized s) = normalized s.
Proof.
  unfold normalized. destruct (Nat.odd _).
  - rewrite upper_zero_cons, upper_idem. reflexivity.
  - apply upper_idem.
Qed.

Lemma normalized_idem s : normalized (normalized s) = normalized s.
Proof.
  unfold normalized at 1. rewrite normalized_upper.
  rewrite <- Nat.negb_even, normalized_even. reflexivity.
Qed.

Lemma valid_serial_normalized s : valid_serial (normalized s) = valid_serial s.
Proof. unfold valid_serial. now rewrite normalized_idem. Qed.

Lemma upper_char_not_lower c : is_lower (upper_char c) = false.
Proof. destruct c as [[] [] [] [] [] [] [] []]; reflexivity. Qed.

Lemma upper_char_same c : same_char_but_case c (upper_char c) = true.
Proof. destruct c as [[] [] [] [] [] [] [] []]; reflexivity. Qed.

Lemma upper_is_uppercase s : is_uppercase (upper s) = true.
Proof.
  unfold is_uppercase, upper. induction s as [|c s IH]; simpl; [reflexivity|].
  now rewrite upper_char_not_lower, IH.
Qed.

Lemma upper_same s : same_but_case s (upper s) = true.
Proof.
  unfold upper. induction s as [|c s IH]; simpl; [reflexivity|].
  now rewrite upper_char_same, IH.
Qed.

(** C4. For every valid hexadecimal string [s] the serial formatter
    returns the normalization of [s]; formatting that result again returns
    it unchanged (the formatter is idempotent); the result is upper case:
    it holds no small letter, and it is [s], with a single ["0"] in front
    when the length of [s] is odd, but for the case of the letters; it has
    an even number of digits; and ["ABC"], when valid, is formatted to
    ["0ABC"]. *)
Theorem format_serial_idempotent (s : string) :
  valid_serial s = true ->
  _format_openssl_serial_number (PyStr s) = Ok (normalized s)
  /\ _format_openssl_serial_number (PyStr (normalized s)) = Ok (normalized s)
  /\ upper (normalized s) = normalized s
  /\ is_uppercase (normalized s) = true
  /\ same_but_case (if Nat.odd (String.length s) then "0" ++ s else s) (normalized s) = true
  /\ Nat.even (String.length (normalized s)) = true
  /\ (Nat.odd (String.length s) = true -> normalized s = "0" ++ upper s)
  /\ (Nat.odd (String.length s) = false -> normalized s = upper s)
  /\ (s = "ABC" -> _format_openssl_serial_number (PyStr s) = Ok "0ABC").
Proof.
  intros Hv. repeat split.
  - rewrite format_str, Hv. reflexivity.
  - rewrite format_str, valid_serial_normalized, Hv, normalized_idem. reflexivity.
  - apply normalized_upper.
  - unfold normalized. destruct (Nat.odd _); [|apply upper_is_uppercase].
    change (is_uppercase ("0" ++ upper s)) with (is_uppercase (upper s)).
    apply upper_is_uppercase.
  - unfold normalized. rewrite upper_length. destruct (Nat.odd _); [|apply upper_same].
    change (same_but_case ("0" ++ s) ("0" ++ upper s)) with (same_but_case s (upper s)).
    apply upper_same.
  - apply normalized_even.
  - intros Hodd. unfold normalized. now rewrite upper_length, Hodd.
  - intros Hodd. unfold normalized. now rewrite upper_length, Hodd.
  - intros ->. rewrite format_str, Hv. reflexivity.
Qed.

Lemma format_nontext v :
  is_text v = false ->
  _format_openssl_serial_number v = Raise (TypeError "serial_number has a wrong type").
Proof. destruct v; simpl; intros; try discriminate; reflexivity. Qed.

Lemma format_text_invalid v :
  is_text v = true -> valid_after_normalization v = false ->
  exists e, _format_openssl_serial_number v = Raise e /\ is_ValueError e = true.
Proof.
  destruct v; simpl; try discriminate; intros _ Hv.
  - rewrite format_str, Hv. eexists; split; reflexivity.
  - rewrite format_unicode.
    destruct (encode_ascii u) as [s0|e] eqn:E.
    + rewrite format_str, Hv. eexists; split; reflexivity.
    + exists e. split; [reflexivity|].
      clear Hv. revert e E. induction u as [|cp u IH]; simpl; intros e E.
      * discriminate.
      * destruct (cp <? 128)%N; [|now inversion E].
        destruct (encode_ascii u); [discriminate|]. inversion E; subst. now apply IH.
  - rewrite format_config, format_str, Hv. eexists; split; reflexivity.
Qed.

(** C5. An input that is not a timestamp value makes the date formatter
    fail with a [TypeError]; an input that is not text makes the serial
    formatter fail with a [TypeError]; a text input that is not a valid
    serial number after normalization makes it fail with a [ValueError]. *)
Theorem formatters_reject (v : pyobj) :
  (is_timestamp v = false ->
     exists msg, _format_openssl_dt v = Raise (TypeError msg))
  /\ (is_text v = false ->
       exists msg, _format_openssl_serial_number v = Raise (TypeError msg))
  /\ (is_text v = true -> valid_after_normalization v = false ->
       exists e, _format_openssl_serial_number v = Raise e /\ is_ValueError e = true).
Proof.
  split; [|split].
  - destruct v; simpl; intros; try discriminate; eexists; reflexivity.
  - intros Hn. eexists. now apply format_nontext.
  - apply format_text_invalid.
Qed.

End WithValidator.

(** ["abc"] and ["ABC"] are formatted to ["0ABC"] under the hexadecimal
    validity rule, and ["0ABC"] to itself. *)
Lemma format_serial_idempotent_witness :
  @valid_serial hex_serial_validator "abc" = true
  /\ @_format_openssl_serial_number hex_serial_validator (PyStr "abc") = Ok "0ABC"
  /\ @_format_openssl_serial_number hex_serial_validator (PyStr "0ABC") = Ok "0ABC"
  /\ is_uppercase "0ABC" = true
  /\ @_format_openssl_serial_number hex_serial_validator (PyStr "ABC") = Ok "0ABC".
Proof.
  split; [reflexivity|].
  destruct (@format_serial_idempotent hex_serial_validator "abc" eq_refl)
    as (H1 & H2 & _ & H4 & _).
  split; [exact H1|]. split; [exact H2|]. split; [exact H4|].
  apply (@format_serial_idempotent hex_serial_validator "ABC"); reflexivity.
Defined.

(** [None] is refused by both formatters, and the text ["xyz"] by the
    serial formatter under the hexadecimal validity rule. *)
Lemma formatters_reject_witness :
  (exists msg, _format_openssl_dt PyNone = Raise (TypeError msg))
  /\ (exists msg, @_format_openssl_serial_number hex_serial_validator PyNone
                  = Raise (TypeError msg))
  /\ (exists e, @_format_openssl_serial_number hex_serial_validator (PyStr "xyz") = Raise e
               /\ is_ValueError e = true).
Proof.
  split; [|split].
  - apply (@formatters_reject hex_serial_validator PyNone); reflexivity.
  - apply (@formatters_reject hex_serial_validator PyNone); reflexivity.
  - apply (@formatters_reject hex_serial_validator (PyStr "xyz")); reflexivity.
Defined.

End SerialFacts.

(** ** Facts on the calendar *)

Module CalendarFacts.
Import Calendar.

Ltac split_conj := repeat match goal with |- _ /\ _ => split end.

Ltac enum_month m :=
  let H := fresh "Hm" in
  assert (m = 1 \/ m = 2 \/ m = 3 \/ m = 4 \/ m = 5 \/ m = 6 \/ m = 7 \/ m = 8
          \/ m = 9 \/ m = 10 \/ m = 11 \/ m = 12) as H by lia;
  destruct H as [->|[->|[->|[->|[->|[->|[->|[->|[->|[->|[->| ->]]]]]]]]]]].

Lemma days_before_year_succ y :
  days_before_year (y + 1) = days_before_year y + year_length y.
Proof.
  unfold days_before_year, year_length, is_leap.
  replace (y + 1 - 1) with y by lia.
  destruct (Z.eqb_spec (y mod 4) 0), (Z.eqb_spec (y mod 100) 0),
    (Z.eqb_spec (y mod 400) 0); simpl; Z.div_mod_to_equations; lia.
Qed.

Lemma days_before_year_mono y1 y2 :
  y1 <= y2 -> days_before_year y1 <= days_before_year y2.
Proof. unfold days_before_year. intros. Z.div_mod_to_equations. lia. Qed.

Lemma days_in_month_bounds y m : 28 <= days_in_month y m <= 31.
Proof.
  unfold days_in_month.
  destruct (m =? 2); [destruct (is_leap y); lia|].
  destruct (_ || _); lia.
Qed.

Lemma days_before_month_succ y m :
  1 <= m < 12 ->
  days_before_month y (m + 1) = days_before_month y m + days_in_month y m.
Proof.
  intros Hm. unfold days_before_month, days_in_month.
  remember (is_leap y) as l. enum_month m; try lia; destruct l; reflexivity.
Qed.

Lemma days_before_month_last y :
  days_before_month y 12 + days_in_month y 12 = year_length y.
Proof.
  unfold days_before_month, days_in_month, year_length.
  remember (is_leap y) as l. destruct l; reflexivity.
Qed.

Lemma days_before_month_first y : days_before_month y 1 = 0.
Proof. unfold days_before_month. simpl. reflexivity. Qed.

(** The months before [m2] end before [m2] begins. *)
Lemma days_before_month_mono y m1 m2 :
  1 <= m1 -> m1 < m2 -> m2 <= 12 ->
  days_before_month y m1 + days_in_month y m1 <= days_before_month y m2.
Proof.
  intros H1 H12 H2. unfold days_before_month, days_in_month.
  remember (is_leap y) as l.
  enum_month m1; try lia; enum_month m2; try lia; destruct l; simpl; lia.
Qed.

Lemma day_of_year_bounds y m d :
  1 <= m <= 12 -> 1 <= d <= days_in_month y m ->
  1 <= days_before_month y m + d <= year_length y.
Proof.
  intros Hm Hd. split.
  - assert (0 <= days_before_month y m); [|lia].
    unfold days_before_month. remember (is_leap y) as l.
    enum_month m; try lia; destruct l; simpl; lia.
  - destruct (Z.eq_dec m 12) as [->|].
    + pose proof (days_before_month_last y). lia.
    + pose proof (days_before_month_mono y m 12 ltac:(lia) ltac:(lia) ltac:(lia)).
      pose proof (days_before_month_last y).
      pose proof (days_in_month_bounds y 12). lia.
Qed.

(** [toordinal] follows the order of the dates. *)
Lemma toordinal_lt y1 m1 d1 y2 m2 d2 :
  1 <= m1 <= 12 -> 1 <= d1 <= days_in_month y1 m1 ->
  1 <= m2 <= 12 -> 1 <= d2 <= days_in_month y2 m2 ->
  (y1 < y2 \/ (y1 = y2 /\ (m1 < m2 \/ (m1 = m2 /\ d1 < d2)))) ->
  toordinal y1 m1 d1 < toordinal y2 m2 d2.
Proof.
  intros Hm1 Hd1 Hm2 Hd2 Hlt. unfold toordinal.
  pose proof (day_of_year_bounds y1 m1 d1 Hm1 Hd1).
  pose proof (day_of_year_bounds y2 m2 d2 Hm2 Hd2).
  destruct Hlt as [Hy|[-> [Hm| [-> Hd]]]].
  - pose proof (days_before_year_succ y1).
    pose proof (days_before_year_mono (y1 + 1) y2 ltac:(lia)). lia.
  - pose proof (days_before_month_mono y2 m1 m2 ltac:(lia) Hm ltac:(lia)). lia.
  - lia.
Qed.

Lemma toordinal_inj y1 m1 d1 y2 m2 d2 :
  1 <= m1 <= 12 -> 1 <= d1 <= days_in_month y1 m1 ->
  1 <= m2 <= 12 -> 1 <= d2 <= days_in_month y2 m2 ->
  toordinal y1 m1 d1 = toordinal y2 m2 d2 ->
  y1 = y2 /\ m1 = m2 /\ d1 = d2.
Proof.
  intros Hm1 Hd1 Hm2 Hd2 Heq.
  destruct (Z.lt_trichotomy y1 y2) as [Hy|[Hy|Hy]].
  - pose proof (toordinal_lt y1 m1 d1 y2 m2 d2 Hm1 Hd1 Hm2 Hd2 ltac:(lia)). lia.
  - subst y2. destruct (Z.lt_trichotomy m1 m2) as [Hm|[Hm|Hm]].
    + pose proof (toordinal_lt y1 m1 d1 y1 m2 d2 Hm1 Hd1 Hm2 Hd2 ltac:(lia)). lia.
    + subst m2. unfold toordinal in Heq. lia.
    + pose proof (toordinal_lt y1 m2 d2 y1 m1 d1 Hm2 Hd2 Hm1 Hd1 ltac:(lia)). lia.
  - pose proof (toordinal_lt y2 m2 d2 y1 m1 d1 Hm2 Hd2 Hm1 Hd1 ltac:(lia)). lia.
Qed.

Lemma valid_datetime_wf dt : valid_datetime dt = true -> wf_datetime dt.
Proof.
  unfold valid_datetime, MINYEAR, MAXYEAR. rewrite !andb_true_iff.
  intros [[[[[[[[[[[[[[? ?] ?] ?] ?] ?] ?] ?] ?] ?] ?] ?] ?] ?] Htz].
  constructor; try lia.
  intros off E. rewrite E in Htz. lia.
Qed.

Lemma wf_valid_datetime dt : wf_datetime dt -> valid_datetime dt = true.
Proof.
  intros []. unfold valid_datetime, MINYEAR, MAXYEAR.
  rewrite !andb_true_iff. repeat split; try lia.
  destruct (tzinfo dt) as [off|]; [|reflexivity].
  specialize (wf_tzinfo0 off eq_refl). lia.
Qed.

Lemma prev_day_ok dt n :
  wf_datetime dt -> prev_day dt = Ok n ->
  wf_datetime n
  /\ toordinal (year n) (month n) (day n)
     = toordinal (year dt) (month dt) (day dt) - 1
  /\ hour n = hour dt /\ minute n = minute dt /\ second n = second dt
  /\ microsecond n = microsecond dt /\ tzinfo n = tzinfo dt.
Proof.
  intros [] E. unfold prev_day, MINYEAR in E.
  destruct (Z.ltb_spec 1 (day dt)) as [Hd|Hd].
  { inversion E; subst n; clear E. simpl. unfold toordinal.
    split; [constructor; simpl; auto; lia | repeat split; simpl; lia]. }
  destruct (Z.ltb_spec 1 (month dt)) as [Hmo|Hmo].
  { inversion E; subst n; clear E. simpl.
    pose proof (days_in_month_bounds (year dt) (month dt - 1)).
    pose proof (days_before_month_succ (year dt) (month dt - 1) ltac:(lia)) as Hs.
    replace (month dt - 1 + 1) with (month dt) in Hs by lia.
    unfold toordinal. split; [constructor; simpl; auto; lia | repeat split; simpl; lia]. }
  destruct (Z.ltb_spec 1 (year dt)) as [Hy|Hy]; [|discriminate].
  inversion E; subst n; clear E. simpl.
  pose proof (days_before_year_succ (year dt - 1)) as Hs.
  replace (year dt - 1 + 1) with (year dt) in Hs by lia.
  pose proof (days_before_month_last (year dt - 1)) as Hl.
  assert (days_in_month (year dt - 1) 12 = 31) as H31 by reflexivity.
  assert (month dt = 1) as Hm1 by lia.
  pose proof (days_before_month_first (year dt)) as Hf.
  unfold toordinal. rewrite Hm1, Hf.
  split; [constructor; simpl; auto; lia | repeat split; simpl; lia].
Qed.

Lemma prev_day_overflow dt :
  wf_datetime dt -> prev_day dt = Raise OverflowError \/ exists n, prev_day dt = Ok n.
Proof.
  intros _. unfold prev_day.
  repeat match goal with |- context [if ?b then _ else _] => destruct b end; eauto.
Qed.

Lemma prev_day_raise dt e :
  wf_datetime dt -> prev_day dt = Raise e ->
  toordinal (year dt) (month dt) (day dt) = 1.
Proof.
  intros [] E. unfold prev_day, MINYEAR in E.
  destruct (Z.ltb_spec 1 (day dt)); [discriminate|].
  destruct (Z.ltb_spec 1 (month dt)); [discriminate|].
  destruct (Z.ltb_spec 1 (year dt)); [discriminate|].
  assert (year dt = 1) as -> by lia. assert (month dt = 1) as -> by lia.
  assert (day dt = 1) as -> by lia. reflexivity.
Qed.

Lemma next_day_ok dt n :
  wf_datetime dt -> next_day dt = Ok n ->
  wf_datetime n
  /\ toordinal (year n) (month n) (day n)
     = toordinal (year dt) (month dt) (day dt) + 1
  /\ hour n = hour dt /\ minute n = minute dt /\ second n = second dt
  /\ microsecond n = microsecond dt /\ tzinfo n = tzinfo dt.
Proof.
  intros [] E. unfold next_day, MAXYEAR in E.
  destruct (Z.ltb_spec (day dt) (days_in_month (year dt) (month dt))) as [Hd|Hd].
  { inversion E; subst n; clear E. simpl. unfold toordinal.
    split; [constructor; simpl; auto; lia | repeat split; simpl; lia]. }
  destruct (Z.ltb_spec (month dt) 12) as [Hmo|Hmo].
  { inversion E; subst n; clear E. simpl.
    pose proof (days_in_month_bounds (year dt) (month dt + 1)).
    pose proof (days_before_month_succ (year dt) (month dt) ltac:(lia)) as Hs.
    unfold toordinal. split; [constructor; simpl; auto; lia | repeat split; simpl; lia]. }
  destruct (Z.ltb_spec (year dt) 9999) as [Hy|Hy]; [|discriminate].
  inversion E; subst n; clear E. simpl.
  pose proof (days_before_year_succ (year dt)) as Hs.
  assert (month dt = 12) as Hm12 by lia.
  pose proof (days_before_month_last (year dt)) as Hl.
  pose proof (days_before_month_first (year dt + 1)) as Hf.
  pose proof (days_in_month_bounds (year dt + 1) 1).
  unfold toordinal. rewrite Hm12 in *. rewrite Hf.
  split; [constructor; simpl; auto; lia | repeat split; simpl; lia].
Qed.

Lemma next_day_raise dt e :
  wf_datetime dt -> next_day dt = Raise e ->
  toordinal (year dt) (month dt) (day dt) = toordinal 9999 12 31.
Proof.
  intros [] E. unfold next_day, MAXYEAR in E.
  destruct (Z.ltb_spec (day dt) (days_in_month (year dt) (month dt))); [discriminate|].
  destruct (Z.ltb_spec (month dt) 12); [discriminate|].
  destruct (Z.ltb_spec (year dt) 9999); [discriminate|].
  assert (year dt = 9999) as Hy by lia. assert (month dt = 12) as Hm by lia.
  rewrite Hy, Hm in *. assert (day dt = 31) as -> by (change (days_in_month 9999 12) with 31 in *; lia).
  reflexivity.
Qed.

Lemma instant_wall dt :
  instant dt = wall_seconds dt
               - 60 * match tzinfo dt with Some off => off | None => 0 end.
Proof. reflexivity. Qed.

Lemma minus_offset_spec dt off :
  wf_datetime dt -> -1440 < off < 1440 ->
  match minus_offset dt off with
  | Ok n => wf_datetime n /\ tzinfo n = None /\ microsecond n = microsecond dt
            /\ instant n = wall_seconds dt - 60 * off
  | Raise _ => wall_seconds dt - 60 * off < 86400
               \/ (toordinal 9999 12 31 + 1) * 86400 <= wall_seconds dt - 60 * off
  end.
Proof.
  intros Hwf Hoff. unfold minus_offset.
  set (total := hour dt * 60 + minute dt - off).
  set (rem := total mod 1440).
  set (moved := mk_datetime (year dt) (month dt) (day dt) (rem / 60) (rem mod 60)
                            (second dt) (microsecond dt) None).
  pose proof Hwf as [Hy Hmo Hd Hh Hmi Hs Hus Htz].
  assert (-1440 < total < 2880) as Htot by (unfold total; lia).
  assert (0 <= rem < 1440) as Hrem by (apply Z.mod_pos_bound; lia).
  assert (wf_datetime moved) as Hmoved.
  { constructor; simpl; try lia; try discriminate; Z.div_mod_to_equations; lia. }
  assert (rem / 60 * 60 + rem mod 60 = rem) as Hdm by (Z.div_mod_to_equations; lia).
  destruct (Z.ltb_spec total 0) as [Hneg|Hnneg].
  { assert (rem = total + 1440) as Hr by (unfold rem; Z.div_mod_to_equations; lia).
    destruct (prev_day moved) as [n|e] eqn:E.
    - destruct (prev_day_ok _ _ Hmoved E) as (Hn & Hord & Hh' & Hmi' & Hs' & Hus' & Htz').
      unfold moved in Hord, Hh', Hmi', Hs', Hus', Htz'.
      simpl in Hord, Hh', Hmi', Hs', Hus', Htz'. split_conj; try assumption.
      rewrite instant_wall, Htz'. unfold wall_seconds. rewrite Hord, Hh', Hmi', Hs'.
      unfold total in *. lia.
    - left. pose proof (prev_day_raise _ _ Hmoved E) as Hord. unfold moved in Hord. simpl in Hord.
      unfold wall_seconds. rewrite Hord. unfold total in *. lia. }
  destruct (Z.ltb_spec total 1440) as [Hin|Hover].
  { assert (rem = total) as Hr by (unfold rem; Z.div_mod_to_equations; lia).
    split_conj; try assumption; try reflexivity.
    rewrite instant_wall. unfold wall_seconds, moved. simpl.
    unfold total in *. lia. }
  assert (rem = total - 1440) as Hr by (unfold rem; Z.div_mod_to_equations; lia).
  destruct (next_day moved) as [n|e] eqn:E.
  - destruct (next_day_ok _ _ Hmoved E) as (Hn & Hord & Hh' & Hmi' & Hs' & Hus' & Htz').
    unfold moved in Hord, Hh', Hmi', Hs', Hus', Htz'.
      simpl in Hord, Hh', Hmi', Hs', Hus', Htz'. split_conj; try assumption.
    rewrite instant_wall, Htz'. unfold wall_seconds. rewrite Hord, Hh', Hmi', Hs'.
    unfold total in *. lia.
  - right. pose proof (next_day_raise _ _ Hmoved E) as Hord. unfold moved in Hord. simpl in Hord.
    unfold wall_seconds. rewrite Hord. unfold total in *. lia.
Qed.

Lemma in_strftime_range_spec dt :
  in_strftime_range dt = true <->
  toordinal 1900 1 1 * 86400 <= instant dt < (toordinal 9999 12 31 + 1) * 86400.
Proof. unfold in_strftime_range. rewrite andb_true_iff, Z.leb_le, Z.ltb_lt. tauto. Qed.

(** The year of a naive datetime whose instant is not before 1900. *)
Lemma year_of_instant n :
  wf_datetime n -> tzinfo n = None ->
  toordinal 1900 1 1 * 86400 <= instant n -> 1900 <= year n.
Proof.
  intros [] Htz Hi. rewrite instant_wall, Htz in Hi. unfold wall_seconds in Hi.
  destruct (Z.lt_ge_cases (year n) 1900) as [Hlt|]; [|assumption].
  pose proof (toordinal_lt (year n) (month n) (day n) 1900 1 1
                ltac:(assumption) ltac:(assumption) ltac:(lia)
                ltac:(change (days_in_month 1900 1) with 31; lia) ltac:(lia)).
  lia.
Qed.

(** Normalization to UTC of a datetime in the range of the formatter. *)
Lemma datetime_utc_normalize_spec dt :
  wf_datetime dt -> in_strftime_range dt = true ->
  exists n, Codec.datetime_utc_normalize dt = Ok n
            /\ wf_datetime n /\ tzinfo n = None /\ instant n = instant dt
            /\ 1900 <= year n.
Proof.
  intros Hwf Hr. apply in_strftime_range_spec in Hr.
  unfold Codec.datetime_utc_normalize.
  destruct (tzinfo dt) as [off|] eqn:Htz.
  - pose proof (wf_tzinfo _ Hwf off Htz) as Hoff.
    replace ((-1440 <? off) && (off <? 1440)) with true
      by (symmetry; apply andb_true_iff; split; apply Z.ltb_lt; lia).
    pose proof (minus_offset_spec dt off Hwf Hoff) as Hspec.
    rewrite instant_wall, Htz in Hr.
    destruct (minus_offset dt off) as [n|e].
    + destruct Hspec as (Hn & Hnt & _ & Hi).
      exists n. split_conj; try assumption; try reflexivity.
      * rewrite Hi, instant_wall, Htz. reflexivity.
      * apply year_of_instant; try assumption. lia.
    + exfalso. change (toordinal 1900 1 1) with 693596 in Hr. lia.
  - exists dt. split_conj; try assumption; try reflexivity.
    apply year_of_instant; try assumption. lia.
Qed.

(** Two naive datetimes at the same instant have the same fields down to
    the second. *)
Lemma instant_inj n1 n2 :
  wf_datetime n1 -> wf_datetime n2 -> tzinfo n1 = None -> tzinfo n2 = None ->
  instant n1 = instant n2 ->
  year n1 = year n2 /\ month n1 = month n2 /\ day n1 = day n2
  /\ hour n1 = hour n2 /\ minute n1 = minute n2 /\ second n1 = second n2.
Proof.
  intros [] [] Ht1 Ht2 Hi. rewrite !instant_wall, Ht1, Ht2 in Hi.
  unfold wall_seconds in Hi.
  assert (toordinal (year n1) (month n1) (day n1)
          = toordinal (year n2) (month n2) (day n2)) as Hord by lia.
  apply toordinal_inj in Hord; try assumption.
  destruct Hord as (Hy & Hm & Hd). split_conj; lia.
Qed.

(** What the shift by the offset raises is an [OverflowError]. *)
Lemma minus_offset_raise dt off e : minus_offset dt off = Raise e -> e = OverflowError.
Proof.
  unfold minus_offset, prev_day, next_day.
  repeat match goal with |- context [if ?b then _ else _] => destruct b end;
    intros E; now inversion E.
Qed.

Lemma toordinal_le y1 m1 d1 y2 m2 d2 :
  1 <= m1 <= 12 -> 1 <= d1 <= days_in_month y1 m1 ->
  1 <= m2 <= 12 -> 1 <= d2 <= days_in_month y2 m2 ->
  (y1 < y2 \/ (y1 = y2 /\ (m1 < m2 \/ (m1 = m2 /\ d1 <= d2)))) ->
  toordinal y1 m1 d1 <= toordinal y2 m2 d2.
Proof.
  intros Hm1 Hd1 Hm2 Hd2 Hle.
  destruct (Z.eq_dec d1 d2) as [Hd|Hd].
  - destruct Hle as [Hy|[Hy [Hm|[Hm _]]]].
    + apply Z.lt_le_incl. apply toordinal_lt; auto.
    + apply Z.lt_le_incl. apply toordinal_lt; auto.
    + subst. lia.
  - apply Z.lt_le_incl. apply toordinal_lt; auto.
    destruct Hle as [Hy|[Hy [Hm|[Hm Hdd]]]]; [auto|auto|].
    right. split; [assumption|]. right. split; [assumption|lia].
Qed.

(** The instants of the naive datetimes: from 0001-01-01T00:00:00 to
    9999-12-31T23:59:59. *)
Lemma naive_instant_bounds n :
  wf_datetime n -> tzinfo n = None ->
  toordinal 1 1 1 * 86400 <= instant n < (toordinal 9999 12 31 + 1) * 86400.
Proof.
  intros Hwf Htz. rewrite instant_wall, Htz. unfold wall_seconds.
  pose proof Hwf as [].
  pose proof (days_in_month_bounds (year n) (month n)) as Hdim.
  assert (toordinal 1 1 1 <= toordinal (year n) (month n) (day n)) as Hlo.
  { apply toordinal_le; try assumption; [lia|change (days_in_month 1 1) with 31; lia|lia]. }
  assert (toordinal (year n) (month n) (day n) <= toordinal 9999 12 31) as Hhi.
  { apply toordinal_le; try assumption;
      [lia|change (days_in_month 9999 12) with 31; lia|lia]. }
  lia.
Qed.

(** The year of a naive datetime whose instant is before 1900. *)
Lemma year_before_1900 n :
  wf_datetime n -> tzinfo n = None ->
  instant n < toordinal 1900 1 1 * 86400 -> year n < 1900.
Proof.
  intros Hwf Htz Hi. pose proof Hwf as [].
  rewrite instant_wall, Htz in Hi. unfold wall_seconds in Hi.
  destruct (Z.lt_ge_cases (year n) 1900) as [Hlt|Hge]; [assumption|].
  assert (toordinal 1900 1 1 <= toordinal (year n) (month n) (day n)); [|lia].
  apply toordinal_le; try assumption;
    [lia|change (days_in_month 1900 1) with 31; lia|lia].
Qed.

(** The formatter on a datetime outside its range. *)
Lemma format_dt_outside dt :
  wf_datetime dt ->
  (instant dt < toordinal 1 1 1 * 86400
   \/ (toordinal 9999 12 31 + 1) * 86400 <= instant dt ->
   Codec._format_openssl_dt (PyDatetime dt) = Raise OverflowError)
  /\ (toordinal 1 1 1 * 86400 <= instant dt < toordinal 1900 1 1 * 86400 ->
      exists n, Codec.datetime_utc_normalize dt = Ok n /\ year n < 1900
                /\ Codec._format_openssl_dt (PyDatetime dt)
                   = strftime_yymmddHHMMSSZ n).
Proof.
  intros Hwf. unfold Codec._format_openssl_dt, Codec.datetime_utc_normalize.
  destruct (tzinfo dt) as [off|] eqn:Htz.
  - pose proof (wf_tzinfo _ Hwf off Htz) as Hoff.
    replace ((-1440 <? off) && (off <? 1440)) with true
      by (symmetry; apply andb_true_iff; split; apply Z.ltb_lt; lia).
    pose proof (minus_offset_spec dt off Hwf Hoff) as Hspec.
    rewrite instant_wall, Htz.
    destruct (minus_offset dt off) as [n|e] eqn:E.
    + destruct Hspec as (Hn & Hnt & _ & Hi).
      pose proof (naive_instant_bounds n Hn Hnt) as Hb. rewrite Hi in Hb.
      split; [intros [Hlo|Hhi]; exfalso; lia|].
      intros Hr. exists n. split; [reflexivity|]. split; [|reflexivity].
      apply year_before_1900; try assumption. lia.
    + apply minus_offset_raise in E. subst e.
      split; [reflexivity|].
      intros Hr. exfalso. change (toordinal 1 1 1) with 1 in Hr.
      change (toordinal 1900 1 1) with 693596 in Hr.
      change (toordinal 9999 12 31) with 3652059 in Hspec. lia.
  - pose proof (naive_instant_bounds dt Hwf Htz) as Hb.
    split; [intros [Hlo|Hhi]; exfalso; lia|].
    intros Hr. exists dt. split; [reflexivity|]. split; [|reflexivity].
    apply year_before_1900; try assumption. lia.
Qed.

Lemma strftime_ok n :
  1900 <= year n ->
  strftime_yymmddHHMMSSZ n
  = Ok (pad2 (year n mod 100) ++ pad2 (month n) ++ pad2 (day n)
        ++ pad2 (hour n) ++ pad2 (minute n) ++ pad2 (second n) ++ "Z").
Proof.
  intros Hy. unfold strftime_yymmddHHMMSSZ.
  destruct (Z.ltb_spec (year n) 1900); [lia|reflexivity].
Qed.

(** The formatter on a datetime in its range: the string of the fields of
    the normalized datetime. *)
Lemma format_dt_spec dt :
  wf_datetime dt -> in_strftime_range dt = true ->
  exists n, wf_datetime n /\ tzinfo n = None /\ instant n = instant dt
            /\ Codec.datetime_utc_normalize dt = Ok n
            /\ Codec._format_openssl_dt (PyDatetime dt)
               = Ok (pad2 (year n mod 100) ++ pad2 (month n) ++ pad2 (day n)
                     ++ pad2 (hour n) ++ pad2 (minute n) ++ pad2 (second n) ++ "Z").
Proof.
  intros Hwf Hr.
  destruct (datetime_utc_normalize_spec dt Hwf Hr) as (n & En & Hn & Htz & Hi & Hy).
  exists n. split_conj; try assumption.
  unfold Codec._format_openssl_dt. rewrite En. simpl. now apply strftime_ok.
Qed.

End CalendarFacts.

(** ** Date formatter *)

Module DateFacts.
Import Calendar CalendarFacts Codec.

Lemma pad2_fields_length a b c d e f :
  String.length (pad2 a ++ pad2 b ++ pad2 c ++ pad2 d ++ pad2 e ++ pad2 f ++ "Z") = 13%nat.
Proof. reflexivity. Qed.

(** C3, as the code has it. For every datetime [dt], naive or aware, whose
    instant lies from 1900-01-01T00:00:00Z to 9999-12-31T23:59:59Z, the
    date formatter returns a string of exactly 13 characters, twelve and a
    final [Z]; every datetime at the same instant, in whatever UTC offset,
    is formatted to the same string; so is the datetime normalized to UTC
    beforehand; and the instant 2013-06-06T12:13:57Z is formatted to
    [130606121357Z]. Outside that range the formatter raises: a
    [ValueError], that of [strftime] for a year before 1900, when the
    instant is before 1900-01-01T00:00:00Z and not before
    0001-01-01T00:00:00Z; an [OverflowError] when the instant is before
    0001-01-01T00:00:00Z or after 9999-12-31T23:59:59Z, where the
    normalized date leaves the range of [datetime]. *)
Theorem format_date_in_range (dt : datetime) :
  valid_datetime dt = true ->
  (in_strftime_range dt = true ->
   exists s digits,
     _format_openssl_dt (PyDatetime dt) = Ok s
     /\ s = digits ++ "Z" /\ String.length s = 13%nat
     /\ (forall dt', valid_datetime dt' = true -> instant dt' = instant dt ->
          _format_openssl_dt (PyDatetime dt') = Ok s)
     /\ (forall n, datetime_utc_normalize dt = Ok n ->
          _format_openssl_dt (PyDatetime n) = Ok s)
     /\ (instant dt = instant (mk_datetime 2013 6 6 12 13 57 0 None) ->
          s = "130606121357Z"))
  /\ (in_strftime_range dt = false ->
      (toordinal 1 1 1 * 86400 <= instant dt < toordinal 1900 1 1 * 86400 ->
       exists n,
         datetime_utc_normalize dt = Ok n /\ year n < 1900
         /\ _format_openssl_dt (PyDatetime dt)
            = Raise (ValueError ("year=" ++ Str.str_int (year n) ++ " is before 1900; "
                                 ++ "the datetime strftime() methods require year >= 1900")))
      /\ (instant dt < toordinal 1 1 1 * 86400
          \/ (toordinal 9999 12 31 + 1) * 86400 <= instant dt ->
          _format_openssl_dt (PyDatetime dt) = Raise OverflowError)
      /\ (instant dt < toordinal 1900 1 1 * 86400
          \/ (toordinal 9999 12 31 + 1) * 86400 <= instant dt)).
Proof.
  intros Hv. apply valid_datetime_wf in Hv. split.
  2:{ intros Hout. destruct (format_dt_outside dt Hv) as [Hover Hbefore].
      split; [|split; [exact Hover|]].
      - intros Hr. destruct (Hbefore Hr) as (n & En & Hy & Ef).
        exists n. split; [exact En|]. split; [exact Hy|].
        rewrite Ef. unfold strftime_yymmddHHMMSSZ.
        destruct (Z.ltb_spec (year n) 1900); [reflexivity|lia].
      - unfold in_strftime_range in Hout. apply andb_false_iff in Hout as [H1|H2].
        + left. now apply Z.leb_gt in H1.
        + right. now apply Z.ltb_ge in H2. }
  intros Hr.
  destruct (format_dt_spec dt Hv Hr) as (n & Hn & Htz & Hi & En & Ef).
  assert (forall dt', wf_datetime dt' -> instant dt' = instant dt ->
            _format_openssl_dt (PyDatetime dt')
            = Ok (pad2 (year n mod 100) ++ pad2 (month n) ++ pad2 (day n)
                  ++ pad2 (hour n) ++ pad2 (minute n) ++ pad2 (second n) ++ "Z"))
    as Hsame.
  { intros dt' Hv' Hi'.
    assert (in_strftime_range dt' = true) as Hr'.
    { apply in_strftime_range_spec. rewrite Hi'. now apply in_strftime_range_spec. }
    destruct (format_dt_spec dt' Hv' Hr') as (n' & Hn' & Htz' & Hin' & _ & Ef').
    rewrite Ef'.
    destruct (instant_inj n' n Hn' Hn Htz' Htz ltac:(congruence))
      as (-> & -> & -> & -> & -> & ->).
    reflexivity. }
  eexists. eexists. split; [exact Ef|]. split; [|split; [|split; [|split]]].
  - rewrite <- !StrFacts.append_assoc. reflexivity.
  - apply pad2_fields_length.
  - intros dt' Hv' Hi'. apply Hsame; [now apply valid_datetime_wf|assumption].
  - intros n0 En0. rewrite En in En0. inversion En0; subst n0.
    apply Hsame; assumption.
  - intros Hex.
    pose proof (Hsame (mk_datetime 2013 6 6 12 13 57 0 None)
                  ltac:(apply valid_datetime_wf; reflexivity) (eq_sym Hex)) as Hs.
    assert (_format_openssl_dt (PyDatetime (mk_datetime 2013 6 6 12 13 57 0 None))
            = Ok "130606121357Z") as Hc by reflexivity.
    congruence.
Qed.

(** The datetime 2013-06-06T14:13:57+02:00 is formatted to
    [130606121357Z]; 1899-12-31T23:59:59 and 0001-01-01T00:00:00+01:00
    are refused. *)
Lemma format_date_in_range_witness :
  (exists s digits,
     _format_openssl_dt (PyDatetime (mk_datetime 2013 6 6 14 13 57 951211 (Some 120))) = Ok s
     /\ s = digits ++ "Z" /\ String.length s = 13%nat
     /\ s = "130606121357Z")
  /\ _format_openssl_dt (PyDatetime (mk_datetime 1899 12 31 23 59 59 0 None))
     = Raise (ValueError ("year=1899 is before 1900; "
                          ++ "the datetime strftime() methods require year >= 1900"))
  /\ _format_openssl_dt (PyDatetime (mk_datetime 1 1 1 0 0 0 0 (Some 60)))
     = Raise OverflowError.
Proof.
  split; [|split].
  - destruct (proj1 (format_date_in_range (mk_datetime 2013 6 6 14 13 57 951211 (Some 120))
                       eq_refl) eq_refl)
      as (s & digits & Hf & Hz & Hl & _ & _ & Hex).
    exists s, digits. split_conj; try assumption. apply Hex. reflexivity.
  - destruct (proj2 (format_date_in_range (mk_datetime 1899 12 31 23 59 59 0 None) eq_refl)
                eq_refl) as (Hbefore & _).
    destruct Hbefore as (n & En & _ & Ef); [vm_compute; split; [discriminate|reflexivity]|].
    vm_compute in En. inversion En; subst n. exact Ef.
  - destruct (proj2 (format_date_in_range (mk_datetime 1 1 1 0 0 0 0 (Some 60)) eq_refl)
                eq_refl) as (_ & Hover & _).
    apply Hover. left. reflexivity.
Defined.

(** C3, as the specification has it, fails: the naive datetime
    1899-12-31T23:59:59 is a datetime, and the formatter returns no string
    for it: [strftime] refuses a year before 1900. *)
Lemma format_date_before_1900 :
  valid_datetime (mk_datetime 1899 12 31 23 59 59 0 None) = true
  /\ ~ (exists s, _format_openssl_dt (PyDatetime (mk_datetime 1899 12 31 23 59 59 0 None)) = Ok s
                 /\ String.length s = 13%nat).
Proof.
  split; [reflexivity|]. intros (s & Hs & _). vm_compute in Hs. discriminate.
Qed.

End DateFacts.

(** ** Index codec *)

Module IndexFacts.
Import Str StrFacts Calendar CalendarFacts Codec SerialFacts Index Text Fields Examples.

#[local] Arguments timestamp_field : simpl never.
#[local] Arguments serial_field : simpl never.
#[local] Arguments status_flag : simpl never.

Lemma without_append c a b : without c (a ++ b) = without c a && without c b.
Proof.
  unfold without. induction a as [|x a IH]; simpl; [reflexivity|].
  now rewrite IH, andb_assoc.
Qed.

Lemma plain_field_append a b :
  plain_field a = true -> plain_field b = true -> plain_field (a ++ b) = true.
Proof.
  unfold plain_field. rewrite !without_append, !andb_true_iff. tauto.
Qed.

(** [s.split(c)] on a string without [c], and on a field followed by
    [c]. *)
Lemma split_on_without c s : without c s = true -> split_on c None s = [s].
Proof.
  unfold without. induction s as [|a s IH]; simpl; [reflexivity|].
  intros [Ha Hs]%andb_true_iff. apply negb_true_iff in Ha.
  rewrite Ha. simpl. simpl in IH. now rewrite (IH Hs).
Qed.

Lemma split_on_cut c a rest :
  without c a = true ->
  split_on c None (a ++ String c rest) = a :: split_on c None rest.
Proof.
  unfold without. induction a as [|x a IH]; simpl.
  - intros _. now rewrite Ascii.eqb_refl.
  - intros [Hx Ha]%andb_true_iff. apply negb_true_iff in Hx.
    rewrite Hx. simpl. simpl in IH. now rewrite (IH Ha).
Qed.

Lemma concat_all_cons x xs : concat_all (x :: xs) = x ++ concat_all xs.
Proof.
  unfold concat_all. destruct xs as [|y ys]; simpl; [now rewrite append_nil_r|reflexivity].
Qed.

(** The digits of a formatted timestamp. *)
Lemma digit_plain d : 0 <= d < 10 -> plain_field (String (digit d) "") = true.
Proof.
  intros Hd.
  assert (d = 0 \/ d = 1 \/ d = 2 \/ d = 3 \/ d = 4 \/ d = 5 \/ d = 6 \/ d = 7
          \/ d = 8 \/ d = 9) as Cd by lia.
  repeat (destruct Cd as [->|Cd]; [reflexivity|]). subst d. reflexivity.
Qed.

Lemma pad2_plain n : 0 <= n < 100 -> plain_field (pad2 n) = true.
Proof.
  intros Hn. unfold pad2.
  change (String (digit (n / 10)) (String (digit (n mod 10)) ""))
    with (String (digit (n / 10)) "" ++ String (digit (n mod 10)) "").
  apply plain_field_append; apply digit_plain; Z.div_mod_to_equations; lia.
Qed.

Lemma timestamp_field_plain d :
  valid_datetime d = true -> in_strftime_range d = true ->
  plain_field (timestamp_field (Some d)) = true.
Proof.
  intros Hv Hr. apply valid_datetime_wf in Hv.
  destruct (format_dt_spec d Hv Hr) as (n & Hn & _ & _ & _ & Ef).
  unfold timestamp_field. rewrite Ef.
  pose proof (days_in_month_bounds (year n) (month n)).
  destruct Hn.
  repeat (apply plain_field_append;
          [apply pad2_plain; Z.div_mod_to_equations; lia|]).
  reflexivity.
Qed.

Section WithCollaborators.
Context `{SerialValidator} `{Clock}.

Lemma timestamp_field_ok d :
  valid_datetime d = true -> in_strftime_range d = true ->
  _format_openssl_dt (PyDatetime d) = Ok (timestamp_field (Some d)).
Proof.
  intros Hv Hr. apply valid_datetime_wf in Hv.
  destruct (format_dt_spec d Hv Hr) as (n & _ & _ & _ & _ & Ef).
  unfold timestamp_field. rewrite Ef. reflexivity.
Qed.

Lemma serial_field_ok c :
  valid_serial (serial_hex c) = true ->
  _format_openssl_serial_number (PyStr (serial_hex c)) = Ok (serial_field c).
Proof.
  intros Hv. unfold serial_field. rewrite format_str, Hv. reflexivity.
Qed.

(** One turn of the loop renders the line of the record. *)
Lemma record_line_eq now c :
  record_line now c
  = status_flag now c ++ TAB ++ timestamp_field (expires_on c) ++ TAB
    ++ timestamp_field (revoked_on c) ++ TAB ++ serial_field c ++ TAB
    ++ "unknown" ++ TAB ++ subject c ++ NL.
Proof.
  unfold record_line, record_fields, join.
  rewrite !StrFacts.append_assoc. reflexivity.
Qed.

Lemma index_file_line_spec tick c :
  well_formed_record c = true ->
  exists tick', index_file_line tick c = Ok (record_line (utcnow tick) c, tick').
Proof.
  unfold well_formed_record. rewrite !andb_true_iff. intros [[He Hr] Hs].
  rewrite record_line_eq. unfold index_file_line, status_flag.
  rewrite (serial_field_ok c Hs).
  destruct (expires_on c) as [e|].
  - rewrite !andb_true_iff in He. destruct He as [[Hn Hv] Hi].
    apply bool_decide_eq_true in Hn.
    assert (datetime_gt (utcnow tick) e = Ok (lex_gtb (fields (utcnow tick)) (fields e)))
      as Hgt by (unfold datetime_gt; now rewrite utcnow_naive, Hn).
    rewrite Hgt, (timestamp_field_ok e Hv Hi).
    destruct (revoked_on c) as [r|].
    + rewrite !andb_true_iff in Hr. destruct Hr as [Hv' Hi'].
      rewrite (timestamp_field_ok r Hv' Hi').
      eexists. reflexivity.
    + destruct (lex_gtb _ _); eexists; reflexivity.
  - destruct (revoked_on c) as [r|].
    + rewrite !andb_true_iff in Hr. destruct Hr as [Hv' Hi'].
      rewrite (timestamp_field_ok r Hv' Hi').
      eexists. reflexivity.
    + eexists. reflexivity.
Qed.

Lemma index_file_loop_spec certs : forall acc tick,
  forallb well_formed_record certs = true ->
  exists nows,
    length nows = length certs
    /\ Forall (fun now => exists n, now = utcnow n) nows
    /\ index_file_loop acc tick certs
       = Ok (acc ++ zip_with record_line nows certs)%list.
Proof.
  induction certs as [|c certs IH]; intros acc tick Hwf.
  - exists []. split; [reflexivity|]. split; [constructor|].
    simpl. now rewrite app_nil_r.
  - simpl in Hwf. apply andb_true_iff in Hwf as [Hc Hrest].
    destruct (index_file_line_spec tick c Hc) as (tick' & El).
    destruct (IH (acc ++ [record_line (utcnow tick) c])%list tick' Hrest)
      as (nows & Hlen & Hall & Eloop).
    exists (utcnow tick :: nows). split; [simpl; congruence|]. split.
    + constructor; [eexists; reflexivity|assumption].
    + simpl. rewrite El. simpl. rewrite Eloop, <- app_assoc. reflexivity.
Qed.

(** Whatever the record, a line that the loop renders is the line of the
    record at the reading of the clock. *)
Lemma index_file_line_sound tick c line tick' :
  index_file_line tick c = Ok (line, tick') ->
  line = record_line (utcnow tick) c.
Proof.
  rewrite record_line_eq.
  unfold index_file_line, status_flag, timestamp_field, serial_field.
  destruct (expires_on c) as [e|]; destruct (revoked_on c) as [r|];
    repeat match goal with
           | |- context [datetime_gt ?a ?b] =>
               destruct (datetime_gt a b) as [[|]|]
           | |- context [_format_openssl_dt ?x] =>
               destruct (_format_openssl_dt x)
           | |- context [_format_openssl_serial_number ?x] =>
               destruct (_format_openssl_serial_number x)
           end;
    simpl; intros E; inversion E; reflexivity.
Qed.

Lemma index_file_loop_sound certs : forall acc tick lines,
  index_file_loop acc tick certs = Ok lines ->
  exists nows,
    length nows = length certs
    /\ Forall (fun now => exists n, now = utcnow n) nows
    /\ lines = (acc ++ zip_with record_line nows certs)%list.
Proof.
  induction certs as [|c certs IH]; intros acc tick lines E.
  - exists []. split; [reflexivity|]. split; [constructor|].
    simpl in *. rewrite app_nil_r. congruence.
  - simpl in E.
    destruct (index_file_line tick c) as [[line tick']|] eqn:El; [|discriminate].
    simpl in E. apply index_file_line_sound in El. subst line.
    destruct (IH _ _ _ E) as (nows & Hlen & Hall & ->).
    exists (utcnow tick :: nows). split; [simpl; congruence|]. split.
    + constructor; [eexists; reflexivity|assumption].
    + simpl. rewrite <- app_assoc. reflexivity.
Qed.

Lemma status_flag_plain now c : plain_field (status_flag now c) = true.
Proof.
  unfold status_flag. destruct (revoked_on c); [reflexivity|].
  destruct (expires_on c) as [e|]; [|reflexivity].
  destruct (datetime_gt now e) as [[|]|]; reflexivity.
Qed.

(** The fields of the line of a record. *)
Lemma record_fields_plain now c :
  well_formed_record c = true ->
  plain_field (subject c) = true -> plain_field (serial_field c) = true ->
  Forall (fun fld => plain_field fld = true) (record_fields now c).
Proof.
  unfold well_formed_record. rewrite !andb_true_iff. intros [[He Hr] _] Hsub Hser.
  assert (plain_field (timestamp_field (expires_on c)) = true) as H1.
  { destruct (expires_on c) as [e|]; [|reflexivity].
    rewrite !andb_true_iff in He. destruct He as [[_ Hv] Hi].
    now apply timestamp_field_plain. }
  assert (plain_field (timestamp_field (revoked_on c)) = true) as H2.
  { destruct (revoked_on c) as [r|]; [|reflexivity].
    rewrite !andb_true_iff in Hr. destruct Hr as [Hv Hi].
    now apply timestamp_field_plain. }
  unfold record_fields.
  repeat (constructor; [first [apply status_flag_plain | assumption | reflexivity]|]).
  constructor.
Qed.

Lemma plain_without s : plain_field s = true -> without tab s = true /\ without newline s = true.
Proof. unfold plain_field. now rewrite andb_true_iff. Qed.

(** A line splits into its fields. *)
Lemma join_split flds :
  Forall (fun fld => plain_field fld = true) flds -> flds <> [] ->
  split_on tab None (join TAB flds) = flds
  /\ without newline (join TAB flds) = true.
Proof.
  induction 1 as [|fld flds Hf _ IH]; [congruence|]. intros _.
  destruct (plain_without fld Hf) as [Ht Hn].
  destruct flds as [|fld' flds].
  - simpl. split; [now apply split_on_without|exact Hn].
  - destruct (IH ltac:(discriminate)) as [IHs IHn].
    change (join TAB (fld :: fld' :: flds))
      with (fld ++ String tab (join TAB (fld' :: flds))).
    split.
    + rewrite (split_on_cut tab fld _ Ht). now rewrite IHs.
    + rewrite without_append, Hn. simpl. exact IHn.
Qed.

(** The content reads back into the fields of the records. *)
Lemma content_reads_back certs : forall nows,
  forallb well_formed_record certs = true ->
  Forall (fun c => plain_field (subject c) = true
                   /\ plain_field (serial_field c) = true) certs ->
  length nows = length certs ->
  split_on newline None (concat_all (zip_with record_line nows certs))
  = (zip_with (fun now c => join TAB (record_fields now c)) nows certs ++ [""])%list
  /\ Forall2 (fun now c =>
                split_on tab None (join TAB (record_fields now c)) = record_fields now c)
             nows certs.
Proof.
  induction certs as [|c certs IH]; intros [|now nows] Hwf Hplain Hlen; try discriminate.
  - split; [reflexivity|constructor].
  - simpl in Hwf. apply andb_true_iff in Hwf as [Hc Hrest].
    apply Forall_cons in Hplain as [[Hsub Hser] Hplain].
    destruct (IH nows Hrest Hplain ltac:(simpl in Hlen; congruence)) as [IHs IHf].
    destruct (join_split (record_fields now c)
                (record_fields_plain now c Hc Hsub Hser) ltac:(discriminate))
      as [Hsplit Hnl].
    split.
    + change (zip_with record_line (now :: nows) (c :: certs))
        with (record_line now c :: zip_with record_line nows certs).
      rewrite concat_all_cons. unfold record_line at 1. rewrite append_assoc.
      change (NL ++ concat_all (zip_with record_line nows certs))
        with (String newline (concat_all (zip_with record_line nows certs))).
      rewrite (split_on_cut newline _ _ Hnl), IHs. reflexivity.
    + constructor; [exact Hsplit|exact IHf].
Qed.

(** C2, as the code has it. Whatever the records, a content that the
    index codec returns is the lines of the records one after the other,
    one per record and in the order of the input; the line of a record,
    rendered at a reading of the clock, is its six fields with a tab after
    each of the first five and a newline at the end: the status flag ([R]
    when the revocation timestamp is set, whatever the expiry; [E] when
    the expiry timestamp is set and past and there is no revocation; [V]
    otherwise), the formatted expiry timestamp or nothing, the formatted
    revocation timestamp or nothing, the normalized serial number,
    [unknown], and the subject. The codec returns a content for every
    sequence of records that are well formed: their serial numbers are
    valid, their timestamps are in the range of the date formatter and
    their expiry timestamps are naive. For such records, when moreover no
    subject and no normalized serial number holds a tab or a newline, the
    content splits at the newlines into exactly one line per record, in
    the order of the input, and each line splits at the tabs into exactly
    the six fields of its record. *)
Theorem index_file_content_lines (certs : list cert_data) :
  (forall content,
      _make_openssl_index_file_content certs = Ok content ->
      exists nows : list datetime,
        length nows = length certs
        /\ Forall (fun now => exists n, now = utcnow n) nows
        /\ content = concat_all (zip_with record_line nows certs)
        /\ Forall2 (fun now c =>
                      record_line now c
                      = status_flag now c ++ TAB ++ timestamp_field (expires_on c) ++ TAB
                        ++ timestamp_field (revoked_on c) ++ TAB ++ serial_field c ++ TAB
                        ++ "unknown" ++ TAB ++ subject c ++ NL
                      /\ length (record_fields now c) = 6%nat
                      /\ (revoked_on c <> None -> status_flag now c = "R")
                      /\ (revoked_on c = None ->
                          (exists e, expires_on c = Some e /\ datetime_gt now e = Ok true) ->
                          status_flag now c = "E")
                      /\ (revoked_on c = None ->
                          (forall e, expires_on c = Some e -> datetime_gt now e = Ok false) ->
                          status_flag now c = "V"))
                   nows certs)
  /\ (forallb well_formed_record certs = true ->
      exists content, _make_openssl_index_file_content certs = Ok content)
  /\ (forallb well_formed_record certs = true ->
      Forall (fun c => plain_field (subject c) = true
                       /\ plain_field (serial_field c) = true) certs ->
      exists content nows,
        _make_openssl_index_file_content certs = Ok content
        /\ length nows = length certs
        /\ Forall (fun now => exists n, now = utcnow n) nows
        /\ split_on newline None content
           = (zip_with (fun now c => join TAB (record_fields now c)) nows certs ++ [""])%list
        /\ Forall2 (fun now c =>
                      split_on tab None (join TAB (record_fields now c))
                      = [status_flag now c; timestamp_field (expires_on c);
                         timestamp_field (revoked_on c); serial_field c; "unknown";
                         subject c])
                   nows certs).
Proof.
  split; [|split].
  - intros content E. unfold _make_openssl_index_file_content in E.
    destruct (index_file_loop [] 0%nat certs) as [lines|] eqn:Eloop; [|discriminate].
    simpl in E. injection E as <-.
    destruct (index_file_loop_sound certs _ _ _ Eloop) as (nows & Hlen & Hall & ->).
    exists nows. split; [assumption|]. split; [assumption|]. split; [reflexivity|].
    clear Eloop Hall. revert nows Hlen.
    induction certs as [|c certs IH]; intros [|now nows] Hlen; try discriminate;
      constructor; [|apply IH; simpl in Hlen; congruence].
    split; [|split; [reflexivity|split; [|split]]].
    + apply record_line_eq.
    + unfold status_flag. destruct (revoked_on c); congruence.
    + intros Hrev (e & Hexp & Hgt). unfold status_flag.
      now rewrite Hrev, Hexp, Hgt.
    + intros Hrev Hexp. unfold status_flag. rewrite Hrev.
      destruct (expires_on c) as [e|]; [|reflexivity].
      now rewrite (Hexp e eq_refl).
  - intros Hwf.
    destruct (index_file_loop_spec certs [] 0%nat Hwf) as (nows & _ & _ & Eloop).
    unfold _make_openssl_index_file_content. rewrite Eloop. eexists. reflexivity.
  - intros Hwf Hplain.
    destruct (index_file_loop_spec certs [] 0%nat Hwf) as (nows & Hlen & Hall & Eloop).
    exists (concat_all (zip_with record_line nows certs)), nows.
    split; [unfold _make_openssl_index_file_content; now rewrite Eloop|].
    split; [exact Hlen|]. split; [exact Hall|].
    exact (content_reads_back certs nows Hwf Hplain Hlen).
Qed.

End WithCollaborators.

(** The index of the three records has three lines, in their order, with
    the flags [V], [E] and [R]; the second line has the six fields of the
    second record. *)
Lemma index_file_content_lines_witness :
  @_make_openssl_index_file_content hex_serial_validator clock_2019 three_records
  = Ok ("V" ++ TAB ++ "300101000000Z" ++ TAB ++ TAB ++ "0A" ++ TAB ++ "unknown" ++ TAB ++ "/CN=a" ++ NL
        ++ "E" ++ TAB ++ "100101000000Z" ++ TAB ++ TAB ++ "0B" ++ TAB ++ "unknown" ++ TAB ++ "/CN=b" ++ NL
        ++ "R" ++ TAB ++ "100101000000Z" ++ TAB ++ "110101000000Z" ++ TAB ++ "0C" ++ TAB ++ "unknown" ++ TAB ++ "/CN=c" ++ NL)
  /\ (exists content,
        @_make_openssl_index_file_content hex_serial_validator clock_2019 three_records
        = Ok content
        /\ length (split_on newline None content) = 4%nat
        /\ split_on tab None (nth 1 (split_on newline None content) "")
           = ["E"; "100101000000Z"; ""; "0B"; "unknown"; "/CN=b"]).
Proof.
  destruct (@index_file_content_lines hex_serial_validator clock_2019 three_records)
    as (Hshape & Hruns & Hback).
  split.
  - destruct (Hruns eq_refl) as (content & Hc).
    destruct (Hshape content Hc) as (nows & Hlen & Hall & -> & _).
    rewrite Hc. f_equal.
    destruct nows as [|n1 [|n2 [|n3 [|]]]]; try discriminate.
    inversion Hall as [|? ? [k1 ->] Hall2]; subst.
    inversion Hall2 as [|? ? [k2 ->] Hall3]; subst.
    inversion Hall3 as [|? ? [k3 ->] _]; subst.
    reflexivity.
  - destruct (Hback eq_refl) as (content & nows & Hc & Hlen & Hall & Hlines & Hfields).
    { repeat constructor. }
    exists content. split; [exact Hc|].
    destruct nows as [|n1 [|n2 [|n3 [|]]]]; try discriminate.
    inversion Hall as [|? ? [k1 ->] Hall2]; subst.
    inversion Hall2 as [|? ? [k2 ->] Hall3]; subst.
    inversion Hall3 as [|? ? [k3 ->] _]; subst.
    rewrite Hlines. split; [reflexivity|].
    inversion Hfields as [|? ? ? ? _ Hf2]; subst.
    inversion Hf2 as [|? ? ? ? H2 _]; subst.
    exact H2.
Defined.

(** C2, as the specification has it, fails: the subject is pasted into
    the line as it is. A well-formed record whose subject holds a tab is
    rendered as a line of seven tab-separated fields, and one whose
    subject holds a newline as two lines. *)
Lemma subject_with_tab_or_newline :
  (@well_formed_record hex_serial_validator
     (mk_cert_data None None "0a" ("/CN=a" ++ TAB ++ "O=b")) = true
   /\ exists content line,
        @_make_openssl_index_file_content hex_serial_validator clock_2019
          [mk_cert_data None None "0a" ("/CN=a" ++ TAB ++ "O=b")] = Ok content
        /\ split_on newline None content = [line; ""]
        /\ split_on tab None line = ["V"; ""; ""; "0A"; "unknown"; "/CN=a"; "O=b"]
        /\ length (split_on tab None line) = 7%nat)
  /\ (@well_formed_record hex_serial_validator
        (mk_cert_data None None "0a" ("/CN=a" ++ NL ++ "O=b")) = true
      /\ exists content,
           @_make_openssl_index_file_content hex_serial_validator clock_2019
             [mk_cert_data None None "0a" ("/CN=a" ++ NL ++ "O=b")] = Ok content
           /\ length (split_on newline None content) = 3%nat).
Proof.
  split; (split; [reflexivity|]).
  - eexists. eexists. split; [vm_compute; reflexivity|].
    split; [vm_compute; reflexivity|]. split; vm_compute; reflexivity.
  - eexists. split; [vm_compute; reflexivity|]. vm_compute. reflexivity.
Qed.

End IndexFacts.

(** ** Facts on paths *)

Module PathFacts.
Import Text Path StrFacts.

Lemma is_empty_true s : is_empty s = true -> s = "".
Proof. destruct s; [reflexivity|discriminate]. Qed.

Lemma is_empty_false s : is_empty s = false <-> s <> "".
Proof. destruct s; simpl; split; congruence. Qed.

Lemma is_empty_append a b : is_empty (a ++ b) = is_empty a && is_empty b.
Proof. destruct a; reflexivity. Qed.

(** Stripping on the right reaches into the end of a string only. *)
Lemma rstrip_of_append_keep p a b :
  rstrip_of p b <> "" -> rstrip_of p (a ++ b) = a ++ rstrip_of p b.
Proof.
  intros Hb. induction a as [|c a IH]; simpl; [reflexivity|].
  rewrite IH, is_empty_append.
  apply is_empty_false in Hb. rewrite Hb, !andb_false_r. reflexivity.
Qed.

Lemma rstrip_of_append_drop p a b :
  rstrip_of p b = "" -> rstrip_of p (a ++ b) = rstrip_of p a.
Proof.
  intros Hb. induction a as [|c a IH]; simpl; [assumption|].
  rewrite IH. reflexivity.
Qed.

Lemma rstrip_of_idem p s : rstrip_of p (rstrip_of p s) = rstrip_of p s.
Proof.
  induction s as [|c s IH]; simpl; [reflexivity|].
  destruct (p c && is_empty (rstrip_of p s)) eqn:E; simpl; [reflexivity|].
  rewrite IH, E. reflexivity.
Qed.

Lemma rstrip_slash_idem s : rstrip_slash (rstrip_slash s) = rstrip_slash s.
Proof. apply rstrip_of_idem. Qed.

Lemma rstrip_slash_no_slash s : no_slash s = true -> rstrip_slash s = s.
Proof.
  unfold rstrip_slash. induction s as [|c s IH]; simpl; [reflexivity|].
  intros [Hc Hs]%andb_true_iff. rewrite (IH Hs).
  apply negb_true_iff in Hc. rewrite Hc. reflexivity.
Qed.

Lemma cut_last_slash_no_slash s :
  no_slash s = true -> cut_last_slash s = ("", s).
Proof.
  induction s as [|c s IH]; simpl; [reflexivity|].
  intros [Hc Hs]%andb_true_iff. rewrite (IH Hs).
  apply negb_true_iff in Hc. rewrite Hc. reflexivity.
Qed.

Lemma cut_last_slash_append a b :
  no_slash b = true -> cut_last_slash (a ++ String "/" b) = (a ++ "/", b).
Proof.
  intros Hb. induction a as [|c a IH]; simpl.
  - rewrite (cut_last_slash_no_slash b Hb). reflexivity.
  - rewrite IH. destruct a; reflexivity.
Qed.

Lemma all_slashes_append a b : all_slashes (a ++ b) = all_slashes a && all_slashes b.
Proof.
  unfold all_slashes. induction a as [|c a IH]; simpl; [reflexivity|].
  now rewrite IH, andb_assoc.
Qed.

Lemma all_slashes_rstrip s : all_slashes s = true -> rstrip_slash s = "".
Proof.
  unfold all_slashes, rstrip_slash. induction s as [|c s IH]; simpl; [reflexivity|].
  intros [Hc Hs]%andb_true_iff. rewrite (IH Hs), Hc. reflexivity.
Qed.

Lemma rstrip_all_slashes s : rstrip_slash s = "" -> all_slashes s = true.
Proof.
  unfold all_slashes, rstrip_slash. induction s as [|c s IH]; simpl; [reflexivity|].
  destruct (is_slash c); simpl; [|discriminate].
  destruct (rstrip_of is_slash s); simpl; [auto|discriminate].
Qed.

Lemma is_root_rstrip p : rstrip_slash p <> "" -> is_root (rstrip_slash p).
Proof. intros Hp. split; [assumption|apply rstrip_slash_idem]. Qed.

Lemma is_root_not_all_slashes R : is_root R -> all_slashes R = false.
Proof.
  intros [Hne Hr]. destruct (all_slashes R) eqn:E; [|reflexivity].
  apply all_slashes_rstrip in E. congruence.
Qed.

Lemma rstrip_slash_root_slash R : is_root R -> rstrip_slash (R ++ "/") = R.
Proof.
  intros [Hne Hr]. unfold rstrip_slash.
  rewrite rstrip_of_append_drop; [exact Hr|reflexivity].
Qed.

(** The path of an entry [n] of the directory [R]. *)
Lemma rstrip_slash_child R n :
  no_slash n = true -> n <> "" -> rstrip_slash (R ++ String "/" n) = R ++ String "/" n.
Proof.
  intros Hn Hne. unfold rstrip_slash.
  rewrite rstrip_of_append_keep.
  - f_equal. simpl. fold rstrip_slash.
    rewrite (rstrip_slash_no_slash n Hn). destruct n; [congruence|reflexivity].
  - simpl. fold rstrip_slash. rewrite (rstrip_slash_no_slash n Hn).
    destruct n; [congruence|discriminate].
Qed.

Lemma is_root_child R n :
  no_slash n = true -> n <> "" -> is_root (R ++ String "/" n).
Proof.
  intros Hn Hne. split; [destruct R; discriminate|now apply rstrip_slash_child].
Qed.

Lemma split_child R n :
  is_root R -> no_slash n = true -> split (R ++ String "/" n) = (R, n).
Proof.
  intros HR Hn. unfold split. rewrite (cut_last_slash_append R n Hn).
  rewrite is_empty_append, all_slashes_append, (is_root_not_all_slashes R HR).
  simpl. rewrite andb_false_r. simpl.
  now rewrite rstrip_slash_root_slash.
Qed.

Lemma dirname_child R n :
  is_root R -> no_slash n = true -> dirname (R ++ String "/" n) = R.
Proof. intros HR Hn. unfold dirname. now rewrite split_child. Qed.

Lemma key_root R : is_root R -> key R = R.
Proof.
  intros [Hne Hr]. unfold key. rewrite Hr.
  destruct R; [congruence|reflexivity].
Qed.


Lemma ends_with_slash_root R : is_root R -> ends_with_slash R = false.
Proof.
  intros [Hne Hr]. unfold ends_with_slash. rewrite Hr, String.eqb_refl.
  simpl. apply andb_false_r.
Qed.

Lemma ends_with_slash_root_slash R : is_root R -> ends_with_slash (R ++ "/") = true.
Proof.
  intros HR. unfold ends_with_slash. rewrite (rstrip_slash_root_slash R HR).
  rewrite is_empty_append. simpl. rewrite andb_false_r. simpl.
  apply negb_true_iff, String.eqb_neq. intros E.
  apply (f_equal String.length) in E. rewrite append_length in E. simpl in E. lia.
Qed.

End PathFacts.

(** ** Facts on the filesystem *)

Module FSFacts.
Import Text Path FS PathFacts.

Lemma dirs_kept_refl f : dirs_kept f f.
Proof. intros k Hk. exact Hk. Qed.

Lemma dirs_kept_trans f1 f2 f3 : dirs_kept f1 f2 -> dirs_kept f2 f3 -> dirs_kept f1 f3.
Proof. intros H12 H23 k Hk. apply H23, H12, Hk. Qed.

Lemma dirs_kept_insert_absent (f : fs) k n : f !! k = None -> dirs_kept f (<[k := n]> f).
Proof.
  intros Hk q Hq. destruct (decide (k = q)) as [->|Hne]; [congruence|].
  now rewrite lookup_insert_ne.
Qed.

Lemma dirs_kept_insert_not_dir (f : fs) k n : f !! k <> Some Dir -> dirs_kept f (<[k := n]> f).
Proof.
  intros Hk q Hq. destruct (decide (k = q)) as [->|Hne]; [congruence|].
  now rewrite lookup_insert_ne.
Qed.

Lemma keeps_dirs_ret {A} (a : A) : keeps_dirs (ret_io a).
Proof. intros f f' r E. inversion E; subst. apply dirs_kept_refl. Qed.

Lemma keeps_dirs_raise {A} e : keeps_dirs (@raise A e).
Proof. intros f f' r E. inversion E; subst. apply dirs_kept_refl. Qed.

Lemma keeps_dirs_lift {A} (x : result A) : keeps_dirs (lift x).
Proof. intros f f' r E. inversion E; subst. apply dirs_kept_refl. Qed.

Lemma keeps_dirs_bind {A B} (m : io A) (k : A -> io B) :
  keeps_dirs m -> (forall a, keeps_dirs (k a)) -> keeps_dirs (bind_io m k).
Proof.
  intros Hm Hk f f' r E. unfold bind_io in E.
  destruct (m f) as [f1 [a|e]] eqn:Em.
  - eapply dirs_kept_trans; [eapply Hm, Em|eapply Hk, E].
  - inversion E; subst. eapply Hm, Em.
Qed.

Lemma mkdir_keeps p : keeps_dirs (mkdir p).
Proof.
  intros f f' r E. unfold mkdir in E.
  destruct (is_empty p); [inversion E; subst; apply dirs_kept_refl|].
  destruct (f !! key p) eqn:Ek; [inversion E; subst; apply dirs_kept_refl|].
  destruct (_ || _); inversion E; subst.
  - now apply dirs_kept_insert_absent.
  - apply dirs_kept_refl.
Qed.

Lemma makedirs_rec_keeps fuel : forall name, keeps_dirs (makedirs_rec fuel name).
Proof.
  induction fuel as [|fuel IH]; intros name f f' r E; simpl in E.
  - inversion E; subst. apply dirs_kept_refl.
  - destruct (split name) as [head tail].
    destruct (if is_empty tail then split head else (head, tail)) as [head' tail'].
    destruct (_ && _).
    + destruct (makedirs_rec fuel head' f) as [f1 [[]|e]] eqn:Er.
      * pose proof (IH _ _ _ _ Er) as H1.
        destruct (String.eqb tail' ".").
        -- inversion E; subst. assumption.
        -- eapply dirs_kept_trans; [exact H1|eapply mkdir_keeps, E].
      * pose proof (IH _ _ _ _ Er) as H1.
        destruct e; try (inversion E; subst; assumption).
        destruct code; try (inversion E; subst; assumption).
        destruct (String.eqb tail' ".").
        -- inversion E; subst. assumption.
        -- eapply dirs_kept_trans; [exact H1|eapply mkdir_keeps, E].
    + eapply mkdir_keeps, E.
Qed.

Lemma makedirs_keeps name : keeps_dirs (makedirs name).
Proof. apply makedirs_rec_keeps. Qed.

Lemma isdir_true f p : isdir f p = true <-> f !! key p = Some Dir.
Proof. unfold isdir. apply bool_decide_eq_true. Qed.

Lemma isdir_false f p : isdir f p = false <-> f !! key p <> Some Dir.
Proof. unfold isdir. apply bool_decide_eq_false. Qed.

Lemma write_file_keeps p v : keeps_dirs (write_file p v).
Proof.
  intros f f' r E. unfold write_file, bind_io, open_w in E.
  destruct (is_empty p); [inversion E; subst; apply dirs_kept_refl|].
  destruct (ends_with_slash p || isdir f p) eqn:Ed;
    [inversion E; subst; apply dirs_kept_refl|].
  apply orb_false_iff in Ed as [_ Hnd]. apply isdir_false in Hnd.
  destruct (_ || _); [|inversion E; subst; apply dirs_kept_refl].
  unfold lift, set_content in E.
  destruct (written_text v); inversion E; subst.
  - rewrite insert_insert_eq. now apply dirs_kept_insert_not_dir.
  - now apply dirs_kept_insert_not_dir.
Qed.


Lemma under_refl k : under k k = true.
Proof. unfold under. now rewrite String.eqb_refl. Qed.

(** After [rmtree], nothing is left at the path or below it, and the rest
    is as before. *)
Lemma rmtree_ok p f :
  isdir f p = true ->
  exists f', rmtree p f = (f', Ok tt)
             /\ gone p f'
             /\ (forall q, under (key p) q = false -> f' !! q = f !! q).
Proof.
  intros Hd. unfold rmtree. rewrite Hd. eexists. split; [reflexivity|]. split.
  - intros q Hq. apply map_lookup_filter_None. right. intros x _. simpl.
    rewrite Hq. simpl. auto.
  - intros q Hq. destruct (f !! q) as [n|] eqn:Eq.
    + apply map_lookup_filter_Some. split; [assumption|]. simpl. now rewrite Hq.
    + apply map_lookup_filter_None. now left.
Qed.

Lemma rmtree_raise p f f' e : rmtree p f = (f', Raise e) -> isdir f p = false /\ f' = f.
Proof.
  unfold rmtree. destruct (isdir f p); intros E; inversion E; auto.
Qed.

End FSFacts.

(** ** Sandbox teardown *)

Module TeardownFacts.
Import Text Path FS Config Sandbox Env PathFacts FSFacts Examples.

Section WithSystem.
Context `{ConfigSyntax} `{TempDir}.

Lemma _create_file_keeps self : keeps_dirs (_create_file self).
Proof.
  intros f f' r E. unfold _create_file in E.
  destruct (negb (isdir f (path self))).
  - eapply write_file_keeps, E.
  - inversion E; subst. apply dirs_kept_refl.
Qed.

Lemma value_setter_keeps self v f self' f' r :
  value_setter self v f = (self', f', r) -> dirs_kept f f'.
Proof.
  unfold value_setter. intros E.
  destruct (if String.eqb (name self) "openssl.cnf" then _ else _) as [v'|e].
  - destruct (_create_file _ f) as [f1 r1] eqn:Ec.
    inversion E; subst. eapply _create_file_keeps, Ec.
  - inversion E; subst. apply dirs_kept_refl.
Qed.

Lemma _makedir_if_nonexistent_keeps self : keeps_dirs (_makedir_if_nonexistent self).
Proof.
  intros f f' r E. unfold _makedir_if_nonexistent in E.
  destruct (negb (exists_ f (dirname (path self)))).
  - eapply makedirs_keeps, E.
  - inversion E; subst. apply dirs_kept_refl.
Qed.

Lemma DirectoryStructure_new_keeps name rel_pth path opts :
  keeps_dirs (DirectoryStructure_new name rel_pth path opts).
Proof.
  unfold DirectoryStructure_new. apply keeps_dirs_bind.
  - apply _makedir_if_nonexistent_keeps.
  - intros _. apply keeps_dirs_ret.
Qed.

Lemma _prepare_dir_structures_keeps pkcs11 path :
  keeps_dirs (_prepare_dir_structures pkcs11 path).
Proof.
  unfold _prepare_dir_structures.
  repeat (apply keeps_dirs_bind; [apply DirectoryStructure_new_keeps|intros ?]).
  apply keeps_dirs_ret.
Qed.

Lemma init_loop_keeps items : forall self, keeps_dirs (init_loop self items).
Proof.
  induction items as [|[name value] items IH]; intros self f f' r E; simpl in E.
  - inversion E; subst. apply dirs_kept_refl.
  - destruct (getattr_node self name) as [d|].
    2:{ destruct (is_in open_attributes name); [exact (IH _ _ _ _ E)|].
        destruct (is_in closed_attributes name); inversion E; subst; apply dirs_kept_refl. }
    destruct (value_setter d value f) as [[d' f1] [[]|e]] eqn:Es.
    + eapply dirs_kept_trans; [eapply value_setter_keeps, Es|eapply IH, E].
    + inversion E; subst. eapply value_setter_keeps, Es.
Qed.

Lemma init_body_keeps pkcs11 init_values path :
  keeps_dirs (init_body pkcs11 init_values path).
Proof.
  unfold init_body. apply keeps_dirs_bind.
  - apply _prepare_dir_structures_keeps.
  - intros self. apply init_loop_keeps.
Qed.

(** [mkdtemp] leaves a directory at the path it returns. *)
Lemma mkdtemp_ok f f0 p :
  mkdtemp f = (f0, Ok p) ->
  p = mkdtemp_path f /\ f !! key p = None /\ f0 = <[key p := Dir]> f.
Proof.
  unfold mkdtemp, mkdir. intros E.
  destruct (is_empty (mkdtemp_path f)); [discriminate|].
  destruct (f !! key (mkdtemp_path f)) eqn:Ek; [discriminate|].
  destruct (_ || _); inversion E; subst. auto.
Qed.

(** The directory of the sandbox is still there when the [try] block of
    the constructor ends, however it ends. *)
Lemma init_body_root pkcs11 init_values f f0 p f1 r :
  mkdtemp f = (f0, Ok p) -> init_body pkcs11 init_values p f0 = (f1, r) ->
  isdir f1 p = true.
Proof.
  intros Em Eb. apply mkdtemp_ok in Em as (_ & _ & ->).
  apply isdir_true. eapply init_body_keeps; [exact Eb|].
  apply lookup_insert_eq.
Qed.

Lemma init_loop_tmp_path items : forall self f f' self',
  init_loop self items f = (f', Ok self') -> tmp_path_templ self' = tmp_path_templ self.
Proof.
  induction items as [|[name value] items IH]; intros self f f' self' E; simpl in E.
  - inversion E; subst. reflexivity.
  - destruct (getattr_node self name) as [d|].
    2:{ destruct (is_in open_attributes name); [exact (IH _ _ _ _ E)|].
        destruct (is_in closed_attributes name); discriminate E. }
    destruct (value_setter d value f) as [[d' f1] [[]|e]]; [|discriminate].
    apply IH in E. rewrite E. reflexivity.
Qed.

Lemma _prepare_dir_structures_tmp_path pkcs11 path f f' self :
  _prepare_dir_structures pkcs11 path f = (f', Ok self) -> tmp_path_templ self = path.
Proof.
  unfold _prepare_dir_structures, bind_io. intros E.
  repeat match type of E with
         | context [DirectoryStructure_new ?a ?b ?c ?d ?f] =>
             destruct (DirectoryStructure_new a b c d f) as [? [?|?]]; [|discriminate]
         end.
  inversion E; subst. reflexivity.
Qed.

Lemma TmpEnv_new_ok pkcs11 init_values f f1 self :
  TmpEnv_new pkcs11 init_values f = (f1, Ok self) ->
  exists f0, mkdtemp f = (f0, Ok (tmp_path_templ self))
             /\ init_body pkcs11 init_values (tmp_path_templ self) f0 = (f1, Ok self).
Proof.
  unfold TmpEnv_new, bind_io. intros E.
  destruct (mkdtemp f) as [f0 [p|e]] eqn:Em; [|discriminate].
  destruct (init_body pkcs11 init_values p f0) as [f1' [self'|e]] eqn:Eb.
  - inversion E; subst.
    assert (tmp_path_templ self = p) as ->; [|eauto].
    unfold init_body, bind_io in Eb.
    destruct (_prepare_dir_structures pkcs11 p f0) as [f2 [s0|e]] eqn:Ep; [|discriminate].
    apply init_loop_tmp_path in Eb. apply _prepare_dir_structures_tmp_path in Ep.
    congruence.
  - destruct (_cleanup p f1') as [f2 [[]|e']]; discriminate.
Qed.

(** Every way out of the [with] statement, for a body that removes no
    directory: once the directory of the sandbox was made, nothing is left
    at its path or below it when the statement ends. *)
Lemma with_TmpEnv_gone {A} pkcs11 init_values (body : TmpEnv -> io A) f f0 p f' r :
  (forall tmp_env, keeps_dirs (body tmp_env)) ->
  mkdtemp f = (f0, Ok p) ->
  with_TmpEnv pkcs11 init_values body f = (f', r) ->
  gone p f'.
Proof.
  intros Hk Em E. unfold with_TmpEnv, bind_io in E.
  destruct (TmpEnv_new pkcs11 init_values f) as [f1 [tmp_env|e]] eqn:En.
  - destruct (TmpEnv_new_ok _ _ _ _ _ En) as (f0' & Em' & Eb).
    rewrite Em in Em'. inversion Em'; subst f0' p.
    pose proof (init_body_root _ _ _ _ _ _ _ Em Eb) as Hd.
    destruct (body tmp_env f1) as [f2 r2] eqn:Ebody.
    assert (isdir f2 (tmp_path_templ tmp_env) = true) as Hd2.
    { apply isdir_true. eapply Hk; [exact Ebody|]. apply isdir_true, Hd. }
    destruct (rmtree_ok _ f2 Hd2) as (f3 & Er & Hgone & _).
    unfold _cleanup in E. rewrite Er in E. inversion E; subst. exact Hgone.
  - inversion E; subst f' r. clear E.
    unfold TmpEnv_new, bind_io in En. rewrite Em in En.
    destruct (init_body pkcs11 init_values p f0) as [f1' [self|e0]] eqn:Eb;
      [discriminate|].
    pose proof (init_body_root _ _ _ _ _ _ _ Em Eb) as Hd.
    destruct (rmtree_ok _ f1' Hd) as (f3 & Er & Hgone & _).
    unfold _cleanup in En. rewrite Er in En. inversion En; subst. exact Hgone.
Qed.

(** C1. If the directory of the sandbox was made and anything then raises
    while the sandbox is built (the making of a node, an attribute, the
    config adapter or the writing of a node), the constructor raises that
    same error, nothing exists any more at the path of the sandbox or
    below it, and the rest of the filesystem is as the failed construction
    left it. If the sandbox was built and its directory is still one when
    the body of the [with] statement ends, then, whether the body returned
    or raised, the [with] statement ends the way the body did and nothing
    exists any more at the path of the sandbox or below it. So, for a body
    that removes no directory, nothing exists at the path of the sandbox
    or below it after the [with] statement, however it ends. *)
Theorem sandbox_teardown (pkcs11 : pyobj) (init_values : gmap string pyobj) (f : fs) :
  (forall p f0 f1 e,
     mkdtemp f = (f0, Ok p) ->
     init_body pkcs11 init_values p f0 = (f1, Raise e) ->
     exists f', TmpEnv_new pkcs11 init_values f = (f', Raise e)
                /\ gone p f'
                /\ (forall q, under (key p) q = false -> f' !! q = f1 !! q))
  /\ (forall A (body : TmpEnv -> io A) tmp_env f1 f2 (r : result A),
        TmpEnv_new pkcs11 init_values f = (f1, Ok tmp_env) ->
        body tmp_env f1 = (f2, r) ->
        isdir f2 (tmp_path_templ tmp_env) = true ->
        exists f3, with_TmpEnv pkcs11 init_values body f = (f3, r)
                   /\ gone (tmp_path_templ tmp_env) f3)
  /\ (forall A (body : TmpEnv -> io A) p f0 f' (r : result A),
        (forall tmp_env, keeps_dirs (body tmp_env)) ->
        mkdtemp f = (f0, Ok p) ->
        with_TmpEnv pkcs11 init_values body f = (f', r) ->
        gone p f').
Proof.
  split; [|split].
  - intros p f0 f1 e Em Eb.
    pose proof (init_body_root _ _ _ _ _ _ _ Em Eb) as Hd.
    destruct (rmtree_ok p f1 Hd) as (f' & Er & Hgone & Hrest).
    exists f'. split; [|split; assumption].
    unfold TmpEnv_new, bind_io. rewrite Em, Eb. unfold _cleanup. rewrite Er. reflexivity.
  - intros A body tmp_env f1 f2 r En Eb Hd.
    destruct (rmtree_ok _ f2 Hd) as (f3 & Er & Hgone & _).
    exists f3. split; [|assumption].
    unfold with_TmpEnv, bind_io. rewrite En, Eb. unfold _cleanup. rewrite Er. reflexivity.
  - intros A body p f0 f' r Hk Em E. eapply with_TmpEnv_gone; eassumption.
Qed.

End WithSystem.

(** A sandbox whose [index] is given as [None]: writing the node raises a
    [TypeError], and nothing of the sandbox is left. A sandbox whose body
    raises: the error is that of the body, and nothing of the sandbox is
    left. *)
Lemma sandbox_teardown_witness :
  (exists f', @TmpEnv_new lenient_syntax tmp_AbC123 PyNone (<["index" := PyNone]> ∅) world
              = (f', Raise (TypeError "expected a character buffer object"))
              /\ gone "/tmp/tmpAbC123" f')
  /\ (exists f3, @with_TmpEnv lenient_syntax tmp_AbC123 unit PyNone (<["index" := PyStr ""]> ∅)
                     (fun _ => raise (RuntimeError "the caller fails")) world
                   = (f3, Raise (RuntimeError "the caller fails"))
                   /\ gone "/tmp/tmpAbC123" f3).
Proof.
  pose proof (@sandbox_teardown lenient_syntax tmp_AbC123 PyNone
                (<["index" := PyNone]> ∅) world) as (Ha & _ & _).
  pose proof (@sandbox_teardown lenient_syntax tmp_AbC123 PyNone
                (<["index" := PyStr ""]> ∅) world) as (_ & Hb & _).
  split.
  - destruct (Ha "/tmp/tmpAbC123" (fst (@mkdtemp tmp_AbC123 world))
                (fst (@init_body lenient_syntax PyNone (<["index" := PyNone]> ∅)
                        "/tmp/tmpAbC123" (fst (@mkdtemp tmp_AbC123 world))))
                (TypeError "expected a character buffer object"))
      as (f' & E & Hg & _); [vm_compute; reflexivity|vm_compute; reflexivity|].
    exists f'. split; assumption.
  - destruct (@TmpEnv_new lenient_syntax tmp_AbC123 PyNone (<["index" := PyStr ""]> ∅) world)
      as [f1 [tmp_env|e]] eqn:En; [|vm_compute in En; discriminate].
    assert (tmp_path_templ tmp_env = "/tmp/tmpAbC123") as Hp.
    { destruct (TmpEnv_new_ok _ _ _ _ _ En) as (f0 & Em & _).
      apply mkdtemp_ok in Em as (Hp & _). exact Hp. }
    destruct (Hb unit (fun _ => raise (RuntimeError "the caller fails")) tmp_env f1 f1
                (Raise (RuntimeError "the caller fails")) eq_refl eq_refl)
      as (f3 & E & Hg).
    + rewrite Hp.
      destruct (TmpEnv_new_ok _ _ _ _ _ En) as (f0 & Em & Eb). rewrite Hp in Em, Eb.
      eapply init_body_root; eassumption.
    + exists f3. rewrite Hp in Hg. split; assumption.
Defined.

End TeardownFacts.

(** ** The nodes of a sandbox *)

Module NodeFacts.
Import Text Path FS Config Sandbox Env StrFacts PathFacts FSFacts TeardownFacts.

Lemma append_inv_head a b c : a ++ b = a ++ c -> b = c.
Proof. induction a as [|x a IH]; simpl; intros E; [assumption|]. inversion E. auto. Qed.

Lemma append_ne_self a c b : a ++ String c b <> a.
Proof.
  intros E. apply (f_equal String.length) in E.
  rewrite append_length in E. simpl in E. lia.
Qed.

Lemma exists_isdir f p : isdir f p = true -> exists_ f p = true.
Proof. intros Hd%isdir_true. unfold exists_. now rewrite Hd. Qed.

Lemma path_eq self :
  path self = _path self ++ relative_pth self ++ name self.
Proof. reflexivity. Qed.

Section Nodes.
Variable p : string.
Let R := rstrip_slash p.
Hypothesis HR : is_root R.

(** A node kept in the directory of the sandbox: no directory is made. *)
Lemma DirectoryStructure_new_at_root name opts f :
  no_slash name = true -> isdir f R = true ->
  DirectoryStructure_new name "" p opts f
  = (f, Ok (mk_DirectoryStructure name "" PyNone (R ++ "/") opts)).
Proof.
  intros Hn Hd. unfold DirectoryStructure_new, bind_io, _makedir_if_nonexistent.
  fold R. rewrite path_eq. simpl.
  rewrite append_assoc. simpl.
  rewrite (dirname_child R name HR Hn), (exists_isdir f R Hd). reflexivity.
Qed.

Lemma makedirs_child sub f :
  no_slash sub = true -> sub <> "" -> isdir f R = true ->
  f !! (R ++ String "/" sub) = None ->
  makedirs (R ++ String "/" sub) f = (<[R ++ String "/" sub := Dir]> f, Ok tt).
Proof.
  intros Hs Hne Hd Hfresh. unfold makedirs. simpl.
  rewrite (split_child R sub HR Hs).
  apply is_empty_false in Hne. rewrite Hne.
  rewrite (exists_isdir f R Hd), !andb_false_r.
  unfold mkdir. apply is_empty_false in Hne.
  pose proof (is_root_child R sub Hs Hne) as Hc.
  replace (is_empty (R ++ String "/" sub)) with false by (now destruct R).
  rewrite (key_root _ Hc), Hfresh, (dirname_child R sub HR Hs), Hd, orb_true_r.
  reflexivity.
Qed.

(** A node kept in a subdirectory that does not exist yet: it is made. *)
Lemma DirectoryStructure_new_in_new_subdir sub rel name opts f :
  rel = sub ++ "/" ->
  no_slash sub = true -> sub <> "" -> no_slash name = true ->
  isdir f R = true -> f !! (R ++ String "/" sub) = None ->
  DirectoryStructure_new name rel p opts f
  = (<[R ++ String "/" sub := Dir]> f,
     Ok (mk_DirectoryStructure name rel PyNone (R ++ "/") opts)).
Proof.
  intros -> Hs Hne Hn Hd Hfresh.
  unfold DirectoryStructure_new, bind_io, _makedir_if_nonexistent.
  fold R. rewrite path_eq. simpl.
  replace ((R ++ "/") ++ (sub ++ "/") ++ name)
    with ((R ++ String "/" sub) ++ String "/" name)
    by (rewrite !append_assoc; reflexivity).
  pose proof (is_root_child R sub Hs Hne) as Hc.
  rewrite (dirname_child _ name Hc Hn).
  unfold exists_. rewrite (key_root _ Hc), Hfresh. simpl.
  rewrite (makedirs_child sub f Hs Hne Hd Hfresh). reflexivity.
Qed.

(** A node kept in a subdirectory that exists. *)
Lemma DirectoryStructure_new_in_subdir sub rel name opts f :
  rel = sub ++ "/" ->
  no_slash sub = true -> sub <> "" -> no_slash name = true ->
  f !! (R ++ String "/" sub) = Some Dir ->
  DirectoryStructure_new name rel p opts f
  = (f, Ok (mk_DirectoryStructure name rel PyNone (R ++ "/") opts)).
Proof.
  intros -> Hs Hne Hn Hd.
  unfold DirectoryStructure_new, bind_io, _makedir_if_nonexistent.
  fold R. rewrite path_eq. simpl.
  replace ((R ++ "/") ++ (sub ++ "/") ++ name)
    with ((R ++ String "/" sub) ++ String "/" name)
    by (rewrite !append_assoc; reflexivity).
  pose proof (is_root_child R sub Hs Hne) as Hc.
  rewrite (dirname_child _ name Hc Hn).
  unfold exists_. rewrite (key_root _ Hc), Hd. reflexivity.
Qed.

Lemma isdir_insert_other f k q :
  k <> q -> (<[k := Dir]> f : fs) !! q = f !! q.
Proof. intros Hne. now rewrite lookup_insert_ne. Qed.

(** In a new and empty directory, [_prepare_dir_structures] makes the three
    subdirectories and returns the sandbox [prepared]. *)
Lemma _prepare_dir_structures_spec pkcs11 f :
  f !! R = Some Dir ->
  f !! (R ++ "/private") = None -> f !! (R ++ "/certs") = None ->
  f !! (R ++ "/csr") = None ->
  _prepare_dir_structures pkcs11 p f
  = (<[R ++ "/csr" := Dir]> (<[R ++ "/certs" := Dir]> (<[R ++ "/private" := Dir]> f)),
     Ok (prepared pkcs11 p)).
Proof.
  intros Hd Hp Hc Hs.
  assert (key R = R) as Hk by now apply key_root.
  assert (forall g : fs, g !! R = Some Dir -> isdir g R = true) as Hdir.
  { intros g Hg. apply isdir_true. now rewrite Hk. }
  set (f1 := <[R ++ "/private" := Dir]> f).
  set (f2 := <[R ++ "/certs" := Dir]> f1).
  set (f3 := <[R ++ "/csr" := Dir]> f2).
  assert (R ++ "/private" <> R) as N1 by apply append_ne_self.
  assert (R ++ "/certs" <> R) as N2 by apply append_ne_self.
  assert (R ++ "/csr" <> R) as N3 by apply append_ne_self.
  assert (R ++ "/private" <> R ++ "/certs") as N4
    by (intros E; apply append_inv_head in E; discriminate).
  assert (R ++ "/private" <> R ++ "/csr") as N5
    by (intros E; apply append_inv_head in E; discriminate).
  assert (R ++ "/certs" <> R ++ "/csr") as N6
    by (intros E; apply append_inv_head in E; discriminate).
  assert (f1 !! R = Some Dir) as Hd1 by (unfold f1; now rewrite lookup_insert_ne).
  assert (f2 !! R = Some Dir) as Hd2 by (unfold f2; now rewrite lookup_insert_ne).
  assert (f3 !! R = Some Dir) as Hd3 by (unfold f3; now rewrite lookup_insert_ne).
  assert (f1 !! (R ++ "/certs") = None) as Hc1 by (unfold f1; now rewrite lookup_insert_ne).
  assert (f2 !! (R ++ "/csr") = None) as Hs2
    by (unfold f2, f1; now rewrite !lookup_insert_ne).
  assert (f3 !! (R ++ "/certs") = Some Dir) as Hc3
    by (unfold f3, f2; rewrite lookup_insert_ne by congruence; apply lookup_insert_eq).
  unfold _prepare_dir_structures, bind_io.
  rewrite (DirectoryStructure_new_at_root "cacert.pem" None f eq_refl (Hdir f Hd)).
  rewrite (DirectoryStructure_new_in_new_subdir "private" "private/" "cakey.pem" None f
             eq_refl eq_refl ltac:(discriminate) eq_refl (Hdir f Hd) Hp).
  fold f1.
  rewrite (DirectoryStructure_new_in_new_subdir "certs" "certs/" "" None f1
             eq_refl eq_refl ltac:(discriminate) eq_refl (Hdir f1 Hd1) Hc1).
  fold f2.
  rewrite (DirectoryStructure_new_in_new_subdir "csr" "csr/" "client.csr" None f2
             eq_refl eq_refl ltac:(discriminate) eq_refl (Hdir f2 Hd2) Hs2).
  fold f3.
  rewrite (DirectoryStructure_new_at_root "index.txt" None f3 eq_refl (Hdir f3 Hd3)).
  rewrite (DirectoryStructure_new_at_root "index.txt.attr" None f3 eq_refl (Hdir f3 Hd3)).
  rewrite (DirectoryStructure_new_at_root "revoke_cert.pem" None f3 eq_refl (Hdir f3 Hd3)).
  rewrite (DirectoryStructure_new_at_root "ca.crl" None f3 eq_refl (Hdir f3 Hd3)).
  rewrite (DirectoryStructure_new_at_root "serial" None f3 eq_refl (Hdir f3 Hd3)).
  cbn [relative_pth].
  rewrite (DirectoryStructure_new_in_subdir "certs" "certs/" "cert.pem" None f3
             eq_refl eq_refl ltac:(discriminate) eq_refl Hc3).
  rewrite (DirectoryStructure_new_at_root "openssl.cnf" _ f3 eq_refl (Hdir f3 Hd3)).
  reflexivity.
Qed.

End Nodes.
End NodeFacts.

(** ** The value of a node *)

Module ValueFacts.
Import Text Path FS Config Sandbox Env StrFacts PathFacts FSFacts TeardownFacts NodeFacts Examples.

Lemma startswith_append a b : Str.startswith a (a ++ b) = true.
Proof.
  induction a as [|c a IH]; simpl; [reflexivity|].
  now rewrite Ascii.eqb_refl.
Qed.

Lemma same_layout_path d d' : same_layout d d' -> path d' = path d.
Proof. intros (Hn & Hr & Hp). unfold path. now rewrite Hn, Hr, Hp. Qed.

Section WithSystem.
Context `{ConfigSyntax} `{TempDir}.








End WithSystem.


End ValueFacts.

(** ** Facts on the configuration document *)

Module ConfigFacts.
Import Text Path Config Sandbox StrFacts PathFacts.
Local Open Scope list_scope.
#[local] Arguments option_line : simpl never.

Lemma has_key_value o l : has_key o l = true -> exists v, option_of l = Some (o, v).
Proof.
  unfold has_key. intros Hk%bool_decide_eq_true.
  destruct (option_of l) as [[k v]|]; simpl in Hk; [|discriminate].
  inversion Hk; subst. eauto.
Qed.

Lemma sect_body_app s X Y :
  sect_body s (X ++ Y)
  = match sect_body s X with
    | Some b => Some (b ++ Y)
    | None => sect_body s Y
    end.
Proof.
  induction X as [|l X IH]; simpl; [reflexivity|].
  destruct (is_header s l); [reflexivity|exact IH].
Qed.

Lemma sect_body_no_sect s X : no_sect s X = true -> sect_body s X = None.
Proof.
  induction X as [|l X IH]; simpl; [reflexivity|].
  intros [Hl HX]%andb_true_iff. apply negb_true_iff in Hl. rewrite Hl. auto.
Qed.

Lemma no_headers_no_sect s X : no_headers X = true -> no_sect s X = true.
Proof.
  induction X as [|l X IH]; simpl; [reflexivity|].
  intros [Hl HX]%andb_true_iff. rewrite (IH HX), andb_true_r.
  apply negb_true_iff in Hl. apply negb_true_iff.
  unfold any_header in Hl. unfold is_header.
  destruct (header_of l); [discriminate|]. now apply bool_decide_eq_false.
Qed.

Lemma is_header_any s l : is_header s l = true -> any_header l = true.
Proof.
  unfold is_header, any_header. intros Hh%bool_decide_eq_true. now rewrite Hh.
Qed.

Lemma opt_value_app o X Y :
  opt_value o (X ++ Y)
  = if no_headers X
    then match opt_value o X with
         | Some v => Some v
         | None => opt_value o Y
         end
    else opt_value o X.
Proof.
  induction X as [|l X IH]; simpl; [reflexivity|].
  destruct (any_header l); simpl; [reflexivity|].
  destruct (has_key o l) eqn:Hk.
  - destruct (has_key_value o l Hk) as (v & ->). simpl.
    destruct (no_headers X); reflexivity.
  - exact IH.
Qed.

Lemma opt_value_header o h X : any_header h = true -> opt_value o (h :: X) = None.
Proof. intros Hh. simpl. now rewrite Hh. Qed.

Lemma sect_body_split s doc body :
  sect_body s doc = Some body ->
  exists pre h, doc = pre ++ h :: body /\ no_sect s pre = true /\ is_header s h = true.
Proof.
  induction doc as [|l doc IH]; simpl; [discriminate|].
  destruct (is_header s l) eqn:Hl.
  - intros E. inversion E; subst. exists [], l. auto.
  - intros E. destruct (IH E) as (pre & h & -> & Hp & Hh).
    exists (l :: pre), h. simpl. rewrite Hl, Hp. auto.
Qed.

Lemma sect_body_at s pre h body :
  no_sect s pre = true -> is_header s h = true ->
  sect_body s (pre ++ h :: body) = Some body.
Proof.
  intros Hp Hh. rewrite sect_body_app, (sect_body_no_sect s pre Hp). simpl.
  now rewrite Hh.
Qed.

Lemma edit_sect_at s F pre h body :
  no_sect s pre = true -> is_header s h = true ->
  edit_sect s F (pre ++ h :: body) = (app pre) <$> F (h :: body).
Proof.
  intros Hp Hh. induction pre as [|l pre IH]; simpl.
  - rewrite Hh. destruct (F (h :: body)); reflexivity.
  - simpl in Hp. apply andb_true_iff in Hp as [Hl Hp]. apply negb_true_iff in Hl.
    rewrite Hl, (IH Hp). destruct (F (h :: body)); reflexivity.
Qed.

Lemma find_sect_at s pre h body :
  no_sect s pre = true -> is_header s h = true ->
  find_sect s (pre ++ h :: body) = Some (length pre).
Proof.
  intros Hp Hh. induction pre as [|l pre IH]; simpl.
  - now rewrite Hh.
  - simpl in Hp. apply andb_true_iff in Hp as [Hl Hp]. apply negb_true_iff in Hl.
    rewrite Hl, (IH Hp). reflexivity.
Qed.

Lemma opt_value_split o body v :
  opt_value o body = Some v ->
  exists b1 l rest, body = b1 ++ l :: rest /\ no_headers b1 = true
                    /\ no_key o b1 = true /\ any_header l = false
                    /\ option_of l = Some (o, v).
Proof.
  induction body as [|l body IH]; simpl; [discriminate|].
  destruct (any_header l) eqn:Hh; [discriminate|].
  destruct (has_key o l) eqn:Hk.
  - destruct (has_key_value o l Hk) as (v' & Ev). rewrite Ev. simpl.
    intros E. inversion E; subst. exists [], l, body. auto.
  - intros E. destruct (IH E) as (b1 & l' & rest & -> & H1 & H2 & H3 & H4).
    exists (l :: b1), l', rest. simpl. rewrite Hh, Hk, H1, H2. auto.
Qed.

Lemma opt_value_no_key o b : no_key o b = true -> opt_value o b = None.
Proof.
  induction b as [|l b IH]; simpl; [reflexivity|].
  intros [Hl Hb]%andb_true_iff. apply negb_true_iff in Hl. rewrite Hl.
  destruct (any_header l); auto.
Qed.

Lemma has_key_of o l v : option_of l = Some (o, v) -> has_key o l = true.
Proof. intros E. unfold has_key. rewrite E. now apply bool_decide_eq_true. Qed.

Lemma has_key_other o o' l v : option_of l = Some (o, v) -> o' <> o -> has_key o' l = false.
Proof.
  intros E Hne. unfold has_key. rewrite E. apply bool_decide_eq_false.
  simpl. congruence.
Qed.

Lemma opt_value_at o b1 l rest v :
  no_headers b1 = true -> no_key o b1 = true -> any_header l = false ->
  option_of l = Some (o, v) ->
  opt_value o (b1 ++ l :: rest) = Some v.
Proof.
  intros H1 H2 H3 H4. rewrite opt_value_app, H1, (opt_value_no_key o b1 H2).
  simpl. rewrite H3, (has_key_of o l v H4), H4. reflexivity.
Qed.

Lemma edit_opt_at o G b1 l rest :
  no_headers b1 = true -> no_key o b1 = true -> any_header l = false ->
  has_key o l = true ->
  edit_opt o G (b1 ++ l :: rest) = Some (b1 ++ G (l :: rest)).
Proof.
  intros H1 H2 H3 H4. induction b1 as [|x b1 IH]; simpl.
  - now rewrite H3, H4.
  - simpl in H1, H2. apply andb_true_iff in H1 as [Hx H1].
    apply andb_true_iff in H2 as [Kx H2].
    apply negb_true_iff in Hx. apply negb_true_iff in Kx.
    rewrite Hx, Kx, (IH H1 H2). reflexivity.
Qed.

(** The value of an option in a document where one line of a key [o] in
    the section [s] may have changed: only the value of [o] in [s] reads
    that line. *)
Lemma lookup_in_line s o pre h b1 x y rest s' o' vx vy :
  no_sect s pre = true -> is_header s h = true ->
  no_headers b1 = true ->
  any_header x = false -> any_header y = false ->
  option_of x = Some (o, vx) -> option_of y = Some (o, vy) ->
  (s' <> s \/ o' <> o) ->
  lookup_in (pre ++ h :: b1 ++ x :: rest) s' o'
  = lookup_in (pre ++ h :: b1 ++ y :: rest) s' o'.
Proof.
  intros Hp Hh Hb Hx Hy Ox Oy Hne. unfold lookup_in.
  rewrite !sect_body_app.
  destruct (sect_body s' pre) as [b|]; simpl.
  - rewrite !opt_value_app. destruct (no_headers b); [|reflexivity].
    destruct (opt_value o' b); [reflexivity|].
    now rewrite !opt_value_header by (eapply is_header_any; eassumption).
  - destruct (is_header s' h) eqn:Hh'.
    + simpl. assert (s' = s) as ->.
      { unfold is_header in *. apply bool_decide_eq_true in Hh, Hh'. congruence. }
      destruct Hne as [Hne|Hne]; [congruence|].
      rewrite !opt_value_app, Hb. destruct (opt_value o' b1); [reflexivity|].
      simpl. rewrite Hx, Hy, (has_key_other o o' x vx Ox Hne),
        (has_key_other o o' y vy Oy Hne). reflexivity.
    + rewrite !sect_body_app, (sect_body_no_sect s' b1 (no_headers_no_sect s' b1 Hb)).
      simpl.
      assert (is_header s' x = false) as ->.
      { destruct (is_header s' x) eqn:E; [|reflexivity].
        apply is_header_any in E. congruence. }
      assert (is_header s' y = false) as ->.
      { destruct (is_header s' y) eqn:E; [|reflexivity].
        apply is_header_any in E. congruence. }
      reflexivity.
Qed.

(** The substitution of the line of [o] in [s] by one line [nl] of the
    same key, as [substitute] does it. *)
Lemma substitute_line s o nl v doc :
  any_header nl = false -> option_of nl = Some (o, v) ->
  is_Some (lookup_in doc s o) ->
  exists doc',
    edit_sect s (in_body (edit_opt o (fun ls => [nl] ++ tail ls))) doc = Some doc'
    /\ lookup_in doc' s o = Some v
    /\ (forall s' o', s' <> s \/ o' <> o -> lookup_in doc' s' o' = lookup_in doc s' o').
Proof.
  intros Hn On [v0 Hv]. unfold lookup_in in Hv.
  destruct (sect_body s doc) as [body|] eqn:Eb; [|discriminate]. simpl in Hv.
  destruct (sect_body_split s doc body Eb) as (pre & h & -> & Hp & Hh).
  destruct (opt_value_split o body v0 Hv) as (b1 & l & rest & -> & H1 & H2 & H3 & H4).
  exists (pre ++ h :: b1 ++ nl :: rest). split; [|split].
  - rewrite (edit_sect_at s _ pre h _ Hp Hh). simpl.
    rewrite (edit_opt_at o _ b1 l rest H1 H2 H3 (has_key_of o l v0 H4)). reflexivity.
  - unfold lookup_in. rewrite (sect_body_at s pre h _ Hp Hh). simpl.
    now apply opt_value_at.
  - intros s' o' Hne. eapply lookup_in_line; eassumption.
Qed.

(** *** Locations and option lines as texts *)

Lemma cut_at_append c a b :
  Str.forallb_s (fun x => negb (Ascii.eqb x c)) a = true ->
  cut_at c (a ++ String c b)%string = Some (a, b).
Proof.
  induction a as [|x a IH]; simpl.
  - intros _. now rewrite Ascii.eqb_refl.
  - intros [Hx Ha]%andb_true_iff. apply negb_true_iff in Hx.
    rewrite Hx, (IH Ha). reflexivity.
Qed.

Lemma cut_at_none c a :
  Str.forallb_s (fun x => negb (Ascii.eqb x c)) a = true -> cut_at c a = None.
Proof.
  induction a as [|x a IH]; simpl; [reflexivity|].
  intros [Hx Ha]%andb_true_iff. apply negb_true_iff in Hx.
  rewrite Hx, (IH Ha). reflexivity.
Qed.

Lemma forallb_s_impl (P Q : ascii -> bool) s :
  (forall c, P c = true -> Q c = true) ->
  Str.forallb_s P s = true -> Str.forallb_s Q s = true.
Proof.
  intros HPQ. induction s as [|c s IH]; simpl; [reflexivity|].
  intros [Hc Hs]%andb_true_iff. rewrite (HPQ c Hc), (IH Hs). reflexivity.
Qed.

Lemma plain_name_no_dot s :
  plain_name s = true -> Str.forallb_s (fun x => negb (Ascii.eqb x ".")) s = true.
Proof.
  apply forallb_s_impl. intros c Hc. apply negb_true_iff in Hc.
  apply orb_false_iff in Hc as [Hc _]. apply orb_false_iff in Hc as [Hc _].
  now rewrite Hc.
Qed.

Lemma split_location_opt sect opt :
  plain_name sect = true ->
  split_location (sect ++ String "." opt)%string = (sect, Some opt).
Proof.
  intros Hs. unfold split_location.
  now rewrite (cut_at_append "." sect opt (plain_name_no_dot sect Hs)).
Qed.

Lemma split_location_sect sect :
  plain_name sect = true -> split_location sect = (sect, None).
Proof.
  intros Hs. unfold split_location.
  now rewrite (cut_at_none "." sect (plain_name_no_dot sect Hs)).
Qed.

Lemma format_1_plain sect opt :
  plain_name sect = true ->
  Sandbox.format_1 Sandbox.Unnumbered (sect ++ ".{}")%string opt
  = Ok (sect ++ String "." opt)%string.
Proof.
  induction sect as [|c sect IH]; simpl.
  - intros _. rewrite append_nil_r. reflexivity.
  - intros [Hc Hs]%andb_true_iff. apply negb_true_iff in Hc.
    apply orb_false_iff in Hc as [Hc Hc3]. apply orb_false_iff in Hc as [Hc1 Hc2].
    apply Ascii.eqb_neq in Hc1, Hc2, Hc3.
    specialize (IH Hs).
    destruct c as [[] [] [] [] [] [] [] []]; try congruence;
      cbn [Sandbox.format_1]; rewrite IH; reflexivity.
Qed.

Lemma lstrip_nonspace c s : is_space c = false -> lstrip (String c s) = String c s.
Proof. intros Hc. simpl. now rewrite Hc. Qed.

Lemma rstrip_nonspace s :
  Str.forallb_s (fun c => negb (is_space c)) s = true -> rstrip s = s.
Proof.
  unfold rstrip. induction s as [|c s IH]; simpl; [reflexivity|].
  intros [Hc Hs]%andb_true_iff. apply negb_true_iff in Hc.
  rewrite (IH Hs), Hc. reflexivity.
Qed.

Lemma splitlines_one_line s : one_line s = true -> s <> "" -> splitlines s = [s].
Proof.
  induction s as [|c s IH]; [congruence|]. simpl.
  intros [Hc Hs]%andb_true_iff _. apply negb_true_iff in Hc. rewrite Hc.
  destruct s as [|c' s']; [reflexivity|].
  rewrite (IH Hs) by discriminate. reflexivity.
Qed.

Lemma one_line_append a b : one_line (a ++ b)%string = one_line a && one_line b.
Proof.
  unfold one_line. induction a as [|c a IH]; simpl; [reflexivity|].
  now rewrite IH, andb_assoc.
Qed.

Lemma plain_key_parts k :
  plain_key k = true ->
  exists c k', k = String c k' /\ is_space c = false
               /\ (Ascii.eqb c "[" || Ascii.eqb c "#" || Ascii.eqb c ";") = false
               /\ Str.forallb_s (fun x => negb (is_space x)) k = true
               /\ Str.forallb_s (fun x => negb (Ascii.eqb x "=")) k = true.
Proof.
  intros Hk. unfold plain_key in Hk. destruct k as [|c k']; [discriminate|].
  apply andb_true_iff in Hk as [H1 H2]. apply negb_true_iff in H1.
  exists c, k'. split; [reflexivity|].
  assert (Str.forallb_s (fun x => negb (is_space x)) (String c k') = true) as Hs.
  { revert H2. apply forallb_s_impl. intros x Hx. apply negb_true_iff in Hx.
    apply orb_false_iff in Hx as [Hx _]. now rewrite Hx. }
  assert (Str.forallb_s (fun x => negb (Ascii.eqb x "=")) (String c k') = true) as He.
  { revert H2. apply forallb_s_impl. intros x Hx. apply negb_true_iff in Hx.
    apply orb_false_iff in Hx as [_ Hx]. now rewrite Hx. }
  split; [|auto].
  simpl in Hs. apply andb_true_iff in Hs as [Hs _]. now apply negb_true_iff in Hs.
Qed.

Lemma option_line_cons c k' path :
  option_line (String c k') path = String c (option_line k' path).
Proof. reflexivity. Qed.

Lemma option_line_cut k path :
  Str.forallb_s (fun x => negb (Ascii.eqb x "=")) k = true ->
  cut_at "=" (option_line k path) = Some ((k ++ " ")%string, (" " ++ path)%string).
Proof.
  intros Hne. unfold option_line.
  replace (k ++ " = " ++ path)%string
    with ((k ++ " ") ++ String "=" (" " ++ path))%string
    by (rewrite append_assoc; reflexivity).
  apply cut_at_append.
  induction k as [|x s IH]; simpl in *; [reflexivity|].
  apply andb_true_iff in Hne as [Hx Hs]. rewrite Hx. simpl. auto.
Qed.

Lemma option_line_header k path :
  plain_key k = true -> any_header (option_line k path) = false.
Proof.
  intros Hk. destruct (plain_key_parts k Hk) as (c & k' & -> & Hsp & Hc & _ & _).
  unfold any_header, header_of. rewrite option_line_cons, (lstrip_nonspace _ _ Hsp).
  apply orb_false_iff in Hc as [Hc _]. apply orb_false_iff in Hc as [Hc _].
  now rewrite Hc.
Qed.

Lemma option_line_option k path :
  plain_key k = true -> option_of (option_line k path) = Some (k, strip path).
Proof.
  intros Hk. destruct (plain_key_parts k Hk) as (c & k' & Ek & Hsp & Hc & Hns & Hne).
  unfold option_of.
  assert (lstrip (option_line k path) = option_line k path) as ->
    by (rewrite Ek, option_line_cons; now apply lstrip_nonspace).
  rewrite Ek at 1. rewrite option_line_cons, Hc, <- option_line_cons, <- Ek.
  rewrite (option_line_cut k path Hne). f_equal. f_equal.
  unfold strip.
  assert (lstrip (k ++ " ")%string = (k ++ " ")%string) as ->
    by (rewrite Ek; now apply (lstrip_nonspace c (k' ++ " ")%string)).
  unfold rstrip. rewrite rstrip_of_append_drop by reflexivity.
  now apply rstrip_nonspace.
Qed.

Lemma option_line_lines k path :
  plain_key k = true -> one_line path = true ->
  splitlines (option_line k path) = [option_line k path].
Proof.
  intros Hk Hp. destruct (plain_key_parts k Hk) as (c & k' & Ek & _ & _ & Hns & _).
  apply splitlines_one_line.
  - unfold option_line. rewrite !one_line_append, Hp.
    replace (one_line k) with true; [reflexivity|]. symmetry.
    revert Hns. apply forallb_s_impl. intros x Hx. apply negb_true_iff in Hx.
    apply negb_true_iff. unfold is_space, is_nl in *.
    destruct (Str.code x =? 10)%N eqn:E; [|reflexivity].
    apply N.eqb_eq in E. rewrite E in Hx. discriminate.
  - rewrite Ek. discriminate.
Qed.

(** *** The substitutions of the adapter *)

Lemma _substitute_path_spec doc sect opt path :
  plain_name sect = true -> plain_key opt = true -> one_line path = true ->
  is_Some (lookup_in doc sect opt) ->
  exists doc',
    _substitute_path (sect ++ ".{}")%string doc opt path = Ok doc'
    /\ lookup_in doc' sect opt = Some (strip path)
    /\ (forall s' o', s' <> sect \/ o' <> opt ->
         lookup_in doc' s' o' = lookup_in doc s' o').
Proof.
  intros Hs Hk Hp Hin.
  destruct (substitute_line sect opt (option_line opt path) (strip path) doc
              (option_line_header opt path Hk) (option_line_option opt path Hk) Hin)
    as (doc' & He & Hv & Hf).
  exists doc'. split; [|split; assumption].
  unfold _substitute_path. rewrite (format_1_plain sect opt Hs). simpl.
  unfold substitute, edit. rewrite (split_location_opt sect opt Hs).
  rewrite (option_line_lines opt path Hk Hp).
  rewrite He. reflexivity.
Qed.

Lemma substitute_paths_loop_spec sect (items : list (string * string)) : forall doc,
  plain_name sect = true ->
  NoDup items.*1 ->
  (forall k path, (k, path) ∈ items ->
     plain_key k = true /\ one_line path = true /\ is_Some (lookup_in doc sect k)) ->
  exists doc',
    substitute_paths_loop (sect ++ ".{}")%string doc items = Ok doc'
    /\ (forall k path, (k, path) ∈ items -> lookup_in doc' sect k = Some (strip path))
    /\ (forall s' o', s' <> sect \/ o' ∉ items.*1 ->
         lookup_in doc' s' o' = lookup_in doc s' o').
Proof.
  induction items as [|[k path] items IH]; intros doc Hs Hnd Hall.
  - exists doc. split; [reflexivity|]. split; [|auto].
    intros k path Hin. inversion Hin.
  - simpl in Hnd. apply NoDup_cons in Hnd as [Hk Hnd].
    destruct (Hall k path ltac:(left)) as (Hpk & Hol & Hin).
    destruct (_substitute_path_spec doc sect k path Hs Hpk Hol Hin)
      as (doc1 & E1 & Hv1 & Hf1).
    destruct (IH doc1 Hs Hnd) as (doc' & E' & Hv' & Hf').
    { intros k' path' Hin'. destruct (Hall k' path' ltac:(now right)) as (? & ? & Hi).
      split; [assumption|]. split; [assumption|].
      rewrite Hf1; [assumption|]. right. intros ->.
      apply Hk. apply list_elem_of_fmap. exists (k, path'). auto. }
    exists doc'. split; [|split].
    + simpl. rewrite E1. simpl. exact E'.
    + intros k' path' Hin'. apply elem_of_cons in Hin' as [Heq|Hin'].
      * inversion Heq; subst. rewrite Hf'; [assumption|]. now right.
      * now apply Hv'.
    + intros s' o' Hne. rewrite Hf'.
      * apply Hf1. destruct Hne as [Hne|Hne]; [now left|right].
        intros ->. apply Hne. simpl. left.
      * destruct Hne as [Hne|Hne]; [now left|right].
        intros Hin'. apply Hne. simpl. now right.
Qed.

(** *** Insertion above a section *)

Lemma insert_above_spec doc sect text :
  plain_name sect = true -> is_Some (sect_body sect doc) ->
  exists pre h rest,
    doc = pre ++ h :: rest /\ no_sect sect pre = true /\ is_header sect h = true
    /\ insert_above doc sect text = Ok (pre ++ splitlines text ++ h :: rest).
Proof.
  intros Hs [body Hb].
  destruct (sect_body_split sect doc body Hb) as (pre & h & -> & Hp & Hh).
  exists pre, h, body. split; [reflexivity|]. split; [assumption|]. split; [assumption|].
  unfold insert_above, edit. rewrite (split_location_sect sect Hs).
  rewrite (edit_sect_at sect _ pre h body Hp Hh). reflexivity.
Qed.

Lemma lookup_in_insert s o pre st h rest :
  any_header h = true -> no_sect s st = true -> opt_value o st = None ->
  lookup_in (pre ++ st ++ h :: rest) s o = lookup_in (pre ++ h :: rest) s o.
Proof.
  intros Hh Hs Ho. unfold lookup_in. rewrite !sect_body_app.
  destruct (sect_body s pre) as [b|]; simpl.
  - rewrite !opt_value_app. destruct (no_headers b); [|reflexivity].
    destruct (opt_value o b); [reflexivity|].
    rewrite Ho, (opt_value_header o h rest Hh). destruct (no_headers st); reflexivity.
  - rewrite (sect_body_no_sect s st Hs). reflexivity.
Qed.

(** *** Removal of a key *)

Lemma header_no_option l : any_header l = true -> option_of l = None.
Proof.
  unfold any_header, header_of, option_of.
  destruct (lstrip l) as [|c r]; [discriminate|].
  destruct (Ascii.eqb c "["); [reflexivity|discriminate].
Qed.

Lemma header_no_key o l : any_header l = true -> has_key o l = false.
Proof.
  intros Hh. unfold has_key. rewrite (header_no_option l Hh).
  now apply bool_decide_eq_false.
Qed.

Lemma without_key_value o body : opt_value o (without_key o body) = None.
Proof.
  induction body as [|l body IH]; simpl; [reflexivity|].
  destruct (any_header l) eqn:Hh; simpl; [now rewrite Hh|].
  destruct (has_key o l) eqn:Hk; [exact IH|]. simpl. now rewrite Hh, Hk.
Qed.

Lemma without_key_other o o' body :
  o' <> o -> opt_value o' (without_key o body) = opt_value o' body.
Proof.
  intros Hne. induction body as [|l body IH]; simpl; [reflexivity|].
  destruct (any_header l) eqn:Hh; simpl; [now rewrite Hh|].
  destruct (has_key o l) eqn:Hk.
  - destruct (has_key_value o l Hk) as (v & Ev).
    now rewrite (has_key_other o o' l v Ev Hne).
  - simpl. rewrite Hh, IH. reflexivity.
Qed.

Lemma without_key_sect_body o s body :
  sect_body s (without_key o body) = sect_body s body.
Proof.
  induction body as [|l body IH]; simpl; [reflexivity|].
  destruct (any_header l) eqn:Hh; simpl; [reflexivity|].
  assert (is_header s l = false) as Hs.
  { destruct (is_header s l) eqn:E; [|reflexivity]. apply is_header_any in E. congruence. }
  destruct (has_key o l); simpl; rewrite Hs; exact IH.
Qed.

Lemma remove_spec doc sect o :
  plain_name sect = true -> is_Some (lookup_in doc sect o) ->
  exists pre h body,
    doc = pre ++ h :: body /\ no_sect sect pre = true /\ is_header sect h = true
    /\ remove doc (sect ++ String "." o)%string = Ok (pre ++ h :: without_key o body).
Proof.
  intros Hs Hin. pose proof Hin as [v Hv]. unfold lookup_in in Hv.
  destruct (sect_body sect doc) as [body|] eqn:Hb; [|discriminate].
  destruct (sect_body_split sect doc body Hb) as (pre & h & -> & Hp & Hh).
  exists pre, h, body. split; [reflexivity|]. split; [assumption|]. split; [assumption|].
  unfold remove. rewrite (split_location_opt sect o Hs).
  unfold contains. rewrite (split_location_opt sect o Hs).
  rewrite bool_decide_eq_true_2 by exact Hin.
  unfold edit. rewrite (split_location_sect sect Hs).
  rewrite (edit_sect_at sect _ pre h body Hp Hh). reflexivity.
Qed.

Lemma lookup_in_remove sect o pre h body s' o' :
  no_sect sect pre = true -> is_header sect h = true ->
  lookup_in (pre ++ h :: without_key o body) s' o'
  = if bool_decide (s' = sect /\ o' = o) then None
    else lookup_in (pre ++ h :: body) s' o'.
Proof.
  intros Hp Hh. unfold lookup_in. rewrite !sect_body_app.
  destruct (sect_body s' pre) as [b|] eqn:Eb; simpl.
  - rewrite bool_decide_eq_false_2.
    + rewrite !opt_value_app. destruct (no_headers b); [|reflexivity].
      destruct (opt_value o' b); [reflexivity|].
      now rewrite !opt_value_header by (eapply is_header_any; eassumption).
    + intros [-> _]. rewrite (sect_body_no_sect sect pre Hp) in Eb. discriminate.
  - destruct (is_header s' h) eqn:Hh'; simpl.
    + assert (s' = sect) as ->.
      { unfold is_header in *. apply bool_decide_eq_true in Hh, Hh'. congruence. }
      destruct (decide (o' = o)) as [->|Hne].
      * rewrite bool_decide_eq_true_2 by auto. apply without_key_value.
      * rewrite bool_decide_eq_false_2 by (intros [_ ?]; congruence).
        now apply without_key_other.
    + rewrite bool_decide_eq_false_2.
      * now rewrite without_key_sect_body.
      * intros [-> _]. congruence.
Qed.

(** *** Thinned documents *)

Lemma thinned_refl o d : thinned o d d.
Proof. induction d; constructor; assumption. Qed.

Lemma thinned_app o a a' b b' :
  thinned o a a' -> thinned o b b' -> thinned o (a ++ b) (a' ++ b').
Proof.
  intros Ha Hb. induction Ha; simpl; [assumption|constructor; assumption|].
  now constructor.
Qed.

Lemma without_key_thinned o body : thinned o body (without_key o body).
Proof.
  induction body as [|l body IH]; simpl; [constructor|].
  destruct (any_header l) eqn:Hh; [apply thinned_refl|].
  destruct (has_key o l) eqn:Hk; [now constructor|now constructor].
Qed.

Lemma thinned_app_inv o a b z :
  thinned o (a ++ b) z ->
  exists a' b', z = a' ++ b' /\ thinned o a a' /\ thinned o b b'.
Proof.
  revert z. induction a as [|l a IH]; intros z Hz; simpl in Hz.
  - exists [], z. split; [reflexivity|]. split; [constructor|assumption].
  - inversion Hz as [|? ? d' Hd|? ? ? Hh Hk Hd]; subst.
    + destruct (IH d' Hd) as (a' & b' & -> & Ha & Hb).
      exists (l :: a'), b'. split; [reflexivity|]. split; [now constructor|assumption].
    + destruct (IH z Hd) as (a' & b' & -> & Ha & Hb).
      exists a', b'. split; [reflexivity|]. split; [now constructor|assumption].
Qed.

Lemma thinned_no_key o a a' : no_key o a = true -> thinned o a a' -> a' = a.
Proof.
  intros Hn Ht. induction Ht; simpl in Hn; [reflexivity| |].
  - apply andb_true_iff in Hn as [_ Hn]. now rewrite IHHt.
  - apply andb_true_iff in Hn as [Hl _]. apply negb_true_iff in Hl. congruence.
Qed.

Lemma thinned_header o h b z :
  any_header h = true -> thinned o (h :: b) z ->
  exists b', z = h :: b' /\ thinned o b b'.
Proof.
  intros Hh Hz. inversion Hz; subst; [eauto|congruence].
Qed.

Lemma thinned_no_sect o s a a' : no_sect s a = true -> thinned o a a' -> no_sect s a' = true.
Proof.
  intros Hn Ht. induction Ht; simpl in *; [reflexivity| |].
  - apply andb_true_iff in Hn as [Hl Hn]. rewrite Hl. simpl. auto.
  - apply andb_true_iff in Hn as [_ Hn]. auto.
Qed.

Lemma no_sect_app s a b : no_sect s (a ++ b) = no_sect s a && no_sect s b.
Proof. unfold no_sect. apply forallb_app. Qed.

(** Lines that stand above a header stay there when the document is
    thinned by a key they do not have. *)
Lemma immediately_above_thinned o st s pre h rest doc' :
  no_sect s pre = true -> no_sect s st = true -> is_header s h = true ->
  no_key o st = true ->
  thinned o (pre ++ st ++ h :: rest) doc' ->
  immediately_above st s doc' = true.
Proof.
  intros Hp Hst Hh Hk Ht.
  destruct (thinned_app_inv o pre _ doc' Ht) as (pre' & z1 & -> & Hpre & Hz1).
  destruct (thinned_app_inv o st _ z1 Hz1) as (st' & z2 & -> & Hst' & Hz2).
  rewrite (thinned_no_key o st st' Hk Hst').
  destruct (thinned_header o h rest z2 (is_header_any s h Hh) Hz2) as (rest' & -> & _).
  unfold immediately_above.
  replace (pre' ++ st ++ h :: rest') with ((pre' ++ st) ++ h :: rest')
    by now rewrite <- app_assoc.
  rewrite find_sect_at;
    [|rewrite no_sect_app, Hst, (thinned_no_sect o s pre pre' Hp Hpre); reflexivity
     |assumption].
  rewrite length_app. apply andb_true_iff. split; [apply Nat.leb_le; lia|].
  apply bool_decide_eq_true.
  replace (length pre' + length st - length st)%nat with (length pre') by lia.
  rewrite <- app_assoc, drop_app_length, take_app_length. reflexivity.
Qed.

End ConfigFacts.

(** ** The configuration adapter *)

Module AdapterFacts.
Import Text Path FS Config Sandbox Env StrFacts PathFacts ConfigFacts Examples.
#[local] Arguments option_line : simpl never.

Lemma splitlines_line_nf a rest :
  one_line a = true ->
  splitlines (a ++ String (ascii_of_nat 10) rest) = a :: splitlines rest.
Proof.
  induction a as [|c a IH]; simpl; [reflexivity|].
  intros [Hc Ha]%andb_true_iff. apply negb_true_iff in Hc.
  simpl in IH. rewrite Hc, (IH Ha). reflexivity.
Qed.

Lemma splitlines_line a rest :
  one_line a = true -> splitlines (a ++ Str.NL ++ rest) = a :: splitlines rest.
Proof. apply splitlines_line_nf. Qed.

Lemma splitlines_last a :
  one_line a = true -> splitlines (a ++ Str.NL) = [a].
Proof. intros Ha. apply (splitlines_line_nf a "" Ha). Qed.

Lemma one_line_option_line k v : one_line k = true -> one_line v = true ->
  one_line (option_line k v) = true.
Proof.
  intros Hk Hv. unfold option_line. now rewrite !one_line_append, Hk, Hv.
Qed.

(** The text of the stanza is its lines. *)
Lemma PKCS11_OPTS_lines dynamic_path module_path :
  one_line dynamic_path = true -> one_line module_path = true ->
  splitlines (PKCS11_OPTS dynamic_path module_path)
  = engine_stanza dynamic_path module_path.
Proof.
  intros Hd Hm. unfold PKCS11_OPTS, engine_stanza, NL.
  change (Str.NL ++ "openssl_conf = openssl_def" ++ ?x)
    with ("" ++ Str.NL ++ "openssl_conf = openssl_def" ++ x).
  rewrite (splitlines_line "") by reflexivity.
  rewrite (splitlines_line "openssl_conf = openssl_def") by reflexivity.
  change (Str.NL ++ "[openssl_def]" ++ ?x) with ("" ++ Str.NL ++ "[openssl_def]" ++ x).
  rewrite (splitlines_line "") by reflexivity.
  rewrite (splitlines_line "[openssl_def]") by reflexivity.
  rewrite (splitlines_line "engines = engine_section") by reflexivity.
  change (Str.NL ++ "[engine_section]" ++ ?x) with ("" ++ Str.NL ++ "[engine_section]" ++ x).
  rewrite (splitlines_line "") by reflexivity.
  rewrite (splitlines_line "[engine_section]") by reflexivity.
  rewrite (splitlines_line "pkcs11 = pkcs11_section") by reflexivity.
  change (Str.NL ++ "[pkcs11_section]" ++ ?x) with ("" ++ Str.NL ++ "[pkcs11_section]" ++ x).
  rewrite (splitlines_line "") by reflexivity.
  rewrite (splitlines_line "[pkcs11_section]") by reflexivity.
  rewrite (splitlines_line "engine_id = pkcs11") by reflexivity.
  replace ("dynamic_path = " ++ dynamic_path ++ Str.NL ++ "MODULE_PATH = " ++ module_path
           ++ Str.NL ++ "init = 0" ++ Str.NL)
    with (option_line "dynamic_path" dynamic_path ++ Str.NL
          ++ option_line "MODULE_PATH" module_path ++ Str.NL ++ "init = 0" ++ Str.NL)
    by (unfold option_line; rewrite !append_assoc; reflexivity).
  rewrite (splitlines_line (option_line "dynamic_path" dynamic_path))
    by (now apply one_line_option_line).
  rewrite (splitlines_line (option_line "MODULE_PATH" module_path))
    by (now apply one_line_option_line).
  rewrite (splitlines_last "init = 0") by reflexivity.
  reflexivity.
Qed.

Ltac in_list := repeat (apply elem_of_cons; first [left; reflexivity | right]).

Lemma bind_Ok {A B} (a : A) (k : A -> result B) : (Ok a ≫= k) = k a.
Proof. reflexivity. Qed.

Lemma bind_Raise {A B} e (k : A -> result B) : (Raise e ≫= k) = Raise e.
Proof. reflexivity. Qed.

Lemma is_header_none s l : header_of l = None -> is_header s l = false.
Proof. intros E. unfold is_header. rewrite E. now apply bool_decide_eq_false. Qed.

Lemma is_header_other s n l : header_of l = Some n -> n <> s -> is_header s l = false.
Proof.
  intros E Hne. unfold is_header. rewrite E. apply bool_decide_eq_false. congruence.
Qed.

Lemma option_line_no_header s k v : plain_key k = true -> is_header s (option_line k v) = false.
Proof.
  intros Hk. apply is_header_none. pose proof (option_line_header k v Hk) as Hh.
  unfold any_header in Hh. destruct (header_of (option_line k v)); [discriminate|reflexivity].
Qed.

Lemma no_sect_stanza s dynamic_path module_path :
  s ∉ engine_sections ->
  no_sect s (engine_stanza dynamic_path module_path) = true.
Proof.
  intros Hs. unfold engine_sections in Hs. unfold no_sect, engine_stanza.
  cbn [forallb].
  rewrite (is_header_other s "openssl_def" "[openssl_def]" eq_refl)
    by (intros <-; apply Hs; in_list).
  rewrite (is_header_other s "engine_section" "[engine_section]" eq_refl)
    by (intros <-; apply Hs; in_list).
  rewrite (is_header_other s "pkcs11_section" "[pkcs11_section]" eq_refl)
    by (intros <-; apply Hs; in_list).
  rewrite !(is_header_none s) by reflexivity.
  rewrite ?option_line_no_header by reflexivity.
  reflexivity.
Qed.

Lemma has_key_option_line o k v :
  plain_key k = true -> o <> k -> has_key o (option_line k v) = false.
Proof.
  intros Hk Hne. eapply has_key_other; [now apply option_line_option|assumption].
Qed.

Lemma no_key_stanza o dynamic_path module_path :
  o ∈ sandbox_options ->
  no_key o (engine_stanza dynamic_path module_path) = true
  /\ opt_value o (engine_stanza dynamic_path module_path) = None.
Proof.
  intros Ho. unfold sandbox_options in Ho.
  assert (o <> "dynamic_path" /\ o <> "MODULE_PATH") as [N1 N2].
  { split; intros ->;
      repeat (apply elem_of_cons in Ho as [Ho|Ho]; [discriminate|]); inversion Ho. }
  split; [|repeat (apply elem_of_cons in Ho as [->|Ho]; [reflexivity|]); inversion Ho].
  unfold no_key, engine_stanza. cbn [forallb].
  rewrite !has_key_option_line by (reflexivity || assumption).
  repeat (apply elem_of_cons in Ho as [->|Ho]; [reflexivity|]); inversion Ho.
Qed.

(** *** The adapter on the configuration node of a sandbox *)

Lemma lstrip_append R s : R <> "" -> lstrip R = R -> lstrip (R ++ s) = R ++ s.
Proof.
  intros Hne Hl. destruct R as [|c R']; [congruence|]. simpl in *.
  destruct (is_space c); [|reflexivity].
  exfalso. apply (f_equal String.length) in Hl. simpl in Hl.
  assert (forall x, String.length (lstrip x) <= String.length x)%nat as Hlen.
  { clear. induction x as [|a x IH]; simpl; [lia|]. destruct (is_space a); simpl; lia. }
  specialize (Hlen R'). lia.
Qed.

Section OnSandbox.
Context `{ConfigSyntax}.
Variables (p : string) (pkcs11 : pyobj).
Let R := rstrip_slash p.
Let self := ssl_conf (prepared pkcs11 p).
Hypothesis HR : is_root R.
Hypothesis HRv : plain_value R = true.

Lemma R_parts : one_line R = true /\ lstrip R = R /\ rstrip R = R /\ R <> "".
Proof.
  unfold plain_value in HRv. apply andb_true_iff in HRv as [HRv' H3].
  apply andb_true_iff in HRv' as [H1 H2].
  apply String.eqb_eq in H2, H3. destruct HR as [Hne _]. auto.
Qed.

(** A path of the sandbox is given back by an option line as it is. *)
Lemma sandbox_path_plain s :
  one_line s = true -> rstrip s = s ->
  one_line (R ++ s) = true /\ strip (R ++ s) = R ++ s.
Proof.
  intros Hs Hr. destruct R_parts as (H1 & H2 & H3 & Hne).
  split; [now rewrite one_line_append, H1, Hs|].
  unfold strip. rewrite (lstrip_append R s Hne H2).
  destruct s as [|c s'].
  - rewrite append_nil_r. exact H3.
  - unfold rstrip in *. rewrite rstrip_of_append_keep; [now rewrite Hr|].
    rewrite Hr. discriminate.
Qed.

Lemma self_path : path self = R ++ String "/" "openssl.cnf".
Proof. unfold self, path. simpl. fold R. rewrite append_assoc. reflexivity. Qed.

Lemma self_dirname : dirname (path self) = R.
Proof. rewrite self_path. now apply dirname_child. Qed.

Lemma self_opts :
  get_opts self
  = Ok (mk_node_opts pkcs11 (sandbox_paths R)).
Proof.
  unfold self, get_opts, sandbox_paths. simpl.
  unfold _get_paths_to_substitute_dict, path. simpl.
  fold R. rewrite !append_assoc. reflexivity.
Qed.

Lemma sandbox_paths_lookup k v :
  sandbox_paths R !! k = Some v ->
  k ∈ sandbox_options /\ k <> "dir" /\ plain_key k = true
  /\ one_line v = true /\ strip v = v.
Proof.
  unfold sandbox_paths, sandbox_options. intros Hl.
  repeat (apply lookup_insert_Some in Hl as [[<- <-]|[_ Hl]];
          [split; [in_list|]; split; [discriminate|]; split; [reflexivity|];
           apply sandbox_path_plain; reflexivity|]).
  rewrite lookup_empty in Hl. discriminate.
Qed.

Variables (text sect : string).
Let doc := splitlines text.
Hypothesis Hparse : config_syntax_error text = None.
Hypothesis Hca : lookup_in doc "ca" "default_ca" = Some sect.
Hypothesis Hsect : plain_name sect = true.
Hypothesis Hopts : forall o, o ∈ sandbox_options -> is_Some (lookup_in doc sect o).

(** The document after the substitutions. *)
Lemma substituted_paths :
  exists doc1,
    _get_openssl_config_with_substituted_paths self (sect ++ ".{}") doc = Ok doc1
    /\ lookup_in doc1 sect "dir" = Some R
    /\ (forall k v, sandbox_paths R !! k = Some v -> lookup_in doc1 sect k = Some v)
    /\ (forall s o, s <> sect \/ o ∉ sandbox_options ->
         lookup_in doc1 s o = lookup_in doc s o).
Proof.
  destruct R_parts as (H1 & H2 & H3 & Hne).
  destruct (_substitute_path_spec doc sect "dir" R Hsect eq_refl H1
              (Hopts "dir" ltac:(unfold sandbox_options; in_list)))
    as (doc0 & E0 & Hv0 & Hf0).
  assert (strip R = R) as HsR by (unfold strip; now rewrite H2).
  rewrite HsR in Hv0.
  destruct (substitute_paths_loop_spec sect (map_to_list (sandbox_paths R)) doc0 Hsect)
    as (doc1 & E1 & Hv1 & Hf1).
  { apply NoDup_fst_map_to_list. }
  { intros k v Hin. apply elem_of_map_to_list in Hin.
    destruct (sandbox_paths_lookup k v Hin) as (Hk & Hnd & Hpk & Hol & _).
    split; [assumption|]. split; [assumption|].
    rewrite Hf0 by (now right). now apply Hopts. }
  exists doc1. split; [|split; [|split]].
  - unfold _get_openssl_config_with_substituted_paths.
    rewrite self_dirname. fold R. rewrite E0, bind_Ok, self_opts, bind_Ok.
    exact E1.
  - rewrite Hf1; [exact Hv0|]. right. intros Hin.
    apply list_elem_of_fmap in Hin as ([k v] & Hk & Hin). simpl in Hk. subst k.
    apply elem_of_map_to_list in Hin.
    destruct (sandbox_paths_lookup _ _ Hin) as (_ & Hnd & _). congruence.
  - intros k v Hl. rewrite (Hv1 k v) by now apply elem_of_map_to_list.
    f_equal. now destruct (sandbox_paths_lookup k v Hl) as (_ & _ & _ & _ & Hs).
  - intros s o Hne'. rewrite Hf1.
    + apply Hf0. destruct Hne' as [Hs|Ho]; [now left|right].
      intros ->. apply Ho. unfold sandbox_options. in_list.
    + destruct Hne' as [Hs|Ho]; [now left|right].
      intros Hin. apply list_elem_of_fmap in Hin as ([k v] & Hk & Hin). simpl in Hk. subst k.
      apply elem_of_map_to_list in Hin.
      destruct (sandbox_paths_lookup _ _ Hin) as (Hk & _). contradiction.
Qed.

Lemma adjusted_head :
  _get_adjusted_openssl_config_str self (PyStr text)
  = (_get_openssl_config_with_substituted_paths self (sect ++ ".{}") doc
     ≫= fun value =>
       if truthy pkcs11
       then match pkcs11 with
            | PyPkcs11 dynamic_path module_path _ =>
                insert_above value "ca" (PKCS11_OPTS dynamic_path module_path)
                ≫= fun value =>
                  format_1 Unnumbered (sect ++ ".{}") "private_key"
                  ≫= fun config_opt => remove value config_opt
            | _ => Raise (TypeError "format() argument after ** must be a mapping")
            end
       else Ok value).
Proof.
  unfold _get_adjusted_openssl_config_str, ConfigString_new. rewrite Hparse.
  rewrite bind_Ok. fold doc.
  assert (get_opt_value doc "ca.default_ca" = Ok sect) as ->.
  { pose proof Hca as Hca'. unfold lookup_in in Hca'.
    unfold get_opt_value, lookup. change (split_location "ca.default_ca")
      with ("ca", Some "default_ca"). cbv iota beta. now rewrite Hca'. }
  rewrite bind_Ok.
  destruct (_get_openssl_config_with_substituted_paths self (sect ++ ".{}") doc);
    [|reflexivity].
  rewrite !bind_Ok, self_opts, bind_Ok. reflexivity.
Qed.

Lemma not_sandbox_option o :
  (o =? "dir")%string = false -> (o =? "certificate")%string = false ->
  (o =? "private_key")%string = false -> (o =? "new_certs_dir")%string = false ->
  (o =? "database")%string = false -> (o =? "serial")%string = false ->
  o ∉ sandbox_options.
Proof.
  intros H1 H2 H3 H4 H5 H6 Hin. unfold sandbox_options in Hin.
  repeat (apply elem_of_cons in Hin as [->|Hin]; [discriminate|]). inversion Hin.
Qed.

(** The document after the insertion of the stanza and the removal of
    the private key. *)
Lemma with_descriptor doc1 dynamic_path module_path :
  one_line dynamic_path = true -> one_line module_path = true ->
  sect ∉ engine_sections ->
  is_Some (sect_body "ca" doc1) ->
  is_Some (lookup_in doc1 sect "private_key") ->
  exists doc3,
    (insert_above doc1 "ca" (PKCS11_OPTS dynamic_path module_path)
     ≫= fun value =>
       format_1 Unnumbered (sect ++ ".{}") "private_key"
       ≫= fun config_opt => remove value config_opt) = Ok doc3
    /\ immediately_above (engine_stanza dynamic_path module_path) "ca" doc3 = true
    /\ lookup_in doc3 sect "private_key" = None
    /\ (forall o, o ∈ sandbox_options -> o <> "private_key" ->
         lookup_in doc3 sect o = lookup_in doc1 sect o).
Proof.
  intros Hd Hm Hns Hca1 Hpk.
  set (st := engine_stanza dynamic_path module_path).
  destruct (insert_above_spec doc1 "ca" (PKCS11_OPTS dynamic_path module_path)
              eq_refl Hca1) as (pre & h & rest & E1 & Hpre & Hh & Ei).
  rewrite (PKCS11_OPTS_lines _ _ Hd Hm) in Ei. fold st in Ei.
  pose proof (is_header_any "ca" h Hh) as Hany.
  pose proof (no_sect_stanza sect dynamic_path module_path Hns) as Hst.
  assert (forall o, o ∈ sandbox_options ->
            lookup_in (pre ++ st ++ h :: rest)%list sect o = lookup_in doc1 sect o) as Hins.
  { intros o Ho. rewrite E1. apply lookup_in_insert; [assumption|assumption|].
    now apply no_key_stanza. }
  destruct (remove_spec (pre ++ st ++ h :: rest)%list sect "private_key" Hsect)
    as (pre2 & h2 & body2 & E2 & Hpre2 & Hh2 & Er).
  { rewrite Hins; [assumption|]. unfold sandbox_options. in_list. }
  exists (pre2 ++ h2 :: without_key "private_key" body2)%list.
  split; [|split; [|split]].
  - rewrite Ei, bind_Ok, (format_1_plain sect "private_key" Hsect), bind_Ok.
    exact Er.
  - apply (immediately_above_thinned "private_key" st "ca" pre h rest);
      [assumption|reflexivity|assumption| |].
    + apply no_key_stanza. unfold sandbox_options. in_list.
    + rewrite E2. apply thinned_app; [apply thinned_refl|].
      constructor. apply without_key_thinned.
  - rewrite (lookup_in_remove sect "private_key" pre2 h2 body2 sect "private_key" Hpre2 Hh2).
    now rewrite bool_decide_eq_true_2.
  - intros o Ho Hne.
    rewrite (lookup_in_remove sect "private_key" pre2 h2 body2 sect o Hpre2 Hh2).
    rewrite bool_decide_eq_false_2 by (intros [_ ?]; congruence).
    rewrite <- E2. now apply Hins.
Qed.

(** C6, as the code has it. Take the configuration node of a sandbox
    whose root path is one line, not empty, with no whitespace at its ends
    and no slash at its end, and a configuration text that parses, whose
    [ca] section names the active section by [default_ca], where that name
    holds no dot and no brace, and whose active section holds the options
    [dir], [certificate], [private_key], [new_certs_dir], [database] and
    [serial]. Without a hardware-engine descriptor the adapter returns a
    document in which the active section still has its [private_key]
    option, [dir] is the sandbox root, and [database], [new_certs_dir],
    [serial], [certificate] and [private_key] are the paths of the nodes
    of the sandbox; every other option of the document keeps its value.
    With a descriptor whose two module paths are single lines, and an
    active section that is named as none of the three sections of the
    engine stanza, it returns a document in which the lines of the engine
    stanza stand immediately above the header of the section named [ca]
    (the section that holds [default_ca], not the active section), the
    active section has no [private_key] option, and the other five
    options are rewritten as before. *)
Theorem adapted_configuration :
  (truthy pkcs11 = false ->
   exists doc',
     _get_adjusted_openssl_config_str self (PyStr text) = Ok doc'
     /\ lookup_in doc' sect "private_key" = Some (R ++ "/private/cakey.pem")
     /\ lookup_in doc' sect "dir" = Some R
     /\ lookup_in doc' sect "database" = Some (R ++ "/index.txt")
     /\ lookup_in doc' sect "new_certs_dir" = Some (R ++ "/certs/")
     /\ lookup_in doc' sect "serial" = Some (R ++ "/serial")
     /\ lookup_in doc' sect "certificate" = Some (R ++ "/cacert.pem")
     /\ (forall s o, s <> sect \/ o ∉ sandbox_options ->
          lookup_in doc' s o = lookup_in doc s o))
  /\ (forall dynamic_path module_path arg_list,
        pkcs11 = PyPkcs11 dynamic_path module_path arg_list ->
        one_line dynamic_path = true -> one_line module_path = true ->
        sect ∉ engine_sections ->
        exists doc',
          _get_adjusted_openssl_config_str self (PyStr text) = Ok doc'
          /\ immediately_above (engine_stanza dynamic_path module_path) "ca" doc' = true
          /\ lookup_in doc' sect "private_key" = None
          /\ lookup_in doc' sect "dir" = Some R
          /\ lookup_in doc' sect "database" = Some (R ++ "/index.txt")
          /\ lookup_in doc' sect "new_certs_dir" = Some (R ++ "/certs/")
          /\ lookup_in doc' sect "serial" = Some (R ++ "/serial")
          /\ lookup_in doc' sect "certificate" = Some (R ++ "/cacert.pem")).
Proof.
  destruct substituted_paths as (doc1 & E1 & Hdir & Hv & Hf).
  split.
  - intros Hno. exists doc1. rewrite adjusted_head, E1, bind_Ok, Hno.
    split; [reflexivity|].
    split; [now apply Hv|]. split; [assumption|].
    split; [now apply Hv|]. split; [now apply Hv|]. split; [now apply Hv|].
    split; [now apply Hv|]. assumption.
  - intros dynamic_path module_path arg_list Hpk Hd Hm Hns.
    destruct (with_descriptor doc1 dynamic_path module_path Hd Hm Hns)
      as (doc3 & E3 & Habove & Hnone & Hrest).
    { assert (lookup_in doc1 "ca" "default_ca" = Some sect) as Hc.
      { rewrite Hf; [exact Hca|]. right. now apply not_sandbox_option. }
      unfold lookup_in in Hc. destruct (sect_body "ca" doc1); [eauto|discriminate]. }
    { rewrite (Hv "private_key" (R ++ "/private/cakey.pem") eq_refl). eauto. }
    exists doc3. rewrite adjusted_head, E1, bind_Ok, Hpk.
    split; [exact E3|]. split; [assumption|]. split; [assumption|].
    assert (forall o v, o ∈ sandbox_options -> o <> "private_key" ->
              lookup_in doc1 sect o = Some v -> lookup_in doc3 sect o = Some v) as Hkeep.
    { intros o v Ho Hne Hl. now rewrite Hrest. }
    split; [apply Hkeep; [unfold sandbox_options; in_list|discriminate|assumption]|].
    split; [apply Hkeep; [unfold sandbox_options; in_list|discriminate|now apply Hv]|].
    split; [apply Hkeep; [unfold sandbox_options; in_list|discriminate|now apply Hv]|].
    split; [apply Hkeep; [unfold sandbox_options; in_list|discriminate|now apply Hv]|].
    apply Hkeep; [unfold sandbox_options; in_list|discriminate|now apply Hv].
Qed.

End OnSandbox.

Lemma minimal_config_options o :
  o ∈ sandbox_options -> is_Some (lookup_in (splitlines minimal_config) "CA_default" o).
Proof.
  intros Ho. unfold sandbox_options in Ho.
  repeat (apply elem_of_cons in Ho as [->|Ho]; [eexists; vm_compute; reflexivity|]).
  inversion Ho.
Qed.

(** The minimal configuration adapted for the sandbox at [/tmp/tmpAbC123],
    without and with a descriptor. *)
Lemma adapted_configuration_witness :
  (exists doc',
     @_get_adjusted_openssl_config_str lenient_syntax
       (ssl_conf (prepared PyNone "/tmp/tmpAbC123")) (PyStr minimal_config) = Ok doc'
     /\ lookup_in doc' "CA_default" "private_key" = Some "/tmp/tmpAbC123/private/cakey.pem"
     /\ lookup_in doc' "CA_default" "dir" = Some "/tmp/tmpAbC123")
  /\ (exists doc',
        @_get_adjusted_openssl_config_str lenient_syntax
          (ssl_conf (prepared engine_descriptor "/tmp/tmpAbC123")) (PyStr minimal_config)
        = Ok doc'
        /\ immediately_above
             (engine_stanza "/usr/lib/engines/engine_pkcs11.so"
                            "/usr/lib/x86_64-linux-gnu/opensc-pkcs11.so") "ca" doc' = true
        /\ lookup_in doc' "CA_default" "private_key" = None).
Proof.
  assert (is_root (rstrip_slash "/tmp/tmpAbC123")) as HR
    by (split; [discriminate|reflexivity]).
  split.
  - destruct (proj1 (@adapted_configuration lenient_syntax "/tmp/tmpAbC123" PyNone
                       HR eq_refl minimal_config "CA_default" eq_refl eq_refl eq_refl
                       minimal_config_options) eq_refl)
      as (doc' & E & Hpk & Hdir & _).
    exists doc'. split; [exact E|]. split; assumption.
  - destruct (proj2 (@adapted_configuration lenient_syntax "/tmp/tmpAbC123" engine_descriptor
                       HR eq_refl minimal_config "CA_default" eq_refl eq_refl eq_refl
                       minimal_config_options)
                _ _ _ eq_refl eq_refl eq_refl)
      as (doc' & E & Habove & Hnone & _).
    { unfold engine_sections. intros Hin.
      repeat (apply elem_of_cons in Hin as [Hin|Hin]; [discriminate|]). inversion Hin. }
    exists doc'. split; [exact E|]. split; assumption.
Defined.

(** C6, as the specification has it, fails. With a descriptor, the engine
    stanza of the adapted minimal configuration stands immediately above
    the header of the section [ca], and not above the header of the active
    section [CA_default]; and a text that parses but whose active section
    has no [dir] option is not adapted at all. *)
Lemma stanza_not_above_active_section :
  (exists doc',
     @_get_adjusted_openssl_config_str lenient_syntax
       (ssl_conf (prepared engine_descriptor "/tmp/tmpAbC123")) (PyStr minimal_config)
     = Ok doc'
     /\ lookup_in (splitlines minimal_config) "ca" "default_ca" = Some "CA_default"
     /\ immediately_above
          (engine_stanza "/usr/lib/engines/engine_pkcs11.so"
                         "/usr/lib/x86_64-linux-gnu/opensc-pkcs11.so") "CA_default" doc'
        = false
     /\ immediately_above
          (engine_stanza "/usr/lib/engines/engine_pkcs11.so"
                         "/usr/lib/x86_64-linux-gnu/opensc-pkcs11.so") "ca" doc'
        = true)
  /\ @config_syntax_error lenient_syntax
       ("[ca]" ++ Str.NL ++ "default_ca = CA_default" ++ Str.NL ++ "[CA_default]" ++ Str.NL)
     = None
  /\ @_get_adjusted_openssl_config_str lenient_syntax
       (ssl_conf (prepared PyNone "/tmp/tmpAbC123"))
       (PyStr ("[ca]" ++ Str.NL ++ "default_ca = CA_default" ++ Str.NL
               ++ "[CA_default]" ++ Str.NL))
     = Raise (KeyError "CA_default.dir").
Proof.
  split; [|split; [reflexivity|vm_compute; reflexivity]].
  eexists. split; [vm_compute; reflexivity|].
  split; [vm_compute; reflexivity|]. split; vm_compute; reflexivity.
Qed.

(** The conditions on the name of the active section are needed. A
    name with a dot is cut at its first dot when an option of the section
    is looked for, and a name of a section of the engine stanza leads to
    the stanza once it is inserted: both texts parse and hold the six
    options, and are not adapted. *)
Lemma active_section_names_not_adapted :
  @_get_adjusted_openssl_config_str lenient_syntax
    (ssl_conf (prepared PyNone "/tmp/tmpAbC123"))
    (PyStr ("[ca]" ++ Str.NL ++ "default_ca = CA.default" ++ Str.NL
            ++ "[CA.default]" ++ Str.NL
            ++ "dir = ./demoCA" ++ Str.NL
            ++ "certificate = $dir/cacert.pem" ++ Str.NL
            ++ "private_key = $dir/private/cakey.pem" ++ Str.NL
            ++ "new_certs_dir = $dir/newcerts" ++ Str.NL
            ++ "database = $dir/index.txt" ++ Str.NL
            ++ "serial = $dir/serial" ++ Str.NL))
  = Raise (KeyError "CA.default.dir")
  /\ @_get_adjusted_openssl_config_str lenient_syntax
       (ssl_conf (prepared engine_descriptor "/tmp/tmpAbC123"))
       (PyStr ("[ca]" ++ Str.NL ++ "default_ca = pkcs11_section" ++ Str.NL
               ++ "[pkcs11_section]" ++ Str.NL
               ++ "dir = ./demoCA" ++ Str.NL
               ++ "certificate = $dir/cacert.pem" ++ Str.NL
               ++ "private_key = $dir/private/cakey.pem" ++ Str.NL
               ++ "new_certs_dir = $dir/newcerts" ++ Str.NL
               ++ "database = $dir/index.txt" ++ Str.NL
               ++ "serial = $dir/serial" ++ Str.NL))
     = Raise (KeyError "pkcs11_section.private_key").
Proof. split; vm_compute; reflexivity. Qed.

(** ** Configuration texts that do not parse *)

Section Invalid.
Context `{ConfigSyntax}.

(** C7. For every configuration text that fails to parse, the adapter
    fails with [InvalidSSLConfigError], which carries the [ValueError] of
    the parser; so does the assignment of the text to the configuration
    node, which leaves the node and the filesystem as they were. *)
Theorem invalid_config_wrapped (self : DirectoryStructure) (text msg : string) :
  config_syntax_error text = Some msg ->
  _get_adjusted_openssl_config_str self (PyStr text)
  = Raise (InvalidSSLConfigError ("SSL config is not valid: " ++ msg ++ ".")
                                 (ValueError msg))
  /\ (name self = "openssl.cnf" ->
      forall f, value_setter self (PyStr text) f
                = (self, f, Raise (InvalidSSLConfigError
                                     ("SSL config is not valid: " ++ msg ++ ".")
                                     (ValueError msg)))).
Proof.
  intros Hs.
  assert (_get_adjusted_openssl_config_str self (PyStr text)
          = Raise (InvalidSSLConfigError ("SSL config is not valid: " ++ msg ++ ".")
                                         (ValueError msg))) as E.
  { unfold _get_adjusted_openssl_config_str, ConfigString_new. rewrite Hs. reflexivity. }
  split; [exact E|].
  intros Hn f. unfold value_setter. rewrite Hn, E. reflexivity.
Qed.

End Invalid.

(** The empty text does not parse. *)
Lemma invalid_config_wrapped_witness :
  @_get_adjusted_openssl_config_str lenient_syntax
    (ssl_conf (prepared PyNone "/tmp/tmpAbC123")) (PyStr "")
  = Raise (InvalidSSLConfigError "SSL config is not valid: no section."
                                 (ValueError "no section")).
Proof.
  apply (@invalid_config_wrapped lenient_syntax
           (ssl_conf (prepared PyNone "/tmp/tmpAbC123")) "" "no section").
  reflexivity.
Defined.

End AdapterFacts.

(** ** Toolchain invoker *)

Module ToolchainFacts.
Import Text Path FS Config Sandbox Env Examples.

Section WithProcess.
Context `{Subprocess}.

Lemma _execute_command_ok cmd f f' output :
  run_process cmd f = (f', Ok (0, output)) ->
  _execute_command cmd f = (f', Ok tt).
Proof.
  intros E. unfold _execute_command, check_output. rewrite E. reflexivity.
Qed.

Lemma _execute_command_failed cmd f f' returncode output :
  returncode <> 0 ->
  run_process cmd f = (f', Ok (returncode, output)) ->
  _execute_command cmd f
  = (f', Raise (RuntimeError ("CA env error (" ++ str_CalledProcessError returncode cmd
                              ++ "; " ++ Str.repr output ++ ")"))).
Proof.
  intros Hne E. unfold _execute_command, check_output. rewrite E.
  apply Z.eqb_neq in Hne. rewrite Hne. reflexivity.
Qed.

(** The operations remove no directory unless the command does. *)
Lemma _execute_command_keeps cmd :
  keeps_dirs (run_process cmd) -> keeps_dirs (_execute_command cmd).
Proof.
  intros Hp f f' r E. unfold _execute_command, check_output in E.
  destruct (run_process cmd f) as [f1 [[rc out]|e]] eqn:Er.
  - destruct (rc =? 0); inversion E; subst; eapply Hp, Er.
  - destruct e; inversion E; subst; eapply Hp, Er.
Qed.

Lemma read_file_keeps p : keeps_dirs (read_file p).
Proof.
  intros f f' r E. unfold read_file in E.
  destruct (f !! key p) as [[c|]|]; [destruct (ends_with_slash p)| |];
    inversion E; subst; apply FSFacts.dirs_kept_refl.
Qed.

Lemma operations_keep_dirs (self : TmpEnv) (additional : list string) :
  (forall cmd, keeps_dirs (run_process cmd)) ->
  keeps_dirs (execute_cert_generation self additional)
  /\ keeps_dirs (execute_cert_revocation self)
  /\ keeps_dirs (execute_crl_generation self).
Proof.
  intros Hp.
  unfold execute_cert_generation, execute_cert_revocation, execute_crl_generation.
  repeat split;
    repeat first
      [ apply FSFacts.keeps_dirs_bind
      | apply FSFacts.keeps_dirs_lift
      | apply _execute_command_keeps, Hp
      | apply read_file_keeps
      | intros ? ].
Qed.

(** C8. Take a sandbox for which the arguments of the hardware engine can
    be built. If the process of the sign command exits with status 0, the
    sign operation returns what [read_file] reads at the path of the
    output-certificate node: the content of the file there. If the process
    of the sign, revoke or CRL command exits with another status, the
    operation fails with a [RuntimeError] whose message holds the [repr] of
    the output the process wrote to its standard output and standard error
    together; a successful CRL command returns the content of the CRL
    node, and a successful revoke command returns nothing. *)
Theorem toolchain_outcome (self : TmpEnv) (additional pkcs11_args : list string) (f : fs) :
  _get_pkcs11_openssl_command_args self = Ok pkcs11_args ->
  let sign := (cert_generation_args self ++ pkcs11_args ++ additional)%list in
  let revoke := (cert_revocation_args self ++ pkcs11_args)%list in
  let gencrl := (crl_generation_args self ++ pkcs11_args)%list in
  (forall f' output,
     run_process sign f = (f', Ok (0, output)) ->
     execute_cert_generation self additional f = read_file (path (gen_cert self)) f'
     /\ (forall content,
           ends_with_slash (path (gen_cert self)) = false ->
           f' !! key (path (gen_cert self)) = Some (File content) ->
           execute_cert_generation self additional f = (f', Ok content)))
  /\ (forall f' returncode output,
        returncode <> 0 ->
        run_process sign f = (f', Ok (returncode, output)) ->
        execute_cert_generation self additional f
        = (f', Raise (RuntimeError ("CA env error (" ++ str_CalledProcessError returncode sign
                                    ++ "; " ++ Str.repr output ++ ")"))))
  /\ (forall f' output,
        run_process revoke f = (f', Ok (0, output)) ->
        execute_cert_revocation self f = (f', Ok tt))
  /\ (forall f' returncode output,
        returncode <> 0 ->
        run_process revoke f = (f', Ok (returncode, output)) ->
        execute_cert_revocation self f
        = (f', Raise (RuntimeError ("CA env error (" ++ str_CalledProcessError returncode revoke
                                    ++ "; " ++ Str.repr output ++ ")"))))
  /\ (forall f' output,
        run_process gencrl f = (f', Ok (0, output)) ->
        execute_crl_generation self f = read_file (path (ca_crl self)) f')
  /\ (forall f' returncode output,
        returncode <> 0 ->
        run_process gencrl f = (f', Ok (returncode, output)) ->
        execute_crl_generation self f
        = (f', Raise (RuntimeError ("CA env error (" ++ str_CalledProcessError returncode gencrl
                                    ++ "; " ++ Str.repr output ++ ")")))).
Proof.
  intros Ha sign revoke gencrl.
  unfold execute_cert_generation, execute_cert_revocation, execute_crl_generation,
    bind_io, lift. rewrite Ha. fold sign revoke gencrl.
  split; [|split; [|split; [|split; [|split]]]].
  - intros f' output E. rewrite (_execute_command_ok sign f f' output E).
    split; [reflexivity|]. intros content Hs Hc. unfold read_file. now rewrite Hc, Hs.
  - intros f' rc output Hne E. now rewrite (_execute_command_failed sign f f' rc output Hne E).
  - intros f' output E. apply (_execute_command_ok revoke f f' output E).
  - intros f' rc output Hne E. apply (_execute_command_failed revoke f f' rc output Hne E).
  - intros f' output E. now rewrite (_execute_command_ok gencrl f f' output E).
  - intros f' rc output Hne E. now rewrite (_execute_command_failed gencrl f f' rc output Hne E).
Qed.

End WithProcess.

(** A toolchain that fails with status 1: the sign operation fails with
    the message that holds its output. A toolchain that succeeds: the sign
    operation returns the certificate it wrote. *)
Lemma toolchain_outcome_witness :
  @execute_cert_generation failing_openssl (prepared PyNone "/tmp/tmpAbC123") [] world
  = (world,
     Raise (RuntimeError
              ("CA env error (Command '['openssl', 'ca', '-config', "
               ++ "'/tmp/tmpAbC123/openssl.cnf', '-notext', '-in', "
               ++ "'/tmp/tmpAbC123/csr/client.csr', '-out', "
               ++ "'/tmp/tmpAbC123/certs/cert.pem', '-batch']' "
               ++ "returned non-zero exit status 1; "
               ++ "'unable to load CA private key" ++ String Str.BACKSLASH "n')")))
  /\ snd (@execute_cert_generation working_openssl (prepared PyNone "/tmp/tmpAbC123") [] world)
     = Ok "CERT PEM".
Proof.
  split.
  - destruct (@toolchain_outcome failing_openssl (prepared PyNone "/tmp/tmpAbC123")
                [] [] world eq_refl) as (_ & Hfail & _).
    rewrite (Hfail world 1 ("unable to load CA private key" ++ NL)
               ltac:(discriminate) eq_refl).
    reflexivity.
  - destruct (@toolchain_outcome working_openssl (prepared PyNone "/tmp/tmpAbC123")
                [] [] world eq_refl) as (Hok & _).
    destruct (Hok (<["/tmp/tmpAbC123/ca.crl" := File "CRL PEM"]>
                     (<["/tmp/tmpAbC123/certs/cert.pem" := File "CERT PEM"]> world))
                  ("Signature ok" ++ NL) eq_refl) as [_ Hc].
    rewrite (Hc "CERT PEM"); [reflexivity|reflexivity|vm_compute; reflexivity].
Defined.

End ToolchainFacts.
(** ** The three operations of the module *)

Module OperationFacts.
Import Text Path FS Config Sandbox Env Manage FSFacts TeardownFacts ToolchainFacts.

Section WithSystem.
Context `{ConfigSyntax} `{TempDir} `{Subprocess} `{SerialValidator} `{Clock} `{Package}.

Hypothesis process_keeps_dirs : forall cmd, keeps_dirs (run_process cmd).

Ltac before_sandbox E :=
  repeat match type of E with
         | context [match ?x with Ok _ => _ | Raise _ => _ end] =>
             destruct x; [|inversion E; subst; left; reflexivity]
         end.

(** An operation either raises before it opens a sandbox, and leaves the
    filesystem as it was, or leaves nothing at the path of its sandbox. *)
Lemma generate_certificate_pem_leaves_nothing conf csr_pem serial_number login f f' r f0 p :
  generate_certificate_pem conf csr_pem serial_number login f = (f', r) ->
  mkdtemp f = (f0, Ok p) ->
  f' = f \/ gone p f'.
Proof.
  intros E Em. unfold generate_certificate_pem, bind_io, lift in E.
  before_sandbox E.
  unfold with_TmpEnv_kwargs in E.
  destruct (_ !! "self"); [inversion E; subst; left; reflexivity|right].
  eapply with_TmpEnv_gone; [|exact Em|exact E].
  intros tmp_env. apply operations_keep_dirs, process_keeps_dirs.
Qed.

Lemma generate_crl_pem_leaves_nothing conf f f' r f0 p :
  generate_crl_pem conf f = (f', r) ->
  mkdtemp f = (f0, Ok p) ->
  f' = f \/ gone p f'.
Proof.
  intros E Em. unfold generate_crl_pem, bind_io, lift in E.
  before_sandbox E.
  unfold with_TmpEnv_kwargs in E.
  destruct (_ !! "self"); [inversion E; subst; left; reflexivity|right].
  eapply with_TmpEnv_gone; [|exact Em|exact E].
  intros tmp_env. apply (operations_keep_dirs tmp_env []), process_keeps_dirs.
Qed.

Lemma revoke_certificate_and_generate_crl_pem_leaves_nothing
    conf cert_serial_hex cert_certificate f f' r f0 p :
  revoke_certificate_and_generate_crl_pem conf cert_serial_hex cert_certificate f = (f', r) ->
  mkdtemp f = (f0, Ok p) ->
  f' = f \/ gone p f'.
Proof.
  intros E Em. unfold revoke_certificate_and_generate_crl_pem, bind_io, lift in E.
  before_sandbox E.
  unfold with_TmpEnv_kwargs in E.
  destruct (_ !! "self"); [inversion E; subst; left; reflexivity|right].
  eapply with_TmpEnv_gone; [|exact Em|exact E].
  intros tmp_env. apply keeps_dirs_bind.
  - apply (operations_keep_dirs tmp_env []), process_keeps_dirs.
  - intros _. apply (operations_keep_dirs tmp_env []), process_keeps_dirs.
Qed.

End WithSystem.

End OperationFacts.

(** ** CA environment configuration builder *)

Module BuilderFacts.
Import Text Path FS Config Sandbox Env Manage StrFacts Examples.

Lemma split_on_zero c s : split_on c (Some 0%nat) s = [s].
Proof.
  induction s as [|a s IH]; simpl; [reflexivity|].
  rewrite andb_false_r. simpl in IH. now rewrite IH.
Qed.

Lemma split_on_field n a rest :
  no_colon a = true ->
  split_on ":" (Some (S n)) (a ++ String ":" rest) = a :: split_on ":" (Some n) rest.
Proof.
  induction a as [|x a IH]; simpl; [reflexivity|].
  intros [Hx Ha]%andb_true_iff. apply negb_true_iff in Hx.
  rewrite Hx. simpl. simpl in IH. rewrite (IH Ha). reflexivity.
Qed.

(** The locator of a key behind a hardware engine falls into its four
    fields. *)
Lemma split_locator dynamic_path module_path extra :
  no_colon dynamic_path = true -> no_colon module_path = true ->
  split_on ":" (Some 3%nat)
           ("pkcs11:" ++ dynamic_path ++ String ":" (module_path ++ String ":" extra))
  = ["pkcs11"; dynamic_path; module_path; extra].
Proof.
  intros Hd Hm.
  change ("pkcs11:" ++ ?x) with ("pkcs11" ++ String ":" x).
  rewrite (split_on_field 2 "pkcs11") by reflexivity.
  rewrite (split_on_field 1 dynamic_path) by assumption.
  rewrite (split_on_field 0 module_path) by assumption.
  now rewrite split_on_zero.
Qed.

(** C9, as the code has it. For every CA entity and locator: if the
    locator is [pkcs11:] followed by a dynamic-module path and a
    cryptographic-module path without a colon and an extra-argument
    string, each after a colon, the builder returns a bundle that holds a
    descriptor with the two paths and the extra arguments split on
    whitespace, and no raw key; if the locator starts with [pkcs11:] but
    has fewer than three colons, the builder fails with a [ValueError]; if
    the locator does not start with [pkcs11:], the builder reads the file
    at that path and returns a bundle with its content as the raw key and
    no descriptor, or fails as the reading failed; and no bundle holds
    both a descriptor and a raw key. *)
Theorem ca_env_configuration_built (ca : CA) (ca_key_path : string) (f : fs) :
  (forall dynamic_path module_path extra,
     no_colon dynamic_path = true -> no_colon module_path = true ->
     ca_key_path = "pkcs11:" ++ dynamic_path ++ ":" ++ module_path ++ ":" ++ extra ->
     exists conf,
       get_ca_env_configuration ca ca_key_path f = (f, Ok conf)
       /\ Manage.ca conf = ca
       /\ has_base ca (tmp_env_init_kwargs_base conf)
       /\ tmp_env_init_kwargs_base conf !! "pkcs11_opts_dict"
          = Some (PyPkcs11 dynamic_path module_path (split_ws extra))
       /\ tmp_env_init_kwargs_base conf !! "ca_key" = None)
  /\ (Str.startswith "pkcs11:" ca_key_path = true ->
      (length (split_on ":" (Some 3%nat) ca_key_path) < 4)%nat ->
      exists msg, get_ca_env_configuration ca ca_key_path f = (f, Raise (ValueError msg)))
  /\ (Str.startswith "pkcs11:" ca_key_path = false ->
      match read_file ca_key_path f with
      | (f', Ok content) =>
          exists conf,
            get_ca_env_configuration ca ca_key_path f = (f', Ok conf)
            /\ Manage.ca conf = ca
            /\ has_base ca (tmp_env_init_kwargs_base conf)
            /\ tmp_env_init_kwargs_base conf !! "ca_key" = Some (PyStr content)
            /\ tmp_env_init_kwargs_base conf !! "pkcs11_opts_dict" = None
      | (f', Raise e) => get_ca_env_configuration ca ca_key_path f = (f', Raise e)
      end)
  /\ (forall f' conf,
        get_ca_env_configuration ca ca_key_path f = (f', Ok conf) ->
        ~ (is_Some (tmp_env_init_kwargs_base conf !! "pkcs11_opts_dict")
           /\ is_Some (tmp_env_init_kwargs_base conf !! "ca_key"))).
Proof.
  split; [|split; [|split]].
  - intros dynamic_path module_path extra Hd Hm ->.
    unfold get_ca_env_configuration.
    change (Str.startswith "pkcs11:" ("pkcs11:" ++ ?x)) with true. cbv iota.
    change ("pkcs11:" ++ dynamic_path ++ ":" ++ module_path ++ ":" ++ extra)
      with ("pkcs11:" ++ dynamic_path ++ String ":" (module_path ++ String ":" extra)).
    rewrite (split_locator dynamic_path module_path extra Hd Hm).
    eexists. split; [reflexivity|]. split; [reflexivity|].
    split; [repeat split|split]; reflexivity.
  - intros Hs Hlen. unfold get_ca_env_configuration. rewrite Hs.
    destruct (split_on ":" (Some 3%nat) ca_key_path) as [|a [|b [|c [|d [|]]]]];
      simpl in Hlen; try lia; eexists; reflexivity.
  - intros Hs. unfold get_ca_env_configuration. rewrite Hs. unfold bind_io.
    destruct (read_file ca_key_path f) as [f' [content|e]]; [|reflexivity].
    eexists. split; [reflexivity|]. split; [reflexivity|].
    split; [repeat split|split]; reflexivity.
  - intros f' conf E [[x Hx] [y Hy]]. unfold get_ca_env_configuration in E.
    destruct (Str.startswith "pkcs11:" ca_key_path).
    + destruct (split_on ":" (Some 3%nat) ca_key_path) as [|a [|b [|c [|d [|]]]]];
        try discriminate.
      inversion E; subst. simpl in Hy. discriminate.
    + unfold bind_io in E. destruct (read_file ca_key_path f) as [f1 [content|e]];
        [|discriminate].
      inversion E; subst. simpl in Hx. discriminate.
Qed.

(** The locator of the example of the source: a key behind a hardware
    engine. A locator that is the path of a missing file: the builder
    fails as the reading does. *)
Lemma ca_env_configuration_built_witness :
  (exists conf,
     get_ca_env_configuration (mk_CA minimal_config "CERT" "client" [])
       "pkcs11:/usr/lib/engines/engine_pkcs11.so:/usr/lib/x86_64-linux-gnu/opensc-pkcs11.so:-keyfile foo:bar -keyform spam"
       world = (world, Ok conf)
     /\ tmp_env_init_kwargs_base conf !! "pkcs11_opts_dict" = Some engine_descriptor
     /\ tmp_env_init_kwargs_base conf !! "ca_key" = None)
  /\ (exists msg,
        get_ca_env_configuration (mk_CA minimal_config "CERT" "client" []) "pkcs11:x" world
        = (world, Raise (ValueError msg)))
  /\ get_ca_env_configuration (mk_CA minimal_config "CERT" "client" []) "/etc/ca/key.pem" world
     = (world, Raise (IOError ENOENT "/etc/ca/key.pem")).
Proof.
  split; [|split].
  - destruct (proj1 (ca_env_configuration_built (mk_CA minimal_config "CERT" "client" [])
                       "pkcs11:/usr/lib/engines/engine_pkcs11.so:/usr/lib/x86_64-linux-gnu/opensc-pkcs11.so:-keyfile foo:bar -keyform spam"
                       world)
                "/usr/lib/engines/engine_pkcs11.so"
                "/usr/lib/x86_64-linux-gnu/opensc-pkcs11.so"
                "-keyfile foo:bar -keyform spam" eq_refl eq_refl eq_refl)
      as (conf & E & _ & _ & Hp & Hk).
    exists conf. split; [exact E|]. split; assumption.
  - apply (proj1 (proj2 (ca_env_configuration_built
                           (mk_CA minimal_config "CERT" "client" []) "pkcs11:x" world)));
      [reflexivity|simpl; lia].
  - apply (proj1 (proj2 (proj2 (ca_env_configuration_built
                                  (mk_CA minimal_config "CERT" "client" [])
                                  "/etc/ca/key.pem" world)))).
    reflexivity.
Defined.

(** C9, as the specification has it, fails: the locator [pkcs11:x] starts
    with the scheme, and the builder produces no bundle for it. *)
Lemma locator_with_too_few_fields :
  Str.startswith "pkcs11:" "pkcs11:x" = true
  /\ ~ (exists f' conf,
          get_ca_env_configuration (mk_CA minimal_config "CERT" "client" []) "pkcs11:x" world
          = (f', Ok conf)).
Proof.
  split; [reflexivity|]. intros (f' & conf & E). vm_compute in E. discriminate.
Qed.

End BuilderFacts.
(** ** More on the two formatters *)

Module FormatterFacts.
Import Str StrFacts Calendar CalendarFacts Codec SerialFacts.

Lemma upper_lower_char c : upper_char (lower_char c) = upper_char c.
Proof. destruct c as [[] [] [] [] [] [] [] []]; reflexivity. Qed.

Lemma upper_lower s : upper (lower s) = upper s.
Proof.
  unfold upper, lower. induction s as [|c s IH]; simpl; [reflexivity|].
  now rewrite upper_lower_char, IH.
Qed.

Lemma encode_ascii_total u :
  Forall (fun cp => (cp < 128)%N) u ->
  exists s, encode_ascii u = Ok s /\ String.length s = length u.
Proof.
  induction 1 as [|cp u Hcp _ (s & Es & Hl)]; simpl.
  - exists "". split; reflexivity.
  - apply N.ltb_lt in Hcp. rewrite Hcp, Es. eexists. split; [reflexivity|].
    simpl. now rewrite Hl.
Qed.

Section WithValidator.
Context `{SerialValidator}.

Lemma format_same_upper s t :
  upper s = upper t ->
  _format_openssl_serial_number (PyStr s) = _format_openssl_serial_number (PyStr t).
Proof.
  intros E. rewrite !format_str. unfold valid_serial, normalized. now rewrite E.
Qed.

(** X1. The serial formatter does not depend on how its input is spelled:
    two byte strings that differ in the case of their letters only are
    formatted alike (so the lower-case and the upper-case spelling of a
    serial number give the same result, or the same error), and a
    [unicode] object of ASCII characters is formatted as the byte string
    of its characters. *)
Theorem format_serial_spelling :
  (forall s t, upper s = upper t ->
     _format_openssl_serial_number (PyStr s) = _format_openssl_serial_number (PyStr t))
  /\ (forall s,
        _format_openssl_serial_number (PyStr (lower s))
        = _format_openssl_serial_number (PyStr s)
        /\ _format_openssl_serial_number (PyStr (upper s))
           = _format_openssl_serial_number (PyStr s))
  /\ (forall u, Forall (fun cp => (cp < 128)%N) u ->
        exists s, encode_ascii u = Ok s /\ String.length s = length u
                  /\ _format_openssl_serial_number (PyUnicode u)
                     = _format_openssl_serial_number (PyStr s)).
Proof.
  split; [exact format_same_upper|]. split.
  - intros s. split; apply format_same_upper.
    + apply upper_lower.
    + apply upper_idem.
  - intros u Hu. destruct (encode_ascii_total u Hu) as (s & Es & Hl).
    exists s. split; [assumption|]. split; [assumption|].
    rewrite format_unicode, Es. reflexivity.
Qed.

End WithValidator.

(** The serial number [0a1b] in lower case, in upper case and as a
    [unicode] object. *)
Lemma format_serial_spelling_witness :
  @_format_openssl_serial_number hex_serial_validator (PyStr "0a1b") = Ok "0A1B"
  /\ @_format_openssl_serial_number hex_serial_validator (PyStr "0A1b") = Ok "0A1B"
  /\ @_format_openssl_serial_number hex_serial_validator (PyUnicode [48; 97; 49; 98]%N)
     = Ok "0A1B".
Proof.
  destruct (@format_serial_spelling hex_serial_validator) as (Hcase & _ & Hu).
  split; [reflexivity|]. split.
  - rewrite (Hcase "0A1b" "0a1b" eq_refl). reflexivity.
  - destruct (Hu [48; 97; 49; 98]%N) as (s & Es & _ & ->).
    + repeat constructor.
    + vm_compute in Es. inversion Es; subst s. reflexivity.
Defined.

(** *** The date formatter *)

(** A datetime with another sub-second part. *)
Lemma minus_offset_microsecond dt us off :
  minus_offset (mk_datetime (year dt) (month dt) (day dt) (hour dt) (minute dt)
                            (second dt) us (tzinfo dt)) off
  ≫= strftime_yymmddHHMMSSZ
  = minus_offset dt off ≫= strftime_yymmddHHMMSSZ.
Proof.
  unfold minus_offset, prev_day, next_day, with_date. cbn [year month day hour minute second microsecond tzinfo].
  repeat match goal with
         | |- context [if ?c then _ else _] => destruct c
         end; reflexivity.
Qed.

(** X2. The date formatter ignores the sub-second part: a datetime is
    formatted as the datetime with the same fields and any other number of
    microseconds, to the same string or with the same error. *)
Theorem format_date_ignores_microseconds (dt : datetime) (us : Z) :
  _format_openssl_dt
    (PyDatetime (mk_datetime (year dt) (month dt) (day dt) (hour dt) (minute dt)
                             (second dt) us (tzinfo dt)))
  = _format_openssl_dt (PyDatetime dt).
Proof.
  unfold _format_openssl_dt, datetime_utc_normalize.
  cbn [tzinfo]. destruct (tzinfo dt) as [off|] eqn:Htz.
  - destruct ((-1440 <? off) && (off <? 1440)); [|reflexivity].
    pose proof (minus_offset_microsecond dt us off) as E. rewrite Htz in E. exact E.
  - reflexivity.
Qed.

(** The digits of the fields. *)
Lemma digit_inj a b : 0 <= a < 10 -> 0 <= b < 10 -> digit a = digit b -> a = b.
Proof.
  intros Ha Hb E.
  assert (a = 0 \/ a = 1 \/ a = 2 \/ a = 3 \/ a = 4 \/ a = 5 \/ a = 6 \/ a = 7
          \/ a = 8 \/ a = 9) as Ca by lia.
  assert (b = 0 \/ b = 1 \/ b = 2 \/ b = 3 \/ b = 4 \/ b = 5 \/ b = 6 \/ b = 7
          \/ b = 8 \/ b = 9) as Cb by lia.
  repeat (destruct Ca as [->|Ca]); try subst a;
    repeat (destruct Cb as [->|Cb]); try subst b;
    first [reflexivity | discriminate E].
Qed.

(** The year of a naive datetime whose instant is in a window of years. *)
Lemma year_in_window n Y Z' :
  wf_datetime n -> tzinfo n = None -> 1 <= Y -> Z' <= 9999 ->
  toordinal Y 1 1 * 86400 <= instant n < toordinal (Z' + 1) 1 1 * 86400 ->
  Y <= year n <= Z'.
Proof.
  intros [] Htz HY HZ [Hlo Hhi]. rewrite instant_wall, Htz in Hlo, Hhi.
  unfold wall_seconds in Hlo, Hhi. split.
  - destruct (Z.lt_ge_cases (year n) Y) as [Hlt|]; [|lia].
    pose proof (toordinal_lt (year n) (month n) (day n) Y 1 1
                  ltac:(assumption) ltac:(assumption) ltac:(lia)
                  ltac:(unfold days_in_month; simpl; lia) ltac:(lia)).
    lia.
  - destruct (Z.lt_ge_cases Z' (year n)) as [Hlt|]; [|lia].
    assert (toordinal (Z' + 1) 1 1 <= toordinal (year n) (month n) (day n)) as Hle.
    { destruct (Z.eq_dec (Z' + 1) (year n)) as [Heq|Hne].
      - rewrite Heq. unfold toordinal.
        destruct (Z.eq_dec (month n) 1) as [Hm|Hm]; [rewrite Hm; lia|].
        pose proof (days_before_month_mono (year n) 1 (month n)
                      ltac:(lia) ltac:(lia) ltac:(lia)) as Hmono.
        unfold days_in_month in Hmono. simpl in Hmono.
        change (days_before_month (year n) 1) with 0 in *. lia.
      - pose proof (toordinal_lt (Z' + 1) 1 1 (year n) (month n) (day n)
                      ltac:(lia) ltac:(unfold days_in_month; simpl; lia)
                      ltac:(assumption) ltac:(assumption) ltac:(lia)).
        lia. }
    lia.
Qed.

Lemma toordinal_first_mono y1 y2 : y1 <= y2 -> toordinal y1 1 1 <= toordinal y2 1 1.
Proof.
  intros Hle. unfold toordinal.
  change (days_before_month y1 1) with 0. change (days_before_month y2 1) with 0.
  pose proof (days_before_year_mono y1 y2 Hle). lia.
Qed.

(** The formatter on a datetime whose instant lies in the years from [Y]
    to [Y + 99]. *)
Lemma format_dt_in_window Y dt :
  1900 <= Y <= 9900 -> wf_datetime dt ->
  toordinal Y 1 1 * 86400 <= instant dt < toordinal (Y + 100) 1 1 * 86400 ->
  exists n, wf_datetime n /\ tzinfo n = None /\ instant n = instant dt
            /\ Y <= year n <= Y + 99
            /\ _format_openssl_dt (PyDatetime dt)
               = Ok (pad2 (year n mod 100) ++ pad2 (month n) ++ pad2 (day n)
                     ++ pad2 (hour n) ++ pad2 (minute n) ++ pad2 (second n) ++ "Z").
Proof.
  intros HY Hwf Hw.
  assert (in_strftime_range dt = true) as Hr.
  { apply in_strftime_range_spec.
    pose proof (toordinal_first_mono 1900 Y ltac:(lia)).
    pose proof (toordinal_first_mono (Y + 100) 10000 ltac:(lia)).
    change (toordinal 9999 12 31 + 1) with (toordinal 10000 1 1). lia. }
  destruct (format_dt_spec dt Hwf Hr) as (n & Hn & Htz & Hi & _ & Ef).
  exists n. split_conj; try assumption;
    apply (year_in_window n Y (Y + 99) Hn Htz ltac:(lia) ltac:(lia));
    replace (Y + 99 + 1) with (Y + 100) by lia; lia.
Qed.

(** X3. The string of the date formatter holds two digits of the year.
    Within a window of a hundred years it decides the instant: two
    datetimes, naive or aware, whose instants lie in the years from [Y] to
    [Y + 99] and that are formatted to the same string are at the same
    instant, to the second. Beyond the window it does not: a naive
    datetime of the year [Y] and the same date and time a hundred years
    later, when that is a date, are formatted to the same string. *)
Theorem format_date_century (Y : Z) :
  1900 <= Y <= 9900 ->
  (forall d1 d2 s,
     valid_datetime d1 = true -> valid_datetime d2 = true ->
     toordinal Y 1 1 * 86400 <= instant d1 < toordinal (Y + 100) 1 1 * 86400 ->
     toordinal Y 1 1 * 86400 <= instant d2 < toordinal (Y + 100) 1 1 * 86400 ->
     _format_openssl_dt (PyDatetime d1) = Ok s ->
     _format_openssl_dt (PyDatetime d2) = Ok s ->
     instant d1 = instant d2)
  /\ (forall n,
        tzinfo n = None -> year n = Y ->
        valid_datetime n = true ->
        valid_datetime (with_date n (Y + 100) (month n) (day n)) = true ->
        _format_openssl_dt (PyDatetime (with_date n (Y + 100) (month n) (day n)))
        = _format_openssl_dt (PyDatetime n)).
Proof.
  intros HY. split.
  - intros d1 d2 s Hv1 Hv2 Hw1 Hw2 E1 E2.
    apply valid_datetime_wf in Hv1, Hv2.
    destruct (format_dt_in_window Y d1 HY Hv1 Hw1) as (n1 & Hn1 & Ht1 & Hi1 & Hy1 & F1).
    destruct (format_dt_in_window Y d2 HY Hv2 Hw2) as (n2 & Hn2 & Ht2 & Hi2 & Hy2 & F2).
    rewrite F1 in E1. rewrite F2 in E2. rewrite <- E2 in E1. clear E2 F1 F2.
    injection E1; intros.
    pose proof (days_in_month_bounds (year n1) (month n1)).
    pose proof (days_in_month_bounds (year n2) (month n2)).
    destruct Hn1, Hn2.
    repeat match goal with
           | Hd : digit _ = digit _ |- _ =>
               apply digit_inj in Hd; [|Z.div_mod_to_equations; lia..]
           end.
    assert (year n1 = year n2) as Ey by (Z.div_mod_to_equations; lia).
    assert (month n1 = month n2) as Em by (Z.div_mod_to_equations; lia).
    assert (day n1 = day n2) as Ed by (Z.div_mod_to_equations; lia).
    assert (hour n1 = hour n2) as Eh by (Z.div_mod_to_equations; lia).
    assert (minute n1 = minute n2) as Emi by (Z.div_mod_to_equations; lia).
    assert (second n1 = second n2) as Es by (Z.div_mod_to_equations; lia).
    rewrite <- Hi1, <- Hi2. unfold instant. rewrite Ht1, Ht2. congruence.
  - intros n Htz Hy _ _. unfold _format_openssl_dt, datetime_utc_normalize, with_date.
    cbn [tzinfo]. rewrite Htz. simpl. unfold strftime_yymmddHHMMSSZ.
    cbn [year month day hour minute second]. rewrite Hy.
    destruct (Z.ltb_spec (Y + 100) 1900); [lia|].
    destruct (Z.ltb_spec Y 1900); [lia|].
    replace ((Y + 100) mod 100) with (Y mod 100)
      by (Z.div_mod_to_equations; lia).
    reflexivity.
Qed.

(** In the window from 1950 to 2049: the datetimes 2013-06-06T14:13:57+02:00
    and 2013-06-06T12:13:57Z are formatted alike and are the same
    instant; the years 1950 and 2050 are formatted alike. *)
Lemma format_date_century_witness :
  instant (mk_datetime 2013 6 6 14 13 57 0 (Some 120))
  = instant (mk_datetime 2013 6 6 12 13 57 0 None)
  /\ _format_openssl_dt (PyDatetime (mk_datetime 2050 1 1 0 0 0 0 None))
     = _format_openssl_dt (PyDatetime (mk_datetime 1950 1 1 0 0 0 0 None)).
Proof.
  destruct (format_date_century 1950 ltac:(lia)) as [Hinj Hwrap].
  split.
  - apply (Hinj _ _ "130606121357Z"); try reflexivity; vm_compute; split; congruence.
  - apply (Hwrap (mk_datetime 1950 1 1 0 0 0 0 None)); reflexivity.
Defined.

End FormatterFacts.
(** ** More on the index codec *)

Module IndexFailureFacts.
Import Str Calendar CalendarFacts Codec SerialFacts Index IndexFacts Examples MoreExamples.

#[local] Arguments timestamp_field : simpl never.
#[local] Arguments serial_field : simpl never.
#[local] Arguments _format_openssl_dt : simpl never.
#[local] Arguments lex_gtb : simpl never.

Section WithCollaborators.
Context `{SerialValidator} `{Clock}.

(** The records a line is rendered for. *)
Lemma index_file_line_inv tick c line tick' :
  index_file_line tick c = Ok (line, tick') ->
  valid_serial (serial_hex c) = true
  /\ (forall e, expires_on c = Some e ->
        tzinfo e = None /\ exists s, _format_openssl_dt (PyDatetime e) = Ok s)
  /\ (forall r, revoked_on c = Some r ->
        exists s, _format_openssl_dt (PyDatetime r) = Ok s).
Proof.
  unfold index_file_line, datetime_gt. rewrite format_str, utcnow_naive. intros E.
  assert (valid_serial (serial_hex c) = true) as Hs.
  { destruct (valid_serial (serial_hex c)); [reflexivity|]. exfalso.
    destruct (expires_on c) as [e|]; [destruct (tzinfo e)|];
      destruct (revoked_on c) as [r|]; simpl in E;
      repeat match type of E with
             | context [_format_openssl_dt ?x] =>
                 destruct (_format_openssl_dt x); simpl in E
             end; discriminate E. }
  split; [exact Hs|]. split.
  - intros e He. rewrite He in E.
    destruct (tzinfo e); [discriminate E|]. split; [reflexivity|].
    simpl in E. destruct (_format_openssl_dt (PyDatetime e)); [eauto|discriminate E].
  - intros r Hr. rewrite Hr in E.
    destruct (_format_openssl_dt (PyDatetime r)) as [s|err]; [eauto|]. exfalso.
    destruct (expires_on c) as [e|]; [destruct (tzinfo e)|]; simpl in E;
      repeat match type of E with
             | context [_format_openssl_dt ?x] =>
                 destruct (_format_openssl_dt x); simpl in E
             end; discriminate E.
Qed.

Lemma index_file_loop_inv certs : forall acc tick lines,
  index_file_loop acc tick certs = Ok lines ->
  Forall (fun c =>
            valid_serial (serial_hex c) = true
            /\ (forall e, expires_on c = Some e ->
                  tzinfo e = None /\ exists s, _format_openssl_dt (PyDatetime e) = Ok s)
            /\ (forall r, revoked_on c = Some r ->
                  exists s, _format_openssl_dt (PyDatetime r) = Ok s)) certs.
Proof.
  induction certs as [|c certs IH]; intros acc tick lines E; [constructor|].
  simpl in E.
  destruct (index_file_line tick c) as [[line tick']|] eqn:El; [|discriminate].
  simpl in E. constructor; [eapply index_file_line_inv, El|eapply IH, E].
Qed.

(** X4. The index codec renders all the records or none: when it returns
    a content, every record of the sequence has a serial number that is
    valid after normalization, an expiry timestamp, if any, that is naive
    and that the date formatter accepts, and a revocation timestamp, if
    any, that the date formatter accepts. So one record that fails these,
    wherever it stands, makes the codec raise and return no content. *)
Theorem index_content_needs_every_record (certs : list cert_data) (content : string) :
  _make_openssl_index_file_content certs = Ok content ->
  Forall (fun c =>
            valid_serial (serial_hex c) = true
            /\ (forall e, expires_on c = Some e ->
                  tzinfo e = None /\ exists s, _format_openssl_dt (PyDatetime e) = Ok s)
            /\ (forall r, revoked_on c = Some r ->
                  exists s, _format_openssl_dt (PyDatetime r) = Ok s)) certs.
Proof.
  unfold _make_openssl_index_file_content. intros E.
  destruct (index_file_loop [] 0%nat certs) as [lines|] eqn:Eloop; [|discriminate].
  eapply index_file_loop_inv, Eloop.
Qed.

(** The loop after the records that are well formed. *)
Lemma index_file_loop_app pre : forall acc tick,
  forallb well_formed_record pre = true ->
  exists lines tick',
    forall rest, index_file_loop acc tick (pre ++ rest)%list
                 = index_file_loop (acc ++ lines)%list tick' rest.
Proof.
  induction pre as [|c pre IH]; intros acc tick Hwf.
  - exists [], tick. intros rest. now rewrite app_nil_r.
  - simpl in Hwf. apply andb_true_iff in Hwf as [Hc Hrest].
    destruct (index_file_line_spec tick c Hc) as (tick1 & El).
    destruct (IH (acc ++ [record_line (utcnow tick) c])%list tick1 Hrest)
      as (lines & tick' & Hloop).
    exists (record_line (utcnow tick) c :: lines), tick'. intros rest.
    simpl. rewrite El. simpl. rewrite Hloop, <- app_assoc. reflexivity.
Qed.

Lemma index_first_failure pre c post e :
  forallb well_formed_record pre = true ->
  (forall tick, index_file_line tick c = Raise e) ->
  _make_openssl_index_file_content (pre ++ c :: post) = Raise e.
Proof.
  intros Hwf Hc. unfold _make_openssl_index_file_content.
  destruct (index_file_loop_app pre [] 0%nat Hwf) as (lines & tick' & ->).
  simpl. rewrite Hc. reflexivity.
Qed.

(** X5. The error of the first record that cannot be rendered is the
    error of the codec. After records that are well formed, a record
    whose expiry timestamp is aware makes the codec raise the [TypeError]
    of comparing it with the naive reading of the clock, whatever its
    other fields; and a record whose timestamps are well formed but whose
    serial number is not valid makes it raise the [ValueError] of the
    serial formatter, whose message holds [repr] of the serial number in
    upper case and with its ["0"] in front. The records that follow are
    not looked at. *)
Theorem index_error_of_first_bad_record (pre post : list cert_data) (c : cert_data) :
  forallb well_formed_record pre = true ->
  (forall e off,
     expires_on c = Some e -> tzinfo e = Some off ->
     _make_openssl_index_file_content (pre ++ c :: post)
     = Raise (TypeError "can't compare offset-naive and offset-aware datetimes"))
  /\ (forall valid,
        well_formed_record (mk_cert_data (expires_on c) (revoked_on c) valid (subject c))
        = true ->
        valid_serial (serial_hex c) = false ->
        _make_openssl_index_file_content (pre ++ c :: post)
        = Raise (ValueError
                   ("something really wrong: a certificate serial number "
                    ++ "prepared for OpenSSL tools ("
                    ++ Str.repr (let s := Str.upper (serial_hex c) in
                                 if Nat.odd (String.length s) then "0" ++ s else s)
                    ++ ") is not valid"))).
Proof.
  intros Hwf. split.
  - intros e off He Htz. apply index_first_failure; [assumption|].
    intros tick. unfold index_file_line, datetime_gt.
    rewrite He, utcnow_naive, Htz. reflexivity.
  - intros valid Hc Hs. apply index_first_failure; [assumption|].
    intros tick.
    destruct (index_file_line_spec tick _ Hc) as (tick' & El).
    unfold index_file_line in El |- *. cbn [expires_on revoked_on serial_hex subject] in El.
    rewrite format_str, Hs.
    destruct (expires_on c) as [e|]; destruct (revoked_on c) as [r|];
      repeat match type of El with
             | context [datetime_gt ?a ?b] => destruct (datetime_gt a b) as [[|]|]
             | context [_format_openssl_dt ?x] => destruct (_format_openssl_dt x)
             end; try discriminate El; reflexivity.
Qed.

End WithCollaborators.

(** The three records are rendered, so each of them has a valid serial
    number. *)
Lemma index_content_needs_every_record_witness :
  Forall (fun c => @valid_serial hex_serial_validator (serial_hex c) = true) three_records.
Proof.
  pose proof (@index_content_needs_every_record hex_serial_validator clock_2019
                three_records _ eq_refl) as Hall.
  eapply Forall_impl; [exact Hall|]. intros c (Hs & _). exact Hs.
Defined.

(** After the three records, a record with an aware expiry timestamp,
    and one with the serial number [xyz]. *)
Lemma index_error_of_first_bad_record_witness :
  @_make_openssl_index_file_content hex_serial_validator clock_2019
    (three_records ++ aware_expiry_record :: three_records)
  = Raise (TypeError "can't compare offset-naive and offset-aware datetimes")
  /\ @_make_openssl_index_file_content hex_serial_validator clock_2019
       (three_records ++ mk_cert_data None None "xyz" "/CN=x" :: three_records)
     = Raise (ValueError ("something really wrong: a certificate serial number "
                          ++ "prepared for OpenSSL tools ('0XYZ') is not valid")).
Proof.
  split.
  - destruct (@index_error_of_first_bad_record hex_serial_validator clock_2019
                three_records three_records aware_expiry_record eq_refl) as [Haware _].
    exact (Haware _ 60 eq_refl eq_refl).
  - destruct (@index_error_of_first_bad_record hex_serial_validator clock_2019
                three_records three_records (mk_cert_data None None "xyz" "/CN=x") eq_refl)
      as [_ Hserial].
    exact (Hserial "0a" eq_refl eq_refl).
Defined.

(** The content does not depend on the clock where no flag does. *)
Lemma index_file_line_any_clock `{SerialValidator} (k1 k2 : Clock) t1 t2 c :
  expires_on c = None \/ revoked_on c <> None ->
  match @index_file_line _ k1 t1 c, @index_file_line _ k2 t2 c with
  | Ok (l1, t1'), Ok (l2, t2') => l1 = l2 /\ exists d, t1' = (t1 + d)%nat /\ t2' = (t2 + d)%nat
  | Raise e1, Raise e2 => e1 = e2
  | _, _ => False
  end.
Proof.
  intros Hc. unfold index_file_line, datetime_gt.
  rewrite !(@utcnow_naive k1), !(@utcnow_naive k2).
  destruct (expires_on c) as [e|]; destruct (revoked_on c) as [r|];
    try (destruct Hc as [Hc|Hc]; congruence).
  - destruct (tzinfo e); [reflexivity|]. simpl.
    destruct (_format_openssl_dt (PyDatetime e)); [|reflexivity].
    destruct (lex_gtb _ _), (lex_gtb _ _); simpl;
      destruct (_format_openssl_dt (PyDatetime r)); try reflexivity; simpl;
      destruct (_format_openssl_serial_number _); try reflexivity; simpl;
      (split; [reflexivity|exists 1%nat; lia]).
  - simpl. destruct (_format_openssl_dt (PyDatetime r)); [|reflexivity]. simpl.
    destruct (_format_openssl_serial_number _); [|reflexivity]. simpl.
    split; [reflexivity|exists 0%nat; lia].
  - simpl. destruct (_format_openssl_serial_number _); [|reflexivity]. simpl.
    split; [reflexivity|exists 0%nat; lia].
Qed.

(** X6. The clock is read for the status flag only, and the flag of a
    revoked record is [R] whatever the time: on a sequence in which every
    record that has an expiry timestamp is revoked, the codec gives the
    same content, or the same error, under any two clocks. *)
Theorem index_content_any_clock `{SerialValidator} (k1 k2 : Clock)
    (certs : list cert_data) :
  Forall (fun c => expires_on c = None \/ revoked_on c <> None) certs ->
  @_make_openssl_index_file_content _ k1 certs
  = @_make_openssl_index_file_content _ k2 certs.
Proof.
  intros Hall. unfold _make_openssl_index_file_content.
  assert (forall acc t1 t2,
            @index_file_loop _ k1 acc t1 certs = @index_file_loop _ k2 acc t2 certs)
    as Hloop; [|now rewrite (Hloop [] 0%nat 0%nat)].
  induction Hall as [|c certs Hc _ IH]; intros acc t1 t2; [reflexivity|].
  simpl. pose proof (index_file_line_any_clock k1 k2 t1 t2 c Hc) as Hl.
  destruct (@index_file_line _ k1 t1 c) as [[l1 t1']|e1],
           (@index_file_line _ k2 t2 c) as [[l2 t2']|e2]; try contradiction.
  - destruct Hl as (-> & _). simpl. apply IH.
  - simpl. congruence.
Qed.

(** A revoked record in 2000 and in 2019. *)
Lemma index_content_any_clock_witness :
  @_make_openssl_index_file_content hex_serial_validator clock_2000 [revoked_record]
  = @_make_openssl_index_file_content hex_serial_validator clock_2019 [revoked_record].
Proof.
  apply (@index_content_any_clock hex_serial_validator clock_2000 clock_2019).
  constructor; [right; discriminate|constructor].
Defined.

End IndexFailureFacts.
(** ** The lines of the index read back *)

Module IndexFieldFacts.
Import Str StrFacts Calendar CalendarFacts Codec SerialFacts Index IndexFacts Text Fields
       Examples MoreExamples.

#[local] Arguments timestamp_field : simpl never.
#[local] Arguments serial_field : simpl never.
#[local] Arguments status_flag : simpl never.

Section WithCollaborators.
Context `{SerialValidator} `{Clock}.

(** X19. The content of the index reads back into the fields it was made
    of. For records that are well formed and whose subject and normalized
    serial number hold no tab and no newline, the content splits at the
    newlines into one line per record, in the order of the records, and
    an empty rest; and each line splits at the tabs into exactly the six
    fields of its record. *)
Theorem index_content_reads_back (certs : list cert_data) :
  forallb well_formed_record certs = true ->
  Forall (fun c => plain_field (subject c) = true
                   /\ plain_field (serial_field c) = true) certs ->
  exists content nows,
    _make_openssl_index_file_content certs = Ok content
    /\ length nows = length certs
    /\ split_on newline None content
       = (zip_with (fun now c => join TAB (record_fields now c)) nows certs ++ [""])%list
    /\ Forall2 (fun now c =>
                  split_on tab None (join TAB (record_fields now c)) = record_fields now c
                  /\ length (record_fields now c) = 6%nat) nows certs.
Proof.
  intros Hwf Hplain.
  destruct (index_file_loop_spec certs [] 0%nat Hwf) as (nows & Hlen & _ & Eloop).
  exists (concat_all (zip_with record_line nows certs)), nows.
  split; [unfold _make_openssl_index_file_content; now rewrite Eloop|].
  split; [exact Hlen|].
  clear Eloop. revert nows Hlen.
  induction certs as [|c certs IH]; intros [|now nows] Hlen; try discriminate.
  - split; [reflexivity|constructor].
  - simpl in Hwf. apply andb_true_iff in Hwf as [Hc Hrest].
    apply Forall_cons in Hplain as [[Hsub Hser] Hplain].
    destruct (IH Hrest Hplain nows ltac:(simpl in Hlen; congruence)) as [IHs IHf].
    destruct (join_split (record_fields now c)
                (record_fields_plain now c Hc Hsub Hser) ltac:(discriminate))
      as [Hsplit Hnl].
    split.
    + change (zip_with record_line (now :: nows) (c :: certs))
        with (record_line now c :: zip_with record_line nows certs).
      rewrite concat_all_cons. unfold record_line at 1. rewrite append_assoc.
      change (NL ++ concat_all (zip_with record_line nows certs))
        with (String newline (concat_all (zip_with record_line nows certs))).
      rewrite (split_on_cut newline _ _ Hnl), IHs. reflexivity.
    + constructor; [split; [exact Hsplit|reflexivity]|exact IHf].
Qed.

End WithCollaborators.

(** The index of the three records. *)
Lemma index_content_reads_back_witness :
  exists content,
    @_make_openssl_index_file_content hex_serial_validator clock_2019 three_records
    = Ok content
    /\ length (split_on newline None content) = 4%nat
    /\ nth 1 (split_on newline None content) ""
       = "E" ++ TAB ++ "100101000000Z" ++ TAB ++ TAB ++ "0B" ++ TAB ++ "unknown" ++ TAB ++ "/CN=b".
Proof.
  destruct (@index_content_reads_back hex_serial_validator clock_2019 three_records)
    as (content & nows & E & Hlen & Hsplit & _).
  - reflexivity.
  - repeat constructor.
  - exists content. split; [exact E|].
    vm_compute in E. inversion E; subst content. split; reflexivity.
Defined.

End IndexFieldFacts.
(** ** More on the nodes of a sandbox *)

Module NodeValueFacts.
Import Text Path FS Config Sandbox Env StrFacts PathFacts FSFacts TeardownFacts NodeFacts
       Examples MoreExamples.

(** [_prepare_dir_structures] in a directory that has its three
    subdirectories. *)
Lemma _prepare_dir_structures_again p pkcs11 (f : fs) :
  is_root (rstrip_slash p) ->
  f !! rstrip_slash p = Some Dir ->
  f !! (rstrip_slash p ++ "/private") = Some Dir ->
  f !! (rstrip_slash p ++ "/certs") = Some Dir ->
  f !! (rstrip_slash p ++ "/csr") = Some Dir ->
  _prepare_dir_structures pkcs11 p f = (f, Ok (prepared pkcs11 p)).
Proof.
  intros HR Hd Hp Hc Hs. set (R := rstrip_slash p) in *.
  assert (isdir f R = true) as Hdir.
  { apply isdir_true. now rewrite (key_root R HR). }
  unfold _prepare_dir_structures, bind_io.
  rewrite (DirectoryStructure_new_at_root p HR "cacert.pem" None f eq_refl Hdir).
  rewrite (DirectoryStructure_new_in_subdir p "private" "private/" "cakey.pem" None f
             eq_refl eq_refl ltac:(discriminate) eq_refl Hp).
  rewrite (DirectoryStructure_new_in_subdir p "certs" "certs/" "" None f
             eq_refl eq_refl ltac:(discriminate) eq_refl Hc).
  rewrite (DirectoryStructure_new_in_subdir p "csr" "csr/" "client.csr" None f
             eq_refl eq_refl ltac:(discriminate) eq_refl Hs).
  rewrite (DirectoryStructure_new_at_root p HR "index.txt" None f eq_refl Hdir).
  rewrite (DirectoryStructure_new_at_root p HR "index.txt.attr" None f eq_refl Hdir).
  rewrite (DirectoryStructure_new_at_root p HR "revoke_cert.pem" None f eq_refl Hdir).
  rewrite (DirectoryStructure_new_at_root p HR "ca.crl" None f eq_refl Hdir).
  rewrite (DirectoryStructure_new_at_root p HR "serial" None f eq_refl Hdir).
  cbn [relative_pth].
  rewrite (DirectoryStructure_new_in_subdir p "certs" "certs/" "cert.pem" None f
             eq_refl eq_refl ltac:(discriminate) eq_refl Hc).
  rewrite (DirectoryStructure_new_at_root p HR "openssl.cnf" _ f eq_refl Hdir).
  reflexivity.
Qed.

(** X7. In an existing directory that has none of the entries [private],
    [certs] and [csr], [_prepare_dir_structures] makes these three
    subdirectories and nothing else: every other path of the filesystem
    is as before, so no file is made, whatever the nodes are named.
    Preparing the same directory once more changes nothing and returns
    the same nodes. *)
Theorem prepare_makes_three_directories (p : string) (pkcs11 : pyobj) (f : fs) :
  is_root (rstrip_slash p) ->
  f !! rstrip_slash p = Some Dir ->
  f !! (rstrip_slash p ++ "/private") = None ->
  f !! (rstrip_slash p ++ "/certs") = None ->
  f !! (rstrip_slash p ++ "/csr") = None ->
  exists f',
    _prepare_dir_structures pkcs11 p f = (f', Ok (prepared pkcs11 p))
    /\ f' !! (rstrip_slash p ++ "/private") = Some Dir
    /\ f' !! (rstrip_slash p ++ "/certs") = Some Dir
    /\ f' !! (rstrip_slash p ++ "/csr") = Some Dir
    /\ (forall q, q <> rstrip_slash p ++ "/private" -> q <> rstrip_slash p ++ "/certs" ->
                  q <> rstrip_slash p ++ "/csr" -> f' !! q = f !! q)
    /\ _prepare_dir_structures pkcs11 p f' = (f', Ok (prepared pkcs11 p)).
Proof.
  intros HR Hd Hp Hc Hs. set (R := rstrip_slash p) in *.
  assert (R ++ "/private" <> R ++ "/certs") as N4
    by (intros E; apply append_inv_head in E; discriminate).
  assert (R ++ "/private" <> R ++ "/csr") as N5
    by (intros E; apply append_inv_head in E; discriminate).
  assert (R ++ "/certs" <> R ++ "/csr") as N6
    by (intros E; apply append_inv_head in E; discriminate).
  assert (R ++ "/private" <> R) as N1 by apply append_ne_self.
  assert (R ++ "/certs" <> R) as N2 by apply append_ne_self.
  assert (R ++ "/csr" <> R) as N3 by apply append_ne_self.
  eexists. split; [apply (_prepare_dir_structures_spec p HR pkcs11 f Hd Hp Hc Hs)|].
  fold R.
  assert ((<[R ++ "/csr" := Dir]> (<[R ++ "/certs" := Dir]> (<[R ++ "/private" := Dir]> f))
           : fs) !! (R ++ "/private") = Some Dir) as H1
    by (rewrite !lookup_insert_ne by congruence; apply lookup_insert_eq).
  assert ((<[R ++ "/csr" := Dir]> (<[R ++ "/certs" := Dir]> (<[R ++ "/private" := Dir]> f))
           : fs) !! (R ++ "/certs") = Some Dir) as H2
    by (rewrite lookup_insert_ne by congruence; apply lookup_insert_eq).
  assert ((<[R ++ "/csr" := Dir]> (<[R ++ "/certs" := Dir]> (<[R ++ "/private" := Dir]> f))
           : fs) !! (R ++ "/csr") = Some Dir) as H3
    by apply lookup_insert_eq.
  split; [exact H1|]. split; [exact H2|]. split; [exact H3|]. split.
  - intros q Q1 Q2 Q3. now rewrite !lookup_insert_ne by congruence.
  - apply _prepare_dir_structures_again; try assumption.
    fold R. now rewrite !lookup_insert_ne by congruence.
Qed.

(** The directory [/tmp/tmpAbC123], new and empty. *)
Lemma prepare_makes_three_directories_witness :
  exists f',
    _prepare_dir_structures PyNone "/tmp/tmpAbC123" new_directory
    = (f', Ok (prepared PyNone "/tmp/tmpAbC123"))
    /\ f' !! "/tmp/tmpAbC123/certs" = Some Dir
    /\ f' !! "/tmp/tmpAbC123/index.txt" = None.
Proof.
  destruct (prepare_makes_three_directories "/tmp/tmpAbC123" PyNone new_directory)
    as (f' & E & _ & Hc & _ & Hrest & _);
    [split; [discriminate|reflexivity]|reflexivity..|].
  exists f'. split; [exact E|]. split; [exact Hc|].
  rewrite Hrest by discriminate. reflexivity.
Defined.

(** *** Writing the value of a node *)

Lemma write_file_str p s (f : fs) :
  is_empty p = false -> ends_with_slash p = false ->
  isdir f p = false -> isdir f (dirname p) = true ->
  write_file p (PyStr s) f = (<[key p := File s]> f, Ok tt).
Proof.
  intros Hne Hs Hd Hp. unfold write_file, bind_io, open_w.
  rewrite Hne, Hs, Hd, Hp, orb_true_r. simpl.
  unfold set_content. now rewrite insert_insert_eq.
Qed.

Lemma write_file_refused p v e (f : fs) :
  is_empty p = false -> ends_with_slash p = false ->
  isdir f p = false -> isdir f (dirname p) = true ->
  written_text v = Raise e ->
  write_file p v f = (<[key p := File ""]> f, Raise e).
Proof.
  intros Hne Hs Hd Hp Hw. unfold write_file, bind_io, open_w.
  rewrite Hne, Hs, Hd, Hp, orb_true_r. simpl. unfold lift. now rewrite Hw.
Qed.

Lemma read_file_written p c (f : fs) :
  ends_with_slash p = false ->
  read_file p (<[key p := File c]> f) = (<[key p := File c]> f, Ok c).
Proof. intros Hs. unfold read_file. now rewrite Hs, lookup_insert_eq. Qed.

Lemma isdir_after_write p q n (f : fs) :
  isdir f p = false -> isdir f q = true -> isdir (<[key p := n]> f) q = true.
Proof.
  intros Hp Hq. apply isdir_true. apply isdir_true in Hq. apply isdir_false in Hp.
  rewrite lookup_insert_ne by congruence. exact Hq.
Qed.

Section WithSyntax.
Context `{ConfigSyntax}.

(** X8. What is assigned to the value of a node is what its file reads.
    Take a node other than the configuration node, whose path is not a
    directory and lies in an existing directory: assigning a byte string
    keeps it in the node and writes it to the file at the path, so that
    reading the file gives the string back; every other path is as
    before; and assigning a second string replaces the first in the node
    and in the file. *)
Theorem value_written_is_value_read (self : DirectoryStructure) (s s' : string) (f : fs) :
  name self <> "openssl.cnf" ->
  is_empty (path self) = false -> ends_with_slash (path self) = false ->
  isdir f (path self) = false -> isdir f (dirname (path self)) = true ->
  let f1 : fs := <[key (path self) := File s]> f in
  value_setter self (PyStr s) f = (with_value self (PyStr s), f1, Ok tt)
  /\ read_file (path self) f1 = (f1, Ok s)
  /\ (forall q, q <> key (path self) -> f1 !! q = f !! q)
  /\ value_setter (with_value self (PyStr s)) (PyStr s') f1
     = (with_value self (PyStr s'), <[key (path self) := File s']> f, Ok tt).
Proof.
  intros Hn Hne Hs Hd Hp f1.
  apply String.eqb_neq in Hn.
  assert (forall (d : DirectoryStructure) (g : fs) t,
            String.eqb (name d) "openssl.cnf" = false -> path d = path self ->
            isdir g (path self) = false -> isdir g (dirname (path self)) = true ->
            value_setter d (PyStr t) g
            = (with_value d (PyStr t), <[key (path self) := File t]> g, Ok tt)) as Hset.
  { intros d g t Hdn Hdp Hgd Hgp. unfold value_setter, _create_file. rewrite Hdn.
    change (path (with_value d (PyStr t))) with (path d). rewrite Hdp, Hgd. cbn [negb].
    change (_value (with_value d (PyStr t))) with (PyStr t).
    rewrite (write_file_str _ t g Hne Hs Hgd Hgp). reflexivity. }
  split; [|split; [|split]].
  - exact (Hset self f s Hn eq_refl Hd Hp).
  - apply read_file_written, Hs.
  - intros q Hq. unfold f1. now rewrite lookup_insert_ne by congruence.
  - rewrite (Hset (with_value self (PyStr s)) f1 s' Hn eq_refl).
    + unfold f1. now rewrite insert_insert_eq.
    + apply isdir_false. unfold f1. rewrite lookup_insert_eq. discriminate.
    + unfold f1. now apply isdir_after_write.
Qed.

(** X9. A value that cannot be written still empties the file. Take a
    node other than the configuration node, whose path is not a directory
    and lies in an existing directory: assigning [None], a number or a
    [unicode] object with a character outside ASCII raises ([TypeError],
    [UnicodeEncodeError]), but the node keeps the value that was assigned
    and the file at its path is left empty, whatever it held before. *)
Theorem value_not_written_empties_file (self : DirectoryStructure) (value : pyobj)
    (e : exn) (f : fs) :
  name self <> "openssl.cnf" ->
  is_empty (path self) = false -> ends_with_slash (path self) = false ->
  isdir f (path self) = false -> isdir f (dirname (path self)) = true ->
  written_text value = Raise e ->
  let f1 : fs := <[key (path self) := File ""]> f in
  value_setter self value f = (with_value self value, f1, Raise e)
  /\ read_file (path self) f1 = (f1, Ok "")
  /\ written_text PyNone = Raise (TypeError "expected a character buffer object")
  /\ (forall z, written_text (PyInt z)
                = Raise (TypeError "expected a character buffer object"))
  /\ (forall u cp, (128 <= cp)%N -> written_text (PyUnicode (cp :: u)) = Raise UnicodeEncodeError).
Proof.
  intros Hn Hne Hs Hd Hp Hw f1. apply String.eqb_neq in Hn.
  split; [|split; [|split; [|split]]].
  - unfold value_setter, _create_file. rewrite Hn.
    change (path (with_value self value)) with (path self). rewrite Hd. cbn [negb].
    change (_value (with_value self value)) with value.
    rewrite (write_file_refused _ value e f Hne Hs Hd Hp Hw). reflexivity.
  - apply read_file_written, Hs.
  - reflexivity.
  - reflexivity.
  - intros u cp Hcp. simpl. apply N.ltb_ge in Hcp. now rewrite Hcp.
Qed.

End WithSyntax.

(** The node of the CA certificate in the prepared directory
    [/tmp/tmpAbC123]. *)
Lemma value_written_is_value_read_witness :
  exists f1,
    @value_setter lenient_syntax (ca_cert (prepared PyNone "/tmp/tmpAbC123"))
      (PyStr "CERT PEM") new_directory
    = (with_value (ca_cert (prepared PyNone "/tmp/tmpAbC123")) (PyStr "CERT PEM"), f1, Ok tt)
    /\ read_file "/tmp/tmpAbC123/cacert.pem" f1 = (f1, Ok "CERT PEM").
Proof.
  destruct (@value_written_is_value_read lenient_syntax
              (ca_cert (prepared PyNone "/tmp/tmpAbC123")) "CERT PEM" "" new_directory)
    as (E & Hr & _); [discriminate|reflexivity..|].
  eexists. split; [exact E|exact Hr].
Defined.

(** The same node when its file holds a certificate and [None] is
    assigned. *)
Lemma value_not_written_empties_file_witness :
  exists f1,
    @value_setter lenient_syntax (ca_cert (prepared PyNone "/tmp/tmpAbC123")) PyNone
      (<["/tmp/tmpAbC123/cacert.pem" := File "CERT PEM"]> new_directory)
    = (with_value (ca_cert (prepared PyNone "/tmp/tmpAbC123")) PyNone, f1,
       Raise (TypeError "expected a character buffer object"))
    /\ read_file "/tmp/tmpAbC123/cacert.pem" f1 = (f1, Ok "").
Proof.
  destruct (@value_not_written_empties_file lenient_syntax
              (ca_cert (prepared PyNone "/tmp/tmpAbC123")) PyNone
              (TypeError "expected a character buffer object")
              (<["/tmp/tmpAbC123/cacert.pem" := File "CERT PEM"]> new_directory))
    as (E & Hr & _); [discriminate|reflexivity..|].
  eexists. split; [exact E|exact Hr].
Defined.

End NodeValueFacts.
(** ** More on the construction of a sandbox *)

Module ConstructionFacts.
Import Text Path FS Config Sandbox Env StrFacts PathFacts FSFacts TeardownFacts NodeFacts
       ValueFacts AdapterFacts NodeValueFacts Layout Examples MoreExamples.

(** [sorted] keeps the items. *)
Lemma insert_sorted_perm kv l : insert_sorted kv l ≡ₚ kv :: l.
Proof.
  induction l as [|kv' l IH]; simpl; [reflexivity|].
  destruct (String.leb kv.1 kv'.1); [reflexivity|].
  rewrite IH. apply Permutation_swap.
Qed.

Lemma sorted_items_perm (m : gmap string pyobj) : sorted_items m ≡ₚ map_to_list m.
Proof.
  unfold sorted_items. induction (map_to_list m) as [|kv l IH]; simpl; [reflexivity|].
  now rewrite insert_sorted_perm, IH.
Qed.

Lemma sorted_items_elem (m : gmap string pyobj) n v :
  (n, v) ∈ sorted_items m <-> m !! n = Some v.
Proof. rewrite sorted_items_perm. apply elem_of_map_to_list. Qed.

Lemma sorted_items_NoDup (m : gmap string pyobj) : NoDup (sorted_items m).*1.
Proof. rewrite sorted_items_perm. apply NoDup_fst_map_to_list. Qed.


Lemma getattr_with_node self n d n' :
  n ∈ node_names ->
  getattr_node (with_node self n d) n'
  = if String.eqb n' n then Some d else getattr_node self n'.
Proof.
  unfold node_names. intros Hin.
  repeat (apply elem_of_cons in Hin as [->|Hin];
          [unfold getattr_node, with_node; cbn;
           repeat match goal with
                  | |- context [String.eqb n' ?b] =>
                      destruct (String.eqb_spec n' b) as [->|?]; cbn; try reflexivity
                  end|]).
  inversion Hin.
Qed.

Lemma child_place R n :
  is_root R -> no_slash n = true -> n <> "" ->
  is_empty (R ++ String "/" n) = false
  /\ ends_with_slash (R ++ String "/" n) = false
  /\ key (R ++ String "/" n) = R ++ String "/" n
  /\ dirname (R ++ String "/" n) = R.
Proof.
  intros HR Hn Hne. pose proof (is_root_child R n Hn Hne) as Hc.
  split; [apply is_empty_false, Hc|]. split; [now apply ends_with_slash_root|].
  split; [now apply key_root|now apply dirname_child].
Qed.

Lemma startswith_root_slash R sfx :
  Str.startswith (R ++ "/") (R ++ String "/" sfx) = true.
Proof.
  change (R ++ String "/" sfx) with (R ++ "/" ++ sfx).
  rewrite <- append_assoc. apply startswith_append.
Qed.

Section OnSandbox.
Context `{ConfigSyntax}.
Variables (p : string) (pkcs11 : pyobj).
Let R := rstrip_slash p.
Hypothesis HR : is_root R.

(** The place of the file of a plain node. *)
Lemma file_node_place n sfx :
  node_suffix n = Some sfx ->
  exists d0 parent,
    getattr_node (prepared pkcs11 p) n = Some d0
    /\ path d0 = R ++ sfx
    /\ String.eqb (name d0) "openssl.cnf" = false
    /\ is_empty (R ++ sfx) = false
    /\ ends_with_slash (R ++ sfx) = false
    /\ key (R ++ sfx) = R ++ sfx
    /\ dirname (R ++ sfx) = parent
    /\ (parent ∈ sandbox_dirs R)
    /\ ((R ++ sfx) ∉ sandbox_dirs R)
    /\ Str.startswith (R ++ "/") (R ++ sfx) = true.
Proof.
  assert (forall sub, sub <> "" -> no_slash sub = true -> is_root (R ++ String "/" sub))
    as Hsub by (intros sub ? ?; now apply is_root_child).
  assert (forall a b : string, R ++ a = R ++ b -> a = b) as Hinj
    by (intros a b; apply append_inv_head).
  assert (forall c a, R ++ String c a <> R) as Hne by (intros c a; apply append_ne_self).
  unfold node_suffix, sandbox_dirs.
  repeat match goal with
         | |- context [String.eqb n ?b] =>
             destruct (String.eqb_spec n b) as [->|?]
         end; intros E; inversion E; subst sfx; clear E;
    eexists; eexists; (split; [reflexivity|]);
    (split; [unfold path; cbn [prepared ca_cert ca_key csr index index_attr revoke_cert
                                 ca_crl serial gen_cert _path relative_pth name];
             fold R; rewrite append_assoc; reflexivity|]);
    (split; [reflexivity|]).
  all: first
    [ (* a node in a subdirectory *)
      match goal with
      | |- context [R ++ String "/" (String ?c1 ?r)] =>
          match eval cbv in (negb (no_slash (String c1 r))) with
          | true => idtac
          end
      end;
      first
        [ change (R ++ "/private/cakey.pem") with (R ++ "/private" ++ "/cakey.pem");
          rewrite <- append_assoc;
          destruct (child_place (R ++ "/private") "cakey.pem"
                      (Hsub "private" ltac:(discriminate) eq_refl) eq_refl ltac:(discriminate))
            as (P1 & P2 & P3 & P4)
        | change (R ++ "/csr/client.csr") with (R ++ "/csr" ++ "/client.csr");
          rewrite <- append_assoc;
          destruct (child_place (R ++ "/csr") "client.csr"
                      (Hsub "csr" ltac:(discriminate) eq_refl) eq_refl ltac:(discriminate))
            as (P1 & P2 & P3 & P4)
        | change (R ++ "/certs/cert.pem") with (R ++ "/certs" ++ "/cert.pem");
          rewrite <- append_assoc;
          destruct (child_place (R ++ "/certs") "cert.pem"
                      (Hsub "certs" ltac:(discriminate) eq_refl) eq_refl ltac:(discriminate))
            as (P1 & P2 & P3 & P4) ]
    | match goal with
      | |- context [is_empty (R ++ String "/" ?n)] =>
          destruct (child_place R n HR eq_refl ltac:(discriminate)) as (P1 & P2 & P3 & P4)
      end ].
  all: split; [exact P1|]; split; [exact P2|]; split; [exact P3|];
    split; [exact P4|]; split; [in_list|]; split;
    [ rewrite ?append_assoc; cbn;
      intros Hin;
      repeat (apply elem_of_cons in Hin as [Hin|Hin];
              [first [ apply Hne in Hin; contradiction
                     | apply Hinj in Hin; discriminate Hin ]|]);
      inversion Hin
    | rewrite ?append_assoc; apply startswith_root_slash ].
Qed.

Lemma node_suffix_inj n n' sfx :
  node_suffix n = Some sfx -> node_suffix n' = Some sfx -> n = n'.
Proof.
  unfold node_suffix.
  repeat match goal with
         | |- context [String.eqb n ?b] =>
             destruct (String.eqb_spec n b) as [->|?]
         end; intros E; inversion E; subst sfx; clear E;
    repeat match goal with
           | |- context [String.eqb n' ?b] =>
               destruct (String.eqb_spec n' b) as [->|?]
           end; intros E; first [reflexivity | discriminate E].
Qed.

Lemma node_suffix_name n sfx : node_suffix n = Some sfx -> n ∈ node_names.
Proof.
  unfold node_suffix, node_names.
  repeat match goal with
         | |- context [String.eqb n ?b] =>
             destruct (String.eqb_spec n b) as [->|?]; [intros _; in_list|]
         end.
  discriminate.
Qed.

Lemma node_suffix_not_conf n sfx :
  node_suffix n = Some sfx -> String.eqb n "ssl_conf" = false /\ sfx <> "/openssl.cnf".
Proof.
  unfold node_suffix.
  repeat match goal with
         | |- context [String.eqb n ?b] =>
             destruct (String.eqb_spec n b) as [->|?];
             [intros E; inversion E; split; [reflexivity|discriminate]|]
         end.
  discriminate.
Qed.

Lemma node_file_cases n sfx :
  node_file n = Some sfx ->
  (n = "ssl_conf" /\ sfx = "/openssl.cnf")
  \/ (String.eqb n "ssl_conf" = false /\ node_suffix n = Some sfx).
Proof.
  unfold node_file. destruct (String.eqb_spec n "ssl_conf") as [->|Hne].
  - intros E. inversion E. now left.
  - intros E. right. split; [reflexivity|exact E].
Qed.

(** The place of the file of a node. *)
Lemma node_place n sfx :
  node_file n = Some sfx ->
  exists d0 parent,
    getattr_node (prepared pkcs11 p) n = Some d0
    /\ path d0 = R ++ sfx
    /\ String.eqb (name d0) "openssl.cnf" = String.eqb n "ssl_conf"
    /\ is_empty (R ++ sfx) = false
    /\ ends_with_slash (R ++ sfx) = false
    /\ key (R ++ sfx) = R ++ sfx
    /\ dirname (R ++ sfx) = parent
    /\ (parent ∈ sandbox_dirs R)
    /\ ((R ++ sfx) ∉ sandbox_dirs R)
    /\ Str.startswith (R ++ "/") (R ++ sfx) = true.
Proof.
  intros Hf. destruct (node_file_cases n sfx Hf) as [[-> ->]|[Hn Hsfx]].
  - destruct (child_place R "openssl.cnf" HR eq_refl ltac:(discriminate))
      as (P1 & P2 & P3 & P4).
    eexists. exists R. split; [reflexivity|].
    split; [unfold path; cbn [prepared ssl_conf _path relative_pth name];
            fold R; rewrite append_assoc; reflexivity|].
    split; [reflexivity|]. split; [exact P1|]. split; [exact P2|]. split; [exact P3|].
    split; [exact P4|]. split; [unfold sandbox_dirs; in_list|]. split.
    + unfold sandbox_dirs. intros Hin.
      repeat (apply elem_of_cons in Hin as [Hin|Hin];
              [first [ apply append_ne_self in Hin; contradiction
                     | apply append_inv_head in Hin; discriminate Hin ]|]).
      inversion Hin.
    + apply startswith_root_slash.
  - destruct (file_node_place n sfx Hsfx)
      as (d0 & parent & Q1 & Q2 & Q3 & Q4 & Q5 & Q6 & Q7 & Q8 & Q9 & Q10).
    exists d0, parent. rewrite Hn. repeat (split; [assumption|]). assumption.
Qed.

Lemma node_file_inj n n' sfx :
  node_file n = Some sfx -> node_file n' = Some sfx -> n = n'.
Proof.
  intros H1 H2.
  destruct (node_file_cases n sfx H1) as [[En Es]|[Hn Hs]];
    destruct (node_file_cases n' sfx H2) as [[En' Es']|[Hn' Hs']].
  - congruence.
  - destruct (node_suffix_not_conf n' _ Hs') as [_ Hc]. congruence.
  - destruct (node_suffix_not_conf n _ Hs) as [_ Hc]. congruence.
  - exact (node_suffix_inj n n' sfx Hs Hs').
Qed.

Lemma node_file_name n sfx : node_file n = Some sfx -> n ∈ node_names.
Proof.
  intros Hf. destruct (node_file_cases n sfx Hf) as [[-> _]|[_ Hs]].
  - unfold node_names. in_list.
  - exact (node_suffix_name n sfx Hs).
Qed.

Lemma sandbox_dirs_key q : q ∈ sandbox_dirs R -> key q = q.
Proof.
  unfold sandbox_dirs. intros Hin.
  repeat (apply elem_of_cons in Hin as [->|Hin];
          [apply key_root; first [exact HR | now apply is_root_child]|]).
  inversion Hin.
Qed.

(** The adapter reads the place and the options of its node only. *)
Lemma adjusted_same d0 d v :
  same_layout d0 d -> opts d = opts d0 ->
  _get_adjusted_openssl_config_str d v = _get_adjusted_openssl_config_str d0 v.
Proof.
  intros Hl Ho. pose proof (same_layout_path _ _ Hl) as Hp.
  unfold _get_adjusted_openssl_config_str, _get_openssl_config_with_substituted_paths,
    get_opts.
  rewrite Hp, Ho. reflexivity.
Qed.

Lemma write_file_text q v txt (g : fs) :
  is_empty q = false -> ends_with_slash q = false ->
  isdir g q = false -> isdir g (dirname q) = true ->
  written_text v = Ok txt ->
  write_file q v g = (<[key q := File txt]> g, Ok tt).
Proof.
  intros Hne Hs Hd Hp Hw. unfold write_file, bind_io, open_w.
  rewrite Hne, Hs, Hd, Hp, orb_true_r. simpl. unfold lift. rewrite Hw.
  unfold set_content. now rewrite insert_insert_eq.
Qed.

Lemma stored_written n v val txt :
  stored pkcs11 p n v = Some (val, txt) -> written_text val = Ok txt.
Proof.
  unfold stored. destruct (String.eqb n "ssl_conf").
  - destruct (_get_adjusted_openssl_config_str _ v); intros E; inversion E. reflexivity.
  - destruct v; intros E; inversion E. reflexivity.
Qed.

(** Assigning a value to a node of the sandbox. *)
Lemma set_node env g n sfx v val txt d :
  laid_out pkcs11 p env g -> node_file n = Some sfx -> getattr_node env n = Some d ->
  stored pkcs11 p n v = Some (val, txt) ->
  value_setter d v g = (with_value d val, <[R ++ sfx := File txt]> g, Ok tt)
  /\ laid_out pkcs11 p (with_node env n (with_value d val)) (<[R ++ sfx := File txt]> g).
Proof.
  intros (Hnodes & Hdirs & Hfiles) Hsfx Hd Hst.
  destruct (node_place n sfx Hsfx)
    as (d0 & parent & Hd0 & Hp0 & Hn0 & He & Hs & Hk & Hdn & Hpar & Hnd & _).
  destruct (Hnodes n d0 Hd0) as (d' & Hd' & Hl & Ho). rewrite Hd in Hd'.
  inversion Hd'; subst d'.
  pose proof (same_layout_path _ _ Hl) as Hpath. rewrite Hp0 in Hpath.
  assert (String.eqb (name d) "openssl.cnf" = String.eqb n "ssl_conf") as Hname
    by (destruct Hl as (<- & _); exact Hn0).
  assert (isdir g (R ++ sfx) = false) as Hnotdir.
  { apply isdir_false. rewrite Hk. eapply Hfiles, Hsfx. }
  assert (isdir g (dirname (R ++ sfx)) = true) as Hpdir.
  { apply isdir_true. rewrite Hdn, (sandbox_dirs_key parent Hpar). now apply Hdirs. }
  pose proof (stored_written n v val txt Hst) as Hw.
  assert ((if String.eqb (name d) "openssl.cnf"
           then PyConfig <$> _get_adjusted_openssl_config_str d v
           else Ok v) = Ok val) as Hadj.
  { rewrite Hname. unfold stored in Hst. destruct (String.eqb_spec n "ssl_conf") as [->|Hne].
    - rewrite (adjusted_same d0 d v Hl Ho).
      cbn [getattr_node] in Hd0. change (String.eqb "ssl_conf" "ca_cert") with false in Hd0.
      unfold getattr_node in Hd0. simpl in Hd0. inversion Hd0; subst d0.
      destruct (_get_adjusted_openssl_config_str _ v); inversion Hst. reflexivity.
    - destruct v; inversion Hst. reflexivity. }
  split.
  - unfold value_setter, _create_file. rewrite Hadj.
    change (path (with_value d val)) with (path d). rewrite Hpath, Hnotdir. cbn [negb].
    change (_value (with_value d val)) with val.
    rewrite (write_file_text _ val txt g He Hs Hnotdir Hpdir Hw), Hk. reflexivity.
  - split; [|split].
    + intros n' d0' Hd0'. rewrite (getattr_with_node env n _ n' (node_file_name n sfx Hsfx)).
      destruct (String.eqb_spec n' n) as [->|Hne].
      * rewrite Hd0 in Hd0'. inversion Hd0'; subst d0'.
        eexists. split; [reflexivity|]. split; [exact Hl|exact Ho].
      * now apply Hnodes.
    + intros q Hq. rewrite lookup_insert_ne by (intros <-; contradiction).
      now apply Hdirs.
    + intros n' sfx' Hsfx'. fold R.
      destruct (decide (R ++ sfx = R ++ sfx')) as [E|Hne].
      * rewrite <- E, lookup_insert_eq. discriminate.
      * rewrite lookup_insert_ne by exact Hne. eapply Hfiles, Hsfx'.
Qed.

(** The loop of the constructor. *)
Lemma init_loop_writes items : forall env g,
  NoDup items.*1 ->
  (forall n v, (n, v) ∈ items ->
     is_Some (node_file n) /\ is_Some (stored pkcs11 p n v)) ->
  laid_out pkcs11 p env g ->
  exists g' env',
    init_loop env items g = (g', Ok env')
    /\ laid_out pkcs11 p env' g'
    /\ (forall n v val txt, (n, v) ∈ items -> stored pkcs11 p n v = Some (val, txt) ->
          exists d sfx, getattr_node env' n = Some d /\ node_file n = Some sfx
                        /\ _value d = val /\ g' !! (R ++ sfx) = Some (File txt))
    /\ (forall n, n ∉ items.*1 -> getattr_node env' n = getattr_node env n)
    /\ (forall q, (forall n sfx, n ∈ items.*1 -> node_file n = Some sfx -> q <> R ++ sfx) ->
          g' !! q = g !! q).
Proof.
  induction items as [|[n v] items IH]; intros env g Hnd Hitems Hlaid.
  - exists g, env. split; [reflexivity|]. split; [assumption|]. split.
    + intros n v val txt Hin. inversion Hin.
    + split; reflexivity.
  - apply NoDup_cons in Hnd as [Hn Hnd]. simpl in Hn.
    destruct (Hitems n v ltac:(left)) as ([sfx Hsfx] & [[val txt] Hst]).
    destruct (node_place n sfx Hsfx) as (d0 & _ & Hd0 & _).
    destruct Hlaid as (Hnodes & Hrest).
    destruct (Hnodes n d0 Hd0) as (d & Hd & Hl).
    destruct (set_node env g n sfx v val txt d (conj Hnodes Hrest) Hsfx Hd Hst)
      as (Eset & Hlaid1).
    destruct (IH (with_node env n (with_value d val)) (<[R ++ sfx := File txt]> g)
                Hnd (fun n' v' Hin => Hitems n' v' ltac:(right; exact Hin)) Hlaid1)
      as (g' & env' & Eloop & Hlaid' & Hvals & Hframe & Hfs).
    exists g', env'. split; [simpl; rewrite Hd, Eset; exact Eloop|].
    split; [exact Hlaid'|]. split; [|split].
    + intros n' v' val' txt' Hin Hst'.
      apply elem_of_cons in Hin as [Heq|Hin]; [|now apply (Hvals n' v')].
      inversion Heq; subst n' v'. rewrite Hst in Hst'. inversion Hst'; subst val' txt'.
      exists (with_value d val), sfx.
      split.
      { rewrite (Hframe n Hn), (getattr_with_node env n _ n (node_file_name n sfx Hsfx)).
        now rewrite String.eqb_refl. }
      split; [exact Hsfx|]. split; [reflexivity|].
      rewrite Hfs; [apply lookup_insert_eq|].
      intros n' sfx' Hin' Hsfx' E. apply append_inv_head in E. subst sfx'.
      rewrite (node_file_inj n n' sfx Hsfx Hsfx') in Hn. contradiction.
    + intros n' Hn'. rewrite fmap_cons in Hn'. simpl in Hn'.
      apply not_elem_of_cons in Hn' as [Hne Hn'].
      rewrite (Hframe n' Hn'), (getattr_with_node env n _ n' (node_file_name n sfx Hsfx)).
      apply String.eqb_neq in Hne. now rewrite Hne.
    + intros q Hq. rewrite Hfs.
      * apply lookup_insert_ne. intros E. symmetry in E. revert E.
        apply (Hq n sfx); [left|exact Hsfx].
      * intros n' sfx' Hin'. apply Hq. now right.
Qed.

End OnSandbox.

Lemma file_node_suffix n : n ∈ file_node_names -> is_Some (node_suffix n).
Proof.
  unfold file_node_names. intros Hin.
  repeat (apply elem_of_cons in Hin as [->|Hin]; [eexists; reflexivity|]).
  inversion Hin.
Qed.

Lemma prepared_values pkcs11 p n d :
  getattr_node (prepared pkcs11 p) n = Some d -> _value d = PyNone.
Proof.
  unfold getattr_node.
  repeat match goal with
         | |- context [String.eqb n ?b] =>
             destruct (String.eqb_spec n b) as [->|?];
             [intros E; inversion E; reflexivity|]
         end.
  discriminate.
Qed.

Section Construction.
Context `{ConfigSyntax} `{TempDir}.

Lemma init_loop_pkcs11 items : forall self g g' self',
  init_loop self items g = (g', Ok self') ->
  Env.pkcs11_opts_dict self' = Env.pkcs11_opts_dict self.
Proof.
  induction items as [|[name value] items IH]; intros self g g' self' E; simpl in E.
  - inversion E; subst. reflexivity.
  - destruct (getattr_node self name) as [d|].
    2:{ destruct (is_in open_attributes name); [exact (IH _ _ _ _ E)|].
        destruct (is_in closed_attributes name); discriminate E. }
    destruct (value_setter d value g) as [[d' g1] [[]|e]]; [|discriminate].
    apply IH in E. rewrite E. reflexivity.
Qed.

(** The sandbox the constructor returns in a new directory. *)
Lemma TmpEnv_new_laid_out (pkcs11 : pyobj) (init_values : gmap string pyobj)
    (f f0 : fs) (p : string) :
  mkdtemp f = (f0, Ok p) ->
  is_root (rstrip_slash p) ->
  (forall q, Str.startswith (rstrip_slash p ++ "/") q = true -> f !! q = None) ->
  (forall name v, init_values !! name = Some v -> name <> "ssl_conf" ->
     name ∈ file_node_names /\ exists s, v = PyStr s) ->
  (forall v, init_values !! "ssl_conf" = Some v ->
     exists doc, _get_adjusted_openssl_config_str (ssl_conf (prepared pkcs11 p)) v = Ok doc) ->
  exists f' tmp_env,
    TmpEnv_new pkcs11 init_values f = (f', Ok tmp_env)
    /\ tmp_path_templ tmp_env = p
    /\ Env.pkcs11_opts_dict tmp_env = pkcs11
    /\ laid_out pkcs11 p tmp_env f'
    /\ (forall n v val txt,
          init_values !! n = Some v -> stored pkcs11 p n v = Some (val, txt) ->
          exists d sfx, getattr_node tmp_env n = Some d /\ node_file n = Some sfx
                        /\ path d = rstrip_slash p ++ sfx /\ _value d = val
                        /\ f' !! (rstrip_slash p ++ sfx) = Some (File txt)
                        /\ read_file (path d) f' = (f', Ok txt))
    /\ (forall n, init_values !! n = None ->
          getattr_node tmp_env n = getattr_node (prepared pkcs11 p) n)
    /\ (forall n sfx, init_values !! n = None -> node_file n = Some sfx ->
          f' !! (rstrip_slash p ++ sfx) = None)
    /\ (forall q, under (rstrip_slash p) q = false -> f' !! q = f !! q).
Proof.
  intros Em HR Hfresh Hvals Hconf.
  destruct (mkdtemp_ok _ _ _ Em) as (_ & _ & ->).
  set (R := rstrip_slash p) in *.
  assert (key p = R) as Hk.
  { unfold key. fold R. destruct HR as [Hne _]. destruct R; [congruence|reflexivity]. }
  rewrite Hk in Em.
  assert (forall n, (<[R := Dir]> f : fs) !! (R ++ String "/" n) = None) as Hnew.
  { intros n. rewrite lookup_insert_ne by (intros E; symmetry in E; revert E; apply append_ne_self).
    apply Hfresh, startswith_root_slash. }
  pose proof (_prepare_dir_structures_spec p HR pkcs11 (<[R := Dir]> f)
                (lookup_insert_eq _ _ _) (Hnew _) (Hnew _) (Hnew _)) as Eprep.
  fold R in Eprep.
  set (f3 := <[R ++ "/csr" := Dir]>
               (<[R ++ "/certs" := Dir]> (<[R ++ "/private" := Dir]> (<[R := Dir]> f))))
    in Eprep.
  assert (forall n sfx, node_file n = Some sfx -> f3 !! (R ++ sfx) = None) as Hnofile.
  { intros n sfx Hsfx.
    destruct (node_place p pkcs11 HR n sfx Hsfx)
      as (_ & _ & _ & _ & _ & _ & _ & _ & _ & _ & Hnd & Hst).
    fold R in Hnd, Hst. unfold sandbox_dirs in Hnd.
    unfold f3. rewrite !lookup_insert_ne by (intros E; apply Hnd; rewrite <- E; in_list).
    exact (Hfresh _ Hst). }
  assert (laid_out pkcs11 p (prepared pkcs11 p) f3) as Hlaid.
  { split; [|split].
    - intros n d0 Hd0. exists d0. split; [exact Hd0|]. split; [repeat split|reflexivity].
    - fold R. unfold sandbox_dirs. intros q Hq.
      assert (forall a b : string, R ++ a = R ++ b -> a = b) as Hinj
        by (intros a b; apply append_inv_head).
      assert (forall c a, R ++ String c a <> R) as Hne by (intros c a; apply append_ne_self).
      unfold f3.
      repeat (apply elem_of_cons in Hq as [->|Hq];
              [repeat first
                 [ apply lookup_insert_eq
                 | rewrite lookup_insert_ne
                     by (first [ apply Hne
                               | intros E; apply Hinj in E; discriminate E ]) ]|]).
      inversion Hq.
    - intros n sfx Hsfx. fold R. now rewrite (Hnofile n sfx Hsfx). }
  destruct (init_loop_writes p pkcs11 HR (sorted_items init_values) (prepared pkcs11 p) f3
              (sorted_items_NoDup init_values))
    as (f' & env' & Eloop & Hlaid' & Hw & Hframe & Hfs).
  { intros n v Hin. apply sorted_items_elem in Hin.
    unfold node_file, stored. destruct (String.eqb_spec n "ssl_conf") as [->|Hne].
    - split; [eauto|]. destruct (Hconf v Hin) as [doc ->]. eauto.
    - destruct (Hvals n v Hin Hne) as (Hn & s & ->).
      split; [now apply file_node_suffix|eauto]. }
  { exact Hlaid. }
  assert (forall n, init_values !! n = None -> n ∉ (sorted_items init_values).*1) as Hout.
  { intros n Hnone Hin. apply list_elem_of_fmap in Hin as ([n' v] & -> & Hin).
    apply sorted_items_elem in Hin. simpl in Hnone. congruence. }
  exists f', env'. split.
  { unfold TmpEnv_new, bind_io. rewrite Em. unfold init_body, bind_io.
    rewrite Eprep, Eloop. reflexivity. }
  split; [rewrite (init_loop_tmp_path _ _ _ _ _ Eloop); reflexivity|].
  split; [rewrite (init_loop_pkcs11 _ _ _ _ _ Eloop); reflexivity|].
  split; [exact Hlaid'|]. split; [|split; [|split]].
  - intros n v val txt Hin Hst. apply sorted_items_elem in Hin.
    destruct (Hw n v val txt Hin Hst) as (d & sfx & Hd & Hsfx & Hv & Hfile).
    exists d, sfx. split; [exact Hd|]. split; [exact Hsfx|].
    destruct (node_place p pkcs11 HR n sfx Hsfx)
      as (d0 & _ & Hd0 & Hp0 & _ & _ & Hs & Hkey & _).
    destruct Hlaid' as (Hnodes & _).
    destruct (Hnodes n d0 Hd0) as (d' & Hd' & Hl & _). rewrite Hd in Hd'.
    inversion Hd'; subst d'.
    pose proof (same_layout_path _ _ Hl) as Hpath. rewrite Hp0 in Hpath.
    split; [exact Hpath|]. split; [exact Hv|]. split; [exact Hfile|].
    rewrite Hpath. unfold read_file. fold R in Hs, Hkey, Hfile |- *.
    now rewrite Hs, Hkey, Hfile.
  - intros n Hnone. apply Hframe, Hout, Hnone.
  - intros n sfx Hnone Hsfx. fold R. rewrite Hfs; [exact (Hnofile n sfx Hsfx)|].
    intros n' sfx' Hin Hsfx' E. apply append_inv_head in E. subst sfx'.
    rewrite (node_file_inj n n' sfx Hsfx Hsfx') in Hnone.
    exact (Hout n' Hnone Hin).
  - intros q Hq. unfold under in Hq. apply orb_false_iff in Hq as [Hq1 Hq2].
    apply String.eqb_neq in Hq1. fold R in Hq1, Hq2.
    assert (forall n, q <> R ++ String "/" n) as Hbelow.
    { intros n ->. rewrite startswith_root_slash in Hq2. discriminate Hq2. }
    rewrite Hfs.
    + unfold f3. rewrite !lookup_insert_ne by (first [exact Hq1 | intros E; symmetry in E; revert E; apply Hbelow]).
      reflexivity.
    + intros n' sfx' _ Hsfx' ->.
      destruct (node_place p pkcs11 HR n' sfx' Hsfx')
        as (_ & _ & _ & _ & _ & _ & _ & _ & _ & _ & _ & Hst).
      fold R in Hst, Hq2. rewrite Hst in Hq2. discriminate Hq2.
Qed.

(** X10. The constructor of the sandbox writes what it is given. In a new
    temporary directory under which nothing exists, take [TmpEnv] called
    with byte strings for some of its plain nodes (all the nodes but the
    output directory and the configuration) and, or not, with a
    configuration that the adapter accepts. It returns a sandbox at that
    directory in which each plain node that was given a string holds it,
    lies at its place under the directory and has a file that reads as
    the string; the configuration node holds the adapted document and its
    file [openssl.cnf] reads as the text of that document; and the nodes
    that were given nothing hold [None] and have no file (so no file of
    a private key is made when no key is given). *)
Theorem TmpEnv_holds_its_values (pkcs11 : pyobj) (init_values : gmap string pyobj)
    (f f0 : fs) (p : string) :
  mkdtemp f = (f0, Ok p) ->
  is_root (rstrip_slash p) ->
  (forall q, Str.startswith (rstrip_slash p ++ "/") q = true -> f !! q = None) ->
  (forall name v, init_values !! name = Some v -> name <> "ssl_conf" ->
     name ∈ file_node_names /\ exists s, v = PyStr s) ->
  (forall v, init_values !! "ssl_conf" = Some v ->
     exists doc, _get_adjusted_openssl_config_str (ssl_conf (prepared pkcs11 p)) v = Ok doc) ->
  exists f' tmp_env,
    TmpEnv_new pkcs11 init_values f = (f', Ok tmp_env)
    /\ tmp_path_templ tmp_env = p
    /\ (forall name s, init_values !! name = Some (PyStr s) -> name <> "ssl_conf" ->
          exists d sfx,
            getattr_node tmp_env name = Some d /\ node_suffix name = Some sfx
            /\ path d = rstrip_slash p ++ sfx
            /\ _value d = PyStr s
            /\ read_file (path d) f' = (f', Ok s))
    /\ (forall v doc,
          init_values !! "ssl_conf" = Some v ->
          _get_adjusted_openssl_config_str (ssl_conf (prepared pkcs11 p)) v = Ok doc ->
          path (ssl_conf tmp_env) = rstrip_slash p ++ "/openssl.cnf"
          /\ _value (ssl_conf tmp_env) = PyConfig doc
          /\ read_file (path (ssl_conf tmp_env)) f' = (f', Ok (Str.join Str.NL doc)))
    /\ (forall name d, init_values !! name = None ->
          getattr_node tmp_env name = Some d -> _value d = PyNone)
    /\ (forall name sfx, init_values !! name = None -> node_file name = Some sfx ->
          f' !! (rstrip_slash p ++ sfx) = None).
Proof.
  intros Em HR Hfresh Hvals Hconf.
  destruct (TmpEnv_new_laid_out pkcs11 init_values f f0 p Em HR Hfresh Hvals Hconf)
    as (f' & env' & Enew & Hpath & _ & _ & Hread & Hframe & Hnofile & _).
  exists f', env'. split; [exact Enew|]. split; [exact Hpath|].
  split; [|split; [|split]].
  - intros name s Hin Hne. apply String.eqb_neq in Hne.
    destruct (Hread name (PyStr s) (PyStr s) s Hin)
      as (d & sfx & Hd & Hsfx & Hp & Hv & _ & Hr).
    { unfold stored. now rewrite Hne. }
    exists d, sfx. split; [exact Hd|]. split; [|auto].
    unfold node_file in Hsfx. now rewrite Hne in Hsfx.
  - intros v doc Hin Hdoc.
    destruct (Hread "ssl_conf" v (PyConfig doc) (Str.join Str.NL doc) Hin)
      as (d & sfx & Hd & Hsfx & Hp & Hv & _ & Hr).
    { unfold stored. change (String.eqb "ssl_conf" "ssl_conf") with true. cbv iota.
      rewrite Hdoc. reflexivity. }
    inversion Hsfx; subst sfx. unfold getattr_node in Hd. simpl in Hd.
    inversion Hd; subst d. auto.
  - intros name d Hnone Hd. rewrite (Hframe name Hnone) in Hd.
    eapply prepared_values, Hd.
  - exact Hnofile.
Qed.

End Construction.

Section UnknownName.
Context `{ConfigSyntax} `{TempDir}.




End UnknownName.

Lemma fresh_world q :
  Str.startswith (rstrip_slash "/tmp/tmpAbC123" ++ "/") q = true -> world !! q = None.
Proof.
  intros Hq. unfold world.
  destruct (decide (q = "/tmp")) as [->|N1]; [discriminate Hq|].
  destruct (decide (q = "/")) as [->|N2]; [discriminate Hq|].
  rewrite !lookup_insert_ne by congruence. apply lookup_empty.
Qed.

(** The sandbox made in [/tmp/tmpAbC123] with an index, a serial number
    and the minimal configuration. *)
Lemma TmpEnv_holds_its_values_witness :
  exists f' tmp_env doc,
    @TmpEnv_new lenient_syntax tmp_AbC123 PyNone
      (<["index" := PyStr "V"]>
         (<["serial" := PyStr "0A"]> (<["ssl_conf" := PyStr minimal_config]> ∅))) world
    = (f', Ok tmp_env)
    /\ read_file "/tmp/tmpAbC123/index.txt" f' = (f', Ok "V")
    /\ read_file "/tmp/tmpAbC123/serial" f' = (f', Ok "0A")
    /\ _value (ssl_conf tmp_env) = PyConfig doc
    /\ lookup_in doc "CA_default" "database" = Some "/tmp/tmpAbC123/index.txt"
    /\ read_file "/tmp/tmpAbC123/openssl.cnf" f' = (f', Ok (Str.join Str.NL doc))
    /\ _value (ca_cert tmp_env) = PyNone
    /\ f' !! "/tmp/tmpAbC123/private/cakey.pem" = None.
Proof.
  destruct (@_get_adjusted_openssl_config_str lenient_syntax
              (ssl_conf (prepared PyNone "/tmp/tmpAbC123")) (PyStr minimal_config))
    as [doc|e] eqn:Ea; [|vm_compute in Ea; discriminate Ea].
  destruct (@TmpEnv_holds_its_values lenient_syntax tmp_AbC123 PyNone
              (<["index" := PyStr "V"]>
                 (<["serial" := PyStr "0A"]> (<["ssl_conf" := PyStr minimal_config]> ∅)))
              world (<["/tmp/tmpAbC123" := Dir]> world) "/tmp/tmpAbC123")
    as (f' & tmp_env & E & _ & Hw & Hc & Hn & Hnf).
  - reflexivity.
  - split; [discriminate|reflexivity].
  - exact fresh_world.
  - intros name v Hl Hne.
    apply lookup_insert_Some in Hl as [[<- <-]|[_ Hl]];
      [split; [unfold file_node_names; in_list|eauto]|].
    apply lookup_insert_Some in Hl as [[<- <-]|[_ Hl]];
      [split; [unfold file_node_names; in_list|eauto]|].
    apply lookup_insert_Some in Hl as [[<- <-]|[_ Hl]]; [exfalso; now apply Hne|].
    rewrite lookup_empty in Hl. discriminate Hl.
  - intros v Hl.
    do 2 (rewrite lookup_insert_ne in Hl by discriminate). rewrite lookup_insert_eq in Hl.
    inversion Hl; subst v.
    eauto.
  - exists f', tmp_env, doc. split; [exact E|].
    destruct (Hw "index" "V" (lookup_insert_eq _ _ _) ltac:(discriminate))
      as (d1 & sfx1 & _ & Hs1 & Hp1 & _ & Hr1).
    destruct (Hw "serial" "0A") as (d2 & sfx2 & _ & Hs2 & Hp2 & _ & Hr2);
      [rewrite lookup_insert_ne by discriminate; apply lookup_insert_eq|discriminate|].
    inversion Hs1; subst sfx1. inversion Hs2; subst sfx2.
    rewrite Hp1 in Hr1. rewrite Hp2 in Hr2.
    destruct (Hc (PyStr minimal_config) doc) as (Hp3 & Hv3 & Hr3);
      [do 2 (rewrite lookup_insert_ne by discriminate); apply lookup_insert_eq|exact Ea|].
    rewrite Hp3 in Hr3.
    split; [exact Hr1|]. split; [exact Hr2|]. split; [exact Hv3|].
    split; [vm_compute in Ea; inversion Ea; vm_compute; reflexivity|].
    split; [exact Hr3|].
    split.
    + apply (Hn "ca_cert"); [|reflexivity].
      do 3 (rewrite lookup_insert_ne by discriminate). apply lookup_empty.
    + apply (Hnf "ca_key" "/private/cakey.pem"); [|reflexivity].
      do 3 (rewrite lookup_insert_ne by discriminate). apply lookup_empty.
Defined.


End ConstructionFacts.
(** ** More on the teardown of a sandbox *)

Module ExitFacts.
Import Text Path FS Config Sandbox Env StrFacts PathFacts FSFacts TeardownFacts NodeFacts
       Examples MoreExamples.

Lemma startswith_mismatch a c s :
  c <> "/"%char -> Str.startswith (a ++ "/") (a ++ String c s) = false.
Proof.
  intros Hc. induction a as [|x a IH].
  - change (Str.startswith ("" ++ "/") ("" ++ String c s))
      with (Ascii.eqb "/" c && Str.startswith "" s).
    apply andb_false_iff. left. apply Ascii.eqb_neq. congruence.
  - change (Str.startswith (String x a ++ "/") (String x a ++ String c s))
      with (Ascii.eqb x x && Str.startswith (a ++ "/") (a ++ String c s)).
    now rewrite Ascii.eqb_refl.
Qed.

Lemma under_sibling a c s : c <> "/"%char -> under a (a ++ String c s) = false.
Proof.
  intros Hc. unfold under. rewrite (startswith_mismatch a c s Hc), orb_false_r.
  apply String.eqb_neq. intros E. symmetry in E. revert E. apply append_ne_self.
Qed.

Section WithSystem.
Context `{ConfigSyntax} `{TempDir}.

(** X12. Leaving the [with] statement removes the sandbox and nothing
    else. When the directory of the sandbox is still a directory at the
    end of the body, every path that is neither the directory nor below
    it is after the statement as the body left it; a path that only
    begins with the name of the directory, such as a second temporary
    directory whose name is longer, is not below it. *)
Theorem exit_removes_the_sandbox_only {A} (pkcs11 : pyobj)
    (init_values : gmap string pyobj) (body : TmpEnv -> io A)
    (f f1 f2 : fs) (tmp_env : TmpEnv) (r : result A) :
  TmpEnv_new pkcs11 init_values f = (f1, Ok tmp_env) ->
  body tmp_env f1 = (f2, r) ->
  isdir f2 (tmp_path_templ tmp_env) = true ->
  exists f3,
    with_TmpEnv pkcs11 init_values body f = (f3, r)
    /\ (forall q, under (key (tmp_path_templ tmp_env)) q = false -> f3 !! q = f2 !! q)
    /\ (forall c s n, c <> "/"%char ->
          f2 !! (key (tmp_path_templ tmp_env) ++ String c s) = Some n ->
          f3 !! (key (tmp_path_templ tmp_env) ++ String c s) = Some n).
Proof.
  intros En Eb Hd.
  destruct (rmtree_ok _ f2 Hd) as (f3 & Er & _ & Hrest).
  exists f3. split; [|split].
  - unfold with_TmpEnv, bind_io. rewrite En, Eb. unfold _cleanup. rewrite Er. reflexivity.
  - exact Hrest.
  - intros c s n Hc Hq. rewrite Hrest; [exact Hq|]. now apply under_sibling.
Qed.

(** X13. An error of the teardown takes the place of the outcome of the
    body. When the directory of the sandbox is no directory any more at
    the end of the body (the body removed it, or put a file in its
    place), [__exit__] raises the [OSError] of [shutil.rmtree], and the
    [with] statement ends with this error whether the body returned a
    result or raised; the filesystem is left as the body left it. *)
Theorem exit_error_replaces_outcome {A} (pkcs11 : pyobj)
    (init_values : gmap string pyobj) (body : TmpEnv -> io A)
    (f f1 f2 : fs) (tmp_env : TmpEnv) (r : result A) :
  TmpEnv_new pkcs11 init_values f = (f1, Ok tmp_env) ->
  body tmp_env f1 = (f2, r) ->
  isdir f2 (tmp_path_templ tmp_env) = false ->
  with_TmpEnv pkcs11 init_values body f
  = (f2, Raise (OSError (if exists_ f2 (tmp_path_templ tmp_env) then ENOTDIR else ENOENT)
                        (tmp_path_templ tmp_env))).
Proof.
  intros En Eb Hd. unfold with_TmpEnv, bind_io. rewrite En, Eb.
  unfold _cleanup, rmtree. rewrite Hd. reflexivity.
Qed.

End WithSystem.

(** A sandbox in [/tmp/tmpAbC123] whose body makes the directory
    [/tmp/tmpAbC123x]: the directory is there after the statement. A
    sandbox whose body removes the directory of the sandbox: the result
    of the body is lost. *)
Lemma exit_removes_the_sandbox_only_witness :
  exists f3,
    @with_TmpEnv lenient_syntax tmp_AbC123 unit PyNone ∅ (fun _ => mkdir "/tmp/tmpAbC123x") world
    = (f3, Ok tt)
    /\ f3 !! "/tmp/tmpAbC123x" = Some Dir.
Proof.
  destruct (@exit_removes_the_sandbox_only lenient_syntax tmp_AbC123 unit PyNone ∅
              (fun _ => mkdir "/tmp/tmpAbC123x") world prepared_directory
              (<["/tmp/tmpAbC123x" := Dir]> prepared_directory)
              (prepared PyNone "/tmp/tmpAbC123") (Ok tt))
    as (f3 & E & _ & Hsib); [vm_compute; reflexivity..|].
  exists f3. split; [exact E|].
  apply (Hsib "x"%char "" Dir); [discriminate|apply lookup_insert_eq].
Defined.

Lemma exit_error_replaces_outcome_witness :
  @with_TmpEnv lenient_syntax tmp_AbC123 unit PyNone ∅
    (fun tmp_env => rmtree (tmp_path_templ tmp_env)) world
  = (world, Raise (OSError ENOENT "/tmp/tmpAbC123")).
Proof.
  apply (@exit_error_replaces_outcome lenient_syntax tmp_AbC123 unit PyNone ∅
           (fun tmp_env => rmtree (tmp_path_templ tmp_env)) world prepared_directory world
           (prepared PyNone "/tmp/tmpAbC123") (Ok tt)); vm_compute; reflexivity.
Defined.

End ExitFacts.
(** ** More on the toolchain invoker *)

Module InvokerFacts.
Import Text Path FS Config Sandbox Env StrFacts PathFacts FSFacts ConfigFacts AdapterFacts
       ToolchainFacts Examples MoreExamples.

Local Open Scope list_scope.

Section WithProcess.
Context `{Subprocess}.

(** X14. Revocation and CRL generation run one after the other, and the
    second only after the first succeeded. In the body of
    [revoke_certificate_and_generate_crl_pem], when the revoke command
    exits with a status other than 0 the body raises the [RuntimeError]
    of that command and the CRL command is not run: the filesystem is as
    the revoke command left it. When the revoke command exits with 0, the
    body goes on as the CRL generation on the filesystem the revoke
    command left; and when the CRL command exits with 0 too, the body
    returns what the CRL node reads on the filesystem the CRL command
    left. *)
Theorem revocation_then_crl (self : TmpEnv) (pkcs11_args : list string) (f : fs) :
  _get_pkcs11_openssl_command_args self = Ok pkcs11_args ->
  let revoke := cert_revocation_args self ++ pkcs11_args in
  let gencrl := crl_generation_args self ++ pkcs11_args in
  let body := (_ <~ execute_cert_revocation self ;; execute_crl_generation self) in
  (forall f1 returncode output,
     returncode <> 0 ->
     run_process revoke f = (f1, Ok (returncode, output)) ->
     body f = (f1, Raise (RuntimeError
                            ("CA env error (" ++ str_CalledProcessError returncode revoke
                             ++ "; " ++ Str.repr output ++ ")")%string)))
  /\ (forall f1 output,
        run_process revoke f = (f1, Ok (0, output)) ->
        body f = execute_crl_generation self f1)
  /\ (forall f1 output f2 output',
        run_process revoke f = (f1, Ok (0, output)) ->
        run_process gencrl f1 = (f2, Ok (0, output')) ->
        body f = read_file (path (ca_crl self)) f2).
Proof.
  intros Ha revoke gencrl body.
  assert (forall g, execute_cert_revocation self g = _execute_command revoke g) as Hrev.
  { intros g. unfold execute_cert_revocation, bind_io, lift. now rewrite Ha. }
  assert (forall g, execute_crl_generation self g
                    = (_ <~ _execute_command gencrl ;; read_file (path (ca_crl self))) g)
    as Hcrl.
  { intros g. unfold execute_crl_generation, bind_io, lift. now rewrite Ha. }
  split; [|split].
  - intros f1 rc out Hne E. unfold body, bind_io. rewrite Hrev.
    now rewrite (_execute_command_failed revoke f f1 rc out Hne E).
  - intros f1 out E. unfold body, bind_io. rewrite Hrev.
    now rewrite (_execute_command_ok revoke f f1 out E).
  - intros f1 out f2 out' E E'. unfold body, bind_io. rewrite Hrev.
    rewrite (_execute_command_ok revoke f f1 out E), Hcrl. unfold bind_io.
    now rewrite (_execute_command_ok gencrl f1 f2 out' E').
Qed.

Lemma _execute_command_not_started cmd f f1 e :
  (forall returncode cmd' output, e <> CalledProcessError returncode cmd' output) ->
  run_process cmd f = (f1, Raise e) ->
  _execute_command cmd f = (f1, Raise e).
Proof.
  intros He E. unfold _execute_command, check_output. rewrite E.
  destruct e; try reflexivity. exfalso. eapply He. reflexivity.
Qed.

(** X15. Only the exit status of the command is turned into a
    [RuntimeError]. When the command cannot be run at all (an [OSError]
    because there is no [openssl] program, say), each of the three
    operations raises that very error, not a [RuntimeError], and reads no
    file: the filesystem is as the failed start left it. *)
Theorem command_not_started (self : TmpEnv) (additional pkcs11_args : list string)
    (f f1 : fs) (e : exn) :
  _get_pkcs11_openssl_command_args self = Ok pkcs11_args ->
  (forall returncode cmd output, e <> CalledProcessError returncode cmd output) ->
  (run_process (cert_generation_args self ++ pkcs11_args ++ additional) f = (f1, Raise e) ->
   execute_cert_generation self additional f = (f1, Raise e))
  /\ (run_process (cert_revocation_args self ++ pkcs11_args) f = (f1, Raise e) ->
      execute_cert_revocation self f = (f1, Raise e))
  /\ (run_process (crl_generation_args self ++ pkcs11_args) f = (f1, Raise e) ->
      execute_crl_generation self f = (f1, Raise e)).
Proof.
  intros Ha He.
  unfold execute_cert_generation, execute_cert_revocation, execute_crl_generation,
    bind_io, lift. rewrite Ha.
  split; [|split]; intros E; now rewrite (_execute_command_not_started _ f f1 e He E).
Qed.

End WithProcess.

(** A toolchain whose program is missing. *)
Lemma command_not_started_witness :
  @execute_crl_generation missing_openssl (prepared PyNone "/tmp/tmpAbC123") world
  = (world, Raise (OSError ENOENT "openssl")).
Proof.
  destruct (@command_not_started missing_openssl (prepared PyNone "/tmp/tmpAbC123")
              [] [] world world (OSError ENOENT "openssl") eq_refl)
    as (_ & _ & Hcrl); [discriminate|].
  apply Hcrl. reflexivity.
Defined.

(** A toolchain that fails: the revocation fails and no CRL is made. *)
Lemma revocation_then_crl_witness :
  exists msg,
    (_ <~ @execute_cert_revocation failing_openssl (prepared PyNone "/tmp/tmpAbC123") ;;
     @execute_crl_generation failing_openssl (prepared PyNone "/tmp/tmpAbC123")) world
    = (world, Raise (RuntimeError msg)).
Proof.
  destruct (@revocation_then_crl failing_openssl (prepared PyNone "/tmp/tmpAbC123")
              [] world eq_refl) as (Hfail & _).
  eexists. apply (Hfail world 1 ("unable to load CA private key" ++ NL)%string);
    [discriminate|reflexivity].
Defined.

End InvokerFacts.
(** ** The configuration node and the arguments of the hardware engine *)

Module EngineFacts.
Import Text Path FS Config Sandbox Env StrFacts PathFacts FSFacts ConfigFacts AdapterFacts
       Examples MoreExamples.

Local Open Scope list_scope.

Lemma opt_value_stanza_default_ca dynamic_path module_path :
  opt_value "default_ca" (engine_stanza dynamic_path module_path) = None.
Proof.
  apply opt_value_no_key. unfold no_key, engine_stanza. cbn [forallb].
  rewrite !has_key_option_line by (reflexivity || discriminate).
  reflexivity.
Qed.

(** What the insertion of the engine stanza and the removal of the key
    keep. *)
Lemma descriptor_keeps sect doc1 dynamic_path module_path doc3 s o :
  plain_name sect = true ->
  one_line dynamic_path = true -> one_line module_path = true ->
  (insert_above doc1 "ca" (PKCS11_OPTS dynamic_path module_path)
   ≫= fun value =>
     format_1 Unnumbered (sect ++ ".{}")%string "private_key"
     ≫= fun config_opt => remove value config_opt) = Ok doc3 ->
  is_Some (sect_body "ca" doc1) ->
  is_Some (lookup_in doc1 sect "private_key") ->
  no_sect sect (engine_stanza dynamic_path module_path) = true ->
  no_sect s (engine_stanza dynamic_path module_path) = true ->
  opt_value o (engine_stanza dynamic_path module_path) = None ->
  opt_value "private_key" (engine_stanza dynamic_path module_path) = None ->
  s <> sect \/ o <> "private_key" ->
  lookup_in doc3 s o = lookup_in doc1 s o.
Proof.
  intros Hsect Hd Hm E Hca1 Hpk Hst Hs Ho Hopk Hne.
  set (st := engine_stanza dynamic_path module_path) in *.
  destruct (insert_above_spec doc1 "ca" (PKCS11_OPTS dynamic_path module_path)
              eq_refl Hca1) as (pre & h & rest & E1 & Hpre & Hh & Ei).
  rewrite (PKCS11_OPTS_lines _ _ Hd Hm) in Ei. fold st in Ei.
  pose proof (is_header_any "ca" h Hh) as Hany.
  destruct (remove_spec (pre ++ st ++ h :: rest) sect "private_key" Hsect)
    as (pre2 & h2 & body2 & E2 & Hpre2 & Hh2 & Er).
  { rewrite (lookup_in_insert sect "private_key" pre st h rest Hany Hst Hopk), <- E1.
    exact Hpk. }
  rewrite Ei, bind_Ok, (format_1_plain sect "private_key" Hsect), bind_Ok, Er in E.
  inversion E; subst doc3.
  rewrite (lookup_in_remove sect "private_key" pre2 h2 body2 s o Hpre2 Hh2).
  rewrite bool_decide_eq_false_2 by (intros [? ?]; destruct Hne; congruence).
  rewrite <- E2, E1. now apply lookup_in_insert.
Qed.

Section OnSandbox.
Context `{ConfigSyntax}.

(** X16. The engine arguments name the section the adapter worked on.
    Take the configuration node of a sandbox that has a hardware-engine
    descriptor whose two module paths are single lines, the root path of
    the sandbox being one line without whitespace at its ends, and a
    configuration text as the adapter takes it (it parses, its [ca]
    section names the active section by [default_ca], that name holds no
    dot and no brace and is none of the three sections of the engine
    stanza, and the active section holds the six options of the
    sandbox). Once
    the text was assigned to the node, whether its file could be written
    or not, [_get_pkcs11_openssl_command_args] gives [-engine pkcs11],
    the extra arguments of the descriptor and [-name] with the name of
    the active section of the text. *)
Theorem engine_arguments_after_adaptation (p text sect dynamic_path module_path : string)
    (arg_list : list string) (f f' : fs) (self' : DirectoryStructure) (r : result unit)
    (tmp_env : TmpEnv) :
  let pkcs11 := PyPkcs11 dynamic_path module_path arg_list in
  is_root (rstrip_slash p) -> plain_value (rstrip_slash p) = true ->
  config_syntax_error text = None ->
  lookup_in (splitlines text) "ca" "default_ca" = Some sect ->
  plain_name sect = true ->
  (forall o, o ∈ sandbox_options -> is_Some (lookup_in (splitlines text) sect o)) ->
  one_line dynamic_path = true -> one_line module_path = true ->
  sect ∉ engine_sections ->
  value_setter (ssl_conf (prepared pkcs11 p)) (PyStr text) f = (self', f', r) ->
  Env.pkcs11_opts_dict tmp_env = pkcs11 -> ssl_conf tmp_env = self' ->
  _get_pkcs11_openssl_command_args tmp_env
  = Ok (["-engine"; "pkcs11"] ++ arg_list ++ ["-name"; sect]).
Proof.
  intros pkcs11 HR HRv Hparse Hca Hsect Hopts Hd Hm Hns Eset Hpk Hconf.
  destruct (substituted_paths p pkcs11 HR HRv text sect Hsect Hopts)
    as (doc1 & E1 & _ & Hv & Hf).
  assert (lookup_in doc1 "ca" "default_ca" = Some sect) as Hc1.
  { rewrite Hf; [exact Hca|]. right. unfold sandbox_options. intros Hin.
    repeat (apply elem_of_cons in Hin as [Hin|Hin]; [discriminate Hin|]). inversion Hin. }
  assert (is_Some (sect_body "ca" doc1)) as Hbody.
  { unfold lookup_in in Hc1. destruct (sect_body "ca" doc1); [eauto|discriminate]. }
  assert (is_Some (lookup_in doc1 sect "private_key")) as Hkey.
  { rewrite (Hv "private_key" (rstrip_slash p ++ "/private/cakey.pem")%string eq_refl).
    eauto. }
  destruct (with_descriptor sect Hsect doc1 dynamic_path module_path Hd Hm Hns Hbody Hkey)
    as (doc3 & E3 & _).
  assert (lookup_in doc3 "ca" "default_ca" = Some sect) as Hc3.
  { rewrite (descriptor_keeps sect doc1 dynamic_path module_path doc3 "ca" "default_ca"
               Hsect Hd Hm E3 Hbody Hkey); [exact Hc1| | | | |right; discriminate].
    - now apply no_sect_stanza.
    - apply no_sect_stanza. unfold engine_sections. intros Hin.
      repeat (apply elem_of_cons in Hin as [Hin|Hin]; [discriminate Hin|]). inversion Hin.
    - apply opt_value_stanza_default_ca.
    - apply no_key_stanza. unfold sandbox_options. in_list. }
  assert (_value self' = PyConfig doc3) as Hval.
  { unfold value_setter in Eset.
    assert (String.eqb (name (ssl_conf (prepared pkcs11 p))) "openssl.cnf" = true) as Hn
      by reflexivity.
    rewrite Hn in Eset.
    rewrite (adjusted_head p pkcs11 text sect Hparse Hca) in Eset.
    rewrite E1, bind_Ok in Eset. change (truthy pkcs11) with true in Eset.
    unfold pkcs11 in Eset at 1. cbv iota in Eset. rewrite E3 in Eset.
    cbn [fmap result_fmap] in Eset.
    match type of Eset with
    | context [_create_file ?a ?b] => destruct (_create_file a b) as [f1 r1]
    end.
    inversion Eset; reflexivity. }
  unfold _get_pkcs11_openssl_command_args. rewrite Hpk, Hconf, Hval. unfold pkcs11.
  assert (get_opt_value doc3 "ca.default_ca" = Ok sect) as ->.
  { unfold lookup_in in Hc3. unfold get_opt_value, lookup.
    change (split_location "ca.default_ca") with ("ca", Some "default_ca").
    cbv iota beta. now rewrite Hc3. }
  reflexivity.
Qed.

End OnSandbox.

(** The minimal configuration assigned to the configuration node of the
    sandbox at [/tmp/tmpAbC123] with the descriptor of the examples. *)
Lemma engine_arguments_after_adaptation_witness :
  _get_pkcs11_openssl_command_args
    (with_node (prepared engine_descriptor "/tmp/tmpAbC123") "ssl_conf"
       (@value_setter lenient_syntax
          (ssl_conf (prepared engine_descriptor "/tmp/tmpAbC123"))
          (PyStr minimal_config) new_directory).1.1)
  = Ok ["-engine"; "pkcs11"; "-keyfile"; "foo:bar"; "-keyform"; "spam";
        "-name"; "CA_default"].
Proof.
  destruct (@value_setter lenient_syntax
              (ssl_conf (prepared engine_descriptor "/tmp/tmpAbC123"))
              (PyStr minimal_config) new_directory) as [[self' f'] r] eqn:En.
  apply (@engine_arguments_after_adaptation lenient_syntax "/tmp/tmpAbC123" minimal_config
           "CA_default" "/usr/lib/engines/engine_pkcs11.so"
           "/usr/lib/x86_64-linux-gnu/opensc-pkcs11.so"
           ["-keyfile"; "foo:bar"; "-keyform"; "spam"] new_directory f' self' r);
    try reflexivity; try assumption.
  - split; [discriminate|reflexivity].
  - apply minimal_config_options.
  - unfold engine_sections. intros Hin.
    repeat (apply elem_of_cons in Hin as [Hin|Hin]; [discriminate Hin|]). inversion Hin.
Defined.

End EngineFacts.
(** ** More on the three operations *)

Module OperationFailureFacts.
Import Text Path FS Config Sandbox Env Manage Codec Index SerialFacts FSFacts OperationFacts
       Examples MoreExamples.

Section WithSystem.
Context `{ConfigSyntax} `{TempDir} `{Subprocess} `{SerialValidator} `{Clock} `{Package}.

(** X17. The operations check what they are given before they make a
    sandbox. When the index of the certificates of the CA cannot be
    rendered, [generate_crl_pem] and
    [revoke_certificate_and_generate_crl_pem] raise the error of the
    index codec; when the serial number of the certificate to revoke is
    not valid, the latter raises the [ValueError] of the serial
    formatter, whose message holds [repr] of the serial number in upper
    case and with its ["0"] in front; when the serial number cannot be normalized,
    [generate_certificate_pem] raises the error of the normalization; and
    when a login of a server component is given for a CA whose profile is
    not the service profile, it fails on its assertion. In each case the
    filesystem is untouched: no temporary directory is made and no
    command is run. *)
Theorem operations_check_before_sandbox (conf : ca_env_configuration) (f : fs) :
  (forall e,
     _make_openssl_index_file_content (iter_all_certificates (ca conf)) = Raise e ->
     generate_crl_pem conf f = (f, Raise e)
     /\ forall serial_hex certificate,
          revoke_certificate_and_generate_crl_pem conf serial_hex certificate f
          = (f, Raise e))
  /\ (forall index serial_hex certificate,
        _make_openssl_index_file_content (iter_all_certificates (ca conf)) = Ok index ->
        valid_serial serial_hex = false ->
        revoke_certificate_and_generate_crl_pem conf serial_hex certificate f
        = (f, Raise (ValueError
                       ("something really wrong: a certificate serial number "
                        ++ "prepared for OpenSSL tools ("
                        ++ Str.repr (let s := Str.upper serial_hex in
                                     if Nat.odd (String.length s) then "0" ++ s else s)
                        ++ ") is not valid"))))
  /\ (forall csr_pem serial_number login e,
        normalize_hex_serial_number serial_number CERTIFICATE_SERIAL_NUMBER_HEXDIGIT_NUM
        = Raise e ->
        generate_certificate_pem conf csr_pem serial_number login f = (f, Raise e))
  /\ (forall csr_pem serial_number normalized login,
        normalize_hex_serial_number serial_number CERTIFICATE_SERIAL_NUMBER_HEXDIGIT_NUM
        = Ok normalized ->
        valid_serial normalized = true ->
        profile (ca conf) <> SERVICE_CA_PROFILE_NAME ->
        generate_certificate_pem conf csr_pem serial_number (Some login) f
        = (f, Raise AssertionError)).
Proof.
  split; [|split; [|split]].
  - intros e E. split; [|intros serial_hex certificate].
    + unfold generate_crl_pem, bind_io, lift. now rewrite E.
    + unfold revoke_certificate_and_generate_crl_pem, bind_io, lift. now rewrite E.
  - intros index serial_hex certificate E Hs.
    unfold revoke_certificate_and_generate_crl_pem, bind_io, lift.
    now rewrite E, format_str, Hs.
  - intros csr_pem serial_number login e E.
    unfold generate_certificate_pem, bind_io, lift. now rewrite E.
  - intros csr_pem serial_number normalized login E Hs Hp.
    unfold generate_certificate_pem, bind_io, lift.
    rewrite E, format_str, Hs. apply String.eqb_neq in Hp. now rewrite Hp.
Qed.

(** X18. The three operations leave no sandbox behind. If the command
    they run removes no directory, then however an operation ends (with
    its result, with the error of the toolchain, of the adapter or of a
    node that could not be written), either it failed before it made its
    temporary directory and the filesystem is untouched, or nothing
    exists any more at the path of that directory or below it. *)
Theorem operations_leave_no_sandbox (conf : ca_env_configuration) (f f0 : fs) (p : string) :
  (forall cmd, keeps_dirs (run_process cmd)) ->
  mkdtemp f = (f0, Ok p) ->
  (forall csr_pem serial_number login f' r,
     generate_certificate_pem conf csr_pem serial_number login f = (f', r) ->
     f' = f \/ gone p f')
  /\ (forall f' r, generate_crl_pem conf f = (f', r) -> f' = f \/ gone p f')
  /\ (forall serial_hex certificate f' r,
        revoke_certificate_and_generate_crl_pem conf serial_hex certificate f = (f', r) ->
        f' = f \/ gone p f').
Proof.
  intros Hk Em. split; [|split].
  - intros csr_pem serial_number login f' r E.
    exact (generate_certificate_pem_leaves_nothing Hk _ _ _ _ _ _ _ _ _ E Em).
  - intros f' r E. exact (generate_crl_pem_leaves_nothing Hk _ _ _ _ _ _ E Em).
  - intros serial_hex certificate f' r E.
    exact (revoke_certificate_and_generate_crl_pem_leaves_nothing Hk _ _ _ _ _ _ _ _ E Em).
Qed.

End WithSystem.

(** A CA with three certificates and a toolchain that fails: the CRL
    operation leaves nothing at [/tmp/tmpAbC123]. *)
Lemma operations_leave_no_sandbox_witness :
  gone "/tmp/tmpAbC123"
    (@generate_crl_pem lenient_syntax tmp_AbC123 failing_openssl hex_serial_validator
       clock_2019
       (mk_ca_env_configuration (mk_CA minimal_config "CA PEM" "client" three_records)
          (<["ssl_conf" := PyStr minimal_config]> ∅))
       world).1.
Proof.
  destruct (@generate_crl_pem lenient_syntax tmp_AbC123 failing_openssl hex_serial_validator
              clock_2019
              (mk_ca_env_configuration (mk_CA minimal_config "CA PEM" "client" three_records)
                 (<["ssl_conf" := PyStr minimal_config]> ∅))
              world) as [f' r] eqn:E.
  destruct (@operations_leave_no_sandbox lenient_syntax tmp_AbC123 failing_openssl
              hex_serial_validator clock_2019 example_package
              (mk_ca_env_configuration (mk_CA minimal_config "CA PEM" "client" three_records)
                 (<["ssl_conf" := PyStr minimal_config]> ∅))
              world new_directory "/tmp/tmpAbC123") as (_ & Hcrl & _).
  - intros cmd g g' r' Er. inversion Er; subst. apply dirs_kept_refl.
  - reflexivity.
  - destruct (Hcrl f' r E) as [->|Hg]; [|exact Hg].
    intros q Hq. cbn [fst]. unfold world.
    destruct (decide (q = "/tmp")) as [->|N1]; [discriminate Hq|].
    destruct (decide (q = "/")) as [->|N2]; [discriminate Hq|].
    rewrite !lookup_insert_ne by congruence. apply lookup_empty.
Defined.

(** A CA with a certificate whose expiry timestamp is aware, and the
    revocation of a certificate with the serial number [xyz]. *)
Lemma operations_check_before_sandbox_witness :
  @generate_crl_pem lenient_syntax tmp_AbC123 working_openssl hex_serial_validator clock_2019
    (mk_ca_env_configuration (mk_CA minimal_config "CA PEM" "client" [aware_expiry_record]) ∅)
    world
  = (world, Raise (TypeError "can't compare offset-naive and offset-aware datetimes"))
  /\ @revoke_certificate_and_generate_crl_pem lenient_syntax tmp_AbC123 working_openssl
       hex_serial_validator clock_2019
       (mk_ca_env_configuration (mk_CA minimal_config "CA PEM" "client" three_records) ∅)
       "xyz" "CERT PEM" world
     = (world, Raise (ValueError ("something really wrong: a certificate serial number "
                                  ++ "prepared for OpenSSL tools ('0XYZ') is not valid"))).
Proof.
  split.
  - destruct (@operations_check_before_sandbox lenient_syntax tmp_AbC123 working_openssl
                hex_serial_validator clock_2019 example_package
                (mk_ca_env_configuration
                   (mk_CA minimal_config "CA PEM" "client" [aware_expiry_record]) ∅) world)
      as (Hindex & _).
    destruct (Hindex (TypeError "can't compare offset-naive and offset-aware datetimes")
                eq_refl) as [Hcrl _].
    exact Hcrl.
  - destruct (@operations_check_before_sandbox lenient_syntax tmp_AbC123 working_openssl
                hex_serial_validator clock_2019 example_package
                (mk_ca_env_configuration
                   (mk_CA minimal_config "CA PEM" "client" three_records) ∅) world)
      as (_ & Hserial & _).
    destruct (@_make_openssl_index_file_content hex_serial_validator clock_2019 three_records)
      as [idx|e] eqn:Ei; [|vm_compute in Ei; discriminate Ei].
    exact (Hserial idx "xyz" "CERT PEM" Ei eq_refl).
Defined.

End OperationFailureFacts.
(** ** What the toolchain finds when an operation runs it *)

Module OperationRunFacts.
Import Text Path FS Config Sandbox Env Manage Codec Index StrFacts PathFacts FSFacts
       SerialFacts NodeFacts ValueFacts AdapterFacts ConstructionFacts Layout Examples MoreExamples.

Section WithSystem.
Context `{ConfigSyntax} `{TempDir} `{Subprocess} `{SerialValidator} `{Clock} `{Package}.

(** A block under [with TmpEnv] whose keyword arguments name no
    hardware engine: the sandbox and the filesystem its body starts
    with. *)
Lemma with_TmpEnv_kwargs_enters (kw : gmap string pyobj) (f f0 : fs) (p : string) :
  kw !! "pkcs11_opts_dict" = None ->
  mkdtemp f = (f0, Ok p) ->
  is_root (rstrip_slash p) ->
  (forall q, Str.startswith (rstrip_slash p ++ "/") q = true -> f !! q = None) ->
  (forall name v, kw !! name = Some v -> name <> "ssl_conf" ->
     name ∈ file_node_names /\ exists s, v = PyStr s) ->
  (forall v, kw !! "ssl_conf" = Some v ->
     exists doc, _get_adjusted_openssl_config_str (ssl_conf (prepared PyNone p)) v = Ok doc) ->
  exists F tmp_env,
    (forall A (body : TmpEnv -> io A),
       with_TmpEnv_kwargs kw body f
       = let '(F', r) := body tmp_env F in
         match _cleanup p F' with
         | (F'', Ok _) => (F'', r)
         | (F'', Raise e') => (F'', Raise e')
         end)
    /\ Env.pkcs11_opts_dict tmp_env = PyNone
    /\ (forall n sfx, node_file n = Some sfx ->
          exists d, getattr_node tmp_env n = Some d /\ path d = rstrip_slash p ++ sfx)
    /\ (forall q, q ∈ sandbox_dirs (rstrip_slash p) -> F !! q = Some Dir)
    /\ (forall n s sfx, kw !! n = Some (PyStr s) -> n <> "ssl_conf" ->
          node_suffix n = Some sfx -> F !! (rstrip_slash p ++ sfx) = Some (File s))
    /\ (forall v doc, kw !! "ssl_conf" = Some v ->
          _get_adjusted_openssl_config_str (ssl_conf (prepared PyNone p)) v = Ok doc ->
          F !! (rstrip_slash p ++ "/openssl.cnf") = Some (File (Str.join Str.NL doc)))
    /\ (forall n sfx, kw !! n = None -> node_file n = Some sfx ->
          F !! (rstrip_slash p ++ sfx) = None)
    /\ (forall q, under (rstrip_slash p) q = false -> F !! q = f !! q).
Proof.
  intros Hpk Em HR Hfresh Hvals Hconf.
  destruct (TmpEnv_new_laid_out PyNone kw f f0 p Em HR Hfresh Hvals Hconf)
    as (F & env & Enew & Hpath & Hno & Hlaid & Hread & _ & Hnofile & Hout).
  assert (kw !! "self" = None) as Hself.
  { destruct (kw !! "self") as [v|] eqn:Hl; [|reflexivity].
    destruct (Hvals "self" v Hl ltac:(discriminate)) as [Hin _].
    unfold file_node_names in Hin.
    repeat (apply elem_of_cons in Hin as [Hin|Hin]; [discriminate Hin|]).
    inversion Hin. }
  exists F, env. split; [|split; [exact Hno|split; [|split; [|split; [|split; [|split]]]]]].
  - intros A body. unfold with_TmpEnv_kwargs, with_TmpEnv, bind_io.
    rewrite Hself, Hpk, (delete_id _ _ Hpk). cbn [default]. rewrite Enew, Hpath.
    reflexivity.
  - intros n sfx Hsfx.
    destruct (node_place p PyNone HR n sfx Hsfx) as (d0 & _ & Hd0 & Hp0 & _).
    destruct Hlaid as (Hnodes & _).
    destruct (Hnodes n d0 Hd0) as (d & Hd & Hl & _).
    exists d. split; [exact Hd|]. rewrite <- Hp0. exact (same_layout_path _ _ Hl).
  - apply Hlaid.
  - intros n s sfx Hin Hne Hsfx. apply String.eqb_neq in Hne.
    destruct (Hread n (PyStr s) (PyStr s) s Hin) as (d & sfx' & _ & Hsfx' & _ & _ & Hf & _).
    { unfold stored. now rewrite Hne. }
    unfold node_file in Hsfx'. rewrite Hne, Hsfx in Hsfx'. inversion Hsfx'; subst sfx'.
    exact Hf.
  - intros v doc Hin Hdoc.
    destruct (Hread "ssl_conf" v (PyConfig doc) (Str.join Str.NL doc) Hin)
      as (d & sfx' & _ & Hsfx' & _ & _ & Hf & _).
    { unfold stored. change (String.eqb "ssl_conf" "ssl_conf") with true. cbv iota.
      rewrite Hdoc. reflexivity. }
    inversion Hsfx'; subst sfx'. exact Hf.
  - exact Hnofile.
  - exact Hout.
Qed.

(** X20. What the toolchain finds when a CRL is made with a key in a
    file. Let the index of the certificates of the CA be rendered, the
    bundle of the configuration name no hardware engine and hold byte
    strings under names of nodes, with a configuration text that can be
    adapted, and let the temporary directory be new. Then
    [generate_crl_pem] is one run of
    [openssl ca -config <root>/openssl.cnf -gencrl -out <root>/ca.crl -batch]
    followed by the reading of [<root>/ca.crl] and by the removal of the
    sandbox, and the command starts on a filesystem where the four
    directories of the sandbox exist, [index.txt] holds the rendered
    index, [serial] is empty, every byte string of the bundle is in the
    file of its node, [openssl.cnf] holds the adapted configuration, no
    CRL file exists unless the bundle gave one, and everything outside the
    sandbox is as it was. *)
Theorem generate_crl_pem_runs_one_command (conf : ca_env_configuration) (idx : string)
    (f f0 : fs) (p : string) :
  _make_openssl_index_file_content (iter_all_certificates (ca conf)) = Ok idx ->
  tmp_env_init_kwargs_base conf !! "pkcs11_opts_dict" = None ->
  (forall name v, tmp_env_init_kwargs_base conf !! name = Some v -> name <> "ssl_conf" ->
     name ∈ file_node_names /\ exists s, v = PyStr s) ->
  (forall v, tmp_env_init_kwargs_base conf !! "ssl_conf" = Some v ->
     exists doc, _get_adjusted_openssl_config_str (ssl_conf (prepared PyNone p)) v = Ok doc) ->
  mkdtemp f = (f0, Ok p) ->
  is_root (rstrip_slash p) ->
  (forall q, Str.startswith (rstrip_slash p ++ "/") q = true -> f !! q = None) ->
  exists F,
    generate_crl_pem conf f
    = (let '(F', r) :=
         (_ <~ _execute_command ["openssl"; "ca"; "-config"; rstrip_slash p ++ "/openssl.cnf";
                                 "-gencrl"; "-out"; rstrip_slash p ++ "/ca.crl"; "-batch"] ;;
          read_file (rstrip_slash p ++ "/ca.crl")) F in
       match _cleanup p F' with
       | (F'', Ok _) => (F'', r)
       | (F'', Raise e') => (F'', Raise e')
       end)
    /\ (forall q, q ∈ sandbox_dirs (rstrip_slash p) -> F !! q = Some Dir)
    /\ F !! (rstrip_slash p ++ "/index.txt") = Some (File idx)
    /\ F !! (rstrip_slash p ++ "/serial") = Some (File "")
    /\ (forall name s sfx,
          tmp_env_init_kwargs_base conf !! name = Some (PyStr s) ->
          name <> "ssl_conf" -> name <> "index" -> name <> "serial" ->
          node_suffix name = Some sfx ->
          F !! (rstrip_slash p ++ sfx) = Some (File s))
    /\ (forall v doc, tmp_env_init_kwargs_base conf !! "ssl_conf" = Some v ->
          _get_adjusted_openssl_config_str (ssl_conf (prepared PyNone p)) v = Ok doc ->
          F !! (rstrip_slash p ++ "/openssl.cnf") = Some (File (Str.join Str.NL doc)))
    /\ (tmp_env_init_kwargs_base conf !! "ca_crl" = None ->
        F !! (rstrip_slash p ++ "/ca.crl") = None)
    /\ (forall q, under (rstrip_slash p) q = false -> F !! q = f !! q).
Proof.
  intros Hidx Hpk Hvals Hconf Em HR Hfresh.
  set (kw := <["index" := PyStr idx]>
               (<["serial" := PyStr ""]> (tmp_env_init_kwargs_base conf))).
  destruct (with_TmpEnv_kwargs_enters kw f f0 p) as (F & env & Hbody & Hno & Hp & Hd & Hw & Hc & Hnf & Hout).
  { unfold kw. now rewrite !lookup_insert_ne by discriminate. }
  { exact Em. }
  { exact HR. }
  { exact Hfresh. }
  { intros name v Hl Hne. unfold kw in Hl.
    apply lookup_insert_Some in Hl as [[<- <-]|[_ Hl]];
      [split; [unfold file_node_names; in_list|eauto]|].
    apply lookup_insert_Some in Hl as [[<- <-]|[_ Hl]];
      [split; [unfold file_node_names; in_list|eauto]|].
    exact (Hvals name v Hl Hne). }
  { intros v Hl. unfold kw in Hl. rewrite !lookup_insert_ne in Hl by discriminate.
    exact (Hconf v Hl). }
  exists F. split; [|split; [exact Hd|split; [|split; [|split; [|split; [|split]]]]]].
  - unfold generate_crl_pem, bind_io at 1, lift. rewrite Hidx. fold kw. rewrite Hbody.
    destruct (Hp "ssl_conf" "/openssl.cnf" eq_refl) as (d1 & Hd1 & Hp1).
    destruct (Hp "ca_crl" "/ca.crl" eq_refl) as (d2 & Hd2 & Hp2).
    cbn in Hd1, Hd2. inversion Hd1; subst d1. inversion Hd2; subst d2.
    unfold execute_crl_generation, _get_pkcs11_openssl_command_args, crl_generation_args.
    rewrite Hno, Hp1, Hp2. reflexivity.
  - apply (Hw "index" idx "/index.txt"); [apply lookup_insert_eq|discriminate|reflexivity].
  - apply (Hw "serial" "" "/serial"); [|discriminate|reflexivity].
    unfold kw. rewrite lookup_insert_ne by discriminate. apply lookup_insert_eq.
  - intros name s sfx Hl Hn1 Hn2 Hn3 Hsfx. apply (Hw name s sfx); [|exact Hn1|exact Hsfx].
    unfold kw. now rewrite !lookup_insert_ne by congruence.
  - intros v doc Hl Hdoc. apply (Hc v doc); [|exact Hdoc].
    unfold kw. now rewrite !lookup_insert_ne by discriminate.
  - intros Hl. apply (Hnf "ca_crl" "/ca.crl"); [|reflexivity].
    unfold kw. now rewrite !lookup_insert_ne by discriminate.
  - exact Hout.
Qed.

(** X21. What the toolchain finds when a certificate is made with a key
    in a file. Let the serial number be normalized and formatted, a login
    of a server component be given only for a CA of the service profile,
    the bundle of the configuration name no hardware engine and hold byte
    strings under names of nodes, with a configuration text that can be
    adapted, and let the temporary directory be new. Then
    [generate_certificate_pem] is one run of
    [openssl ca -config <root>/openssl.cnf -notext -in <root>/csr/client.csr
    -out <root>/certs/cert.pem -batch], with the arguments of a server
    component at its end when a login is given, followed by the reading of
    [<root>/certs/cert.pem] and by the removal of the sandbox; and the
    command starts on a filesystem where the four directories of the
    sandbox exist, [csr/client.csr] holds the request, [serial] the
    formatted serial number, [index.txt] is empty, every other byte
    string of the bundle is in the file of its node, [openssl.cnf] holds
    the adapted configuration, no certificate file exists unless the
    bundle gave one, and everything outside the sandbox is as it was. *)
Theorem generate_certificate_pem_runs_one_command (conf : ca_env_configuration)
    (csr_pem serial_number normal serial_openssl : string) (login : option string)
    (f f0 : fs) (p : string) :
  normalize_hex_serial_number serial_number CERTIFICATE_SERIAL_NUMBER_HEXDIGIT_NUM
  = Ok normal ->
  _format_openssl_serial_number (PyStr normal) = Ok serial_openssl ->
  (login = None \/ profile (ca conf) = SERVICE_CA_PROFILE_NAME) ->
  tmp_env_init_kwargs_base conf !! "pkcs11_opts_dict" = None ->
  (forall name v, tmp_env_init_kwargs_base conf !! name = Some v -> name <> "ssl_conf" ->
     name ∈ file_node_names /\ exists s, v = PyStr s) ->
  (forall v, tmp_env_init_kwargs_base conf !! "ssl_conf" = Some v ->
     exists doc, _get_adjusted_openssl_config_str (ssl_conf (prepared PyNone p)) v = Ok doc) ->
  mkdtemp f = (f0, Ok p) ->
  is_root (rstrip_slash p) ->
  (forall q, Str.startswith (rstrip_slash p ++ "/") q = true -> f !! q = None) ->
  exists F,
    generate_certificate_pem conf csr_pem serial_number login f
    = (let '(F', r) :=
         (_ <~ _execute_command
                 (List.app
                    ["openssl"; "ca"; "-config"; rstrip_slash p ++ "/openssl.cnf"; "-notext";
                     "-in"; rstrip_slash p ++ "/csr/client.csr";
                     "-out"; rstrip_slash p ++ "/certs/cert.pem"; "-batch"]
                    match login with
                    | Some _ => SERVER_COMPONENT_ADDITIONAL_OPENSSL_COMMAND_ARGS
                    | None => []
                    end) ;;
          read_file (rstrip_slash p ++ "/certs/cert.pem")) F in
       match _cleanup p F' with
       | (F'', Ok _) => (F'', r)
       | (F'', Raise e') => (F'', Raise e')
       end)
    /\ (forall q, q ∈ sandbox_dirs (rstrip_slash p) -> F !! q = Some Dir)
    /\ F !! (rstrip_slash p ++ "/csr/client.csr") = Some (File csr_pem)
    /\ F !! (rstrip_slash p ++ "/serial") = Some (File serial_openssl)
    /\ F !! (rstrip_slash p ++ "/index.txt") = Some (File "")
    /\ (forall name s sfx,
          tmp_env_init_kwargs_base conf !! name = Some (PyStr s) ->
          name <> "ssl_conf" -> name <> "csr" -> name <> "serial" -> name <> "index" ->
          node_suffix name = Some sfx ->
          F !! (rstrip_slash p ++ sfx) = Some (File s))
    /\ (forall v doc, tmp_env_init_kwargs_base conf !! "ssl_conf" = Some v ->
          _get_adjusted_openssl_config_str (ssl_conf (prepared PyNone p)) v = Ok doc ->
          F !! (rstrip_slash p ++ "/openssl.cnf") = Some (File (Str.join Str.NL doc)))
    /\ (tmp_env_init_kwargs_base conf !! "gen_cert" = None ->
        F !! (rstrip_slash p ++ "/certs/cert.pem") = None)
    /\ (forall q, under (rstrip_slash p) q = false -> F !! q = f !! q).
Proof.
  intros Hnorm Hfmt Hlogin Hpk Hvals Hconf Em HR Hfresh.
  set (kw := <["csr" := PyStr csr_pem]>
               (<["serial" := PyStr serial_openssl]>
                  (<["index" := PyStr ""]> (tmp_env_init_kwargs_base conf)))).
  destruct (with_TmpEnv_kwargs_enters kw f f0 p)
    as (F & env & Hbody & Hno & Hp & Hd & Hw & Hc & Hnf & Hout).
  { unfold kw. now rewrite !lookup_insert_ne by discriminate. }
  { exact Em. }
  { exact HR. }
  { exact Hfresh. }
  { intros name v Hl Hne. unfold kw in Hl.
    do 3 (apply lookup_insert_Some in Hl as [[<- <-]|[_ Hl]];
            [split; [unfold file_node_names; in_list|eauto]|]).
    exact (Hvals name v Hl Hne). }
  { intros v Hl. unfold kw in Hl. rewrite !lookup_insert_ne in Hl by discriminate.
    exact (Hconf v Hl). }
  exists F. split; [|split; [exact Hd|split; [|split; [|split; [|split; [|split; [|split]]]]]]].
  - unfold generate_certificate_pem, bind_io at 1 2 3, lift. rewrite Hnorm, Hfmt. fold kw.
    assert (match login with
            | Some _ =>
                if String.eqb (profile (ca conf)) SERVICE_CA_PROFILE_NAME
                then Ok SERVER_COMPONENT_ADDITIONAL_OPENSSL_COMMAND_ARGS
                else Raise AssertionError
            | None => Ok []
            end
            = Ok match login with
                 | Some _ => SERVER_COMPONENT_ADDITIONAL_OPENSSL_COMMAND_ARGS
                 | None => []
                 end) as ->.
    { destruct login as [l|]; [|reflexivity].
      destruct Hlogin as [Hl|Hl]; [discriminate Hl|]. rewrite Hl, String.eqb_refl.
      reflexivity. }
    rewrite Hbody.
    destruct (Hp "ssl_conf" "/openssl.cnf" eq_refl) as (d1 & Hd1 & Hp1).
    destruct (Hp "csr" "/csr/client.csr" eq_refl) as (d2 & Hd2 & Hp2).
    destruct (Hp "gen_cert" "/certs/cert.pem" eq_refl) as (d3 & Hd3 & Hp3).
    cbn in Hd1, Hd2, Hd3. inversion Hd1; subst d1. inversion Hd2; subst d2.
    inversion Hd3; subst d3.
    unfold execute_cert_generation, _get_pkcs11_openssl_command_args, cert_generation_args.
    rewrite Hno, Hp1, Hp2, Hp3. reflexivity.
  - apply (Hw "csr" csr_pem "/csr/client.csr"); [apply lookup_insert_eq|discriminate|reflexivity].
  - apply (Hw "serial" serial_openssl "/serial"); [|discriminate|reflexivity].
    unfold kw. rewrite lookup_insert_ne by discriminate. apply lookup_insert_eq.
  - apply (Hw "index" "" "/index.txt"); [|discriminate|reflexivity].
    unfold kw. do 2 (rewrite lookup_insert_ne by discriminate). apply lookup_insert_eq.
  - intros name s sfx Hl Hn1 Hn2 Hn3 Hn4 Hsfx. apply (Hw name s sfx); [|exact Hn1|exact Hsfx].
    unfold kw. now rewrite !lookup_insert_ne by congruence.
  - intros v doc Hl Hdoc. apply (Hc v doc); [|exact Hdoc].
    unfold kw. now rewrite !lookup_insert_ne by discriminate.
  - intros Hl. apply (Hnf "gen_cert" "/certs/cert.pem"); [|reflexivity].
    unfold kw. now rewrite !lookup_insert_ne by discriminate.
  - exact Hout.
Qed.

(** X22. What the toolchain finds when a certificate is revoked with a
    key in a file. Let the index of the certificates of the CA be
    rendered and the serial number of the certificate be formatted, the
    bundle of the configuration name no hardware engine and hold byte
    strings under names of nodes, with a configuration text that can be
    adapted, and let the temporary directory be new. Then
    [revoke_certificate_and_generate_crl_pem] is a run of
    [openssl ca -config <root>/openssl.cnf -revoke <root>/revoke_cert.pem
    -batch], then, on the filesystem that run leaves and only if it
    succeeds, a run of the CRL command, the reading of [<root>/ca.crl] and
    the removal of the sandbox; and the first command starts on a
    filesystem where the four directories of the sandbox exist,
    [revoke_cert.pem] holds the certificate, [index.txt] the rendered
    index, [serial] the formatted serial number, every other byte string
    of the bundle is in the file of its node, [openssl.cnf] holds the
    adapted configuration, and everything outside the sandbox is as it
    was. *)
Theorem revoke_certificate_runs_two_commands (conf : ca_env_configuration)
    (cert_serial_hex cert_certificate idx serial_openssl : string)
    (f f0 : fs) (p : string) :
  _make_openssl_index_file_content (iter_all_certificates (ca conf)) = Ok idx ->
  _format_openssl_serial_number (PyStr cert_serial_hex) = Ok serial_openssl ->
  tmp_env_init_kwargs_base conf !! "pkcs11_opts_dict" = None ->
  (forall name v, tmp_env_init_kwargs_base conf !! name = Some v -> name <> "ssl_conf" ->
     name ∈ file_node_names /\ exists s, v = PyStr s) ->
  (forall v, tmp_env_init_kwargs_base conf !! "ssl_conf" = Some v ->
     exists doc, _get_adjusted_openssl_config_str (ssl_conf (prepared PyNone p)) v = Ok doc) ->
  mkdtemp f = (f0, Ok p) ->
  is_root (rstrip_slash p) ->
  (forall q, Str.startswith (rstrip_slash p ++ "/") q = true -> f !! q = None) ->
  exists F,
    revoke_certificate_and_generate_crl_pem conf cert_serial_hex cert_certificate f
    = (let '(F', r) :=
         (_ <~ _execute_command ["openssl"; "ca"; "-config"; rstrip_slash p ++ "/openssl.cnf";
                                 "-revoke"; rstrip_slash p ++ "/revoke_cert.pem"; "-batch"] ;;
          _ <~ _execute_command ["openssl"; "ca"; "-config"; rstrip_slash p ++ "/openssl.cnf";
                                 "-gencrl"; "-out"; rstrip_slash p ++ "/ca.crl"; "-batch"] ;;
          read_file (rstrip_slash p ++ "/ca.crl")) F in
       match _cleanup p F' with
       | (F'', Ok _) => (F'', r)
       | (F'', Raise e') => (F'', Raise e')
       end)
    /\ (forall q, q ∈ sandbox_dirs (rstrip_slash p) -> F !! q = Some Dir)
    /\ F !! (rstrip_slash p ++ "/revoke_cert.pem") = Some (File cert_certificate)
    /\ F !! (rstrip_slash p ++ "/index.txt") = Some (File idx)
    /\ F !! (rstrip_slash p ++ "/serial") = Some (File serial_openssl)
    /\ (forall name s sfx,
          tmp_env_init_kwargs_base conf !! name = Some (PyStr s) ->
          name <> "ssl_conf" -> name <> "index" -> name <> "serial" ->
          name <> "revoke_cert" ->
          node_suffix name = Some sfx ->
          F !! (rstrip_slash p ++ sfx) = Some (File s))
    /\ (forall v doc, tmp_env_init_kwargs_base conf !! "ssl_conf" = Some v ->
          _get_adjusted_openssl_config_str (ssl_conf (prepared PyNone p)) v = Ok doc ->
          F !! (rstrip_slash p ++ "/openssl.cnf") = Some (File (Str.join Str.NL doc)))
    /\ (forall q, under (rstrip_slash p) q = false -> F !! q = f !! q).
Proof.
  intros Hidx Hfmt Hpk Hvals Hconf Em HR Hfresh.
  set (kw := <["index" := PyStr idx]>
               (<["serial" := PyStr serial_openssl]>
                  (<["revoke_cert" := PyStr cert_certificate]>
                     (tmp_env_init_kwargs_base conf)))).
  destruct (with_TmpEnv_kwargs_enters kw f f0 p)
    as (F & env & Hbody & Hno & Hp & Hd & Hw & Hc & Hnf & Hout).
  { unfold kw. now rewrite !lookup_insert_ne by discriminate. }
  { exact Em. }
  { exact HR. }
  { exact Hfresh. }
  { intros name v Hl Hne. unfold kw in Hl.
    do 3 (apply lookup_insert_Some in Hl as [[<- <-]|[_ Hl]];
            [split; [unfold file_node_names; in_list|eauto]|]).
    exact (Hvals name v Hl Hne). }
  { intros v Hl. unfold kw in Hl. rewrite !lookup_insert_ne in Hl by discriminate.
    exact (Hconf v Hl). }
  exists F. split; [|split; [exact Hd|split; [|split; [|split; [|split; [|split]]]]]].
  - unfold revoke_certificate_and_generate_crl_pem, bind_io at 1 2, lift.
    rewrite Hidx, Hfmt. fold kw. rewrite Hbody.
    destruct (Hp "ssl_conf" "/openssl.cnf" eq_refl) as (d1 & Hd1 & Hp1).
    destruct (Hp "revoke_cert" "/revoke_cert.pem" eq_refl) as (d2 & Hd2 & Hp2).
    destruct (Hp "ca_crl" "/ca.crl" eq_refl) as (d3 & Hd3 & Hp3).
    cbn in Hd1, Hd2, Hd3. inversion Hd1; subst d1. inversion Hd2; subst d2.
    inversion Hd3; subst d3.
    unfold execute_cert_revocation, execute_crl_generation,
      _get_pkcs11_openssl_command_args, cert_revocation_args, crl_generation_args.
    rewrite Hno, Hp1, Hp2, Hp3. unfold bind_io, lift. cbn [app].
    destruct (_execute_command _ F) as [F1 [[]|e]]; reflexivity.
  - apply (Hw "revoke_cert" cert_certificate "/revoke_cert.pem"); [|discriminate|reflexivity].
    unfold kw. do 2 (rewrite lookup_insert_ne by discriminate). apply lookup_insert_eq.
  - apply (Hw "index" idx "/index.txt"); [apply lookup_insert_eq|discriminate|reflexivity].
  - apply (Hw "serial" serial_openssl "/serial"); [|discriminate|reflexivity].
    unfold kw. rewrite lookup_insert_ne by discriminate. apply lookup_insert_eq.
  - intros name s sfx Hl Hn1 Hn2 Hn3 Hn4 Hsfx. apply (Hw name s sfx); [|exact Hn1|exact Hsfx].
    unfold kw. now rewrite !lookup_insert_ne by congruence.
  - intros v doc Hl Hdoc. apply (Hc v doc); [|exact Hdoc].
    unfold kw. now rewrite !lookup_insert_ne by discriminate.
  - exact Hout.
Qed.

End WithSystem.

(** A CA with a key in a file, three certificates and the minimal
    configuration. *)
Lemma key_file_bundle name v :
  (<["ca_key" := PyStr "KEY PEM"]>
     (<["ssl_conf" := PyStr minimal_config]>
        (<["index_attr" := PyStr DEFAULT_INDEX_ATTR_CONTENT]>
           (<["ca_cert" := PyStr "CA PEM"]> (∅ : gmap string pyobj))))) !! name = Some v ->
  name <> "ssl_conf" -> name ∈ file_node_names /\ exists s, v = PyStr s.
Proof.
  intros Hl Hne.
  apply lookup_insert_Some in Hl as [[<- <-]|[_ Hl]];
    [split; [unfold file_node_names; in_list|eauto]|].
  apply lookup_insert_Some in Hl as [[<- <-]|[_ Hl]]; [exfalso; now apply Hne|].
  do 2 (apply lookup_insert_Some in Hl as [[<- <-]|[_ Hl]];
          [split; [unfold file_node_names; in_list|eauto]|]).
  rewrite lookup_empty in Hl. discriminate Hl.
Qed.

Lemma key_file_bundle_conf v :
  (<["ca_key" := PyStr "KEY PEM"]>
     (<["ssl_conf" := PyStr minimal_config]>
        (<["index_attr" := PyStr DEFAULT_INDEX_ATTR_CONTENT]>
           (<["ca_cert" := PyStr "CA PEM"]> (∅ : gmap string pyobj))))) !! "ssl_conf" = Some v ->
  exists doc,
    @_get_adjusted_openssl_config_str lenient_syntax
      (ssl_conf (prepared PyNone "/tmp/tmpAbC123")) v = Ok doc.
Proof.
  intros Hl. rewrite lookup_insert_ne in Hl by discriminate. rewrite lookup_insert_eq in Hl.
  inversion Hl; subst v.
  destruct (@_get_adjusted_openssl_config_str lenient_syntax
              (ssl_conf (prepared PyNone "/tmp/tmpAbC123")) (PyStr minimal_config))
    as [doc|e] eqn:Ea; [eauto|vm_compute in Ea; discriminate Ea].
Qed.

(** The CRL of a CA with three certificates, made by a toolchain that
    writes it. *)
Lemma generate_crl_pem_runs_one_command_witness :
  exists (F : fs) (idx : string),
    @_make_openssl_index_file_content hex_serial_validator clock_2019 three_records = Ok idx
    /\ F !! "/tmp/tmpAbC123/index.txt" = Some (File idx)
    /\ F !! "/tmp/tmpAbC123/private/cakey.pem" = Some (File "KEY PEM")
    /\ F !! "/tmp/tmpAbC123/ca.crl" = None
    /\ (@generate_crl_pem lenient_syntax tmp_AbC123 working_openssl hex_serial_validator
          clock_2019
          (mk_ca_env_configuration (mk_CA minimal_config "CA PEM" "client" three_records)
             (<["ca_key" := PyStr "KEY PEM"]>
                (<["ssl_conf" := PyStr minimal_config]>
                   (<["index_attr" := PyStr DEFAULT_INDEX_ATTR_CONTENT]>
                      (<["ca_cert" := PyStr "CA PEM"]> ∅)))))
          world).2 = Ok "CRL PEM".
Proof.
  destruct (@_make_openssl_index_file_content hex_serial_validator clock_2019 three_records)
    as [idx|e] eqn:Ei; [|vm_compute in Ei; discriminate Ei].
  destruct (@generate_crl_pem_runs_one_command lenient_syntax tmp_AbC123 working_openssl
              hex_serial_validator clock_2019
              (mk_ca_env_configuration (mk_CA minimal_config "CA PEM" "client" three_records)
                 (<["ca_key" := PyStr "KEY PEM"]>
                    (<["ssl_conf" := PyStr minimal_config]>
                       (<["index_attr" := PyStr DEFAULT_INDEX_ATTR_CONTENT]>
                          (<["ca_cert" := PyStr "CA PEM"]> ∅)))))
              idx world new_directory "/tmp/tmpAbC123")
    as (F & Erun & Hd & Hi & _ & Hw & _ & Hn & _).
  - exact Ei.
  - cbn [tmp_env_init_kwargs_base]. do 4 (rewrite lookup_insert_ne by discriminate).
    apply lookup_empty.
  - exact key_file_bundle.
  - exact key_file_bundle_conf.
  - reflexivity.
  - split; [discriminate|reflexivity].
  - exact fresh_world.
  - exists F, idx. split; [reflexivity|]. split; [exact Hi|].
    split; [apply (Hw "ca_key" "KEY PEM" "/private/cakey.pem");
            [apply lookup_insert_eq|discriminate..|reflexivity]|].
    split; [apply Hn; cbn [tmp_env_init_kwargs_base];
            do 4 (rewrite lookup_insert_ne by discriminate); apply lookup_empty|].
    rewrite Erun. unfold bind_io, _execute_command, check_output.
    cbn [run_process working_openssl Z.eqb].
    unfold read_file. change (rstrip_slash "/tmp/tmpAbC123") with "/tmp/tmpAbC123".
    change (ends_with_slash ("/tmp/tmpAbC123" ++ "/ca.crl")) with false.
    change (key ("/tmp/tmpAbC123" ++ "/ca.crl")) with "/tmp/tmpAbC123/ca.crl".
    cbv iota. rewrite lookup_insert_eq.
    unfold _cleanup, rmtree, isdir. change (key "/tmp/tmpAbC123") with "/tmp/tmpAbC123".
    rewrite bool_decide_eq_true_2; [reflexivity|].
    do 2 (rewrite lookup_insert_ne by discriminate).
    apply Hd. unfold sandbox_dirs. in_list.
Defined.

(** A certificate of a server component of a service CA, made by a
    toolchain that writes it. *)
Lemma generate_certificate_pem_runs_one_command_witness :
  exists F : fs,
    F !! "/tmp/tmpAbC123/csr/client.csr" = Some (File "CSR PEM")
    /\ F !! "/tmp/tmpAbC123/serial" = Some (File "0A1B")
    /\ F !! "/tmp/tmpAbC123/index.txt" = Some (File "")
    /\ F !! "/tmp/tmpAbC123/certs/cert.pem" = None
    /\ (@generate_certificate_pem lenient_syntax tmp_AbC123 working_openssl
          hex_serial_validator example_package
          (mk_ca_env_configuration (mk_CA minimal_config "CA PEM" "service" three_records)
             (<["ca_key" := PyStr "KEY PEM"]>
                (<["ssl_conf" := PyStr minimal_config]>
                   (<["index_attr" := PyStr DEFAULT_INDEX_ATTR_CONTENT]>
                      (<["ca_cert" := PyStr "CA PEM"]> ∅)))))
          "CSR PEM" "0a1B" (Some "component") world).2 = Ok "CERT PEM".
Proof.
  destruct (@generate_certificate_pem_runs_one_command lenient_syntax tmp_AbC123
              working_openssl hex_serial_validator example_package
              (mk_ca_env_configuration (mk_CA minimal_config "CA PEM" "service" three_records)
                 (<["ca_key" := PyStr "KEY PEM"]>
                    (<["ssl_conf" := PyStr minimal_config]>
                       (<["index_attr" := PyStr DEFAULT_INDEX_ATTR_CONTENT]>
                          (<["ca_cert" := PyStr "CA PEM"]> ∅)))))
              "CSR PEM" "0a1B" "0a1b" "0A1B" (Some "component")
              world new_directory "/tmp/tmpAbC123")
    as (F & Erun & Hd & Hc & Hs & Hi & _ & _ & Hn & _).
  - reflexivity.
  - reflexivity.
  - right. reflexivity.
  - cbn [tmp_env_init_kwargs_base]. do 4 (rewrite lookup_insert_ne by discriminate).
    apply lookup_empty.
  - exact key_file_bundle.
  - exact key_file_bundle_conf.
  - reflexivity.
  - split; [discriminate|reflexivity].
  - exact fresh_world.
  - exists F. split; [exact Hc|]. split; [exact Hs|]. split; [exact Hi|].
    split; [apply Hn; cbn [tmp_env_init_kwargs_base];
            do 4 (rewrite lookup_insert_ne by discriminate); apply lookup_empty|].
    rewrite Erun. unfold bind_io, _execute_command, check_output.
    cbn [run_process working_openssl Z.eqb].
    unfold read_file. change (rstrip_slash "/tmp/tmpAbC123") with "/tmp/tmpAbC123".
    change (ends_with_slash ("/tmp/tmpAbC123" ++ "/certs/cert.pem")) with false.
    change (key ("/tmp/tmpAbC123" ++ "/certs/cert.pem")) with "/tmp/tmpAbC123/certs/cert.pem".
    cbv iota. rewrite lookup_insert_ne by discriminate. rewrite lookup_insert_eq.
    unfold _cleanup, rmtree, isdir. change (key "/tmp/tmpAbC123") with "/tmp/tmpAbC123".
    rewrite bool_decide_eq_true_2; [reflexivity|].
    do 2 (rewrite lookup_insert_ne by discriminate).
    apply Hd. unfold sandbox_dirs. in_list.
Defined.

(** The revocation of the certificate [0c] of a CA with three
    certificates, by a toolchain that writes the CRL. *)
Lemma revoke_certificate_runs_two_commands_witness :
  exists (F : fs) (idx : string),
    @_make_openssl_index_file_content hex_serial_validator clock_2019 three_records = Ok idx
    /\ F !! "/tmp/tmpAbC123/revoke_cert.pem" = Some (File "CERT PEM")
    /\ F !! "/tmp/tmpAbC123/index.txt" = Some (File idx)
    /\ F !! "/tmp/tmpAbC123/serial" = Some (File "0C")
    /\ (@revoke_certificate_and_generate_crl_pem lenient_syntax tmp_AbC123 working_openssl
          hex_serial_validator clock_2019
          (mk_ca_env_configuration (mk_CA minimal_config "CA PEM" "client" three_records)
             (<["ca_key" := PyStr "KEY PEM"]>
                (<["ssl_conf" := PyStr minimal_config]>
                   (<["index_attr" := PyStr DEFAULT_INDEX_ATTR_CONTENT]>
                      (<["ca_cert" := PyStr "CA PEM"]> ∅)))))
          "c" "CERT PEM" world).2 = Ok "CRL PEM".
Proof.
  destruct (@_make_openssl_index_file_content hex_serial_validator clock_2019 three_records)
    as [idx|e] eqn:Ei; [|vm_compute in Ei; discriminate Ei].
  destruct (@revoke_certificate_runs_two_commands lenient_syntax tmp_AbC123 working_openssl
              hex_serial_validator clock_2019
              (mk_ca_env_configuration (mk_CA minimal_config "CA PEM" "client" three_records)
                 (<["ca_key" := PyStr "KEY PEM"]>
                    (<["ssl_conf" := PyStr minimal_config]>
                       (<["index_attr" := PyStr DEFAULT_INDEX_ATTR_CONTENT]>
                          (<["ca_cert" := PyStr "CA PEM"]> ∅)))))
              "c" "CERT PEM" idx "0C" world new_directory "/tmp/tmpAbC123")
    as (F & Erun & Hd & Hr & Hi & Hs & _).
  - exact Ei.
  - reflexivity.
  - cbn [tmp_env_init_kwargs_base]. do 4 (rewrite lookup_insert_ne by discriminate).
    apply lookup_empty.
  - exact key_file_bundle.
  - exact key_file_bundle_conf.
  - reflexivity.
  - split; [discriminate|reflexivity].
  - exact fresh_world.
  - exists F, idx. split; [reflexivity|]. split; [exact Hr|]. split; [exact Hi|].
    split; [exact Hs|].
    rewrite Erun. unfold bind_io, _execute_command, check_output.
    cbn [run_process working_openssl Z.eqb].
    unfold read_file. change (rstrip_slash "/tmp/tmpAbC123") with "/tmp/tmpAbC123".
    change (ends_with_slash ("/tmp/tmpAbC123" ++ "/ca.crl")) with false.
    change (key ("/tmp/tmpAbC123" ++ "/ca.crl")) with "/tmp/tmpAbC123/ca.crl".
    cbv iota. rewrite lookup_insert_eq.
    unfold _cleanup, rmtree, isdir. change (key "/tmp/tmpAbC123") with "/tmp/tmpAbC123".
    rewrite bool_decide_eq_true_2; [reflexivity|].
    do 4 (rewrite lookup_insert_ne by discriminate).
    apply Hd. unfold sandbox_dirs. in_list.
Defined.

End OperationRunFacts.
